(** * Telegram2Bale: the store, the verification codes, the account merge
      and the routing handlers of [app.py], embedded in Rocq.

    The program is a two-way bridge between Telegram and Bale.  Its durable
    state is an SQLite database of six tables; every function of the source
    that touches it is embedded below as a function on a record of row
    lists, with the constraint checks SQLite performs (PRIMARY KEY, UNIQUE
    index, CHECK) written out, since several properties of the program are
    decided by them.

    Conventions.
    - Python [int] is [Z]; SQL [INTEGER] columns hold [Z], nullable ones
      [option Z] ([None] is SQL NULL).
    - Python [str] and SQL [TEXT] are [string].
    - A [datetime] is the number of microseconds since the Unix epoch;
      [isoformat] followed by [fromisoformat] is the identity on aware
      datetimes, so the [expires_at] and [created_at] TEXT columns hold that
      number.
    - The rows of a table are listed in rowid order; [cursor.fetchone()]
      returns the first row that satisfies the WHERE clause.
    - The surrogate [id] of the tables [chats], [group_links] and
      [channel_links] is only ever used to order [list_owner_chats]; the
      list order stands for it.
    - Foreign keys are declared but [PRAGMA foreign_keys] is never switched
      on, so SQLite does not enforce them and nothing cascades. *)

From stdpp Require Import base option list gmap strings pretty.
From Stdlib Require Import ZArith Lia Ascii.

Open Scope Z_scope.

(** ** Exceptions and results *)

Inductive exn : Type :=
  | IntegrityError   (* sqlite3.IntegrityError: a constraint failed *)
  | AttributeError   (* attribute access on None *)
  | ValueError       (* int() on a string that is not a number *)
  | IndexError       (* subscript out of range *)
  | RecursionError.  (* recursion deeper than the interpreter allows *)

Inductive result (A : Type) : Type :=
  | Ok (a : A)
  | Raise (e : exn).
Arguments Ok {A} a.
Arguments Raise {A} e.

#[global] Instance result_ret : MRet result := λ A a, Ok a.
#[global] Instance result_bind : MBind result := λ A B k r,
  match r with Ok a => k a | Raise e => Raise e end.

Definition is_ok {A} (r : result A) : bool :=
  match r with Ok _ => true | Raise _ => false end.

(** ** Rows *)

Definition Timestamp := Z.

(** [timedelta(minutes=10)], in microseconds. *)
Definition ten_minutes : Z := 600000000.

Record User := mkUser {
  user_id : Z;
  tg_user_id : option Z;
  bale_user_id : option Z;
  dm_target_bale_chat_id : option Z;
  dm_target_telegram_chat_id : option Z;
  user_created_at : Timestamp
}.

Record Chat := mkChat {
  chat_owner_user_id : Z;
  chat_platform : string;
  chat_type : string;
  chat_id : Z;
  chat_title : string;
  chat_created_at : Timestamp
}.

(** A row of [group_links] or of [channel_links]: the two tables have the
    same columns. *)
Record Link := mkLink {
  link_owner_user_id : Z;
  link_tg_id : Z;
  link_bale_id : Z;
  link_enabled : Z;
  link_created_at : Timestamp
}.

Record VerifyToken := mkVerifyToken {
  vt_code : string;
  vt_owner_user_id : Z;
  vt_platform : string;
  vt_chat_type : string;
  vt_platform_user_id : Z;
  vt_expires_at : Timestamp;
  vt_consumed : Z
}.

Record DmVerifyToken := mkDmVerifyToken {
  dm_code : string;
  dm_owner_user_id : Z;
  dm_target_platform : string;
  dm_target_chat_id : Z;
  dm_expires_at : Timestamp;
  dm_consumed : Z
}.

(** [users_seq] is the entry of [users] in [sqlite_sequence]: the largest
    rowid AUTOINCREMENT has handed out so far. *)
Record DB := mkDB {
  users : list User;
  users_seq : Z;
  chats : list Chat;
  group_links : list Link;
  channel_links : list Link;
  verify_tokens : list VerifyToken;
  dm_verify_tokens : list DmVerifyToken
}.

Definition init_db : DB := mkDB [] 0 [] [] [] [] [].

Definition set_users (f : list User → list User) (db : DB) : DB :=
  mkDB (f (users db)) (users_seq db) (chats db) (group_links db)
       (channel_links db) (verify_tokens db) (dm_verify_tokens db).
Definition set_chats (f : list Chat → list Chat) (db : DB) : DB :=
  mkDB (users db) (users_seq db) (f (chats db)) (group_links db)
       (channel_links db) (verify_tokens db) (dm_verify_tokens db).
Definition set_group_links (f : list Link → list Link) (db : DB) : DB :=
  mkDB (users db) (users_seq db) (chats db) (f (group_links db))
       (channel_links db) (verify_tokens db) (dm_verify_tokens db).
Definition set_channel_links (f : list Link → list Link) (db : DB) : DB :=
  mkDB (users db) (users_seq db) (chats db) (group_links db)
       (f (channel_links db)) (verify_tokens db) (dm_verify_tokens db).
Definition set_verify_tokens (f : list VerifyToken → list VerifyToken)
    (db : DB) : DB :=
  mkDB (users db) (users_seq db) (chats db) (group_links db)
       (channel_links db) (f (verify_tokens db)) (dm_verify_tokens db).
Definition set_dm_verify_tokens
    (f : list DmVerifyToken → list DmVerifyToken) (db : DB) : DB :=
  mkDB (users db) (users_seq db) (chats db) (group_links db)
       (channel_links db) (verify_tokens db) (f (dm_verify_tokens db)).

(** ** SQL and Python comparisons *)

(** [col = ?] on a nullable column: NULL is equal to nothing. *)
Definition sql_eq (col : option Z) (v : Z) : bool :=
  match col with Some x => x =? v | None => false end.

(** Truth value of an [Optional[int]]: [None] and [0] are false. *)
Definition truthy (o : option Z) : bool :=
  match o with Some i => negb (i =? 0) | None => false end.

(** The integer held by an option that was found truthy. *)
Definition the (o : option Z) : Z := default 0 o.

(** Truth value of an SQL INTEGER read back into Python. *)
Definition int_true (i : Z) : bool := negb (i =? 0).

(** Truth value of a [str]. *)
Definition str_true (s : string) : bool :=
  match s with EmptyString => false | _ => true end.

(** The CHECK constraints of the schema. *)
Definition check_platform (p : string) : bool :=
  String.eqb p "tg" || String.eqb p "bale".
Definition check_chat_type (t : string) : bool :=
  String.eqb t "group" || String.eqb t "channel".

(** ** Statements on [users] *)

Definition select_user_id_by_tg (db : DB) (tg : Z) : option Z :=
  user_id <$> List.find (λ u, sql_eq (tg_user_id u) tg) (users db).

Definition select_user_id_by_bale (db : DB) (bale : Z) : option Z :=
  user_id <$> List.find (λ u, sql_eq (bale_user_id u) bale) (users db).

Definition get_user_row_by_id (db : DB) (owner_user_id : Z) : option User :=
  List.find (λ u, user_id u =? owner_user_id) (users db).

(** The rowid AUTOINCREMENT gives to the next row: one more than the largest
    rowid the table holds or ever held. *)
Definition next_rowid (db : DB) : Z :=
  1 + foldr Z.max (users_seq db) (user_id <$> users db).

(** The unique indexes [idx_users_tg] and [idx_users_bale]: does a row
    other than [self] already hold the value?  NULL never conflicts. *)
Definition tg_taken (db : DB) (self : Z) (v : option Z) : bool :=
  match v with
  | None => false
  | Some x =>
      existsb (λ u, negb (user_id u =? self) && sql_eq (tg_user_id u) x)
              (users db)
  end.
Definition bale_taken (db : DB) (self : Z) (v : option Z) : bool :=
  match v with
  | None => false
  | Some x =>
      existsb (λ u, negb (user_id u =? self) && sql_eq (bale_user_id u) x)
              (users db)
  end.

(** [INSERT INTO users (tg_user_id, created_at)] and
    [INSERT INTO users (bale_user_id, created_at)]: the other columns are
    NULL. *)
Definition append_user (u : User) (db : DB) : DB :=
  mkDB (users db ++ [u]) (user_id u) (chats db) (group_links db)
       (channel_links db) (verify_tokens db) (dm_verify_tokens db).

Definition insert_user (tg bale : option Z) (now : Timestamp) (db : DB)
    : result DB :=
  let i := next_rowid db in
  if tg_taken db i tg || bale_taken db i bale then Raise IntegrityError
  else Ok (append_user (mkUser i tg bale None None now) db).

Definition with_tg (v : option Z) (u : User) : User :=
  mkUser (user_id u) v (bale_user_id u) (dm_target_bale_chat_id u)
         (dm_target_telegram_chat_id u) (user_created_at u).
Definition with_bale (v : option Z) (u : User) : User :=
  mkUser (user_id u) (tg_user_id u) v (dm_target_bale_chat_id u)
         (dm_target_telegram_chat_id u) (user_created_at u).
Definition with_dm_bale (v : option Z) (u : User) : User :=
  mkUser (user_id u) (tg_user_id u) (bale_user_id u) v
         (dm_target_telegram_chat_id u) (user_created_at u).
Definition with_dm_tg (v : option Z) (u : User) : User :=
  mkUser (user_id u) (tg_user_id u) (bale_user_id u)
         (dm_target_bale_chat_id u) v (user_created_at u).

(** [UPDATE users SET col=? WHERE id=?] as a map over the rows. *)
Definition update_where_id (id : Z) (f : User → User) (db : DB) : DB :=
  set_users (map (λ u, if user_id u =? id then f u else u)) db.

Definition has_user (db : DB) (id : Z) : bool :=
  existsb (λ u, user_id u =? id) (users db).

(** [UPDATE users SET tg_user_id=? WHERE id=?].  The unique index is
    checked when the statement runs: it fails if the row exists and another
    row holds the value. *)
Definition update_user_tg (tg : Z) (id : Z) (db : DB) : result DB :=
  if has_user db id && tg_taken db id (Some tg) then Raise IntegrityError
  else Ok (update_where_id id (with_tg (Some tg)) db).

(** [UPDATE users SET bale_user_id=? WHERE id=?]. *)
Definition update_user_bale (bale : Z) (id : Z) (db : DB) : result DB :=
  if has_user db id && bale_taken db id (Some bale) then Raise IntegrityError
  else Ok (update_where_id id (with_bale (Some bale)) db).

(** [UPDATE users SET dm_target_bale_chat_id=? WHERE id=?] and its
    Telegram twin; no index covers these columns. *)
Definition update_dm_target_bale (v : option Z) (id : Z) (db : DB) : DB :=
  update_where_id id (with_dm_bale v) db.
Definition update_dm_target_telegram (v : option Z) (id : Z) (db : DB) : DB :=
  update_where_id id (with_dm_tg v) db.

(** [DELETE FROM users WHERE id=?]. *)
Definition delete_user (id : Z) (db : DB) : DB :=
  set_users (List.filter (λ u, negb (user_id u =? id))) db.

(** ** Statements on [chats] *)

Definition chat_registered (db : DB) (platform : string) (cid : Z) : bool :=
  existsb (λ c, String.eqb (chat_platform c) platform && (chat_id c =? cid))
          (chats db).

(** [INSERT OR IGNORE INTO chats ...]: a row that violates a CHECK or the
    UNIQUE(platform, chat_id) constraint is skipped and the statement
    succeeds. *)
Definition insert_or_ignore_chat (c : Chat) (db : DB) : DB :=
  if negb (check_platform (chat_platform c))
     || negb (check_chat_type (chat_type c))
     || chat_registered db (chat_platform c) (chat_id c)
  then db
  else set_chats (λ l, l ++ [c]) db.

Definition reown_chat (new old : Z) (c : Chat) : Chat :=
  if chat_owner_user_id c =? old
  then mkChat new (chat_platform c) (chat_type c) (chat_id c)
              (chat_title c) (chat_created_at c)
  else c.

(** [UPDATE chats SET owner_user_id=? WHERE owner_user_id=?]. *)
Definition update_chats_owner (new old : Z) (db : DB) : DB :=
  set_chats (map (reown_chat new old)) db.

(** The [SELECT 1 FROM chats WHERE owner_user_id=? AND platform=? AND
    chat_type=? AND chat_id=?] of the pairing steps. *)
Definition owns_chat (db : DB) (owner : Z) (platform type : string)
    (cid : Z) : bool :=
  existsb (λ c, (chat_owner_user_id c =? owner)
                && String.eqb (chat_platform c) platform
                && String.eqb (chat_type c) type
                && (chat_id c =? cid))
          (chats db).

(** ** Statements on [group_links] and [channel_links] *)

Definition link_exists (l : list Link) (tg bale : Z) : bool :=
  existsb (λ k, (link_tg_id k =? tg) && (link_bale_id k =? bale)) l.

(** [INSERT INTO group_links ...] (a plain INSERT): the pair
    (tg_group_id, bale_group_id) is UNIQUE. *)
Definition insert_link (k : Link) (l : list Link) : result (list Link) :=
  if link_exists l (link_tg_id k) (link_bale_id k) then Raise IntegrityError
  else Ok (l ++ [k]).

Definition reown_link (new old : Z) (k : Link) : Link :=
  if link_owner_user_id k =? old
  then mkLink new (link_tg_id k) (link_bale_id k) (link_enabled k)
              (link_created_at k)
  else k.

Definition update_group_links_owner (new old : Z) (db : DB) : DB :=
  set_group_links (map (reown_link new old)) db.
Definition update_channel_links_owner (new old : Z) (db : DB) : DB :=
  set_channel_links (map (reown_link new old)) db.

(** ** Statements on [verify_tokens] and [dm_verify_tokens] *)

Definition code_exists (db : DB) (code : string) : bool :=
  existsb (λ t, String.eqb (vt_code t) code) (verify_tokens db).

(** [INSERT INTO verify_tokens (code, owner_user_id, platform, chat_type,
    platform_user_id, expires_at)]: [consumed] takes its default 0; [code]
    is the PRIMARY KEY; the two CHECKs apply. *)
Definition insert_verify_token (code : string) (owner : Z)
    (platform type : string) (uid : Z) (expires : Timestamp) (db : DB)
    : result DB :=
  if code_exists db code || negb (check_platform platform)
     || negb (check_chat_type type)
  then Raise IntegrityError
  else Ok (set_verify_tokens
             (λ l, l ++ [mkVerifyToken code owner platform type uid expires 0])
             db).

(** [SELECT ... FROM verify_tokens WHERE code=? AND platform=? AND
    platform_user_id=?], first row. *)
Definition select_verify_token (db : DB) (code platform : string) (uid : Z)
    : option VerifyToken :=
  List.find (λ t, String.eqb (vt_code t) code
                  && String.eqb (vt_platform t) platform
                  && (vt_platform_user_id t =? uid))
            (verify_tokens db).

Definition consume_token (code : string) (t : VerifyToken) : VerifyToken :=
  if String.eqb (vt_code t) code
  then mkVerifyToken (vt_code t) (vt_owner_user_id t) (vt_platform t)
                     (vt_chat_type t) (vt_platform_user_id t)
                     (vt_expires_at t) 1
  else t.

(** [UPDATE verify_tokens SET consumed=1 WHERE code=?]. *)
Definition update_verify_token_consumed (code : string) (db : DB) : DB :=
  set_verify_tokens (map (consume_token code)) db.

Definition reown_token (new old : Z) (t : VerifyToken) : VerifyToken :=
  if vt_owner_user_id t =? old
  then mkVerifyToken (vt_code t) new (vt_platform t) (vt_chat_type t)
                     (vt_platform_user_id t) (vt_expires_at t) (vt_consumed t)
  else t.

Definition update_verify_tokens_owner (new old : Z) (db : DB) : DB :=
  set_verify_tokens (map (reown_token new old)) db.

Definition dm_code_exists (db : DB) (code : string) : bool :=
  existsb (λ t, String.eqb (dm_code t) code) (dm_verify_tokens db).

Definition insert_dm_verify_token (code : string) (owner : Z)
    (platform : string) (target : Z) (expires : Timestamp) (db : DB)
    : result DB :=
  if dm_code_exists db code || negb (check_platform platform)
  then Raise IntegrityError
  else Ok (set_dm_verify_tokens
             (λ l, l ++ [mkDmVerifyToken code owner platform target expires 0])
             db).

(** [SELECT ... FROM dm_verify_tokens WHERE code=?], first row. *)
Definition select_dm_verify_token (db : DB) (code : string)
    : option DmVerifyToken :=
  List.find (λ t, String.eqb (dm_code t) code) (dm_verify_tokens db).

Definition consume_dm_token (code : string) (t : DmVerifyToken)
    : DmVerifyToken :=
  if String.eqb (dm_code t) code
  then mkDmVerifyToken (dm_code t) (dm_owner_user_id t) (dm_target_platform t)
                       (dm_target_chat_id t) (dm_expires_at t) 1
  else t.

Definition update_dm_verify_token_consumed (code : string) (db : DB) : DB :=
  set_dm_verify_tokens (map (consume_dm_token code)) db.

Definition reown_dm_token (new old : Z) (t : DmVerifyToken) : DmVerifyToken :=
  if dm_owner_user_id t =? old
  then mkDmVerifyToken (dm_code t) new (dm_target_platform t)
                       (dm_target_chat_id t) (dm_expires_at t) (dm_consumed t)
  else t.

Definition update_dm_verify_tokens_owner (new old : Z) (db : DB) : DB :=
  set_dm_verify_tokens (map (reown_dm_token new old)) db.

(** ** Operations of the source

    An operation runs against the committed database and returns the
    database as it is committed when the call ends, with the value returned
    or the exception raised.  A statement that fails changes nothing, and so
    does a transaction that is rolled back or never committed. *)

Definition Op (A : Type) : Type := DB → DB * result A.

(** Commit on success, keep the database of entry on failure. *)
Definition transaction {A} (body : DB → result (DB * A)) : Op A :=
  λ db, match body db with
        | Ok (db', a) => (db', Ok a)
        | Raise e => (db, Raise e)
        end.

(** *** User management *)

(** [depth] is the number of stack frames the interpreter still allows: the
    source calls itself after the INSERT. *)
Fixpoint get_or_create_user_by_tg (depth : nat) (now : Timestamp)
    (tg : Z) (db : DB) : DB * result Z :=
  match select_user_id_by_tg db tg with
  | Some id => (db, Ok id)
  | None =>
      match insert_user (Some tg) None now db with
      | Raise e => (db, Raise e)
      | Ok db' =>
          match depth with
          | O => (db', Raise RecursionError)
          | S d => get_or_create_user_by_tg d now tg db'
          end
      end
  end.

Fixpoint get_or_create_user_by_bale (depth : nat) (now : Timestamp)
    (bale : Z) (db : DB) : DB * result Z :=
  match select_user_id_by_bale db bale with
  | Some id => (db, Ok id)
  | None =>
      match insert_user None (Some bale) now db with
      | Raise e => (db, Raise e)
      | Ok db' =>
          match depth with
          | O => (db', Raise RecursionError)
          | S d => get_or_create_user_by_bale d now bale db'
          end
      end
  end.

(** Frames available to a handler; CPython's default limit is 1000. *)
Definition recursion_limit : nat := 900.

(** *** Verification codes *)

(** [string.ascii_uppercase + string.digits]. *)
Definition code_alphabet : list ascii :=
  String.list_ascii_of_string "ABCDEFGHIJKLMNOPQRSTUVWXYZ0123456789".

(** [random.choices(population, k=k)] may return any list of [k] elements
    of the population; the list drawn is an argument of the functions that
    call it. *)
Definition random_choices (population : list ascii) (k : nat)
    (picks : list ascii) : Prop :=
  length picks = k ∧ Forall (λ c, c ∈ population) picks.

Definition gen_code (prefix : string) (picks : list ascii) : string :=
  prefix +:+ "-" +:+ String.string_of_list_ascii picks.

Definition create_verify_code (picks : list ascii) (now : Timestamp)
    (owner_user_id : Z) (platform chat_type : string) (platform_user_id : Z)
    : Op string :=
  let code := gen_code (if String.eqb chat_type "group" then "G" else "C")
                       picks in
  let expires := now + ten_minutes in
  transaction (λ db,
    db' ← insert_verify_token code owner_user_id platform chat_type
                              platform_user_id expires db;
    mret (db', code)).

(** Returns [(owner_user_id, chat_type)] if valid and marks the code
    consumed; else [None]. *)
Definition consume_verify_code (now : Timestamp) (code platform : string)
    (platform_user_id : Z) (db : DB) : DB * option (Z * string) :=
  match select_verify_token db code platform platform_user_id with
  | None => (db, None)
  | Some row =>
      if int_true (vt_consumed row) then (db, None)
      else if vt_expires_at row <? now then (db, None)
      else (update_verify_token_consumed code db,
            Some (vt_owner_user_id row, vt_chat_type row))
  end.

(** *** DM verification codes *)

Definition hex_lower : list ascii :=
  String.list_ascii_of_string "0123456789abcdef".

(** [uuid.uuid4().hex]: 32 lower-case hexadecimal digits, all random but
    the version digit (index 12, always 4) and the variant digit
    (index 16, one of 8, 9, a, b). *)
Definition uuid4_hex (h : list ascii) : Prop :=
  length h = 32%nat ∧ Forall (λ c, c ∈ hex_lower) h
  ∧ h !! 12%nat = Some "4"%char
  ∧ ∃ v, h !! 16%nat = Some v
         ∧ v ∈ String.list_ascii_of_string "89ab".

(** [str.upper] on one character of ASCII text. *)
Definition upper_ascii (c : ascii) : ascii :=
  let n := nat_of_ascii c in
  if (97 <=? n)%nat && (n <=? 122)%nat then ascii_of_nat (n - 32) else c.

Definition dm_code_of (h : list ascii) : string :=
  "DM-" +:+ String.string_of_list_ascii (upper_ascii <$> take 8 h).

Definition create_dm_verify_code (h : list ascii) (now : Timestamp)
    (owner_user_id : Z) (target_platform : string) (target_chat_id : Z)
    : Op string :=
  let code := dm_code_of h in
  let expires := now + ten_minutes in
  transaction (λ db,
    db' ← insert_dm_verify_token code owner_user_id target_platform
                                 target_chat_id expires db;
    mret (db', code)).

Definition consume_dm_verify_code (now : Timestamp) (code platform : string)
    (chat : Z) (db : DB) : DB * option Z :=
  match select_dm_verify_token db code with
  | None => (db, None)
  | Some row =>
      if int_true (dm_consumed row)
         || negb (String.eqb (dm_target_platform row) platform)
         || negb (dm_target_chat_id row =? chat)
      then (db, None)
      else if dm_expires_at row <? now then (db, None)
      else (update_dm_verify_token_consumed code db,
            Some (dm_owner_user_id row))
  end.

(** *** Chat registries *)

Definition register_chat (now : Timestamp) (owner_user_id : Z)
    (platform chat_type : string) (cid : Z) (title : string) : Op unit :=
  λ db, (insert_or_ignore_chat
           (mkChat owner_user_id platform chat_type cid title now) db,
         Ok ()).

(** The optional filters [platform] and [chat_type] of the source are
    [only_platform] and [only_type]; an empty string counts as no filter,
    as [None] does. *)
Definition list_owner_chats (db : DB) (owner_user_id : Z)
    (only_platform only_type : option string) : list Chat :=
  List.filter
    (λ c, (chat_owner_user_id c =? owner_user_id)
          && match only_platform with
             | Some p => if str_true p then String.eqb (chat_platform c) p
                         else true
             | None => true
             end
          && match only_type with
             | Some t => if str_true t then String.eqb (chat_type c) t
                         else true
             | None => true
             end)
    (chats db).

Definition pair_groups (now : Timestamp) (owner_user_id tg_group_id
    bale_group_id : Z) : Op unit :=
  transaction (λ db,
    l ← insert_link (mkLink owner_user_id tg_group_id bale_group_id 1 now)
                    (group_links db);
    mret (set_group_links (λ _, l) db, ())).

Definition pair_channels (now : Timestamp) (owner_user_id tg_channel_id
    bale_channel_id : Z) : Op unit :=
  transaction (λ db,
    l ← insert_link (mkLink owner_user_id tg_channel_id bale_channel_id 1 now)
                    (channel_links db);
    mret (set_channel_links (λ _, l) db, ())).

(** The dict the [find_*_link_by_*] functions return: the id of the chat on
    the other platform and [bool(enabled)]. *)
Record LinkInfo := mkLinkInfo { counterpart : Z; enabled : bool }.

Definition find_group_link_by_tg (db : DB) (tg_group_id : Z)
    : option LinkInfo :=
  (λ k, mkLinkInfo (link_bale_id k) (int_true (link_enabled k)))
  <$> List.find (λ k, link_tg_id k =? tg_group_id) (group_links db).

Definition find_group_link_by_bale (db : DB) (bale_group_id : Z)
    : option LinkInfo :=
  (λ k, mkLinkInfo (link_tg_id k) (int_true (link_enabled k)))
  <$> List.find (λ k, link_bale_id k =? bale_group_id) (group_links db).

Definition find_channel_link_by_tg (db : DB) (tg_channel_id : Z)
    : option LinkInfo :=
  (λ k, mkLinkInfo (link_bale_id k) (int_true (link_enabled k)))
  <$> List.find (λ k, link_tg_id k =? tg_channel_id) (channel_links db).

Definition find_channel_link_by_bale (db : DB) (bale_channel_id : Z)
    : option LinkInfo :=
  (λ k, mkLinkInfo (link_tg_id k) (int_true (link_enabled k)))
  <$> List.find (λ k, link_bale_id k =? bale_channel_id) (channel_links db).

(** *** Account merge *)

(** The body of the [try] block.  The five re-assignments, the UPDATE of
    the surviving row and the DELETE of the other run in this order inside
    one transaction; an exception rolls all of it back and is raised
    again. *)
Definition merge_user_accounts (now : Timestamp) (tg_user_id bale_user_id : Z)
    : Op Z :=
  λ db,
  let tg_owner_id := select_user_id_by_tg db tg_user_id in
  let bale_owner_id := select_user_id_by_bale db bale_user_id in
  if truthy tg_owner_id && truthy bale_owner_id
     && negb (the tg_owner_id =? the bale_owner_id)
  then
    transaction (λ db,
      let db := update_chats_owner (the bale_owner_id) (the tg_owner_id) db in
      let db := update_group_links_owner (the bale_owner_id)
                                         (the tg_owner_id) db in
      let db := update_channel_links_owner (the bale_owner_id)
                                           (the tg_owner_id) db in
      let db := update_verify_tokens_owner (the bale_owner_id)
                                           (the tg_owner_id) db in
      let db := update_dm_verify_tokens_owner (the bale_owner_id)
                                              (the tg_owner_id) db in
      db ← update_user_tg tg_user_id (the bale_owner_id) db;
      let db := delete_user (the tg_owner_id) db in
      mret (db, the bale_owner_id)) db
  else if truthy tg_owner_id && negb (truthy bale_owner_id)
  then
    transaction (λ db,
      db ← update_user_bale bale_user_id (the tg_owner_id) db;
      mret (db, the tg_owner_id)) db
  else if truthy bale_owner_id
  then
    transaction (λ db,
      db ← update_user_tg tg_user_id (the bale_owner_id) db;
      mret (db, the bale_owner_id)) db
  else get_or_create_user_by_tg recursion_limit now tg_user_id db.

(** ** Python text

    The handlers cut commands out of message text with [str] methods whose
    result depends on Unicode tables ([strip], [split], [lower],
    [isdigit], [int]).  They are an interface here; [startswith],
    [lstrip("-")] and [str(int)] are determined by the bytes and are
    defined. *)

Class PyStr := {
  py_strip : string → string;          (* s.strip() *)
  py_split1 : string → list string;    (* s.split(maxsplit=1) *)
  py_lower : string → string;          (* s.lower() *)
  py_isdigit : string → bool;          (* s.isdigit() *)
  py_int : string → option Z           (* int(s); None is ValueError *)
}.

Definition startswith (s p : string) : bool := String.prefix p s.

Fixpoint lstrip_minus (s : string) : string :=
  match s with
  | String "-" s' => lstrip_minus s'
  | _ => s
  end.

Definition str_of_int (i : Z) : string := pretty i.

(** [a or b] on optional text. *)
Definition text_or (a b : option string) : option string :=
  match a with
  | Some s => if str_true s then Some s else b
  | None => b
  end.

(** [a or ""]. *)
Definition or_empty (a : option string) : string := default "" a.

(** [if text:] on optional text. *)
Definition text_true (a : option string) : bool :=
  match a with Some s => str_true s | None => false end.

(** [" ".join(filter(None, [first, last]))]. *)
Definition join_names (first last : option string) : string :=
  match text_true first, text_true last with
  | true, true => or_empty first +:+ " " +:+ or_empty last
  | true, false => or_empty first
  | false, true => or_empty last
  | false, false => ""
  end.

Definition prefix_with_username (username text : string) : string :=
  username +:+ " sent this message: " +:+ text.

(** ** Inbound events *)

Record TgUser := mkTgUser {
  tgu_id : Z;
  tgu_username : option string;
  tgu_first_name : option string;
  tgu_last_name : option string
}.

Record TgMessage := mkTgMessage {
  tg_chat_id : Z;
  tg_chat_type : string;
  tg_chat_title : option string;
  tg_from_user : option TgUser;
  tg_text : option string;
  tg_caption : option string;
  tg_photo : list string           (* file ids of the PhotoSize list *)
}.

Definition tg_name (u : TgUser) : string :=
  if text_true (tgu_username u) then "@" +:+ or_empty (tgu_username u)
  else
    let full := join_names (tgu_first_name u) (tgu_last_name u) in
    if str_true full then full else "id:" +:+ str_of_int (tgu_id u).

Record BaleAuthor := mkBaleAuthor {
  ba_id : Z;
  ba_username : option string;
  ba_first_name : option string;
  ba_last_name : option string
}.

Record BaleMessage := mkBaleMessage {
  bale_chat_id : Z;
  bale_chat_type : string;
  bale_chat_title : option string;
  bale_author : option BaleAuthor;
  bale_text : option string;
  bale_caption : option string;
  bale_photo : option string;                      (* photo.id *)
  bale_document : option (string * option string); (* document.id, file_name *)
  bale_video : option string                       (* video.id *)
}.

Definition bale_name (a : BaleAuthor) : string :=
  if text_true (ba_username a) then "@" +:+ or_empty (ba_username a)
  else
    let full := join_names (ba_first_name a) (ba_last_name a) in
    if str_true full then full else "id:" +:+ str_of_int (ba_id a).

(** ** Outbound calls

    What a handler asks the two platform clients to do.  Forwarded content
    is kept as the source builds it; the fixed texts the bot answers its
    own user with are named, with the values they quote. *)

Inductive Notice : Type :=
  | YourId (uid : Z)
  | HelpMenu
  | InvalidDmCode
  | DmTargetSet (chat : Z)
  | DmCodeIssued (bale_chat : Z) (code : string)
  | UnexpectedError
  | NotAnId
  | UnknownCommand
  | NotForwarded
  | InvalidCode
  | WrongChatType
  | Linked (type : string) (chat : Z).

Inductive Content : Type :=
  | Text (s : string)
  | Photo (file_id caption : string)
  | Document (file_id filename caption : string)
  | Video (file_id caption : string)
  | Note (n : Notice).

Inductive Outbound : Type :=
  | ViaTelegram (chat : Z) (c : Content)   (* a call on [bots.tg_bot] *)
  | ViaBale (chat : Z) (c : Content).      (* a call on [bots.bale] *)

Definition via_bale (o : Outbound) : bool :=
  match o with ViaBale _ _ => true | ViaTelegram _ _ => false end.
Definition via_telegram (o : Outbound) : bool :=
  match o with ViaTelegram _ _ => true | ViaBale _ _ => false end.

(** ** Handlers

    A handler reads and writes the database and the two wizard dicts,
    queues outbound calls, and returns or raises. *)

Record Wizard := mkWizard { wiz_mode : string; wiz_tg_id : option Z }.

Record World := mkWorld {
  store : DB;
  TG_WIZ : gmap Z Wizard;
  BALE_WIZ : gmap Z Wizard
}.

Record Bots := mkBots { tg_bot_id : Z; bale_self_id : Z }.

Record Config := mkConfig {
  MIRROR_DMS_TO_OWNER : bool;
  OWNER_BALE_CHAT_ID : option Z
}.

Record Outcome (A : Type) := mkOutcome {
  after : World;
  sent : list Outbound;
  returned : result A
}.
Arguments mkOutcome {A} _ _ _.
Arguments after {A} _.
Arguments sent {A} _.
Arguments returned {A} _.

Definition Handler (A : Type) : Type := World → Outcome A.

Definition hret {A} (a : A) : Handler A := λ w, mkOutcome w [] (Ok a).

Definition hbind {A B} (k : A → Handler B) (m : Handler A) : Handler B :=
  λ w, let o := m w in
       match returned o with
       | Ok a => let o' := k a (after o) in
                 mkOutcome (after o') (sent o ++ sent o') (returned o')
       | Raise e => mkOutcome (after o) (sent o) (Raise e)
       end.

#[global] Instance handler_ret : MRet Handler := @hret.
#[global] Instance handler_bind : MBind Handler := @hbind.

Definition raise {A} (e : exn) : Handler A := λ w, mkOutcome w [] (Raise e).

(** [try: body except Exception: handler]. *)
Definition try_except {A} (body : Handler A) (handler : exn → Handler A)
    : Handler A :=
  λ w, let o := body w in
       match returned o with
       | Ok a => o
       | Raise e => let o' := handler e (after o) in
                    mkOutcome (after o') (sent o ++ sent o') (returned o')
       end.

Definition send (o : Outbound) : Handler unit :=
  λ w, mkOutcome w [o] (Ok ()).

Definition run {A} (op : Op A) : Handler A :=
  λ w, let '(d, r) := op (store w) in
       mkOutcome (mkWorld d (TG_WIZ w) (BALE_WIZ w)) [] r.

Definition query {A} (f : DB → A) : Handler A :=
  λ w, mkOutcome w [] (Ok (f (store w))).

Definition commit (f : DB → DB) : Handler unit :=
  λ w, mkOutcome (mkWorld (f (store w)) (TG_WIZ w) (BALE_WIZ w)) [] (Ok ()).

Definition tg_wiz : Handler (gmap Z Wizard) :=
  λ w, mkOutcome w [] (Ok (TG_WIZ w)).
Definition bale_wiz : Handler (gmap Z Wizard) :=
  λ w, mkOutcome w [] (Ok (BALE_WIZ w)).
Definition set_tg_wiz (f : gmap Z Wizard → gmap Z Wizard) : Handler unit :=
  λ w, mkOutcome (mkWorld (store w) (f (TG_WIZ w)) (BALE_WIZ w)) [] (Ok ()).
Definition set_bale_wiz (f : gmap Z Wizard → gmap Z Wizard) : Handler unit :=
  λ w, mkOutcome (mkWorld (store w) (TG_WIZ w) (f (BALE_WIZ w))) [] (Ok ()).

(** [x.attr] where [x] may be [None]. *)
Definition attr {A B} (x : option A) (f : A → B) : Handler B :=
  match x with Some a => hret (f a) | None => raise AttributeError end.

(** What a clock read and a [uuid4()] give during one event. *)
Record Tick := mkTick { tick_now : Timestamp; tick_uuid_hex : list ascii }.

Section Handlers.
Context `{PyStr}.
Variable bots : Bots.
Variable config : Config.

(** [parts[1].strip() if len(parts) == 2 else ""]. *)
Definition code_of_parts (parts : list string) : string :=
  match parts with
  | [_; c] => py_strip c
  | _ => ""
  end.

(** *** Telegram *)

Definition on_start_help (message : TgMessage) : Handler unit :=
  let command := py_strip (or_empty (tg_text message)) in
  if String.eqb command "/myid" then
    uid ← attr (tg_from_user message) tgu_id;
    send (ViaTelegram (tg_chat_id message) (Note (YourId uid)))
  else
    send (ViaTelegram (tg_chat_id message) (Note HelpMenu)).

Definition on_tg_verify_dm (t : Tick) (message : TgMessage) : Handler unit :=
  let parts := py_split1 (or_empty (tg_text message)) in
  let code := code_of_parts parts in
  owner_user_id ← run (λ d, let '(d', r) := consume_dm_verify_code
                               (tick_now t) code "tg" (tg_chat_id message) d in
                            (d', Ok r));
  if negb (truthy owner_user_id) then
    send (ViaTelegram (tg_chat_id message) (Note InvalidDmCode))
  else
    commit (update_dm_target_telegram (Some (tg_chat_id message))
                                      (the owner_user_id));;
    send (ViaTelegram (tg_chat_id message)
                      (Note (DmTargetSet (tg_chat_id message)))).

Definition on_tg_await_bale_id (t : Tick) (message : TgMessage)
    : Handler unit :=
  user_id ← attr (tg_from_user message) tgu_id;
  let bale_id_str := py_strip (or_empty (tg_text message)) in
  wiz ← tg_wiz;
  if negb (bool_decide (wiz_mode <$> wiz !! user_id = Some "AWAIT_BALE_ID"))
  then mret ()
  else if py_isdigit bale_id_str then
    bale_chat_id ← from_option hret (raise ValueError) (py_int bale_id_str);
    try_except
      (owner_id ← run (merge_user_accounts (tick_now t) user_id bale_chat_id);
       code ← run (create_dm_verify_code (tick_uuid_hex t) (tick_now t) owner_id
                                         "bale" bale_chat_id);
       send (ViaTelegram (tg_chat_id message)
                         (Note (DmCodeIssued bale_chat_id code))))
      (λ _, send (ViaTelegram (tg_chat_id message) (Note UnexpectedError)));;
    set_tg_wiz (delete user_id)
  else
    send (ViaTelegram (tg_chat_id message) (Note NotAnId)).

Definition on_tg_dm (t : Tick) (message : TgMessage) : Handler unit :=
  if text_true (tg_text message)
     && startswith (or_empty (tg_text message)) "/"
  then
    match py_split1 (or_empty (tg_text message)) with
    | [] => raise IndexError
    | cmd :: _ =>
        if negb (String.eqb cmd "/start" || String.eqb cmd "/help"
                 || String.eqb cmd "/verify_dm")
        then send (ViaTelegram (tg_chat_id message) (Note UnknownCommand))
        else mret ()
    end
  else
    uid ← attr (tg_from_user message) tgu_id;
    owner_id ← run (get_or_create_user_by_tg recursion_limit (tick_now t) uid);
    row ← query (λ d, get_user_row_by_id d owner_id);
    if truthy (row ≫= dm_target_bale_chat_id) then
      let target_bale := the (row ≫= dm_target_bale_chat_id) in
      name ← attr (tg_from_user message) tg_name;
      let sender_prefix := "[From Telegram DM] " +:+ name +:+ ": " in
      if text_true (tg_text message) then
        send (ViaBale target_bale
                (Text (sender_prefix +:+ or_empty (tg_text message))))
      else
        match last (tg_photo message) with
        | Some file_id =>
            send (ViaBale target_bale
                    (Photo file_id
                       (sender_prefix +:+ or_empty (tg_caption message))))
        | None => mret ()
        end
    else
      send (ViaTelegram (tg_chat_id message) (Note NotForwarded)).

Definition is_self_tg (message : TgMessage) : bool :=
  match tg_from_user message with
  | Some u => tgu_id u =? tg_bot_id bots
  | None => false
  end.

Definition on_tg_verify_in_group (t : Tick) (message : TgMessage)
    : Handler unit :=
  if is_self_tg message then mret ()
  else
    match py_split1 (or_empty (tg_text message)) with
    | [_; c] =>
        let code := py_strip c in
        let platform_chat_type :=
          if String.eqb (tg_chat_type message) "group"
             || String.eqb (tg_chat_type message) "supergroup"
          then "group" else "channel" in
        res ← run (λ d, let '(d', r) := consume_verify_code
                          (tick_now t) code "tg"
                          (from_option tgu_id 0 (tg_from_user message)) d in
                        (d', Ok r));
        match res with
        | None => send (ViaTelegram (tg_chat_id message) (Note InvalidCode))
        | Some (owner_user_id, ctype) =>
            if negb (String.eqb ctype platform_chat_type) then
              send (ViaTelegram (tg_chat_id message) (Note WrongChatType))
            else
              run (register_chat (tick_now t) owner_user_id "tg" ctype
                     (tg_chat_id message)
                     (or_empty (tg_chat_title message)));;
              send (ViaTelegram (tg_chat_id message)
                      (Note (Linked ctype (tg_chat_id message))))
        end
    | _ => mret ()
    end.

Definition on_tg_group_forward (message : TgMessage) : Handler unit :=
  match tg_from_user message with
  | None => mret ()
  | Some from_user =>
      if tgu_id from_user =? tg_bot_id bots then mret ()
      else
        link ← query (λ d, find_group_link_by_tg d (tg_chat_id message));
        match link with
        | None => mret ()
        | Some link =>
            if negb (enabled link) then mret ()
            else
              let bale_group_id := counterpart link in
              let sender := tg_name from_user in
              let text := text_or (tg_text message) (tg_caption message) in
              if text_true text then
                send (ViaBale bale_group_id
                        (Text (prefix_with_username sender (or_empty text))))
              else mret ()
        end
  end.

Definition on_tg_channel_post (message : TgMessage) : Handler unit :=
  if is_self_tg message then mret ()
  else
    link ← query (λ d, find_channel_link_by_tg d (tg_chat_id message));
    match link with
    | None => mret ()
    | Some link =>
        if negb (enabled link) then mret ()
        else
          let bale_channel_id := counterpart link in
          let text := text_or (tg_text message) (tg_caption message) in
          if text_true text then
            send (ViaBale bale_channel_id (Text (or_empty text)))
          else mret ()
    end.

(** The router tries the message handlers in the order they were
    registered and runs the first whose filters pass; a text filter fails
    on a message without text. *)
Definition tg_dispatch_message (t : Tick) (message : TgMessage)
    : Handler unit :=
  let private := String.eqb (tg_chat_type message) "private" in
  let text := tg_text message in
  let text_is s := bool_decide (text = Some s) in
  let text_starts p := from_option (λ s, startswith s p) false text in
  if private && (text_is "/start" || text_is "/help" || text_is "/myid")
  then on_start_help message
  else if text_starts "/verify_dm" then on_tg_verify_dm t message
  else if private then
    uid ← attr (tg_from_user message) tgu_id;
    wiz ← tg_wiz;
    if bool_decide (is_Some (wiz !! uid)) then on_tg_await_bale_id t message
    else on_tg_dm t message
  else if text_starts "/verify" then on_tg_verify_in_group t message
  else if String.eqb (tg_chat_type message) "group"
          || String.eqb (tg_chat_type message) "supergroup"
  then on_tg_group_forward message
  else mret ().

Definition tg_dispatch_channel_post (message : TgMessage) : Handler unit :=
  on_tg_channel_post message.

(** *** Bale

    The part of the polling loop that handles one message update.  The
    loop logs whatever exception this part raises and goes on to the next
    update. *)

Definition doc_filename (name : option string) : string :=
  if text_true name then or_empty name else "document.bin".

(** The four independent [if]s that relay a group or channel message. *)
Definition bale_relay (target : Z) (msg : BaleMessage)
    (text : option string) (wrap : string → string) : Handler unit :=
  (if text_true text
   then send (ViaTelegram target (Text (wrap (or_empty text))))
   else mret ());;
  match bale_photo msg with
  | Some f => send (ViaTelegram target
                      (Photo f (wrap (or_empty (bale_caption msg)))))
  | None => mret ()
  end;;
  match bale_document msg with
  | Some (f, name) =>
      send (ViaTelegram target
              (Document f (doc_filename name)
                        (wrap (or_empty (bale_caption msg)))))
  | None => mret ()
  end;;
  match bale_video msg with
  | Some f => send (ViaTelegram target
                      (Video f (wrap (or_empty (bale_caption msg)))))
  | None => mret ()
  end.

Definition bale_private (t : Tick) (msg : BaleMessage)
    (text : option string) (author_id : Z) (sender : string)
    : Handler unit :=
  let chat := bale_chat_id msg in
  owner_id ← run (get_or_create_user_by_bale recursion_limit (tick_now t)
                                             author_id);
  let cmd := py_lower (py_strip (or_empty text)) in
  if text_true text && String.eqb cmd "/myid" then
    send (ViaBale chat (Note (YourId author_id)))
  else if text_true text
          && (String.eqb cmd "/start" || String.eqb cmd "/help") then
    send (ViaBale chat (Note HelpMenu))
  else
    wiz ← bale_wiz;
    if bool_decide (wiz_mode <$> wiz !! author_id = Some "SET_DM_BALE2TG")
    then
      let val := if text_true text then py_strip (or_empty text) else "" in
      if str_true val && py_isdigit (lstrip_minus val) then
        target ← from_option hret (raise ValueError) (py_int val);
        commit (update_dm_target_telegram (Some target) owner_id);;
        set_bale_wiz (delete author_id);;
        send (ViaBale chat (Note (DmTargetSet target)))
      else
        send (ViaBale chat (Note NotAnId))
    else
      (if MIRROR_DMS_TO_OWNER config && truthy (OWNER_BALE_CHAT_ID config)
       then send (ViaBale (the (OWNER_BALE_CHAT_ID config))
                    (Text ("[Bale DM] " +:+ sender +:+ ": " +:+
                           (if text_true text then or_empty text
                            else "[non-text]"))))
       else mret ());;
      row ← query (λ d, get_user_row_by_id d owner_id);
      if truthy (row ≫= dm_target_telegram_chat_id) then
        let target_tg := the (row ≫= dm_target_telegram_chat_id) in
        let pre := "[From Bale DM] " +:+ sender +:+ ": " in
        if text_true text then
          send (ViaTelegram target_tg (Text (pre +:+ or_empty text)))
        else
          match bale_photo msg, bale_document msg, bale_video msg with
          | Some f, _, _ =>
              send (ViaTelegram target_tg
                      (Photo f (pre +:+ or_empty (bale_caption msg))))
          | None, Some (f, name), _ =>
              send (ViaTelegram target_tg
                      (Document f (doc_filename name)
                                (pre +:+ or_empty (bale_caption msg))))
          | None, None, Some f =>
              send (ViaTelegram target_tg
                      (Video f (pre +:+ or_empty (bale_caption msg))))
          | None, None, None =>
              send (ViaTelegram target_tg
                      (Text (pre +:+ "[unsupported content]")))
          end
      else mret ().

Definition bale_verify (t : Tick) (msg : BaleMessage) (text : string)
    (author_id : Z) : Handler unit :=
  let chat := bale_chat_id msg in
  let code := code_of_parts (py_split1 text) in
  if negb (String.eqb (bale_chat_type msg) "group"
           || String.eqb (bale_chat_type msg) "channel")
  then mret ()
  else
    let expected := bale_chat_type msg in
    res ← run (λ d, let '(d', r) := consume_verify_code
                      (tick_now t) code "bale" author_id d in
                    (d', Ok r));
    match res with
    | None => send (ViaBale chat (Note InvalidCode))
    | Some (owner_user_id, code_chat_type) =>
        if negb (String.eqb code_chat_type expected) then
          send (ViaBale chat (Note WrongChatType))
        else
          run (register_chat (tick_now t) owner_user_id "bale" expected chat
                 (or_empty (bale_chat_title msg)));;
          send (ViaBale chat (Note (Linked expected chat)))
    end.

Definition bale_on_message (t : Tick) (msg : BaleMessage) : Handler unit :=
  let chat := bale_chat_id msg in
  let ctype := bale_chat_type msg in
  let text := text_or (bale_text msg) (bale_caption msg) in
  let author_id := from_option ba_id 0 (bale_author msg) in
  let sender := from_option bale_name "unknown" (bale_author msg) in
  if negb (author_id =? 0) && (author_id =? bale_self_id bots) then mret ()
  else if text_true text && startswith (or_empty text) "/verify_dm" then
    let code := code_of_parts (py_split1 (or_empty text)) in
    try_except
      (owner_user_id ← run (λ d, let '(d', r) := consume_dm_verify_code
                                   (tick_now t) code "bale" chat d in
                                 (d', Ok r));
       if negb (truthy owner_user_id) then
         send (ViaBale chat (Note InvalidDmCode))
       else
         commit (update_dm_target_bale (Some chat) (the owner_user_id));;
         send (ViaBale chat (Note (DmTargetSet chat))))
      (λ _, mret ())
  else if String.eqb ctype "private" then
    bale_private t msg text author_id sender
  else if text_true text && startswith (or_empty text) "/verify" then
    bale_verify t msg (or_empty text) author_id
  else if String.eqb ctype "group" then
    link ← query (λ d, find_group_link_by_bale d chat);
    match link with
    | None => mret ()
    | Some link =>
        if negb (enabled link) then mret ()
        else bale_relay (counterpart link) msg text
                        (prefix_with_username sender)
    end
  else if String.eqb ctype "channel" then
    link ← query (λ d, find_channel_link_by_bale d chat);
    match link with
    | None => mret ()
    | Some link =>
        if negb (enabled link) then mret ()
        else bale_relay (counterpart link) msg text (λ s, s)
    end
  else mret ().

End Handlers.

(** ** The [str] methods on ASCII text

    An instance of the interface, exact on text without non-ASCII white
    space or digits; it is used to run the handlers on concrete events. *)

Definition is_space (c : ascii) : bool :=
  let n := nat_of_ascii c in
  (n =? 32)%nat || ((9 <=? n)%nat && (n <=? 13)%nat)
  || ((28 <=? n)%nat && (n <=? 31)%nat).

Definition is_digit (c : ascii) : bool :=
  let n := nat_of_ascii c in (48 <=? n)%nat && (n <=? 57)%nat.

Fixpoint lstrip (s : list ascii) : list ascii :=
  match s with
  | c :: s' => if is_space c then lstrip s' else s
  | [] => []
  end.

Definition strip_chars (s : list ascii) : list ascii :=
  reverse (lstrip (reverse (lstrip s))).

Fixpoint span_word (s : list ascii) : list ascii * list ascii :=
  match s with
  | c :: s' => if is_space c then ([], s)
               else let '(w, r) := span_word s' in (c :: w, r)
  | [] => ([], [])
  end.

Definition split1_chars (s : list ascii) : list (list ascii) :=
  match lstrip s with
  | [] => []
  | s1 => let '(w, r) := span_word s1 in
          match lstrip r with
          | [] => [w]
          | rest => [w; rest]
          end
  end.

Definition lower_ascii (c : ascii) : ascii :=
  let n := nat_of_ascii c in
  if (65 <=? n)%nat && (n <=? 90)%nat then ascii_of_nat (n + 32) else c.

(** Digits with single underscores between them, as [int] accepts. *)
Fixpoint int_digits (acc : Z) (prev_digit : bool) (s : list ascii)
    : option Z :=
  match s with
  | [] => if prev_digit then Some acc else None
  | c :: s' =>
      if is_digit c
      then int_digits (10 * acc + (Z.of_nat (nat_of_ascii c) - 48)) true s'
      else if Ascii.eqb c "_" && prev_digit then int_digits acc false s'
      else None
  end.

Definition int_chars (s : list ascii) : option Z :=
  match strip_chars s with
  | "-"%char :: d => Z.opp <$> int_digits 0 false d
  | "+"%char :: d => int_digits 0 false d
  | d => int_digits 0 false d
  end.

Definition on_chars (f : list ascii → list ascii) (s : string) : string :=
  String.string_of_list_ascii (f (String.list_ascii_of_string s)).

#[global] Instance ascii_text : PyStr := {|
  py_strip := on_chars strip_chars;
  py_split1 s := String.string_of_list_ascii
                   <$> split1_chars (String.list_ascii_of_string s);
  py_lower := on_chars (fmap lower_ascii);
  py_isdigit s := match String.list_ascii_of_string s with
                  | [] => false
                  | l => forallb is_digit l
                  end;
  py_int s := int_chars (String.list_ascii_of_string s)
|}.

(** ** The bridge as one event handler *)

Inductive Event : Type :=
  | TgMessageEvent (m : TgMessage)       (* a "message" update *)
  | TgChannelPostEvent (m : TgMessage)   (* a "channel_post" update *)
  | BaleMessageEvent (m : BaleMessage).  (* a Bale update with a message *)

Definition on_event `{PyStr} (bots : Bots) (config : Config) (t : Tick)
    (e : Event) : Handler unit :=
  match e with
  | TgMessageEvent m => tg_dispatch_message bots t m
  | TgChannelPostEvent m => tg_dispatch_channel_post bots m
  | BaleMessageEvent m => bale_on_message bots config t m
  end.

(** The author of the event is the bridge's own bot on that platform. *)
Definition from_self (bots : Bots) (e : Event) : Prop :=
  match e with
  | TgMessageEvent m | TgChannelPostEvent m =>
      tgu_id <$> tg_from_user m = Some (tg_bot_id bots)
  | BaleMessageEvent m =>
      ba_id <$> bale_author m = Some (bale_self_id bots)
  end.

(** The calls an event relays to the other platform. *)
Definition forwarded (e : Event) (out : list Outbound) : list Outbound :=
  match e with
  | TgMessageEvent _ | TgChannelPostEvent _ => List.filter via_bale out
  | BaleMessageEvent _ => List.filter via_telegram out
  end.

(** The text a command is looked for in. *)
Definition is_verify_command (text : option string) : bool :=
  from_option (λ s, startswith s "/verify") false text.

(** The event is a group or channel message that reaches the routing
    step: it is not a [/verify] or [/verify_dm] command. *)
Definition routed (e : Event) : Prop :=
  match e with
  | TgMessageEvent m =>
      (tg_chat_type m = "group" ∨ tg_chat_type m = "supergroup")
      ∧ is_verify_command (tg_text m) = false
  | TgChannelPostEvent m => True
  | BaleMessageEvent m =>
      (bale_chat_type m = "group" ∨ bale_chat_type m = "channel")
      ∧ is_verify_command (text_or (bale_text m) (bale_caption m)) = false
  end.

(** The pairing row the routing step reads for the chat of the event. *)
Definition pairing_of (d : DB) (e : Event) : option LinkInfo :=
  match e with
  | TgMessageEvent m => find_group_link_by_tg d (tg_chat_id m)
  | TgChannelPostEvent m => find_channel_link_by_tg d (tg_chat_id m)
  | BaleMessageEvent m =>
      if String.eqb (bale_chat_type m) "group"
      then find_group_link_by_bale d (bale_chat_id m)
      else find_channel_link_by_bale d (bale_chat_id m)
  end.

(** No pairing row, or a disabled one. *)
Definition no_live_pairing (l : option LinkInfo) : Prop :=
  match l with None => True | Some k => enabled k = false end.

(** ** Every way the program writes the database *)

Inductive Call : Type :=
  | GetOrCreateUserByTg (now : Timestamp) (tg : Z)
  | GetOrCreateUserByBale (now : Timestamp) (bale : Z)
  | CreateVerifyCode (picks : list ascii) (now : Timestamp) (owner : Z)
                     (platform type : string) (uid : Z)
  | ConsumeVerifyCode (now : Timestamp) (code platform : string) (uid : Z)
  | CreateDmVerifyCode (h : list ascii) (now : Timestamp) (owner : Z)
                       (platform : string) (target : Z)
  | ConsumeDmVerifyCode (now : Timestamp) (code platform : string) (chat : Z)
  | RegisterChat (now : Timestamp) (owner : Z) (platform type : string)
                 (cid : Z) (title : string)
  | PairGroups (now : Timestamp) (owner tg bale : Z)
  | PairChannels (now : Timestamp) (owner tg bale : Z)
  | MergeUserAccounts (now : Timestamp) (tg bale : Z)
  | SetDmTargetBale (v : option Z) (id : Z)
  | SetDmTargetTelegram (v : option Z) (id : Z).

(** The database a call leaves behind, whether it returns or raises. *)
Definition exec (c : Call) (d : DB) : DB :=
  match c with
  | GetOrCreateUserByTg now tg =>
      (get_or_create_user_by_tg recursion_limit now tg d).1
  | GetOrCreateUserByBale now bale =>
      (get_or_create_user_by_bale recursion_limit now bale d).1
  | CreateVerifyCode picks now owner platform type uid =>
      (create_verify_code picks now owner platform type uid d).1
  | ConsumeVerifyCode now code platform uid =>
      (consume_verify_code now code platform uid d).1
  | CreateDmVerifyCode h now owner platform target =>
      (create_dm_verify_code h now owner platform target d).1
  | ConsumeDmVerifyCode now code platform chat =>
      (consume_dm_verify_code now code platform chat d).1
  | RegisterChat now owner platform type cid title =>
      (register_chat now owner platform type cid title d).1
  | PairGroups now owner tg bale => (pair_groups now owner tg bale d).1
  | PairChannels now owner tg bale => (pair_channels now owner tg bale d).1
  | MergeUserAccounts now tg bale => (merge_user_accounts now tg bale d).1
  | SetDmTargetBale v id => update_dm_target_bale v id d
  | SetDmTargetTelegram v id => update_dm_target_telegram v id d
  end.

Definition exec_all (cs : list Call) (d : DB) : DB :=
  foldl (λ d c, exec c d) d cs.

(** ** Invariants of the store *)

(** [code] is the PRIMARY KEY of [verify_tokens]. *)
Definition codes_unique (d : DB) : Prop :=
  NoDup (vt_code <$> verify_tokens d).

(** The token [code] exists and is marked consumed. *)
Definition spent (code : string) (d : DB) : Prop :=
  Exists (λ t, vt_code t = code) (verify_tokens d)
  ∧ Forall (λ t, vt_code t = code → vt_consumed t ≠ 0) (verify_tokens d).

(** The ways a call can change the rows of [verify_tokens]. *)
Inductive tokens_step (l : list VerifyToken) : list VerifyToken → Prop :=
  | tokens_same : tokens_step l l
  | tokens_minted t :
      Forall (λ t', vt_code t' ≠ vt_code t) l → vt_consumed t = 0 →
      tokens_step l (l ++ [t])
  | tokens_consumed code : tokens_step l (consume_token code <$> l)
  | tokens_reowned new old : tokens_step l (reown_token new old <$> l).

(** [id] is the PRIMARY KEY of [users], AUTOINCREMENT starts at 1, and
    the indexes [idx_users_tg] and [idx_users_bale] are UNIQUE. *)
Definition users_wf (d : DB) : Prop :=
  NoDup (user_id <$> users d)
  ∧ Forall (λ u, 0 < user_id u) (users d)
  ∧ 0 ≤ users_seq d
  ∧ NoDup (omap tg_user_id (users d))
  ∧ NoDup (omap bale_user_id (users d)).

(** ** Counting codes *)

(** All the lists of [k] elements of [a]: what [random.choices(a, k=k)]
    can return. *)
Fixpoint words (k : nat) (a : list ascii) : list (list ascii) :=
  match k with
  | O => [[]]
  | S k' => a ≫= λ c, (c ::.) <$> words k' a
  end.

(** The codes [gen_code prefix] can produce. *)
Definition gen_code_output (prefix : string) (s : string) : Prop :=
  ∃ picks, random_choices code_alphabet 6 picks ∧ s = gen_code prefix picks.

(** The codes [create_dm_verify_code] can produce. *)
Definition dm_code_output (s : string) : Prop :=
  ∃ h, uuid4_hex h ∧ s = dm_code_of h.

(** A way to complete eight hexadecimal digits into a version 4 UUID. *)
Definition uuid_tail : list ascii :=
  String.list_ascii_of_string "000040008000000000000000".

(** [l] lists the members of [P] once each. *)
Definition enumerates (l : list string) (P : string → Prop) : Prop :=
  NoDup l ∧ ∀ s, s ∈ l ↔ P s.

(** [P] has at least [n] members. *)
Definition at_least (n : Z) (P : string → Prop) : Prop :=
  ∃ l, NoDup l ∧ (∀ s, s ∈ l → P s) ∧ n ≤ Z.of_nat (length l).

(** A row that the program's writes keep: marking a token consumed and
    moving it to another owner leave its code, platform, chat type, user id
    and expiry as they are. *)
Definition minted_as (code platform type : string) (uid expires : Z)
    (t : VerifyToken) : Prop :=
  vt_code t = code ∧ vt_platform t = platform ∧ vt_chat_type t = type
  ∧ vt_platform_user_id t = uid ∧ vt_expires_at t = expires.

(** ** More invariants of the store *)

(** [code] is the PRIMARY KEY of [dm_verify_tokens]. *)
Definition dm_codes_unique (d : DB) : Prop :=
  NoDup (dm_code <$> dm_verify_tokens d).

(** The DM token [code] exists and is marked consumed. *)
Definition dm_spent (code : string) (d : DB) : Prop :=
  Exists (λ t, dm_code t = code) (dm_verify_tokens d)
  ∧ Forall (λ t, dm_code t = code → dm_consumed t ≠ 0) (dm_verify_tokens d).

(** The DM token of [code] as it was minted, used or not. *)
Definition dm_minted_as (code : string) (owner : Z) (platform : string)
    (target expires : Z) (t : DmVerifyToken) : Prop :=
  dm_code t = code ∧ dm_owner_user_id t = owner
  ∧ dm_target_platform t = platform ∧ dm_target_chat_id t = target
  ∧ dm_expires_at t = expires.

(** The integers that [sqlite3] binds as a statement parameter: the signed
    64-bit range of an SQLite INTEGER.  Handed a Python [int] outside it,
    the driver raises [OverflowError] before the statement runs.  The ids
    that Telegram and Bale issue are inside the range, and so is every
    stored value; an integer that a user types need not be, and the
    properties of typed integers are stated for this range. *)
Definition sqlite_int (n : Z) : bool := (- 2 ^ 63 <=? n) && (n <? 2 ^ 63).

(** UNIQUE(platform, chat_id) and the two CHECKs of [chats]. *)
Definition chats_ok (d : DB) : Prop :=
  NoDup ((λ c, (chat_platform c, chat_id c)) <$> chats d)
  ∧ Forall (λ c, check_platform (chat_platform c) = true
                 ∧ check_chat_type (chat_type c) = true) (chats d).

(** UNIQUE(tg_group_id, bale_group_id), and its twin for channels. *)
Definition links_ok (l : list Link) : Prop :=
  NoDup ((λ k, (link_tg_id k, link_bale_id k)) <$> l).

(** The CHECKs of the two token tables. *)
Definition tokens_ok (d : DB) : Prop :=
  Forall (λ t, check_platform (vt_platform t) = true
               ∧ check_chat_type (vt_chat_type t) = true) (verify_tokens d)
  ∧ Forall (λ t, check_platform (dm_target_platform t) = true)
           (dm_verify_tokens d).

(** Every constraint the schema declares and SQLite enforces. *)
Definition schema_ok (d : DB) : Prop :=
  users_wf d ∧ codes_unique d ∧ dm_codes_unique d ∧ chats_ok d
  ∧ links_ok (group_links d) ∧ links_ok (channel_links d) ∧ tokens_ok d.

(** The five tables other than [users] are as they were. *)
Definition tables_kept (d d' : DB) : Prop :=
  chats d' = chats d ∧ group_links d' = group_links d
  ∧ channel_links d' = channel_links d
  ∧ verify_tokens d' = verify_tokens d
  ∧ dm_verify_tokens d' = dm_verify_tokens d.

(** Both link tables change in the same three ways. *)
Definition links_step (l l' : list Link) : Prop :=
  l' = l
  ∨ (∃ k, l' = l ++ [k] ∧ link_exists l (link_tg_id k) (link_bale_id k) = false
          ∧ link_enabled k = 1)
  ∨ ∃ new old, l' = reown_link new old <$> l.


(** ** Vocabulary of the handler properties *)

(** The chat kind a Telegram [/verify] is checked against. *)
Definition tg_verify_kind (m : TgMessage) : string :=
  if String.eqb (tg_chat_type m) "group"
     || String.eqb (tg_chat_type m) "supergroup"
  then "group" else "channel".

(** The event carries no Bale photo.  The relay reads [msg.photo.id]; what
    that does depends on the shape balethon gives to [photo], which the
    source does not show, so the relay of Bale photos is left out of the
    routing property. *)
Definition without_bale_photo (e : Event) : Prop :=
  match e with
  | BaleMessageEvent m => bale_photo m = None
  | _ => True
  end.

(** The world with its database replaced. *)
Definition with_store (d : DB) (w : World) : World :=
  mkWorld d (TG_WIZ w) (BALE_WIZ w).


(** A call on the client of the other platform than the one the event came
    from. *)
Definition to_other_platform (e : Event) (chat : Z) (c : Content) : Outbound :=
  match e with
  | TgMessageEvent _ | TgChannelPostEvent _ => ViaBale chat c
  | BaleMessageEvent _ => ViaTelegram chat c
  end.

(** The row of [users] that carries a Telegram or a Bale identity. *)
Definition tg_owner_row (d : DB) (uid : Z) : option User :=
  List.find (λ u, sql_eq (tg_user_id u) uid) (users d).
Definition bale_owner_row (d : DB) (uid : Z) : option User :=
  List.find (λ u, sql_eq (bale_user_id u) uid) (users d).

(** ** Keyboards and callback queries

    The menus of both bots are inline keyboards; pressing a button sends
    the button's callback data back to the bot.  A keyboard is modelled by
    its buttons, each with its label and its callback data.  The Bale
    keyboards are given row by row, as the source writes them; the
    Telegram keyboards are built with a builder whose row layout is not
    modelled, so they are the buttons in the order they are added. *)

Record Button := mkButton { btn_text : string; btn_data : string }.
Definition Keyboard : Type := list (list Button).

(** [title or chat_id] inside an f-string. *)
Definition title_or_id (c : Chat) : string :=
  if str_true (chat_title c) then chat_title c else str_of_int (chat_id c).

Definition bale_kb_main_menu : Keyboard :=
  [ [mkButton "🔗 Link Bale Group" "B_LINK_GROUP";
     mkButton "🔗 Link Bale Channel" "B_LINK_CHANNEL"];
    [mkButton "📋 My Groups" "B_MY_GROUPS";
     mkButton "📋 My Channels" "B_MY_CHANNELS"];
    [mkButton "🔁 Pair Groups" "B_PAIR_GROUPS";
     mkButton "🔁 Pair Channels" "B_PAIR_CHANNELS"];
    [mkButton "⚙️ DM Settings" "B_DM_SETTINGS"] ].

Definition bale_kb_back_menu : Keyboard :=
  [ [mkButton "⬅️ Back to Menu" "B_MENU"] ].

(** The four [bale_kb_select_*] functions differ in the platform and the
    chat type they keep and in the prefix of the callback data. *)
Definition bale_kb_select (platform type prefix : string) (rows : list Chat)
    : Keyboard :=
  let buttons :=
    ((λ c, [mkButton ("[" +:+ platform +:+ "] " +:+ title_or_id c)
                     (prefix +:+ str_of_int (chat_id c))])
       <$> List.filter (λ c, String.eqb (chat_platform c) platform
                             && String.eqb (chat_type c) type) rows)
    ++ [ [mkButton "⬅️ Back to Menu" "B_MENU"] ] in
  match buttons with [] => bale_kb_back_menu | _ => buttons end.

Definition bale_kb_select_bale_group : list Chat → Keyboard :=
  bale_kb_select "bale" "group" "B_G_ITEM:".
Definition bale_kb_select_bale_channel : list Chat → Keyboard :=
  bale_kb_select "bale" "channel" "B_C_ITEM:".
Definition bale_kb_select_tg_group : list Chat → Keyboard :=
  bale_kb_select "tg" "group" "B_PG_TG:".
Definition bale_kb_select_tg_channel : list Chat → Keyboard :=
  bale_kb_select "tg" "channel" "B_PC_TG:".

Definition bale_kb_dm_settings (can_set_tg_target : bool) : Keyboard :=
  [ [mkButton "Set TG→Bale DM target (this chat)" "B_SET_DM_TG2BALE_THIS"];
    [mkButton "Clear TG→Bale DM target" "B_CLR_DM_TG2BALE"] ]
  ++ (if can_set_tg_target
      then [ [mkButton "Set Bale→TG DM target (enter TG id next)"
                       "B_SET_DM_BALE2TG"];
             [mkButton "Clear Bale→TG DM target" "B_CLR_DM_BALE2TG"] ]
      else [ [mkButton "Set Bale→TG DM target (enter TG id next)"
                       "B_SET_DM_BALE2TG"] ])
  ++ [ [mkButton "⬅️ Back to Menu" "B_MENU"] ].

Definition kb_main_menu : list Button :=
  [ mkButton "🔗 Link TG Group" "LINK_TG_GROUP";
    mkButton "🔗 Link TG Channel" "LINK_TG_CHANNEL";
    mkButton "📋 My Groups" "MY_GROUPS";
    mkButton "📋 My Channels" "MY_CHANNELS";
    mkButton "🔁 Pair Groups" "PAIR_GROUPS";
    mkButton "🔁 Pair Channels" "PAIR_CHANNELS";
    mkButton "⚙️ DM Settings" "DM_SETTINGS" ].

Definition kb_back_to_menu : list Button :=
  [ mkButton "⬅️ Back to Menu" "MENU" ].

Definition kb_groups_select (rows : list Chat)
    (platform_filter : option string) : list Button :=
  ((λ c, mkButton ("[" +:+ chat_platform c +:+ "] " +:+ title_or_id c)
                  ("GROUP_ITEM:" +:+ chat_platform c +:+ ":"
                   +:+ str_of_int (chat_id c)))
     <$> List.filter
           (λ c, String.eqb (chat_type c) "group"
                 && match platform_filter with
                    | Some p => if str_true p
                                then String.eqb (chat_platform c) p else true
                    | None => true
                    end) rows)
  ++ [ mkButton "⬅️ Back to Menu" "MENU" ].

(** The texts a callback shows, named, with the values they quote. *)
Inductive Screen : Type :=
  | HelpText                                    (* HELP_TEXT *)
  | BaleHelpText                                (* BALE_HELP_TEXT *)
  | LinkSteps (platform type code : string)     (* "Link a ... /verify {code}" *)
  | NoLinkedGroups                              (* "You have no linked groups yet." *)
  | YourGroups                                  (* "Your Groups:" *)
  | DmSettingsTitle                             (* "DM Settings" *)
  | Bale2TgUpdated                              (* "Bale→TG DM target updated to this chat." *)
  | SelectTg2BaleTarget                         (* "Select your TG→Bale DM target:" *)
  | SendBaleId                                  (* "Please send your Bale User ID ..." *)
  | ConfirmInBaleChat (bale_chat : Z) (code : string)
  | NoneLinkedYet (type : string)               (* "No groups linked yet." *)
  | ChatLines (type : string) (rows : list Chat) (* header and a line per chat *)
  | NoTelegramChats (type : string)             (* "No Telegram groups found." *)
  | SelectTelegramChat (type : string)          (* "Step 1/2: ..." *)
  | SelectBaleChat (type : string) (tg_id : Z)  (* "Step 2/2: ... TG:{tg_id}" *)
  | PairedChats (type : string) (tg bale : Z)   (* "Paired TG ... Bale ..." *)
  | Tg2BaleSetHere                              (* "TG→Bale DM target set to this chat." *)
  | Tg2BaleCleared                              (* "TG→Bale DM target cleared." *)
  | SendTelegramId                              (* "Please send the Telegram chat ID next" *)
  | Bale2TgCleared.                             (* "Bale→TG DM target cleared." *)

(** What a callback handler asks its client to do. *)
Inductive Ui : Type :=
  | EditText (s : Screen) (kb : list Button)   (* cq.message.edit_text *)
  | SendScreen (chat : option Z) (s : Screen) (kb : Keyboard)
                                               (* bots.bale.send_message *)
  | Answer (text : string) (show_alert : bool). (* cq.answer, cbq.answer *)

(** The exceptions of before, and two more that only the callbacks can
    meet. *)
Inductive PyError : Type :=
  | Known (e : exn)
  | KeyError
  | TypeError.

Record Shown (A : Type) := mkShown {
  world_after : World;
  shown : list Ui;
  outcome : PyError + A
}.
Arguments mkShown {A} _ _ _.
Arguments world_after {A} _.
Arguments shown {A} _.
Arguments outcome {A} _.

Definition Cb (A : Type) : Type := World → Shown A.

Definition cb_ret {A} (a : A) : Cb A := λ w, mkShown w [] (inr a).

Definition cb_bind {A B} (k : A → Cb B) (m : Cb A) : Cb B :=
  λ w, let o := m w in
       match outcome o with
       | inr a => let o' := k a (world_after o) in
                  mkShown (world_after o') (shown o ++ shown o') (outcome o')
       | inl e => mkShown (world_after o) (shown o) (inl e)
       end.

#[global] Instance cb_mret : MRet Cb := @cb_ret.
#[global] Instance cb_mbind : MBind Cb := @cb_bind.

Definition cb_raise {A} (e : PyError) : Cb A := λ w, mkShown w [] (inl e).

Definition cb_show (u : Ui) : Cb unit := λ w, mkShown w [u] (inr ()).

Definition cb_run {A} (op : Op A) : Cb A :=
  λ w, let '(d, r) := op (store w) in
       mkShown (mkWorld d (TG_WIZ w) (BALE_WIZ w)) []
               match r with Ok a => inr a | Raise e => inl (Known e) end.

Definition cb_query {A} (f : DB → A) : Cb A :=
  λ w, mkShown w [] (inr (f (store w))).

Definition cb_commit (f : DB → DB) : Cb unit :=
  λ w, mkShown (mkWorld (f (store w)) (TG_WIZ w) (BALE_WIZ w)) [] (inr ()).

Definition cb_bale_wiz : Cb (gmap Z Wizard) :=
  λ w, mkShown w [] (inr (BALE_WIZ w)).
Definition cb_set_tg_wiz (f : gmap Z Wizard → gmap Z Wizard) : Cb unit :=
  λ w, mkShown (mkWorld (store w) (f (TG_WIZ w)) (BALE_WIZ w)) [] (inr ()).
Definition cb_set_bale_wiz (f : gmap Z Wizard → gmap Z Wizard) : Cb unit :=
  λ w, mkShown (mkWorld (store w) (TG_WIZ w) (f (BALE_WIZ w))) [] (inr ()).

(** [s.split(sep)] for a separator of one character. *)
Fixpoint split_on (sep : ascii) (s : string) : list string :=
  match s with
  | EmptyString => [EmptyString]
  | String c s' =>
      if Ascii.eqb c sep then EmptyString :: split_on sep s'
      else match split_on sep s' with
           | p :: ps => String c p :: ps
           | [] => [String c EmptyString]
           end
  end.

(** [f"{x}"] for an [Optional[int]]. *)
Definition str_of_opt_int (o : option Z) : string :=
  match o with Some i => str_of_int i | None => "None" end.

(** [f"(Current: {v})" if v else "(Not Set)"]. *)
Definition current_target (v : option Z) : string :=
  if truthy v then "(Current: " +:+ str_of_int (the v) +:+ ")"
  else "(Not Set)".

Record TgCallback := mkTgCallback {
  cq_data : string;
  cq_from_user : TgUser
}.

Record BaleCallback := mkBaleCallback {
  bcq_data : option string;
  bcq_chat_id : option Z;        (* cbq.message.chat.id, when all are there *)
  bcq_author : option BaleAuthor
}.

Record BaleUpdate := mkBaleUpdate {
  upd_update_id : option Z;      (* upd.update_id *)
  upd_id : option Z;             (* upd.id *)
  upd_callback_query : option BaleCallback;
  upd_message : option BaleMessage
}.

Section Callbacks.
Context `{PyStr}.
Variable bots : Bots.
Variable config : Config.

(** [int(data.split(":")[1])]. *)
Definition data_int (data : string) : Cb Z :=
  match split_on ":" data with
  | _ :: p :: _ => from_option cb_ret (cb_raise (Known ValueError)) (py_int p)
  | _ => cb_raise (Known IndexError)
  end.

(** *** Telegram *)

Definition cb_menu : Cb unit :=
  cb_show (EditText HelpText kb_main_menu);;
  cb_show (Answer "" false).

Definition cb_link_tg (type : string) (t : Tick) (picks : list ascii)
    (cq : TgCallback) : Cb unit :=
  let uid := tgu_id (cq_from_user cq) in
  owner_id ← cb_run (get_or_create_user_by_tg recursion_limit (tick_now t) uid);
  code ← cb_run (create_verify_code picks (tick_now t) owner_id "tg" type uid);
  cb_show (EditText (LinkSteps "tg" type code) kb_back_to_menu);;
  cb_show (Answer "Code generated" false).

Definition cb_link_tg_group := cb_link_tg "group".
Definition cb_link_tg_channel := cb_link_tg "channel".

Definition cb_my_groups (t : Tick) (cq : TgCallback) : Cb unit :=
  let uid := tgu_id (cq_from_user cq) in
  owner_id ← cb_run (get_or_create_user_by_tg recursion_limit (tick_now t) uid);
  rows ← cb_query (λ d, list_owner_chats d owner_id None (Some "group"));
  match rows with
  | [] => cb_show (EditText NoLinkedGroups kb_back_to_menu)
  | _ => cb_show (EditText YourGroups (kb_groups_select rows None))
  end;;
  cb_show (Answer "" false).

Definition cb_dm_settings (t : Tick) (cq : TgCallback) : Cb unit :=
  let uid := tgu_id (cq_from_user cq) in
  owner_id ← cb_run (get_or_create_user_by_tg recursion_limit (tick_now t) uid);
  row ← cb_query (λ d, get_user_row_by_id d owner_id);
  match row with
  | None => cb_raise TypeError
  | Some r =>
      cb_show (EditText DmSettingsTitle
                 [ mkButton ("Set TG→Bale Target "
                             +:+ current_target (dm_target_bale_chat_id r))
                            "SET_DM_TG2BALE_PICK";
                   mkButton ("Set Bale→TG Target "
                             +:+ current_target (dm_target_telegram_chat_id r))
                            ("SET_DM_BALE2TG:"
                             +:+ str_of_opt_int (tg_user_id r));
                   mkButton "⬅️ Back to Menu" "MENU" ]);;
      cb_show (Answer "" false)
  end.

Definition cb_set_dm_bale2tg (t : Tick) (cq : TgCallback) : Cb unit :=
  let uid := tgu_id (cq_from_user cq) in
  tg_chat_id ← data_int (cq_data cq);
  owner_id ← cb_run (get_or_create_user_by_tg recursion_limit (tick_now t) uid);
  cb_commit (update_dm_target_telegram (Some tg_chat_id) owner_id);;
  cb_show (EditText Bale2TgUpdated kb_back_to_menu);;
  cb_show (Answer "Saved!" false).

Definition cb_set_dm_tg2bale_pick (t : Tick) (cq : TgCallback) : Cb unit :=
  let uid := tgu_id (cq_from_user cq) in
  owner_id ← cb_run (get_or_create_user_by_tg recursion_limit (tick_now t) uid);
  rows ← cb_query (λ d, list_owner_chats d owner_id (Some "bale") None);
  cb_show (EditText SelectTg2BaleTarget
             ([ mkButton "👤 Use my Bale Private Chat (Enter ID)"
                         "SET_DM_TG2BALE_MANUAL" ]
              ++ match rows with
                 | [] => []
                 | _ => mkButton "--- OR Select a Linked Chat ---" "noop"
                        :: ((λ c, mkButton ("[" +:+ chat_type c +:+ "] "
                                            +:+ title_or_id c)
                                           ("SET_DM_TG2BALE_SELECT:"
                                            +:+ str_of_int (chat_id c)))
                              <$> rows)
                 end
              ++ [ mkButton "⬅️ Back to Menu" "MENU" ]));;
  cb_show (Answer "" false).

Definition cb_set_dm_tg2bale_manual (cq : TgCallback) : Cb unit :=
  let uid := tgu_id (cq_from_user cq) in
  cb_set_tg_wiz (<[uid := mkWizard "AWAIT_BALE_ID" None]>);;
  cb_show (EditText SendBaleId kb_back_to_menu);;
  cb_show (Answer "Waiting for your Bale ID..." false).

Definition cb_set_dm_tg2bale_select (t : Tick) (cq : TgCallback) : Cb unit :=
  let uid := tgu_id (cq_from_user cq) in
  bale_chat_id ← data_int (cq_data cq);
  owner_id ← cb_run (get_or_create_user_by_tg recursion_limit (tick_now t) uid);
  code ← cb_run (create_dm_verify_code (tick_uuid_hex t) (tick_now t) owner_id
                                       "bale" bale_chat_id);
  cb_show (EditText (ConfirmInBaleChat bale_chat_id code) kb_back_to_menu);;
  cb_show (Answer "Verification code generated" false).

(** The router runs the first callback handler whose filter passes, and
    none when no filter does. *)
Definition tg_on_callback (t : Tick) (picks : list ascii) (cq : TgCallback)
    : Cb unit :=
  let data := cq_data cq in
  if String.eqb data "MENU" then cb_menu
  else if String.eqb data "LINK_TG_GROUP" then cb_link_tg_group t picks cq
  else if String.eqb data "LINK_TG_CHANNEL" then cb_link_tg_channel t picks cq
  else if String.eqb data "MY_GROUPS" then cb_my_groups t cq
  else if String.eqb data "DM_SETTINGS" then cb_dm_settings t cq
  else if startswith data "SET_DM_BALE2TG:" then cb_set_dm_bale2tg t cq
  else if String.eqb data "SET_DM_TG2BALE_PICK" then cb_set_dm_tg2bale_pick t cq
  else if String.eqb data "SET_DM_TG2BALE_MANUAL"
  then cb_set_dm_tg2bale_manual cq
  else if startswith data "SET_DM_TG2BALE_SELECT:"
  then cb_set_dm_tg2bale_select t cq
  else mret ().

(** *** Bale

    The part of the polling loop that handles the callback query of an
    update.  Each [cbq.answer] is inside a [try] that ignores every
    exception. *)

(** [try: await cbq.answer()] with [except Exception: pass], the answer
    without a text.  balethon's [answer] takes the text as a required
    argument, so the bare call raises [TypeError] before anything is sent
    and the [except] swallows it: the callback query gets no answer, and
    the handler goes on. *)
Definition bale_answer_bare : Cb unit := cb_ret ().

Definition bale_cb_link (type : string) (t : Tick) (picks : list ascii)
    (chat : option Z) (owner_id author_id : Z) : Cb unit :=
  code ← cb_run (create_verify_code picks (tick_now t) owner_id "bale" type
                                    author_id);
  cb_show (SendScreen chat (LinkSteps "bale" type code) bale_kb_back_menu);;
  cb_show (Answer "Code generated" false).

Definition bale_cb_my (type : string) (chat : option Z) (owner_id : Z)
    : Cb unit :=
  rows ← cb_query (λ d, list_owner_chats d owner_id None (Some type));
  match rows with
  | [] => cb_show (SendScreen chat (NoneLinkedYet type) bale_kb_back_menu)
  | _ => cb_show (SendScreen chat (ChatLines type rows) bale_kb_back_menu)
  end;;
  bale_answer_bare.

Definition bale_cb_pair (type : string) (select : list Chat → Keyboard)
    (chat : option Z) (owner_id : Z) : Cb unit :=
  rows ← cb_query (λ d, list_owner_chats d owner_id None (Some type));
  let tgs := List.filter (λ c, String.eqb (chat_platform c) "tg"
                               && String.eqb (chat_type c) type) rows in
  match tgs with
  | [] => cb_show (SendScreen chat (NoTelegramChats type) bale_kb_back_menu)
  | _ => cb_show (SendScreen chat (SelectTelegramChat type) (select rows))
  end;;
  bale_answer_bare.

Definition bale_cb_pick_tg (type mode : string)
    (select : list Chat → Keyboard) (data : string) (chat : option Z)
    (owner_id author_id : Z) : Cb unit :=
  tg_id ← data_int data;
  cb_set_bale_wiz (<[author_id := mkWizard mode (Some tg_id)]>);;
  rows ← cb_query (λ d, list_owner_chats d owner_id None (Some type));
  cb_show (SendScreen chat (SelectBaleChat type tg_id) (select rows));;
  bale_answer_bare.

Definition bale_cb_pick_bale (type mode first : string)
    (pair : Timestamp → Z → Z → Z → Op unit) (t : Tick) (data : string)
    (chat : option Z) (owner_id author_id : Z) : Cb unit :=
  bale_id ← data_int data;
  wiz ← cb_bale_wiz;
  match wiz !! author_id with
  | Some st =>
      if negb (String.eqb (wiz_mode st) mode)
      then cb_show (Answer first true)
      else
        tg_id ← from_option cb_ret (cb_raise KeyError) (wiz_tg_id st);
        ok_tg ← cb_query (λ d, owns_chat d owner_id "tg" type tg_id);
        ok_bale ← cb_query (λ d, owns_chat d owner_id "bale" type bale_id);
        (if negb (ok_tg && ok_bale)
         then cb_show (Answer ("Those " +:+ type
                               +:+ "s are not linked to you.") true)
         else
           cb_run (pair (tick_now t) owner_id tg_id bale_id);;
           cb_show (SendScreen chat (PairedChats type tg_id bale_id)
                               bale_kb_back_menu);;
           cb_show (Answer "Paired!" false));;
        cb_set_bale_wiz (delete author_id)
  | None => cb_show (Answer first true)
  end.

Definition bale_on_callback (t : Tick) (picks : list ascii)
    (cbq : BaleCallback) : Cb unit :=
  let data := or_empty (bcq_data cbq) in
  let chat := bcq_chat_id cbq in
  let author_id := from_option ba_id 0 (bcq_author cbq) in
  owner_id ← cb_run (get_or_create_user_by_bale recursion_limit (tick_now t)
                                                author_id);
  if String.eqb data "B_MENU" then
    cb_show (SendScreen chat BaleHelpText bale_kb_main_menu);;
    cb_show (Answer "Menu" false)
  else if String.eqb data "B_LINK_GROUP" then
    bale_cb_link "group" t picks chat owner_id author_id
  else if String.eqb data "B_LINK_CHANNEL" then
    bale_cb_link "channel" t picks chat owner_id author_id
  else if String.eqb data "B_MY_GROUPS" then bale_cb_my "group" chat owner_id
  else if String.eqb data "B_MY_CHANNELS" then
    bale_cb_my "channel" chat owner_id
  else if String.eqb data "B_PAIR_GROUPS" then
    bale_cb_pair "group" bale_kb_select_tg_group chat owner_id
  else if startswith data "B_PG_TG:" then
    bale_cb_pick_tg "group" "PAIR_G_WAIT_BALE" bale_kb_select_bale_group
                    data chat owner_id author_id
  else if startswith data "B_G_ITEM:" then
    bale_cb_pick_bale "group" "PAIR_G_WAIT_BALE"
                      "Please select a Telegram group first."
                      pair_groups t data chat owner_id author_id
  else if String.eqb data "B_PAIR_CHANNELS" then
    bale_cb_pair "channel" bale_kb_select_tg_channel chat owner_id
  else if startswith data "B_PC_TG:" then
    bale_cb_pick_tg "channel" "PAIR_C_WAIT_BALE" bale_kb_select_bale_channel
                    data chat owner_id author_id
  else if startswith data "B_C_ITEM:" then
    bale_cb_pick_bale "channel" "PAIR_C_WAIT_BALE"
                      "Please select a Telegram channel first."
                      pair_channels t data chat owner_id author_id
  else if String.eqb data "B_DM_SETTINGS" then
    cb_show (SendScreen chat DmSettingsTitle (bale_kb_dm_settings true));;
    bale_answer_bare
  else if String.eqb data "B_SET_DM_TG2BALE_THIS" then
    cb_commit (update_dm_target_bale chat owner_id);;
    cb_show (SendScreen chat Tg2BaleSetHere bale_kb_back_menu);;
    cb_show (Answer "Saved" false)
  else if String.eqb data "B_CLR_DM_TG2BALE" then
    cb_commit (update_dm_target_bale None owner_id);;
    cb_show (SendScreen chat Tg2BaleCleared bale_kb_back_menu);;
    cb_show (Answer "Cleared" false)
  else if String.eqb data "B_SET_DM_BALE2TG" then
    cb_set_bale_wiz (<[author_id := mkWizard "SET_DM_BALE2TG" None]>);;
    cb_show (SendScreen chat SendTelegramId bale_kb_back_menu);;
    cb_show (Answer "Waiting for TG id…" false)
  else if String.eqb data "B_CLR_DM_BALE2TG" then
    cb_commit (update_dm_target_telegram None owner_id);;
    cb_show (SendScreen chat Bale2TgCleared bale_kb_back_menu);;
    cb_show (Answer "Cleared" false)
  else bale_answer_bare.

(** *** One Bale update *)

(** [a or b] on two optional integers. *)
Definition or_int (a b : option Z) : option Z := if truthy a then a else b.

(** The offset the next [get_updates] asks for. *)
Definition advance_offset (offset : option Z) (upd : BaleUpdate) : option Z :=
  match or_int (upd_update_id upd) (upd_id upd) with
  | Some upd_id =>
      let nxt := upd_id + 1 in
      match offset with
      | None => Some nxt
      | Some o => if o <? nxt then Some nxt else Some o
      end
  | None => offset
  end.

Record Polled := mkPolled {
  polled_world : World;
  polled_offset : option Z;
  polled_shown : list Ui;
  polled_sent : list Outbound
}.

(** The message part of the loop body; what it raises is logged. *)
Definition bale_message_part (t : Tick) (upd : BaleUpdate) (w : World)
    : World * list Outbound :=
  match upd_message upd with
  | Some msg => let o := bale_on_message bots config t msg w in
                (after o, sent o)
  | None => (w, [])
  end.

(** The body of the loop over the updates of one [get_updates]: a
    callback query is handled first, and the message only when there is no
    callback query or its handling raised. *)
Definition bale_on_update (t : Tick) (picks : list ascii) (upd : BaleUpdate)
    (w : World) (offset : option Z) : Polled :=
  let offset' := advance_offset offset upd in
  match upd_callback_query upd with
  | Some cbq =>
      let o := bale_on_callback t picks cbq w in
      match outcome o with
      | inr _ => mkPolled (world_after o) offset' (shown o) []
      | inl _ =>
          let '(w', out) := bale_message_part t upd (world_after o) in
          mkPolled w' offset' (shown o) out
      end
  | None =>
      let '(w', out) := bale_message_part t upd w in
      mkPolled w' offset' [] out
  end.

End Callbacks.

(** ** The bridge as a whole

    Everything that reaches the two bots: a Telegram message, channel post
    or callback query, and a Bale update.  Each carries what the clock and
    the random sources give while it is handled.  The handlers are taken
    to run one after another. *)

Inductive Input : Type :=
  | TgMessageIn (t : Tick) (m : TgMessage)
  | TgChannelPostIn (t : Tick) (m : TgMessage)
  | TgCallbackIn (t : Tick) (picks : list ascii) (cq : TgCallback)
  | BaleUpdateIn (t : Tick) (picks : list ascii) (upd : BaleUpdate).

Definition handle `{PyStr} (bots : Bots) (config : Config) (i : Input)
    (w : World) : World :=
  match i with
  | TgMessageIn t m => after (on_event bots config t (TgMessageEvent m) w)
  | TgChannelPostIn t m =>
      after (on_event bots config t (TgChannelPostEvent m) w)
  | TgCallbackIn t picks cq => world_after (tg_on_callback t picks cq w)
  | BaleUpdateIn t picks upd =>
      polled_world (bale_on_update bots config t picks upd w None)
  end.

Definition handle_all `{PyStr} (bots : Bots) (config : Config)
    (inputs : list Input) (w : World) : World :=
  foldl (λ w i, handle bots config i w) w inputs.

(** The world at start-up: the empty database and no wizard. *)
Definition fresh_world : World := mkWorld init_db ∅ ∅.

(** The updates of one [get_updates] call, handled in order. *)
Definition bale_poll `{PyStr} (bots : Bots) (config : Config)
    (updates : list (Tick * list ascii * BaleUpdate)) (w : World)
    (offset : option Z) : World * option Z :=
  foldl (λ s u, let p := bale_on_update bots config u.1.1 u.1.2 u.2 s.1 s.2 in
                (polled_world p, polled_offset p))
        (w, offset) updates.

(** Every pairing joins two chats that are registered, with the kind of
    the pairing, to the owner of the pairing. *)
Definition pairs_owned (type : string) (d : DB) (l : list Link) : Prop :=
  Forall (λ k, owns_chat d (link_owner_user_id k) "tg" type (link_tg_id k)
               = true
               ∧ owns_chat d (link_owner_user_id k) "bale" type
                           (link_bale_id k) = true) l.

Definition links_owned (d : DB) : Prop :=
  pairs_owned "group" d (group_links d)
  ∧ pairs_owned "channel" d (channel_links d).

(** Every DM code is bound to a chat on Bale. *)
Definition dm_tokens_for_bale (d : DB) : Prop :=
  Forall (λ t, dm_target_platform t = "bale") (dm_verify_tokens d).

(** A Bale wizard that waits for the Bale side of a pairing holds the
    Telegram side. *)
Definition wizards_ok (wz : gmap Z Wizard) : Prop :=
  ∀ a st, wz !! a = Some st →
          wiz_mode st = "PAIR_G_WAIT_BALE" ∨ wiz_mode st = "PAIR_C_WAIT_BALE" →
          is_Some (wiz_tg_id st).

Definition sound (w : World) : Prop :=
  schema_ok (store w) ∧ links_owned (store w) ∧ dm_tokens_for_bale (store w)
  ∧ wizards_ok (BALE_WIZ w).

(** The calls the handlers make: a pairing only of chats its owner has
    registered, a DM code only for Bale. *)
Definition safe_call (d : DB) (c : Call) : Prop :=
  match c with
  | PairGroups _ o tg bale =>
      owns_chat d o "tg" "group" tg = true
      ∧ owns_chat d o "bale" "group" bale = true
  | PairChannels _ o tg bale =>
      owns_chat d o "tg" "channel" tg = true
      ∧ owns_chat d o "bale" "channel" bale = true
  | CreateDmVerifyCode _ _ _ platform _ => platform = "bale"
  | _ => True
  end.

(** A handler keeps an invariant of the world. *)
Definition keeps (I : World → Prop) {A} (h : Handler A) : Prop :=
  ∀ w, I w → I (after (h w)).
Definition cb_keeps (I : World → Prop) {A} (h : Cb A) : Prop :=
  ∀ w, I w → I (world_after (h w)).

(** [o1] is not behind [o2]. *)
Definition offset_le (o1 o2 : option Z) : Prop :=
  match o1, o2 with
  | Some a, Some b => a ≤ b
  | None, _ => True
  | Some _, None => False
  end.


(** A callback returned or raised one of the exceptions of before. *)
Definition fine {A} (o : PyError + A) : Prop :=
  o ≠ inl KeyError ∧ o ≠ inl TypeError.
Definition cb_fine {A} (h : Cb A) : Prop :=
  ∀ w, sound w → fine (outcome (h w)).

(** ** The bot's own row

    [on_tg_dm] has no guard against the bot's own messages; what keeps them
    from being relayed is that the owner row that carries the bot's
    Telegram id never gets a Bale target. *)

(** The owner [o] has a row, and it is not the row of the Telegram id
    [bot]. *)
Definition not_the_bot (bot : Z) (d : DB) (o : Z) : Prop :=
  ∃ r, r ∈ users d ∧ user_id r = o ∧ tg_user_id r ≠ Some bot.

(** The row of the Telegram id [bot] has no Bale identity and no Bale
    target, and no DM code belongs to it. *)
Definition unbound (bot : Z) (d : DB) : Prop :=
  Forall (λ r, tg_user_id r = Some bot →
               bale_user_id r = None ∧ dm_target_bale_chat_id r = None)
         (users d)
  ∧ Forall (not_the_bot bot d) (dm_owner_user_id <$> dm_verify_tokens d).

Definition bot_unbound (bots : Bots) (w : World) : Prop :=
  TG_WIZ w !! tg_bot_id bots = None ∧ unbound (tg_bot_id bots) (store w).

(** The world is sound and the bot's row is unbound. *)
Definition guarded (bots : Bots) (w : World) : Prop :=
  sound w ∧ bot_unbound bots w.

(** The input is not a button pressed by the bot itself: a callback query
    comes from the user who pressed the button. *)
Definition pressed_by_a_user (bots : Bots) (i : Input) : Prop :=
  match i with
  | TgCallbackIn _ _ cq => tgu_id (cq_from_user cq) ≠ tg_bot_id bots
  | _ => True
  end.

(** * Proofs *)

(** * Verification tokens *)

Section Tokens.
Implicit Types (d : DB) (t : VerifyToken) (code platform : string).

Lemma select_verify_token_Some d code platform uid t :
  select_verify_token d code platform uid = Some t →
  t ∈ verify_tokens d ∧ vt_code t = code ∧ vt_platform t = platform
  ∧ vt_platform_user_id t = uid.
Proof.
  unfold select_verify_token. intros Hf.
  apply find_some in Hf as [Hin Hb].
  apply andb_prop in Hb as [Hb Hu]. apply andb_prop in Hb as [Hc Hp].
  apply String.eqb_eq in Hc, Hp. apply Z.eqb_eq in Hu.
  by rewrite list_elem_of_In.
Qed.

Lemma select_verify_token_None d code platform uid t :
  select_verify_token d code platform uid = None →
  t ∈ verify_tokens d →
  vt_code t ≠ code ∨ vt_platform t ≠ platform ∨ vt_platform_user_id t ≠ uid.
Proof.
  unfold select_verify_token. intros Hf Hin.
  apply list_elem_of_In in Hin.
  pose proof (find_none _ _ Hf _ Hin) as Hb. cbn beta in Hb.
  destruct (String.eqb_spec (vt_code t) code); [|by left].
  destruct (String.eqb_spec (vt_platform t) platform); [|by right; left].
  destruct (Z.eqb_spec (vt_platform_user_id t) uid); [done|by right; right].
Qed.

(** What a call of [consume_verify_code] does, case by case. *)
Lemma consume_verify_code_cases now code platform uid d :
  (consume_verify_code now code platform uid d = (d, None))
  ∨ ∃ t, select_verify_token d code platform uid = Some t
         ∧ vt_consumed t = 0 ∧ now ≤ vt_expires_at t
         ∧ consume_verify_code now code platform uid d
           = (update_verify_token_consumed code d,
              Some (vt_owner_user_id t, vt_chat_type t)).
Proof.
  unfold consume_verify_code.
  destruct (select_verify_token d code platform uid) as [t|]; [|by left].
  unfold int_true. destruct (Z.eqb_spec (vt_consumed t) 0); [|by left].
  destruct (Z.ltb_spec (vt_expires_at t) now); [by left|].
  right. exists t. by rewrite e.
Qed.

Lemma consume_verify_code_spent now code platform uid d :
  spent code d → consume_verify_code now code platform uid d = (d, None).
Proof.
  intros [_ Hall].
  destruct (consume_verify_code_cases now code platform uid d)
    as [|(t & Hsel & Hc & _)]; [done|].
  apply select_verify_token_Some in Hsel as (Hin & Hcode & _).
  rewrite Forall_forall in Hall. by destruct (Hall t Hin Hcode).
Qed.

Lemma update_consumed_spent code d :
  Exists (λ t, vt_code t = code) (verify_tokens d) →
  spent code (update_verify_token_consumed code d).
Proof.
  intros Hex. unfold spent, update_verify_token_consumed; simpl. split.
  - apply Exists_exists in Hex as (t & Hin & Hc).
    apply Exists_exists. exists (consume_token code t). split.
    + by apply list_elem_of_fmap_2.
    + unfold consume_token. by destruct (String.eqb (vt_code t) code).
  - apply Forall_fmap, Forall_forall. intros t _. simpl.
    unfold consume_token.
    destruct (String.eqb_spec (vt_code t) code); simpl; [done|].
    by intros.
Qed.

Lemma consume_verify_code_Some_spent now code platform uid d d' r :
  consume_verify_code now code platform uid d = (d', Some r) → spent code d'.
Proof.
  intros Hc.
  destruct (consume_verify_code_cases now code platform uid d)
    as [Hn|(t & Hsel & _ & _ & Heq)]; [congruence|].
  rewrite Heq in Hc. injection Hc as <- _.
  apply update_consumed_spent, Exists_exists. exists t.
  by apply select_verify_token_Some in Hsel as (? & ? & _).
Qed.

End Tokens.

(** * How the calls change [verify_tokens] *)

Lemma code_exists_false d code :
  code_exists d code = false →
  Forall (λ t, vt_code t ≠ code) (verify_tokens d).
Proof.
  unfold code_exists. intros Hex. apply Forall_forall. intros t Hin Hc.
  apply list_elem_of_In in Hin.
  assert (existsb (λ t, String.eqb (vt_code t) code) (verify_tokens d) = true)
    as Ht; [|congruence].
  apply existsb_exists. exists t. split; [done|]. by apply String.eqb_eq.
Qed.

Lemma get_or_create_user_by_tg_frame depth now tg d :
  let d' := (get_or_create_user_by_tg depth now tg d).1 in
  chats d' = chats d ∧ group_links d' = group_links d
  ∧ channel_links d' = channel_links d
  ∧ verify_tokens d' = verify_tokens d
  ∧ dm_verify_tokens d' = dm_verify_tokens d.
Proof.
  revert d. induction depth as [|n IH]; intros d; simpl;
    destruct (select_user_id_by_tg d tg); simpl; try done;
    unfold insert_user;
    destruct (tg_taken _ _ _ || bale_taken _ _ _); simpl; try done.
  match goal with |- context [get_or_create_user_by_tg n now tg ?x] =>
    specialize (IH x) end.
  simpl in IH. done.
Qed.

Lemma get_or_create_user_by_bale_frame depth now bale d :
  let d' := (get_or_create_user_by_bale depth now bale d).1 in
  chats d' = chats d ∧ group_links d' = group_links d
  ∧ channel_links d' = channel_links d
  ∧ verify_tokens d' = verify_tokens d
  ∧ dm_verify_tokens d' = dm_verify_tokens d.
Proof.
  revert d. induction depth as [|n IH]; intros d; simpl;
    destruct (select_user_id_by_bale d bale); simpl; try done;
    unfold insert_user;
    destruct (tg_taken _ _ _ || bale_taken _ _ _); simpl; try done.
  match goal with |- context [get_or_create_user_by_bale n now bale ?x] =>
    specialize (IH x) end.
  simpl in IH. done.
Qed.

Lemma merge_user_accounts_tokens now tg bale d :
  let l' := verify_tokens (merge_user_accounts now tg bale d).1 in
  l' = verify_tokens d ∨ ∃ new old, l' = reown_token new old <$> verify_tokens d.
Proof.
  unfold merge_user_accounts.
  destruct (_ && _ && _); [|destruct (_ && _); [|destruct (truthy _)]].
  - unfold transaction, update_user_tg. destruct (_ && _); simpl; eauto.
  - unfold transaction, update_user_bale. destruct (_ && _); simpl; eauto.
  - unfold transaction, update_user_tg. destruct (_ && _); simpl; eauto.
  - left. apply get_or_create_user_by_tg_frame.
Qed.

Lemma exec_tokens_step c d :
  tokens_step (verify_tokens d) (verify_tokens (exec c d)).
Proof.
  destruct c; cbn [exec].
  - rewrite (proj1 (proj2 (proj2 (proj2
               (get_or_create_user_by_tg_frame _ _ _ _))))). constructor.
  - rewrite (proj1 (proj2 (proj2 (proj2
               (get_or_create_user_by_bale_frame _ _ _ _))))). constructor.
  - unfold create_verify_code, transaction, insert_verify_token.
    destruct (code_exists d _) eqn:Hex; simpl; [constructor|].
    destruct (negb _ || negb _); simpl; [constructor|].
    apply tokens_minted; [|done]. by apply code_exists_false.
  - destruct (consume_verify_code_cases now code platform uid d)
      as [->|(t & _ & _ & _ & ->)]; simpl; constructor.
  - unfold create_dm_verify_code, transaction, insert_dm_verify_token.
    destruct (_ || _); simpl; constructor.
  - unfold consume_dm_verify_code.
    destruct (select_dm_verify_token d code); [|constructor].
    destruct (_ || _); [constructor|].
    destruct (_ <? _); simpl; constructor.
  - unfold register_chat, insert_or_ignore_chat; simpl.
    destruct (_ || _); simpl; constructor.
  - unfold pair_groups, transaction, insert_link.
    destruct (link_exists _ _ _); simpl; constructor.
  - unfold pair_channels, transaction, insert_link.
    destruct (link_exists _ _ _); simpl; constructor.
  - destruct (merge_user_accounts_tokens now tg bale d)
      as [->|(new & old & ->)]; constructor.
  - constructor.
  - constructor.
Qed.

Lemma tokens_step_spent code l l' :
  tokens_step l l' →
  Exists (λ t, vt_code t = code) l
  ∧ Forall (λ t, vt_code t = code → vt_consumed t ≠ 0) l →
  Exists (λ t, vt_code t = code) l'
  ∧ Forall (λ t, vt_code t = code → vt_consumed t ≠ 0) l'.
Proof.
  intros Hstep [Hex Hall]. destruct Hstep as [|t Hfresh Hz|c|new old].
  - done.
  - split; [apply Exists_app; by left|].
    apply Forall_app. split; [done|]. apply Forall_singleton. intros Hc.
    apply Exists_exists in Hex as (t' & Hin & Hc').
    rewrite Forall_forall in Hfresh. destruct (Hfresh t' Hin). congruence.
  - split.
    + apply Exists_fmap. eapply Exists_impl; [done|]. intros t Ht; simpl.
      unfold consume_token. by destruct (String.eqb _ _).
    + apply Forall_fmap. eapply Forall_impl; [done|]. intros t Ht; simpl.
      unfold consume_token. destruct (String.eqb _ _); simpl; [done|done].
  - split.
    + apply Exists_fmap. eapply Exists_impl; [done|]. intros t Ht; simpl.
      unfold reown_token. by destruct (_ =? _).
    + apply Forall_fmap. eapply Forall_impl; [done|]. intros t Ht; simpl.
      unfold reown_token. by destruct (_ =? _).
Qed.

Lemma exec_spent code c d : spent code d → spent code (exec c d).
Proof. apply tokens_step_spent, exec_tokens_step. Qed.

Lemma exec_all_spent code cs d : spent code d → spent code (exec_all cs d).
Proof.
  revert d. induction cs as [|c cs IH]; intros d Hs; [done|].
  simpl. by apply IH, exec_spent.
Qed.

Lemma tokens_step_codes l l' :
  tokens_step l l' → NoDup (vt_code <$> l) → NoDup (vt_code <$> l').
Proof.
  intros Hstep Hnd. destruct Hstep as [|t Hfresh Hz|c|new old].
  - done.
  - rewrite fmap_app. apply NoDup_app. split; [done|]. split.
    + intros x Hx Hx'. apply list_elem_of_fmap in Hx as (t' & -> & Hin).
      apply list_elem_of_singleton in Hx'.
      rewrite Forall_forall in Hfresh. by destruct (Hfresh t' Hin).
    + apply NoDup_singleton.
  - rewrite <-list_fmap_compose.
    erewrite list_fmap_ext; [done|]. intros i t _; simpl.
    unfold consume_token. by destruct (String.eqb _ _).
  - rewrite <-list_fmap_compose.
    erewrite list_fmap_ext; [done|]. intros i t _; simpl.
    unfold reown_token. by destruct (_ =? _).
Qed.

(** The primary key of [verify_tokens] holds in every reachable store. *)
Lemma exec_codes_unique c d : codes_unique d → codes_unique (exec c d).
Proof. apply tokens_step_codes, exec_tokens_step. Qed.

Lemma exec_all_codes_unique cs d :
  codes_unique d → codes_unique (exec_all cs d).
Proof.
  revert d. induction cs as [|c cs IH]; intros d Hs; [done|].
  simpl. by apply IH, exec_codes_unique.
Qed.

Lemma init_db_codes_unique : codes_unique init_db.
Proof. apply NoDup_nil_2. Qed.

(** * Redemption *)

(** C1.  A code is redeemed at most once: once [consume_verify_code] has
    returned an owner for a code, every later call with that code, on any
    platform, for any user, at any time and after any further calls that
    write the database, returns [None] and changes nothing. *)
Theorem consume_verify_code_at_most_once now code platform uid d d' r :
  consume_verify_code now code platform uid d = (d', Some r) →
  ∀ (later : list Call) now' platform' uid',
    consume_verify_code now' code platform' uid' (exec_all later d')
    = (exec_all later d', None).
Proof.
  intros Hc later now' platform' uid'.
  apply consume_verify_code_spent, exec_all_spent.
  by eapply consume_verify_code_Some_spent.
Qed.

Lemma consume_verify_code_at_most_once_witness :
  let d := (create_verify_code (String.list_ascii_of_string "ABC123") 0 1
                               "tg" "group" 10 init_db).1 in
  let d' := update_verify_token_consumed "G-ABC123" d in
  let later := [CreateVerifyCode (String.list_ascii_of_string "ABC123") 7 1
                                 "tg" "group" 10;
                MergeUserAccounts 8 10 20] in
  consume_verify_code 5 "G-ABC123" "tg" 10 d = (d', Some (1, "group"))
  ∧ consume_verify_code 9 "G-ABC123" "tg" 10 (exec_all later d')
    = (exec_all later d', None).
Proof.
  split; [reflexivity|].
  apply (consume_verify_code_at_most_once 5 "G-ABC123" "tg" 10
           (create_verify_code (String.list_ascii_of_string "ABC123") 0 1
                               "tg" "group" 10 init_db).1 _ (1, "group")).
  reflexivity.
Defined.

(** What [create_verify_code] stores when it returns. *)
Lemma create_verify_code_Ok picks issued owner platform type uid d d1 code :
  create_verify_code picks issued owner platform type uid d = (d1, Ok code) →
  code = gen_code (if String.eqb type "group" then "G" else "C") picks
  ∧ Forall (λ t, vt_code t ≠ code) (verify_tokens d)
  ∧ verify_tokens d1
    = verify_tokens d
      ++ [mkVerifyToken code owner platform type uid (issued + ten_minutes) 0].
Proof.
  unfold create_verify_code, transaction, insert_verify_token.
  destruct (code_exists d _) eqn:Hex; simpl; [done|].
  destruct (negb _ || negb _); simpl; [done|].
  intros [= <- <-]. split; [done|]. split; [|done].
  by apply code_exists_false.
Qed.

Lemma select_minted_token l t :
  Forall (λ t', vt_code t' ≠ vt_code t) l →
  List.find (λ t', String.eqb (vt_code t') (vt_code t)
                   && String.eqb (vt_platform t') (vt_platform t)
                   && (vt_platform_user_id t' =? vt_platform_user_id t))
            (l ++ [t]) = Some t.
Proof.
  induction 1 as [|t' l Hne _ IH]; simpl.
  - by rewrite !String.eqb_refl, Z.eqb_refl.
  - by apply String.eqb_neq in Hne as ->.
Qed.

Lemma tokens_step_minted_as code platform type uid expires l l' :
  tokens_step l l' →
  Exists (minted_as code platform type uid expires) l →
  Exists (minted_as code platform type uid expires) l'.
Proof.
  intros Hstep Hex. destruct Hstep as [|t Hfresh Hz|c|new old].
  - done.
  - apply Exists_app. by left.
  - apply Exists_fmap. eapply Exists_impl; [done|]. intros t Ht; simpl.
    unfold consume_token. by destruct (String.eqb _ _).
  - apply Exists_fmap. eapply Exists_impl; [done|]. intros t Ht; simpl.
    unfold reown_token. by destruct (_ =? _).
Qed.

Lemma exec_all_minted_as code platform type uid expires cs d :
  Exists (minted_as code platform type uid expires) (verify_tokens d) →
  Exists (minted_as code platform type uid expires)
         (verify_tokens (exec_all cs d)).
Proof.
  revert d. induction cs as [|c cs IH]; intros d Hex; [done|].
  simpl. apply IH. eapply tokens_step_minted_as; [|done].
  apply exec_tokens_step.
Qed.

(** Under the primary key, the row selected for a code is the row of that
    code, whatever platform and user the call names. *)
Lemma select_verify_token_unique d code platform uid t :
  codes_unique d → t ∈ verify_tokens d → vt_code t = code →
  select_verify_token d code platform uid
  = if String.eqb (vt_platform t) platform && (vt_platform_user_id t =? uid)
    then Some t else None.
Proof.
  intros Huniq Hin Hcode.
  destruct (select_verify_token d code platform uid) as [t'|] eqn:Hsel.
  - apply select_verify_token_Some in Hsel as (Hin' & Hcode' & Hp & Hu).
    assert (t' = t) as ->.
    { apply list_elem_of_lookup in Hin as [i Hi], Hin' as [j Hj].
      assert (j = i) as ->; [|congruence].
      eapply NoDup_lookup; [exact Huniq| |].
      - by rewrite list_lookup_fmap, Hj.
      - rewrite list_lookup_fmap, Hi. simpl. congruence. }
    apply String.eqb_eq in Hp as ->. by apply Z.eqb_eq in Hu as ->.
  - destruct (String.eqb_spec (vt_platform t) platform) as [Hp|]; [|done].
    destruct (Z.eqb_spec (vt_platform_user_id t) uid) as [Hu|]; [|done].
    apply find_none with (x := t) in Hsel;
      [|by apply list_elem_of_In].
    simpl in Hsel. rewrite Hcode, Hp, Hu in Hsel.
    by rewrite !String.eqb_refl, Z.eqb_refl in Hsel.
Qed.

(** C5, as amended.  A token minted at [issued] expires at
    [issued + ten_minutes].  Whatever the program has written to the
    database since, a redemption when the clock is strictly past the expiry
    is rejected, for every platform and user and whether or not the token
    has been used; and at any time up to and including the expiry instant
    the user the token was minted for redeems it, unless it has been
    redeemed before: expiry does not make it fail. *)
Theorem consume_verify_code_expiry
    picks issued owner platform type uid d d1 code calls now :
  codes_unique d →
  create_verify_code picks issued owner platform type uid d = (d1, Ok code) →
  let d2 := exec_all calls d1 in
  (issued + ten_minutes < now →
   ∀ platform' uid',
     consume_verify_code now code platform' uid' d2 = (d2, None))
  ∧ (now ≤ issued + ten_minutes → ¬ spent code d2 →
     ∃ owner',
       consume_verify_code now code platform uid d2
       = (update_verify_token_consumed code d2, Some (owner', type))).
Proof.
  intros Huniq Hc d2.
  assert (codes_unique d2) as Huniq2.
  { apply exec_all_codes_unique.
    pose proof (exec_codes_unique
                  (CreateVerifyCode picks issued owner platform type uid)
                  d Huniq) as Hu1.
    cbn [exec] in Hu1. by rewrite Hc in Hu1. }
  apply create_verify_code_Ok in Hc as (_ & _ & Htok).
  assert (Exists (minted_as code platform type uid (issued + ten_minutes))
                 (verify_tokens d2)) as Hex.
  { apply exec_all_minted_as. rewrite Htok. apply Exists_app. right.
    by apply Exists_cons_hd. }
  apply Exists_exists in Hex as (t & Hin & Hcode & Hp & Hty & Hu & Hexp).
  split.
  - intros Hlate platform' uid'. unfold consume_verify_code.
    rewrite (select_verify_token_unique d2 code platform' uid' t) by done.
    destruct (_ && _); [|done]. destruct (int_true _); [done|].
    rewrite Hexp. by apply Z.ltb_lt in Hlate as ->.
  - intros Hearly Hfresh. exists (vt_owner_user_id t).
    unfold consume_verify_code.
    rewrite (select_verify_token_unique d2 code platform uid t) by done.
    rewrite Hp, Hu, String.eqb_refl, Z.eqb_refl. cbn [andb].
    unfold int_true. destruct (Z.eqb_spec (vt_consumed t) 0) as [_|Hused].
    + cbn [negb]. rewrite Hexp, Hty. by apply Z.ltb_ge in Hearly as ->.
    + destruct Hfresh. split.
      * apply Exists_exists. by exists t.
      * apply Forall_forall. intros t' Hin' Hcode'.
        assert (t' = t) as ->; [|done].
        apply list_elem_of_lookup in Hin as [i Hi], Hin' as [j Hj].
        assert (j = i) as ->; [|congruence].
        eapply NoDup_lookup; [exact Huniq2| |].
        -- by rewrite list_lookup_fmap, Hj.
        -- rewrite list_lookup_fmap, Hi. simpl. congruence.
Qed.

Lemma consume_verify_code_expiry_witness :
  let picks := String.list_ascii_of_string "ABC123" in
  let d1 := (create_verify_code picks 0 1 "tg" "group" 10 init_db).1 in
  let d2 := exec_all [RegisterChat 3 1 "tg" "group" (-100) "Room";
                      ConsumeVerifyCode 4 "G-ABC123" "bale" 10] d1 in
  codes_unique init_db
  ∧ create_verify_code picks 0 1 "tg" "group" 10 init_db = (d1, Ok "G-ABC123")
  ∧ consume_verify_code (ten_minutes + 1) "G-ABC123" "tg" 10 d2 = (d2, None)
  ∧ ∃ owner',
      consume_verify_code ten_minutes "G-ABC123" "tg" 10 d2
      = (update_verify_token_consumed "G-ABC123" d2, Some (owner', "group")).
Proof.
  split; [apply init_db_codes_unique|]. split; [reflexivity|].
  pose proof (consume_verify_code_expiry
                (String.list_ascii_of_string "ABC123") 0 1 "tg" "group" 10
                init_db
                (create_verify_code
                   (String.list_ascii_of_string "ABC123") 0 1 "tg" "group"
                   10 init_db).1
                "G-ABC123"
                [RegisterChat 3 1 "tg" "group" (-100) "Room";
                 ConsumeVerifyCode 4 "G-ABC123" "bale" 10]) as Hw.
  split.
  - apply (Hw (ten_minutes + 1) init_db_codes_unique eq_refl). reflexivity.
  - apply (Hw ten_minutes init_db_codes_unique eq_refl); [reflexivity|].
    intros [_ Hall]. vm_compute in Hall.
    apply Forall_cons in Hall as [Hall _]. by apply Hall.
Defined.

(** C5, as stated, fails: at the expiry instant itself the code is still
    accepted, because the source rejects only when [expires_at < now]. *)
Lemma rejection_at_expiry_instant_fails :
  ¬ (∀ picks issued owner platform type uid d d1 code now,
       create_verify_code picks issued owner platform type uid d
       = (d1, Ok code) →
       issued + ten_minutes ≤ now →
       (consume_verify_code now code platform uid d1).2 = None).
Proof.
  intros Hall.
  specialize (Hall (String.list_ascii_of_string "ABC123") 0 1 "tg" "group"
                     10 init_db
                     (create_verify_code
                        (String.list_ascii_of_string "ABC123") 0 1 "tg"
                        "group" 10 init_db).1
                     "G-ABC123" ten_minutes eq_refl).
  discriminate Hall. reflexivity.
Qed.

(** C6.  A code can only be redeemed on the platform and by the user it
    was minted for: [consume_verify_code] returns an owner only if a stored
    token has the code, the platform and the user id of the call, and it
    returns [None] whenever the token of that code was minted for another
    platform or another user, or no token has the code. *)
Theorem consume_verify_code_binding now code platform uid d :
  codes_unique d →
  (∀ r, (consume_verify_code now code platform uid d).2 = Some r →
        ∃ t, t ∈ verify_tokens d ∧ vt_code t = code
             ∧ vt_platform t = platform ∧ vt_platform_user_id t = uid
             ∧ r = (vt_owner_user_id t, vt_chat_type t))
  ∧ (∀ t, t ∈ verify_tokens d → vt_code t = code →
          vt_platform t ≠ platform ∨ vt_platform_user_id t ≠ uid →
          consume_verify_code now code platform uid d = (d, None))
  ∧ ((∀ t, t ∈ verify_tokens d → vt_code t ≠ code) →
     consume_verify_code now code platform uid d = (d, None)).
Proof.
  intros Huniq.
  destruct (consume_verify_code_cases now code platform uid d)
    as [Hn|(t & Hsel & _ & _ & Heq)].
  { rewrite Hn. by repeat split. }
  rewrite Heq.
  apply select_verify_token_Some in Hsel as (Hin & Hcode & Hp & Hu).
  split; [|split].
  - intros r [= <-]. by exists t.
  - intros t' Hin' Hcode' Hdiff.
    cut (t' = t); [intros ->; by destruct Hdiff as [[]|[]]|].
    apply list_elem_of_lookup in Hin as [i Hi], Hin' as [j Hj].
    assert (i = j) as ->; [|congruence].
    eapply NoDup_lookup; [exact Huniq| |].
    + by rewrite list_lookup_fmap, Hi.
    + rewrite list_lookup_fmap, Hj. simpl. congruence.
  - intros Hnone. by destruct (Hnone t Hin).
Qed.

Lemma consume_verify_code_binding_witness :
  let d := (create_verify_code (String.list_ascii_of_string "ABC123") 0 1
                               "tg" "group" 10 init_db).1 in
  codes_unique d
  ∧ consume_verify_code 5 "G-ABC123" "bale" 10 d = (d, None)
  ∧ consume_verify_code 5 "G-ABC123" "tg" 11 d = (d, None).
Proof.
  assert (codes_unique
            (create_verify_code (String.list_ascii_of_string "ABC123") 0 1
                                "tg" "group" 10 init_db).1) as Hu.
  { apply (exec_codes_unique (CreateVerifyCode _ _ _ _ _ _)),
      init_db_codes_unique. }
  split; [exact Hu|].
  pose proof (consume_verify_code_binding 5 "G-ABC123") as Hw.
  split.
  - destruct (Hw "bale" 10 _ Hu) as (_ & Hother & _).
    eapply Hother; [apply list_elem_of_here|reflexivity|by left].
  - destruct (Hw "tg" 11 _ Hu) as (_ & Hother & _).
    eapply Hother; [apply list_elem_of_here|reflexivity|by right].
Defined.

(** * Chat registration *)

Lemma chat_registered_app d platform cid c :
  chat_registered (set_chats (λ l, l ++ [c]) d) platform cid
  = chat_registered d platform cid
    || (String.eqb (chat_platform c) platform && (chat_id c =? cid)).
Proof.
  unfold chat_registered; simpl. rewrite existsb_app; simpl.
  by rewrite orb_false_r.
Qed.

Lemma insert_or_ignore_chat_twice c d :
  insert_or_ignore_chat c (insert_or_ignore_chat c d)
  = insert_or_ignore_chat c d.
Proof.
  unfold insert_or_ignore_chat at 2.
  destruct (negb (check_platform _) || negb (check_chat_type _)) eqn:Hchk;
    simpl; [unfold insert_or_ignore_chat; by rewrite Hchk|].
  destruct (chat_registered d _ _) eqn:Hreg;
    [unfold insert_or_ignore_chat; by rewrite Hchk, Hreg|].
  unfold insert_or_ignore_chat.
  rewrite Hchk, chat_registered_app, Hreg; simpl.
  by rewrite String.eqb_refl, Z.eqb_refl.
Qed.

(** C9, as amended.  [register_chat] never raises; a (platform, chat_id)
    that is already registered is silently left as it is, whoever the new
    owner is; the rows already stored are kept unchanged; and registering
    the same chat a second time changes nothing. *)
Theorem register_chat_ignores_duplicates now owner platform type cid title d :
  let d1 := (register_chat now owner platform type cid title d).1 in
  (register_chat now owner platform type cid title d).2 = Ok ()
  ∧ (∃ l, chats d1 = chats d ++ l)
  ∧ (∀ now' owner' type' title',
       chat_registered d platform cid = true →
       register_chat now' owner' platform type' cid title' d = (d, Ok ()))
  ∧ register_chat now owner platform type cid title d1 = (d1, Ok ()).
Proof.
  unfold register_chat; simpl.
  split; [done|]. split; [|split].
  - unfold insert_or_ignore_chat.
    destruct (_ || _); simpl; [exists []; by rewrite app_nil_r|by eexists].
  - intros now' owner' type' title' Hreg. unfold insert_or_ignore_chat; simpl.
    by rewrite Hreg, orb_true_r.
  - by rewrite insert_or_ignore_chat_twice.
Qed.

(** C9, as stated, fails: registering a chat that another owner has
    already registered raises nothing; the INSERT OR IGNORE skips the row. *)
Lemma register_chat_conflict_not_surfaced :
  ¬ (∀ now owner owner' platform type cid title d c,
       c ∈ chats d → chat_platform c = platform → chat_id c = cid →
       chat_owner_user_id c = owner → owner' ≠ owner →
       (register_chat now owner' platform type cid title d).2
       = Raise IntegrityError).
Proof.
  intros Hall.
  specialize (Hall 0 1 2 "tg" "group" 5 "t"
                (set_chats (λ _, [mkChat 1 "tg" "group" 5 "t" 0]) init_db)
                (mkChat 1 "tg" "group" 5 "t" 0)).
  discriminate Hall; [apply list_elem_of_here|done..].
Qed.

(** * Routing *)

Lemma startswith_trans s p q :
  startswith p q = true → startswith s p = true → startswith s q = true.
Proof.
  unfold startswith. revert p s. induction q as [|c q IH]; intros p s.
  - by destruct s.
  - destruct p as [|c' p]; simpl; [done|].
    destruct (Ascii.ascii_dec c c'); [subst c'|done].
    intros Hq. destruct s as [|c'' s]; simpl; [done|].
    destruct (Ascii.ascii_dec c c''); [|done]. by apply IH.
Qed.

Lemma not_verify_not_verify_dm text :
  is_verify_command text = false →
  from_option (λ s, startswith s "/verify_dm") false text = false.
Proof.
  destruct text as [s|]; simpl; [|done]. intros Hv.
  destruct (startswith s "/verify_dm") eqn:Hdm; [|done].
  rewrite <-Hv. symmetry.
  by apply (startswith_trans s "/verify_dm").
Qed.

Ltac run_handler :=
  unfold mbind, handler_bind, hbind, mret, handler_ret, hret, query, send,
    raise, attr; simpl.

Section Routing.
Context `{PyStr}.
Variables (bots : Bots) (config : Config).

Lemma on_tg_group_forward_unpaired m w :
  no_live_pairing (find_group_link_by_tg (store w) (tg_chat_id m)) →
  on_tg_group_forward bots m w = mkOutcome w [] (Ok ()).
Proof.
  intros Hl. unfold on_tg_group_forward.
  destruct (tg_from_user m) as [u|]; [|done].
  destruct (tgu_id u =? tg_bot_id bots); [done|]. run_handler.
  destruct (find_group_link_by_tg _ _) as [k|]; [|done].
  simpl in Hl. by rewrite Hl.
Qed.

Lemma on_tg_channel_post_unpaired m w :
  no_live_pairing (find_channel_link_by_tg (store w) (tg_chat_id m)) →
  on_tg_channel_post bots m w = mkOutcome w [] (Ok ()).
Proof.
  intros Hl. unfold on_tg_channel_post.
  destruct (is_self_tg bots m); [done|]. run_handler.
  destruct (find_channel_link_by_tg _ _) as [k|]; [|done].
  simpl in Hl. by rewrite Hl.
Qed.

(** C8.  A group or channel message that reaches the routing step, from a
    chat that has no pairing row or whose pairing row is disabled, is
    dropped: the handler returns without raising, queues no outbound call
    and leaves the database and the wizard dicts as they were. *)
Theorem unpaired_routing_is_silent t e w :
  routed e →
  no_live_pairing (pairing_of (store w) e) →
  on_event bots config t e w = mkOutcome w [] (Ok ()).
Proof.
  destruct e as [m|m|m]; simpl.
  - intros [Hty Hcmd] Hl. unfold tg_dispatch_message.
    rewrite (not_verify_not_verify_dm _ Hcmd).
    unfold is_verify_command in Hcmd. rewrite Hcmd.
    destruct Hty as [-> | ->]; simpl; by apply on_tg_group_forward_unpaired.
  - intros _. apply on_tg_channel_post_unpaired.
  - intros [Hty Hcmd] Hl. unfold bale_on_message.
    destruct (negb _ && _); [done|].
    pose proof (not_verify_not_verify_dm _ Hcmd) as Hdm.
    set (text := text_or (bale_text m) (bale_caption m)) in *.
    assert (startswith (or_empty text) "/verify_dm" && text_true text
            = false) as Hdm'.
    { destruct text as [s|]; simpl in *; [by rewrite Hdm|by rewrite ?andb_false_r]. }
    assert (startswith (or_empty text) "/verify" && text_true text
            = false) as Hcmd'.
    { unfold is_verify_command in Hcmd.
      destruct text as [s|]; simpl in *; [by rewrite Hcmd|by rewrite ?andb_false_r]. }
    rewrite (andb_comm (text_true text)), Hdm'.
    rewrite (andb_comm (text_true text)), Hcmd'.
    destruct Hty as [Hty | Hty]; rewrite Hty in *; simpl in *; run_handler.
    + destruct (find_group_link_by_bale _ _) as [k|]; [|done].
      simpl in Hl. by rewrite Hl.
    + destruct (find_channel_link_by_bale _ _) as [k|]; [|done].
      simpl in Hl. by rewrite Hl.
Qed.

End Routing.

Lemma unpaired_routing_is_silent_witness :
  let bots := mkBots 999 888 in
  let e := TgMessageEvent
             (mkTgMessage (-100) "group" (Some "g")
                (Some (mkTgUser 5 None (Some "Ann") None))
                (Some "hi") None []) in
  let w := mkWorld (set_group_links (λ _, [mkLink 1 (-100) 200 0 0]) init_db)
                   ∅ ∅ in
  routed e ∧ no_live_pairing (pairing_of (store w) e)
  ∧ on_event bots (mkConfig false None) (mkTick 0 []) e w
    = mkOutcome w [] (Ok ()).
Proof.
  split; [split; [by left|reflexivity]|]. split; [reflexivity|].
  apply (unpaired_routing_is_silent (mkBots 999 888)).
  - split; [by left|reflexivity].
  - reflexivity.
Defined.

(** * The self-loop guard *)

Section SelfLoop.
Context `{PyStr}.
Variables (bots : Bots) (config : Config).

(** On Bale the guard is the first thing the message part of the loop
    does: a message of the bot itself (whose id is not 0) is dropped before
    anything is read or sent. *)
Lemma bale_self_message_dropped t m w :
  from_self bots (BaleMessageEvent m) → bale_self_id bots ≠ 0 →
  on_event bots config t (BaleMessageEvent m) w = mkOutcome w [] (Ok ()).
Proof.
  simpl. intros Hself Hnz. unfold bale_on_message.
  destruct (bale_author m) as [a|]; [|done]. simpl in *.
  injection Hself as ->. rewrite Z.eqb_refl.
  by apply Z.eqb_neq in Hnz as ->.
Qed.

(** A channel post of the bot itself is dropped. *)
Lemma tg_self_channel_post_dropped t m w :
  from_self bots (TgChannelPostEvent m) →
  on_event bots config t (TgChannelPostEvent m) w = mkOutcome w [] (Ok ()).
Proof.
  simpl. intros Hself. unfold tg_dispatch_channel_post, on_tg_channel_post.
  unfold is_self_tg. destruct (tg_from_user m) as [u|]; [|done].
  simpl in Hself. injection Hself as ->. by rewrite Z.eqb_refl.
Qed.

Lemma on_tg_verify_dm_stays_on_telegram t m w :
  List.filter via_bale (sent (on_tg_verify_dm t m w)) = [].
Proof.
  unfold on_tg_verify_dm, run, commit. run_handler.
  destruct (consume_dm_verify_code _ _ _ _ _) as [d' r]; simpl.
  by destruct (truthy r).
Qed.

(** A message of the bot itself in a group, a supergroup or any chat other
    than a private one is never relayed to Bale. *)
Lemma tg_self_message_not_forwarded_outside_private t m w :
  from_self bots (TgMessageEvent m) → tg_chat_type m ≠ "private" →
  forwarded (TgMessageEvent m)
            (sent (on_event bots config t (TgMessageEvent m) w)) = [].
Proof.
  simpl. intros Hself Hpriv. unfold tg_dispatch_message.
  apply String.eqb_neq in Hpriv as ->; simpl.
  destruct (from_option _ false (tg_text m));
    [apply on_tg_verify_dm_stays_on_telegram|].
  destruct (tg_from_user m) as [u|] eqn:Hu; [|done].
  simpl in Hself. injection Hself as Hid.
  destruct (from_option _ false (tg_text m)).
  { unfold on_tg_verify_in_group, is_self_tg.
    by rewrite Hu, Hid, Z.eqb_refl. }
  destruct (_ || _); [|done].
  unfold on_tg_group_forward. by rewrite Hu, Hid, Z.eqb_refl.
Qed.

End SelfLoop.

(** [on_tg_dm], the handler of private Telegram messages, does not look at
    the author: in a world where the owner row of the bot's own Telegram id
    had a Bale target, a private message of the bot would be relayed there.
    The bridge does not reach such a world as long as the bot presses none
    of its own buttons; that is proved below, with the worlds the bridge
    reaches. *)
Lemma on_tg_dm_does_not_look_at_the_author :
  let bots := mkBots 999 888 in
  let e := TgMessageEvent
             (mkTgMessage 999 "private" None
                (Some (mkTgUser 999 None (Some "Bridge") None))
                (Some "hello") None []) in
  let w := mkWorld
             (set_users (λ _, [mkUser 1 (Some 999) None (Some 777) None 0])
                        init_db) ∅ ∅ in
  from_self bots e
  ∧ forwarded e (sent (on_event bots (mkConfig false None) (mkTick 5 []) e w))
    = [ViaBale 777 (Text "[From Telegram DM] Bridge: hello")].
Proof. split; reflexivity. Qed.

(** * Owners *)

Section Users.
Implicit Types (d : DB) (u v : User) (us : list User) (a b x : Z).

Lemma find_None_iff {A} (P : A → bool) (l : list A) :
  List.find P l = None ↔ Forall (λ y, P y = false) l.
Proof.
  induction l as [|y l IH]; simpl; [by split|].
  destruct (P y) eqn:HP.
  - split; [done|]. intros HF. apply Forall_cons in HF as [? _]. congruence.
  - rewrite IH. split; [intros ?; by constructor|].
    by intros [_ ?]%Forall_cons.
Qed.

Lemma find_Some_elem {A} (P : A → bool) (l : list A) y :
  List.find P l = Some y → y ∈ l ∧ P y = true.
Proof. intros [? ?]%find_some. by rewrite list_elem_of_In. Qed.

Lemma find_is_Some {A} (P : A → bool) (l : list A) y :
  y ∈ l → P y = true → is_Some (List.find P l).
Proof.
  intros Hin HP. destruct (List.find P l) eqn:Hf; [done|].
  apply find_None_iff in Hf. rewrite Forall_forall in Hf.
  specialize (Hf y Hin). congruence.
Qed.

Lemma find_app_fresh {A} (P : A → bool) (l : list A) y :
  Forall (λ z, P z = false) l → P y = true → List.find P (l ++ [y]) = Some y.
Proof.
  induction 1 as [|z l Hz _ IH]; simpl; intros HP.
  - by rewrite HP.
  - rewrite Hz. by apply IH.
Qed.

Lemma find_map_same {A} (P : A → bool) (g : A → A) (l : list A) :
  (∀ y, P (g y) = P y) → List.find P (map g l) = g <$> List.find P l.
Proof.
  intros Hg. induction l as [|y l IH]; simpl; [done|].
  rewrite Hg. by destruct (P y).
Qed.

Lemma existsb_false_iff {A} (P : A → bool) (l : list A) :
  existsb P l = false ↔ Forall (λ y, P y = false) l.
Proof.
  induction l as [|y l IH]; simpl; [by split|].
  rewrite orb_false_iff, IH. split; [intros []; by constructor|].
  by intros [? ?]%Forall_cons.
Qed.

Lemma existsb_true_intro {A} (P : A → bool) (l : list A) y :
  y ∈ l → P y = true → existsb P l = true.
Proof.
  intros Hin HP. apply existsb_exists. exists y.
  by rewrite <-list_elem_of_In.
Qed.

(** The non-NULL values of a unique column identify the row. *)
Lemma unique_column (f : User → option Z) us u v x :
  NoDup (omap f us) → u ∈ us → v ∈ us → f u = Some x → f v = Some x → u = v.
Proof.
  induction us as [|w us IH]; intros Hnd Hu Hv Hfu Hfv;
    [by apply elem_of_nil in Hu|].
  assert (∀ y, y ∈ us → f y = Some x → x ∈ omap f us) as Hin.
  { intros y Hy Hfy. apply list_elem_of_omap. by exists y. }
  simpl in Hnd. apply elem_of_cons in Hu, Hv.
  destruct (f w) as [z|] eqn:Hfw.
  - apply NoDup_cons in Hnd as [Hz Hnd].
    destruct Hu as [->|Hu], Hv as [->|Hv]; [done| | |by apply IH].
    + destruct Hz. assert (z = x) as -> by congruence. by eapply Hin.
    + destruct Hz. assert (z = x) as -> by congruence. by eapply Hin.
  - destruct Hu as [->|Hu], Hv as [->|Hv]; [done|congruence..|by apply IH].
Qed.

Lemma unique_id us u v :
  NoDup (user_id <$> us) → u ∈ us → v ∈ us → user_id u = user_id v → u = v.
Proof.
  intros Hnd [i Hi]%list_elem_of_lookup [j Hj]%list_elem_of_lookup Hid.
  assert (i = j) as ->; [|congruence].
  eapply NoDup_lookup; [exact Hnd| |]; rewrite list_lookup_fmap.
  - by rewrite Hi.
  - rewrite Hj. simpl. by rewrite Hid.
Qed.

Lemma select_user_id_by_tg_Some d x a :
  select_user_id_by_tg d x = Some a →
  ∃ u, u ∈ users d ∧ user_id u = a ∧ tg_user_id u = Some x.
Proof.
  unfold select_user_id_by_tg. intros Hs.
  destruct (List.find _ _) as [u|] eqn:Hf; [|done].
  apply find_Some_elem in Hf as [Hin Hx]. injection Hs as <-.
  exists u. split; [done|]. split; [done|].
  unfold sql_eq in Hx. destruct (tg_user_id u); [|done].
  by apply Z.eqb_eq in Hx as ->.
Qed.

Lemma select_user_id_by_bale_Some d x b :
  select_user_id_by_bale d x = Some b →
  ∃ u, u ∈ users d ∧ user_id u = b ∧ bale_user_id u = Some x.
Proof.
  unfold select_user_id_by_bale. intros Hs.
  destruct (List.find _ _) as [u|] eqn:Hf; [|done].
  apply find_Some_elem in Hf as [Hin Hx]. injection Hs as <-.
  exists u. split; [done|]. split; [done|].
  unfold sql_eq in Hx. destruct (bale_user_id u); [|done].
  by apply Z.eqb_eq in Hx as ->.
Qed.

Lemma select_user_id_by_tg_None d x :
  select_user_id_by_tg d x = None →
  Forall (λ u, sql_eq (tg_user_id u) x = false) (users d).
Proof.
  unfold select_user_id_by_tg. intros Hs. apply find_None_iff.
  by destruct (List.find _ _).
Qed.

Lemma select_user_id_by_bale_None d x :
  select_user_id_by_bale d x = None →
  Forall (λ u, sql_eq (bale_user_id u) x = false) (users d).
Proof.
  unfold select_user_id_by_bale. intros Hs. apply find_None_iff.
  by destruct (List.find _ _).
Qed.

Lemma sql_eq_Some x : sql_eq (Some x) x = true.
Proof. apply Z.eqb_refl. Qed.

Lemma sql_eq_true o x : sql_eq o x = true → o = Some x.
Proof. destruct o; simpl; [|done]. by intros ->%Z.eqb_eq. Qed.

(** A row is selected as soon as one matches and all that match carry the
    same id. *)
Lemma select_unique (P : User → bool) us a :
  (∃ u, u ∈ us ∧ P u = true) →
  (∀ u, u ∈ us → P u = true → user_id u = a) →
  user_id <$> List.find P us = Some a.
Proof.
  intros (u & Hin & HP) Hall.
  destruct (find_is_Some P us u Hin HP) as [y Hy]. rewrite Hy; simpl.
  apply find_Some_elem in Hy as [? ?]. f_equal. by apply Hall.
Qed.

Lemma tg_free d self x :
  (∀ u, u ∈ users d → tg_user_id u = Some x → user_id u = self) →
  tg_taken d self (Some x) = false.
Proof.
  intros Hall. unfold tg_taken. apply existsb_false_iff, Forall_forall.
  intros u Hin. destruct (sql_eq (tg_user_id u) x) eqn:Hx;
    [|apply andb_false_r].
  apply sql_eq_true in Hx. rewrite (Hall u Hin Hx), Z.eqb_refl. done.
Qed.

Lemma bale_free d self x :
  (∀ u, u ∈ users d → bale_user_id u = Some x → user_id u = self) →
  bale_taken d self (Some x) = false.
Proof.
  intros Hall. unfold bale_taken. apply existsb_false_iff, Forall_forall.
  intros u Hin. destruct (sql_eq (bale_user_id u) x) eqn:Hx;
    [|apply andb_false_r].
  apply sql_eq_true in Hx. rewrite (Hall u Hin Hx), Z.eqb_refl. done.
Qed.

Lemma tg_taken_intro d self x u :
  u ∈ users d → tg_user_id u = Some x → user_id u ≠ self →
  tg_taken d self (Some x) = true.
Proof.
  intros Hin Hx Hne. unfold tg_taken. apply (existsb_true_intro _ _ u Hin).
  rewrite Hx, sql_eq_Some. by apply Z.eqb_neq in Hne as ->.
Qed.

Lemma has_user_intro d u : u ∈ users d → has_user d (user_id u) = true.
Proof.
  intros Hin. apply (existsb_true_intro _ _ u Hin), Z.eqb_refl.
Qed.

Lemma next_rowid_fresh d :
  0 ≤ users_seq d →
  0 < next_rowid d ∧ Forall (λ u, user_id u < next_rowid d) (users d).
Proof.
  unfold next_rowid. intros Hseq.
  assert (users_seq d ≤ foldr Z.max (users_seq d) (user_id <$> users d)
          ∧ Forall (λ u, user_id u
                         ≤ foldr Z.max (users_seq d) (user_id <$> users d))
                   (users d)) as [Hs Hall].
  { induction (users d) as [|u us [IH1 IH2]]; csimpl; [done|].
    split; [lia|]. constructor; [lia|].
    eapply Forall_impl; [exact IH2|]. simpl. lia. }
  split; [lia|]. eapply Forall_impl; [exact Hall|]. simpl. lia.
Qed.

End Users.

(** * Account merge, case by case *)

Section Merge.
Implicit Types (d : DB) (u v : User) (a b tg bale : Z).

Lemma insert_user_tg_Ok now tg d :
  select_user_id_by_tg d tg = None →
  insert_user (Some tg) None now d
  = Ok (append_user (mkUser (next_rowid d) (Some tg) None None None now) d).
Proof.
  intros Hn. unfold insert_user.
  rewrite tg_free; [done|]. intros u Hin Hx.
  apply select_user_id_by_tg_None in Hn. rewrite Forall_forall in Hn.
  specialize (Hn u Hin). by rewrite Hx, sql_eq_Some in Hn.
Qed.

Lemma select_tg_append_user d u tg :
  select_user_id_by_tg d tg = None → tg_user_id u = Some tg →
  select_user_id_by_tg (append_user u d) tg = Some (user_id u).
Proof.
  intros Hn Hu. unfold select_user_id_by_tg; simpl.
  rewrite find_app_fresh; [done| |by rewrite Hu, sql_eq_Some].
  by apply select_user_id_by_tg_None.
Qed.

Lemma select_bale_append_user d u bale :
  select_user_id_by_bale d bale = None → bale_user_id u = None →
  select_user_id_by_bale (append_user u d) bale = None.
Proof.
  intros Hn Hu. unfold select_user_id_by_bale; simpl.
  cut (List.find (λ v, sql_eq (bale_user_id v) bale) (users d ++ [u]) = None);
    [by intros ->|].
  apply find_None_iff, Forall_app. split.
  - by apply select_user_id_by_bale_None.
  - apply Forall_singleton. by rewrite Hu.
Qed.

(** The recursive call of [get_or_create_user_by_tg] finds the row the
    INSERT has just added: one level of recursion is all it takes. *)
Lemma get_or_create_user_by_tg_new depth now tg d :
  select_user_id_by_tg d tg = None →
  get_or_create_user_by_tg (S depth) now tg d
  = (append_user (mkUser (next_rowid d) (Some tg) None None None now) d,
     Ok (next_rowid d)).
Proof.
  intros Hn. simpl. rewrite Hn, (insert_user_tg_Ok _ _ _ Hn).
  destruct depth; simpl; by rewrite (select_tg_append_user _ _ _ Hn).
Qed.

Lemma get_or_create_user_by_tg_found depth now tg d a :
  select_user_id_by_tg d tg = Some a →
  get_or_create_user_by_tg depth now tg d = (d, Ok a).
Proof. intros Hs. destruct depth; simpl; by rewrite Hs. Qed.

Lemma merge_fresh now tg bale d :
  select_user_id_by_tg d tg = None → select_user_id_by_bale d bale = None →
  merge_user_accounts now tg bale d
  = (append_user (mkUser (next_rowid d) (Some tg) None None None now) d,
     Ok (next_rowid d)).
Proof.
  intros Ht Hb. unfold merge_user_accounts. rewrite Ht, Hb.
  cbn [truthy andb]. unfold recursion_limit.
  by apply get_or_create_user_by_tg_new.
Qed.

Lemma merge_tg_only now tg bale d a :
  select_user_id_by_tg d tg = Some a → a ≠ 0 →
  select_user_id_by_bale d bale = None →
  merge_user_accounts now tg bale d
  = (update_where_id a (with_bale (Some bale)) d, Ok a).
Proof.
  intros Ht Ha Hb. unfold merge_user_accounts. rewrite Ht, Hb.
  cbn [truthy the from_option id]. apply Z.eqb_neq in Ha as ->. cbn [andb negb].
  unfold transaction, update_user_bale.
  rewrite bale_free, andb_false_r; [done|]. intros u Hin Hx.
  apply select_user_id_by_bale_None in Hb. rewrite Forall_forall in Hb.
  specialize (Hb u Hin). by rewrite Hx, sql_eq_Some in Hb.
Qed.

Lemma merge_bale_only now tg bale d b :
  select_user_id_by_tg d tg = None →
  select_user_id_by_bale d bale = Some b → b ≠ 0 →
  merge_user_accounts now tg bale d
  = (update_where_id b (with_tg (Some tg)) d, Ok b).
Proof.
  intros Ht Hb Hnz. unfold merge_user_accounts. rewrite Ht, Hb.
  cbn [truthy the from_option id]. apply Z.eqb_neq in Hnz as ->. cbn [andb negb].
  unfold transaction, update_user_tg.
  rewrite tg_free, andb_false_r; [done|]. intros u Hin Hx.
  apply select_user_id_by_tg_None in Ht. rewrite Forall_forall in Ht.
  specialize (Ht u Hin). by rewrite Hx, sql_eq_Some in Ht.
Qed.

Lemma update_where_id_same a (f : User → User) d :
  (∀ u, u ∈ users d → user_id u = a → f u = u) →
  update_where_id a f d = d.
Proof.
  intros Hf. unfold update_where_id, set_users. destruct d as [us ? ? ? ? ? ?].
  simpl in *. f_equal. rewrite <-(map_id us) at 2.
  apply map_ext_in. intros u Hin%list_elem_of_In.
  destruct (Z.eqb_spec (user_id u) a); [by apply Hf|done].
Qed.

(** Both identities already belong to one owner: nothing changes. *)
Lemma merge_same_owner now tg bale d a :
  users_wf d →
  select_user_id_by_tg d tg = Some a → select_user_id_by_bale d bale = Some a →
  merge_user_accounts now tg bale d = (d, Ok a).
Proof.
  intros (Hids & Hpos & _ & Htg & _) Ht Hb.
  destruct (select_user_id_by_tg_Some _ _ _ Ht) as (u & Hin & Hid & Hx).
  assert (a ≠ 0) as Hnz.
  { rewrite Forall_forall in Hpos. specialize (Hpos u Hin). lia. }
  unfold merge_user_accounts. rewrite Ht, Hb.
  cbn [truthy the from_option id]. rewrite Z.eqb_refl.
  apply Z.eqb_neq in Hnz as ->. cbn [andb negb].
  unfold transaction, update_user_tg.
  rewrite tg_free, andb_false_r; simpl.
  - rewrite update_where_id_same; [done|]. intros v Hv Hva.
    assert (v = u) as -> by (apply (unique_id (users d)); congruence).
    unfold with_tg. rewrite <-Hx. by destruct u.
  - intros v Hv Hvx.
    by rewrite (unique_column tg_user_id (users d) v u tg).
Qed.

(** The identities belong to two different owners: the UPDATE that gives
    the Telegram id to the Bale owner runs while the Telegram owner still
    holds it, the unique index [idx_users_tg] rejects it, and the
    transaction is rolled back. *)
Lemma merge_two_owners now tg bale d a b :
  select_user_id_by_tg d tg = Some a → select_user_id_by_bale d bale = Some b →
  a ≠ b → a ≠ 0 → b ≠ 0 →
  merge_user_accounts now tg bale d = (d, Raise IntegrityError).
Proof.
  intros Ht Hb Hab Ha Hnz.
  destruct (select_user_id_by_tg_Some _ _ _ Ht) as (u & Hu & Hua & Hux).
  destruct (select_user_id_by_bale_Some _ _ _ Hb) as (v & Hv & Hvb & Hvx).
  unfold merge_user_accounts. rewrite Ht, Hb.
  cbn [truthy the from_option id]. apply Z.eqb_neq in Ha as ->, Hnz as ->.
  rewrite (proj2 (Z.eqb_neq a b) Hab). cbn [andb negb].
  unfold transaction. cbv zeta. unfold update_user_tg.
  set (d' := update_dm_verify_tokens_owner _ _ _).
  assert (users d' = users d) as Hus by done.
  assert (has_user d' b = true) as ->.
  { rewrite <-Hvb. apply has_user_intro. by rewrite Hus. }
  rewrite (tg_taken_intro d' b tg u); [done|by rewrite Hus|done|congruence].
Qed.

End Merge.

(** * The constraints of [users] hold in every reachable store *)

Section UsersInvariant.
Implicit Types (d : DB) (u v : User) (us : list User) (a b x : Z).

Lemma init_db_users_wf : users_wf init_db.
Proof. repeat split; simpl; try constructor. done. Qed.

Lemma omap_map_same (f : User → option Z) (g : User → User) us :
  (∀ u, f (g u) = f u) → omap f (map g us) = omap f us.
Proof.
  intros Hg. induction us as [|u us IH]; csimpl; [done|].
  by rewrite Hg, IH.
Qed.

Lemma map_update_absent a (f : User → User) us :
  a ∉ user_id <$> us →
  map (λ u, if user_id u =? a then f u else u) us = us.
Proof.
  induction us as [|u us IH]; csimpl; [done|].
  rewrite not_elem_of_cons. intros [Hne Hnin].
  apply not_eq_sym, Z.eqb_neq in Hne as ->. by rewrite IH.
Qed.

(** Writing a value no row holds into a unique column of the row [a]
    keeps the column unique. *)
Lemma unique_column_update (f : User → option Z) (set : User → User) us a x :
  NoDup (user_id <$> us) → NoDup (omap f us) →
  (∀ u, u ∈ us → f u ≠ Some x) →
  (∀ u, f (set u) = Some x) →
  NoDup (omap f (map (λ u, if user_id u =? a then set u else u) us)).
Proof.
  intros Hids Hcol Hfresh Hset.
  assert (∀ vs : list User,
            (∀ u, u ∈ vs → f u ≠ Some x) → x ∉ omap f vs) as Hx.
  { intros vs Hvs (u & Hu & Hfu)%list_elem_of_omap. by destruct (Hvs u). }
  induction us as [|u us IH]; csimpl; [constructor|].
  apply NoDup_cons in Hids as [Hu Hids]. csimpl in Hcol.
  assert (NoDup (omap f us)) as Hcol'.
  { destruct (f u); [by apply NoDup_cons in Hcol as [_ ?]|done]. }
  assert (∀ v, v ∈ us → f v ≠ Some x) as Hfresh'.
  { intros v Hv. apply Hfresh. by right. }
  destruct (Z.eqb_spec (user_id u) a) as [Hua|Hua].
  - rewrite Hset, map_update_absent by (by rewrite <-Hua).
    apply NoDup_cons. split; [by apply Hx|done].
  - specialize (IH Hids Hcol' Hfresh').
    destruct (f u) as [y|] eqn:Hfu; [|done].
    apply NoDup_cons. split; [|done].
    apply NoDup_cons in Hcol as [Hy _].
    intros (v & Hv & Hfv)%list_elem_of_omap.
    apply list_elem_of_In, in_map_iff in Hv as (w & <- & Hw%list_elem_of_In).
    destruct (user_id w =? a).
    + rewrite Hset in Hfv. injection Hfv as <-.
      destruct (Hfresh u); [by left|done].
    + destruct Hy. apply list_elem_of_omap. by exists w.
Qed.

Lemma update_other_column_wf a (g : User → User) d :
  (∀ u, user_id (g u) = user_id u) →
  (∀ u, tg_user_id (g u) = tg_user_id u) →
  (∀ u, bale_user_id (g u) = bale_user_id u) →
  users_wf d → users_wf (update_where_id a g d).
Proof.
  intros Hid Htg Hbale (Hids & Hpos & Hseq & Hut & Hub).
  unfold users_wf, update_where_id; simpl.
  split; [|split; [|split; [done|split]]].
  - change (map ?h ?l) with (h <$> l). rewrite <-list_fmap_compose.
    erewrite list_fmap_ext; [exact Hids|]. intros i u _; simpl.
    by destruct (user_id u =? a).
  - apply Forall_forall. intros v Hv%list_elem_of_In.
    apply in_map_iff in Hv as (u & <- & Hu%list_elem_of_In).
    rewrite Forall_forall in Hpos. specialize (Hpos u Hu).
    destruct (user_id u =? a); by rewrite ?Hid.
  - rewrite omap_map_same; [done|]. intros u. by destruct (user_id u =? a).
  - rewrite omap_map_same; [done|]. intros u. by destruct (user_id u =? a).
Qed.

Lemma update_user_tg_wf tg a d :
  users_wf d → select_user_id_by_tg d tg = None →
  users_wf (update_where_id a (with_tg (Some tg)) d).
Proof.
  intros (Hids & Hpos & Hseq & Hut & Hub) Hn.
  unfold users_wf, update_where_id; simpl.
  split; [|split; [|split; [done|split]]].
  - change (map ?h ?l) with (h <$> l). rewrite <-list_fmap_compose.
    erewrite list_fmap_ext; [exact Hids|]. intros i u _; simpl.
    by destruct (user_id u =? a).
  - apply Forall_forall. intros v Hv%list_elem_of_In.
    apply in_map_iff in Hv as (u & <- & Hu%list_elem_of_In).
    rewrite Forall_forall in Hpos. specialize (Hpos u Hu).
    by destruct (user_id u =? a).
  - apply (unique_column_update tg_user_id _ _ a tg); [done..| |done].
    intros u Hu Hx. apply select_user_id_by_tg_None in Hn.
    rewrite Forall_forall in Hn. specialize (Hn u Hu).
    by rewrite Hx, sql_eq_Some in Hn.
  - rewrite omap_map_same; [done|]. intros u. by destruct (user_id u =? a).
Qed.

Lemma update_user_bale_wf bale a d :
  users_wf d → select_user_id_by_bale d bale = None →
  users_wf (update_where_id a (with_bale (Some bale)) d).
Proof.
  intros (Hids & Hpos & Hseq & Hut & Hub) Hn.
  unfold users_wf, update_where_id; simpl.
  split; [|split; [|split; [done|split]]].
  - change (map ?h ?l) with (h <$> l). rewrite <-list_fmap_compose.
    erewrite list_fmap_ext; [exact Hids|]. intros i u _; simpl.
    by destruct (user_id u =? a).
  - apply Forall_forall. intros v Hv%list_elem_of_In.
    apply in_map_iff in Hv as (u & <- & Hu%list_elem_of_In).
    rewrite Forall_forall in Hpos. specialize (Hpos u Hu).
    by destruct (user_id u =? a).
  - rewrite omap_map_same; [done|]. intros u. by destruct (user_id u =? a).
  - apply (unique_column_update bale_user_id _ _ a bale); [done..| |done].
    intros u Hu Hx. apply select_user_id_by_bale_None in Hn.
    rewrite Forall_forall in Hn. specialize (Hn u Hu).
    by rewrite Hx, sql_eq_Some in Hn.
Qed.

Lemma append_user_wf d tg bale now :
  users_wf d →
  (∀ x, tg = Some x → select_user_id_by_tg d x = None) →
  (∀ x, bale = Some x → select_user_id_by_bale d x = None) →
  users_wf (append_user (mkUser (next_rowid d) tg bale None None now) d).
Proof.
  intros (Hids & Hpos & Hseq & Hut & Hub) Htg Hbale.
  destruct (next_rowid_fresh d Hseq) as [Hnew Hlt].
  unfold users_wf; simpl. rewrite fmap_app, !omap_app; csimpl.
  split; [|split; [|split; [lia|split]]].
  - apply NoDup_app. split; [done|]. split; [|apply NoDup_singleton].
    intros i (u & -> & Hu)%list_elem_of_fmap Heq%list_elem_of_singleton.
    rewrite Forall_forall in Hlt. specialize (Hlt u Hu). lia.
  - apply Forall_app. split; [done|]. by apply Forall_singleton.
  - destruct tg as [x|]; [|by rewrite app_nil_r].
    apply NoDup_app. split; [done|]. split; [|apply NoDup_singleton].
    intros y (u & Hu & Hx)%list_elem_of_omap ->%list_elem_of_singleton.
    specialize (Htg x eq_refl). apply select_user_id_by_tg_None in Htg.
    rewrite Forall_forall in Htg. specialize (Htg u Hu).
    by rewrite Hx, sql_eq_Some in Htg.
  - destruct bale as [x|]; [|by rewrite app_nil_r].
    apply NoDup_app. split; [done|]. split; [|apply NoDup_singleton].
    intros y (u & Hu & Hx)%list_elem_of_omap ->%list_elem_of_singleton.
    specialize (Hbale x eq_refl). apply select_user_id_by_bale_None in Hbale.
    rewrite Forall_forall in Hbale. specialize (Hbale u Hu).
    by rewrite Hx, sql_eq_Some in Hbale.
Qed.

Lemma get_or_create_user_by_tg_cases depth now tg d :
  (get_or_create_user_by_tg depth now tg d).1 = d
  ∨ (select_user_id_by_tg d tg = None
     ∧ (get_or_create_user_by_tg depth now tg d).1
       = append_user (mkUser (next_rowid d) (Some tg) None None None now) d).
Proof.
  destruct (select_user_id_by_tg d tg) as [a|] eqn:Hs.
  - left. by rewrite (get_or_create_user_by_tg_found _ _ _ _ a).
  - right. split; [done|]. destruct depth as [|n].
    + simpl. by rewrite Hs, insert_user_tg_Ok.
    + by rewrite get_or_create_user_by_tg_new.
Qed.

Lemma insert_user_bale_Ok now bale d :
  select_user_id_by_bale d bale = None →
  insert_user None (Some bale) now d
  = Ok (append_user (mkUser (next_rowid d) None (Some bale) None None now) d).
Proof.
  intros Hn. unfold insert_user. cbn [tg_taken orb].
  rewrite bale_free; [done|]. intros u Hin Hx.
  apply select_user_id_by_bale_None in Hn. rewrite Forall_forall in Hn.
  specialize (Hn u Hin). by rewrite Hx, sql_eq_Some in Hn.
Qed.

Lemma get_or_create_user_by_bale_cases depth now bale d :
  (get_or_create_user_by_bale depth now bale d).1 = d
  ∨ (select_user_id_by_bale d bale = None
     ∧ (get_or_create_user_by_bale depth now bale d).1
       = append_user (mkUser (next_rowid d) None (Some bale) None None now) d).
Proof.
  destruct (select_user_id_by_bale d bale) as [a|] eqn:Hs.
  - left. destruct depth; simpl; by rewrite Hs.
  - right. split; [done|].
    assert (select_user_id_by_bale
              (append_user
                 (mkUser (next_rowid d) None (Some bale) None None now) d)
              bale = Some (next_rowid d)) as Hfound.
    { unfold select_user_id_by_bale; simpl.
      rewrite find_app_fresh; [done| |apply sql_eq_Some].
      by apply select_user_id_by_bale_None. }
    destruct depth as [|[|n]]; simpl; rewrite Hs, insert_user_bale_Ok by done;
      [done|simpl; by rewrite Hfound..].
Qed.

Lemma users_frame d d' :
  users d' = users d → users_seq d' = users_seq d →
  users_wf d → users_wf d'.
Proof. unfold users_wf. by intros -> ->. Qed.

Lemma merge_user_accounts_users_wf now tg bale d :
  users_wf d → users_wf (merge_user_accounts now tg bale d).1.
Proof.
  intros Hwf.
  pose proof Hwf as (Hids & Hpos & Hseq & Hut & Hub).
  rewrite Forall_forall in Hpos.
  destruct (select_user_id_by_tg d tg) as [a|] eqn:Ht,
           (select_user_id_by_bale d bale) as [b|] eqn:Hb.
  - assert (a ≠ 0 ∧ b ≠ 0) as [Ha Hnz].
    { apply select_user_id_by_tg_Some in Ht as (u & Hu & <- & _).
      apply select_user_id_by_bale_Some in Hb as (v & Hv & <- & _).
      pose proof (Hpos u Hu). pose proof (Hpos v Hv). lia. }
    destruct (decide (a = b)) as [<-|Hab].
    + by rewrite (merge_same_owner now tg bale d a).
    + by rewrite (merge_two_owners now tg bale d a b).
  - apply select_user_id_by_tg_Some in Ht as Hu. destruct Hu as (u & Hu & <- & _).
    rewrite (merge_tg_only now tg bale d (user_id u));
      [|done|specialize (Hpos u Hu); lia|done].
    by apply update_user_bale_wf.
  - apply select_user_id_by_bale_Some in Hb as Hu. destruct Hu as (u & Hu & <- & _).
    rewrite (merge_bale_only now tg bale d (user_id u));
      [|done|done|specialize (Hpos u Hu); lia].
    by apply update_user_tg_wf.
  - rewrite merge_fresh by done. simpl. apply append_user_wf; [done| |done].
    by intros ? [= <-].
Qed.

(** Every call of the program keeps the constraints of [users]. *)
Lemma exec_users_wf c d : users_wf d → users_wf (exec c d).
Proof.
  intros Hwf. destruct c; cbn [exec].
  - destruct (get_or_create_user_by_tg_cases recursion_limit now tg d)
      as [->|[Hn ->]]; [done|].
    apply append_user_wf; [done| |done]. by intros ? [= <-].
  - destruct (get_or_create_user_by_bale_cases recursion_limit now bale d)
      as [->|[Hn ->]]; [done|].
    apply append_user_wf; [done|done|]. by intros ? [= <-].
  - eapply users_frame; [| |done];
      unfold create_verify_code, transaction, insert_verify_token;
      by destruct (_ || _).
  - eapply users_frame; [| |done];
      destruct (consume_verify_code_cases now code platform uid d)
        as [->|(t & _ & _ & _ & ->)]; done.
  - eapply users_frame; [| |done];
      unfold create_dm_verify_code, transaction, insert_dm_verify_token;
      by destruct (_ || _).
  - eapply users_frame; [| |done]; unfold consume_dm_verify_code;
      destruct (select_dm_verify_token d code); try done;
      destruct (_ || _); try done; by destruct (_ <? _).
  - eapply users_frame; [| |done];
      unfold register_chat, insert_or_ignore_chat; simpl;
      by destruct (_ || _).
  - eapply users_frame; [| |done]; unfold pair_groups, transaction, insert_link;
      by destruct (link_exists _ _ _).
  - eapply users_frame; [| |done];
      unfold pair_channels, transaction, insert_link;
      by destruct (link_exists _ _ _).
  - by apply merge_user_accounts_users_wf.
  - by apply update_other_column_wf.
  - by apply update_other_column_wf.
Qed.

Lemma exec_all_users_wf cs d : users_wf d → users_wf (exec_all cs d).
Proof.
  revert d. induction cs as [|c cs IH]; intros d Hwf; [done|].
  simpl. by apply IH, exec_users_wf.
Qed.

End UsersInvariant.

Section MergeTwice.
Implicit Types (d : DB) (u v : User) (a b tg bale : Z).

Lemma update_where_id_ids a (f : User → User) d :
  (∀ u, user_id (f u) = user_id u) →
  user_id <$> users (update_where_id a f d) = user_id <$> users d.
Proof.
  intros Hf. unfold update_where_id; simpl.
  change (map ?g ?l) with (g <$> l). rewrite <-list_fmap_compose.
  apply list_fmap_ext. intros i u _; simpl.
  by destruct (user_id u =? a).
Qed.

Lemma elem_of_update_where_id a (f : User → User) d v :
  v ∈ users (update_where_id a f d) →
  ∃ u, u ∈ users d ∧ v = (if user_id u =? a then f u else u).
Proof.
  unfold update_where_id; simpl. change (map ?g ?l) with (g <$> l).
  intros (u & -> & Hin)%list_elem_of_fmap. by exists u.
Qed.

Lemma elem_of_update_where_id_2 a (f : User → User) d u :
  u ∈ users d →
  (if user_id u =? a then f u else u) ∈ users (update_where_id a f d).
Proof.
  intros Hin. unfold update_where_id; simpl. change (map ?g ?l) with (g <$> l).
  by apply (list_elem_of_fmap_2 (λ u, if user_id u =? a then f u else u)).
Qed.

(** Both identities resolve to the owner [a] and no other row holds the
    Telegram id: the UPDATE is accepted and [a] is returned. *)
Lemma merge_one_owner now tg bale d a :
  select_user_id_by_tg d tg = Some a → select_user_id_by_bale d bale = Some a →
  a ≠ 0 →
  (∀ u, u ∈ users d → tg_user_id u = Some tg → user_id u = a) →
  merge_user_accounts now tg bale d
  = (update_where_id a (with_tg (Some tg)) d, Ok a).
Proof.
  intros Ht Hb Hnz Honly.
  unfold merge_user_accounts. rewrite Ht, Hb.
  cbn [truthy the from_option id]. rewrite Z.eqb_refl.
  apply Z.eqb_neq in Hnz as ->. cbn [andb negb].
  unfold transaction, update_user_tg.
  by rewrite tg_free, andb_false_r.
Qed.

Lemma select_tg_after_bale_update d tg a bale :
  select_user_id_by_tg (update_where_id a (with_bale (Some bale)) d) tg
  = select_user_id_by_tg d tg.
Proof.
  unfold select_user_id_by_tg, update_where_id; simpl.
  rewrite find_map_same; [|intros u; by destruct (user_id u =? a)].
  destruct (List.find _ _) as [u|]; simpl; [|done].
  by destruct (user_id u =? a).
Qed.

Lemma select_bale_after_tg_update d tg b bale :
  select_user_id_by_bale (update_where_id b (with_tg (Some tg)) d) bale
  = select_user_id_by_bale d bale.
Proof.
  unfold select_user_id_by_bale, update_where_id; simpl.
  rewrite find_map_same; [|intros u; by destruct (user_id u =? b)].
  destruct (List.find _ _) as [u|]; simpl; [|done].
  by destruct (user_id u =? b).
Qed.

Lemma select_bale_after_bale_update d a bale u :
  u ∈ users d → user_id u = a →
  select_user_id_by_bale d bale = None →
  select_user_id_by_bale (update_where_id a (with_bale (Some bale)) d) bale
  = Some a.
Proof.
  intros Hin Hid Hn. apply select_unique.
  - exists (with_bale (Some bale) u). split; [|apply sql_eq_Some].
    apply (elem_of_update_where_id_2 a (with_bale (Some bale))) in Hin.
    by rewrite Hid, Z.eqb_refl in Hin.
  - intros v (w & Hw & ->)%elem_of_update_where_id.
    destruct (Z.eqb_spec (user_id w) a); [done|]. intros Hx.
    apply select_user_id_by_bale_None in Hn. rewrite Forall_forall in Hn.
    specialize (Hn w Hw). congruence.
Qed.

Lemma select_tg_after_tg_update d b tg u :
  u ∈ users d → user_id u = b →
  select_user_id_by_tg d tg = None →
  select_user_id_by_tg (update_where_id b (with_tg (Some tg)) d) tg = Some b.
Proof.
  intros Hin Hid Hn. apply select_unique.
  - exists (with_tg (Some tg) u). split; [|apply sql_eq_Some].
    apply (elem_of_update_where_id_2 b (with_tg (Some tg))) in Hin.
    by rewrite Hid, Z.eqb_refl in Hin.
  - intros v (w & Hw & ->)%elem_of_update_where_id.
    destruct (Z.eqb_spec (user_id w) b); [done|]. intros Hx.
    apply select_user_id_by_tg_None in Hn. rewrite Forall_forall in Hn.
    specialize (Hn w Hw). congruence.
Qed.

(** X29.  [merge_user_accounts] is idempotent wherever it returns.  On a
    store that satisfies the constraints of [users], for ids that SQLite
    can bind (the signed 64-bit range) and that do not belong to two
    different owners, the call returns an owner, a second call with the
    same pair returns the same owner, and the [users] table has the same
    row ids after the second call as after the first: no row is added.
    When both identities already resolve to one owner the call changes
    nothing and returns that owner. *)
Theorem merge_user_accounts_twice_returns_the_same_owner now now' tg bale d :
  users_wf d → sqlite_int tg = true → sqlite_int bale = true →
  (∀ a b, select_user_id_by_tg d tg = Some a →
          select_user_id_by_bale d bale = Some b → a = b) →
  let first := merge_user_accounts now tg bale d in
  let second := merge_user_accounts now' tg bale first.1 in
  (∃ o, first.2 = Ok o ∧ second.2 = Ok o)
  ∧ user_id <$> users second.1 = user_id <$> users first.1
  ∧ (∀ a, select_user_id_by_tg d tg = Some a →
          select_user_id_by_bale d bale = Some a → first = (d, Ok a)).
Proof.
  intros (Hids & Hpos & Hseq & Htg & Hbale) _ _ Hone.
  rewrite Forall_forall in Hpos.
  assert (∀ a, select_user_id_by_tg d tg = Some a → a ≠ 0) as Hnz_tg.
  { intros a (u & Hin & <- & _)%select_user_id_by_tg_Some.
    specialize (Hpos u Hin). lia. }
  assert (∀ b, select_user_id_by_bale d bale = Some b → b ≠ 0) as Hnz_bale.
  { intros b (u & Hin & <- & _)%select_user_id_by_bale_Some.
    specialize (Hpos u Hin). lia. }
  assert (∀ a u, select_user_id_by_tg d tg = Some a → u ∈ users d →
                 tg_user_id u = Some tg → user_id u = a) as Honly.
  { intros a u (v & Hv & <- & Hvx)%select_user_id_by_tg_Some Hu Hux.
    by rewrite (unique_column tg_user_id (users d) u v tg). }
  destruct (select_user_id_by_tg d tg) as [a|] eqn:Ht,
           (select_user_id_by_bale d bale) as [b|] eqn:Hb.
  - rewrite <-(Hone a b eq_refl eq_refl) in *.
    assert (merge_user_accounts now tg bale d = (d, Ok a)) as Hsame.
    { apply merge_same_owner; by repeat split; try apply Forall_forall. }
    cbv zeta. rewrite Hsame; cbn [fst snd].
    rewrite (merge_same_owner now' tg bale d a);
      [|by repeat split; try apply Forall_forall|done..].
    split; [by exists a|]. split; [done|]. by intros ? [= <-].
  - destruct (select_user_id_by_tg_Some _ _ _ Ht) as (u & Hu & Hua & Hux).
    cbv zeta.
    rewrite (merge_tg_only now tg bale d a) by auto; cbn [fst snd].
    rewrite (merge_one_owner now' tg bale _ a).
    + cbn [fst snd]. split; [by exists a|].
      split; [by rewrite update_where_id_ids|done].
    + by rewrite select_tg_after_bale_update.
    + by apply (select_bale_after_bale_update d a bale u).
    + auto.
    + intros v (w & Hw & ->)%elem_of_update_where_id Hvx.
      assert (tg_user_id w = Some tg ∧ user_id (if user_id w =? a
                then with_bale (Some bale) w else w) = user_id w) as [Hwx ->].
      { by destruct (user_id w =? a). }
      by apply Honly.
  - destruct (select_user_id_by_bale_Some _ _ _ Hb) as (u & Hu & Hub & Hux).
    cbv zeta.
    rewrite (merge_bale_only now tg bale d b) by auto; cbn [fst snd].
    rewrite (merge_one_owner now' tg bale _ b).
    + cbn [fst snd]. split; [by exists b|].
      split; [by rewrite update_where_id_ids|done].
    + by apply (select_tg_after_tg_update d b tg u).
    + by rewrite select_bale_after_tg_update.
    + auto.
    + intros v (w & Hw & ->)%elem_of_update_where_id.
      destruct (Z.eqb_spec (user_id w) b); [done|]. intros Hx.
      apply select_user_id_by_tg_None in Ht. rewrite Forall_forall in Ht.
      specialize (Ht w Hw). by rewrite Hx, sql_eq_Some in Ht.
  - cbv zeta. rewrite (merge_fresh now tg bale d) by done; cbn [fst snd].
    destruct (next_rowid_fresh d Hseq) as [Hpos' _].
    rewrite (merge_tg_only now' tg bale _ (next_rowid d)).
    + cbn [fst snd]. split; [by eexists|].
      split; [by rewrite update_where_id_ids|done].
    + by apply (select_tg_append_user d (mkUser _ _ _ _ _ _)).
    + lia.
    + by apply (select_bale_append_user d (mkUser _ _ _ _ _ _)).
Qed.

Lemma merge_user_accounts_twice_returns_the_same_owner_witness :
  let d := exec_all [GetOrCreateUserByTg 100 10] init_db in
  let first := merge_user_accounts 200 10 20 d in
  let second := merge_user_accounts 300 10 20 first.1 in
  users_wf d ∧ first.2 = Ok 1 ∧ second.2 = Ok 1
  ∧ user_id <$> users second.1 = user_id <$> users first.1.
Proof.
  assert (users_wf (exec_all [GetOrCreateUserByTg 100 10] init_db)) as Hwf.
  { apply exec_all_users_wf, init_db_users_wf. }
  split; [exact Hwf|]. split; [reflexivity|].
  destruct (merge_user_accounts_twice_returns_the_same_owner
              200 300 10 20 _ Hwf eq_refl eq_refl)
    as ((o & Hfirst & Hsecond) & Hrows & _).
  { intros a b _ Hb. discriminate Hb. }
  assert (o = 1) as -> by (vm_compute in Hfirst; congruence).
  by split.
Defined.

(** C7, where the source breaks it.  When the two identities belong to two
    different owners, the first call raises [IntegrityError] and returns no
    owner id, and so does the second: the pair never gets an owner id,
    however often the call is repeated. *)
Theorem merge_twice_of_two_owners_returns_no_owner now now' tg bale d a b :
  users_wf d →
  select_user_id_by_tg d tg = Some a →
  select_user_id_by_bale d bale = Some b →
  a ≠ b →
  let first := merge_user_accounts now tg bale d in
  let second := merge_user_accounts now' tg bale first.1 in
  first = (d, Raise IntegrityError)
  ∧ second = (d, Raise IntegrityError)
  ∧ ∀ o, first.2 ≠ Ok o ∧ second.2 ≠ Ok o.
Proof.
  intros (_ & Hpos & _) Ht Hb Hab. rewrite Forall_forall in Hpos.
  assert (a ≠ 0 ∧ b ≠ 0) as [Ha Hnz].
  { apply select_user_id_by_tg_Some in Ht as Hu.
    destruct Hu as (u & Hu & <- & _).
    apply select_user_id_by_bale_Some in Hb as Hv.
    destruct Hv as (v & Hv & <- & _).
    pose proof (Hpos u Hu). pose proof (Hpos v Hv). lia. }
  cbv zeta.
  rewrite (merge_two_owners now tg bale d a b) by done. cbn [fst snd].
  rewrite (merge_two_owners now' tg bale d a b) by done. cbn [fst snd].
  by repeat split.
Qed.

Lemma merge_twice_of_two_owners_returns_no_owner_witness :
  let d := exec_all [GetOrCreateUserByTg 100 10;
                     GetOrCreateUserByBale 101 20] init_db in
  let first := merge_user_accounts 200 10 20 d in
  users_wf d
  ∧ select_user_id_by_tg d 10 = Some 1
  ∧ select_user_id_by_bale d 20 = Some 2
  ∧ first = (d, Raise IntegrityError)
  ∧ merge_user_accounts 300 10 20 first.1 = (d, Raise IntegrityError).
Proof.
  assert (users_wf
            (exec_all [GetOrCreateUserByTg 100 10;
                       GetOrCreateUserByBale 101 20] init_db)) as Hwf.
  { apply exec_all_users_wf, init_db_users_wf. }
  split; [exact Hwf|]. split; [reflexivity|]. split; [reflexivity|].
  destruct (merge_twice_of_two_owners_returns_no_owner 200 300 10 20 _ 1 2
              Hwf eq_refl eq_refl) as (Hfirst & Hsecond & _); [lia|].
  by split.
Defined.

End MergeTwice.

(** C3, where the source breaks it.  When the two identities belong to
    two different owners, [merge_user_accounts] never completes the merge:
    it raises [IntegrityError] and the rollback leaves the store exactly as
    it was, so nothing is re-assigned, the Bale owner does not get the
    Telegram identity and the Telegram owner is not deleted. *)
Theorem merge_of_two_owners_raises now tg bale d a b :
  users_wf d →
  select_user_id_by_tg d tg = Some a →
  select_user_id_by_bale d bale = Some b →
  a ≠ b →
  merge_user_accounts now tg bale d = (d, Raise IntegrityError).
Proof.
  intros (_ & Hpos & _) Ht Hb Hab. rewrite Forall_forall in Hpos.
  apply (merge_two_owners now tg bale d a b); [done..| |].
  - apply select_user_id_by_tg_Some in Ht as (u & Hin & <- & _).
    specialize (Hpos u Hin). lia.
  - apply select_user_id_by_bale_Some in Hb as (u & Hin & <- & _).
    specialize (Hpos u Hin). lia.
Qed.

Lemma merge_of_two_owners_raises_witness :
  let d := exec_all [GetOrCreateUserByTg 100 10;
                     GetOrCreateUserByBale 101 20;
                     RegisterChat 102 1 "tg" "group" (-100) "g"] init_db in
  users_wf d
  ∧ select_user_id_by_tg d 10 = Some 1
  ∧ select_user_id_by_bale d 20 = Some 2
  ∧ chat_owner_user_id <$> chats d = [1]
  ∧ merge_user_accounts 200 10 20 d = (d, Raise IntegrityError).
Proof.
  assert (users_wf
            (exec_all [GetOrCreateUserByTg 100 10;
                       GetOrCreateUserByBale 101 20;
                       RegisterChat 102 1 "tg" "group" (-100) "g"] init_db))
    as Hwf.
  { apply exec_all_users_wf, init_db_users_wf. }
  split; [exact Hwf|]. split; [reflexivity|]. split; [reflexivity|].
  split; [reflexivity|].
  apply (merge_of_two_owners_raises 200 10 20 _ 1 2 Hwf);
    [reflexivity|reflexivity|lia].
Defined.

(** C4, where the source breaks it.  When no owner has either identity,
    [merge_user_accounts] falls back to [get_or_create_user_by_tg]: the
    owner it creates and returns carries the Telegram identity only, its
    Bale identity is NULL, and no owner has the Bale identity afterwards. *)
Theorem merge_of_unknown_identities_drops_bale now tg bale d :
  select_user_id_by_tg d tg = None →
  select_user_id_by_bale d bale = None →
  let fresh := mkUser (next_rowid d) (Some tg) None None None now in
  merge_user_accounts now tg bale d = (append_user fresh d, Ok (user_id fresh))
  ∧ bale_user_id fresh = None
  ∧ select_user_id_by_bale (append_user fresh d) bale = None.
Proof.
  intros Ht Hb fresh. split; [by apply merge_fresh|]. split; [done|].
  by apply select_bale_append_user.
Qed.

Lemma merge_of_unknown_identities_drops_bale_witness :
  select_user_id_by_tg init_db 10 = None
  ∧ select_user_id_by_bale init_db 20 = None
  ∧ merge_user_accounts 200 10 20 init_db
    = (append_user (mkUser 1 (Some 10) None None None 200) init_db, Ok 1)
  ∧ select_user_id_by_bale (merge_user_accounts 200 10 20 init_db).1 20 = None.
Proof.
  split; [reflexivity|]. split; [reflexivity|].
  destruct (merge_of_unknown_identities_drops_bale 200 10 20 init_db
              eq_refl eq_refl) as (Hm & _ & Hb).
  split; [exact Hm|]. rewrite Hm. exact Hb.
Defined.

(** * The size of the code spaces *)

Section Words.
Implicit Types (a w : list ascii) (k : nat).

Lemma length_bind_const {A B} (f : A → list B) (l : list A) n :
  (∀ x, length (f x) = n) → length (l ≫= f) = (length l * n)%nat.
Proof.
  intros Hf. induction l as [|x l IH]; [done|].
  rewrite bind_cons, length_app, Hf, IH. done.
Qed.

Lemma words_length k a : length (words k a) = (length a ^ k)%nat.
Proof.
  induction k as [|k IH]; [done|].
  cbn [words]. rewrite (length_bind_const _ _ (length a ^ k)).
  - by rewrite Nat.pow_succ_r'.
  - intros c. by rewrite length_fmap.
Qed.

Lemma elem_of_words k a w :
  w ∈ words k a ↔ length w = k ∧ Forall (λ c, c ∈ a) w.
Proof.
  revert w. induction k as [|k IH]; intros w; cbn [words].
  - rewrite list_elem_of_singleton. split.
    + by intros ->.
    + intros [Hl _]. by destruct w.
  - rewrite list_elem_of_bind. split.
    + intros (c & Hw & Hc). apply list_elem_of_fmap in Hw as (w' & -> & Hw').
      apply IH in Hw' as [<- Hall]. split; [done|]. by constructor.
    + intros [Hl Hall]. destruct w as [|c w]; [done|].
      apply Forall_cons in Hall as [Hc Hall]. exists c. split; [|done].
      apply list_elem_of_fmap. exists w. split; [done|]. apply IH.
      split; [|done]. simpl in Hl. lia.
Qed.

Lemma NoDup_words k a : NoDup a → NoDup (words k a).
Proof.
  intros Ha. induction k as [|k IH]; cbn [words]; [apply NoDup_singleton|].
  apply NoDup_bind; [| |done].
  - intros c1 c2 w _ _ (w1 & -> & _)%list_elem_of_fmap
                        (w2 & Heq & _)%list_elem_of_fmap.
    congruence.
  - intros c _. apply NoDup_fmap_2; [|done]. by intros ?? [= ->].
Qed.

Lemma words_size k a :
  Z.of_nat (length (words k a)) = Z.of_nat (length a) ^ Z.of_nat k.
Proof. by rewrite words_length, Nat2Z.inj_pow. Qed.

End Words.

Lemma append_inj_r (s t1 t2 : string) : s +:+ t1 = s +:+ t2 → t1 = t2.
Proof. induction s as [|c s IH]; simpl; [done|]. intros [= ?]. by apply IH. Qed.

Lemma string_of_list_ascii_inj (l1 l2 : list ascii) :
  String.string_of_list_ascii l1 = String.string_of_list_ascii l2 → l1 = l2.
Proof.
  intros Heq.
  rewrite <-(String.list_ascii_of_string_of_list_ascii l1),
          <-(String.list_ascii_of_string_of_list_ascii l2).
  by rewrite Heq.
Qed.

Lemma gen_code_inj prefix p1 p2 :
  gen_code prefix p1 = gen_code prefix p2 → p1 = p2.
Proof.
  unfold gen_code. intros Heq.
  by apply append_inj_r, (append_inj_r "-"), string_of_list_ascii_inj in Heq.
Qed.

Lemma code_alphabet_NoDup : NoDup code_alphabet.
Proof. apply (bool_decide_unpack _). by vm_compute. Qed.

Lemma hex_lower_NoDup : NoDup hex_lower.
Proof. apply (bool_decide_unpack _). by vm_compute. Qed.

(** The codes of [gen_code prefix], once each: 36 ^ 6 of them. *)
Lemma gen_code_space prefix :
  ∃ l, enumerates l (gen_code_output prefix)
       ∧ Z.of_nat (length l) = 2176782336.
Proof.
  exists (gen_code prefix <$> words 6 code_alphabet). split; [split|].
  - apply NoDup_fmap_2_strong.
    + intros p1 p2 _ _. apply gen_code_inj.
    + apply NoDup_words, code_alphabet_NoDup.
  - intros s. rewrite list_elem_of_fmap. unfold gen_code_output.
    split; intros (picks & Hp1 & Hp2); exists picks.
    + split; [|exact Hp1]. apply elem_of_words. exact Hp2.
    + split; [exact Hp2|]. apply elem_of_words. exact Hp1.
  - rewrite length_fmap, words_size.
    change (length code_alphabet) with 36%nat. reflexivity.
Qed.

(** Upper-casing is undone by lower-casing on hexadecimal digits. *)
Lemma lower_upper_hex c : c ∈ hex_lower → lower_ascii (upper_ascii c) = c.
Proof.
  unfold hex_lower; cbn [String.list_ascii_of_string].
  rewrite !elem_of_cons, elem_of_nil.
  intros H. repeat (destruct H as [->|H]; [reflexivity|]). done.
Qed.

Lemma upper_hex_inj w1 w2 :
  Forall (λ c, c ∈ hex_lower) w1 → Forall (λ c, c ∈ hex_lower) w2 →
  upper_ascii <$> w1 = upper_ascii <$> w2 → w1 = w2.
Proof.
  intros H1. revert w2. induction H1 as [|c1 w1 Hc1 _ IH];
    intros w2 H2; destruct H2 as [|c2 w2 Hc2 H2]; csimpl; try done.
  intros [= Hc Hw]. f_equal; [|by apply IH].
  by rewrite <-(lower_upper_hex c1), <-(lower_upper_hex c2), Hc.
Qed.

Lemma uuid4_hex_complete w :
  length w = 8%nat → Forall (λ c, c ∈ hex_lower) w →
  uuid4_hex (w ++ uuid_tail).
Proof.
  intros Hl Hall. unfold uuid4_hex.
  split; [by rewrite length_app, Hl|].
  split; [apply Forall_app; split; [done|]|].
  { apply (bool_decide_unpack _). by vm_compute. }
  split; [rewrite lookup_app_r, Hl by lia; reflexivity|].
  exists "8"%char. split; [rewrite lookup_app_r, Hl by lia; reflexivity|].
  apply (bool_decide_unpack _). by vm_compute.
Qed.

(** The codes of [create_dm_verify_code], once each: 16 ^ 8 of them. *)
Lemma dm_code_space :
  ∃ l, enumerates l dm_code_output ∧ Z.of_nat (length l) = 4294967296.
Proof.
  exists ((λ w, dm_code_of (w ++ uuid_tail)) <$> words 8 hex_lower).
  assert (∀ w, length w = 8%nat → take 8 (w ++ uuid_tail) = w) as Htake.
  { intros w <-. apply take_app_length. }
  split; [split|].
  - apply NoDup_fmap_2_strong; [|apply NoDup_words, hex_lower_NoDup].
    intros w1 w2 [Hl1 Hh1]%elem_of_words [Hl2 Hh2]%elem_of_words.
    unfold dm_code_of. rewrite !Htake by done. intros Heq.
    apply append_inj_r, string_of_list_ascii_inj in Heq.
    by apply upper_hex_inj.
  - intros s. rewrite list_elem_of_fmap. unfold dm_code_output. split.
    + intros (w & -> & [Hl Hh]%elem_of_words).
      exists (w ++ uuid_tail). split; [by apply uuid4_hex_complete|done].
    + intros (h & (Hl & Hh & _) & ->). exists (take 8 h). split.
      * unfold dm_code_of. rewrite Htake; [done|].
        rewrite length_take, Hl. done.
      * apply elem_of_words. split; [rewrite length_take, Hl; done|].
        by apply Forall_take.
  - rewrite length_fmap, words_size.
    change (length hex_lower) with 16%nat. reflexivity.
Qed.

Lemma at_least_bounded n l P :
  enumerates l P → at_least n P → n ≤ Z.of_nat (length l).
Proof.
  intros [_ Hl] (k & Hnd & Hk & Hn).
  assert (length k ≤ length l)%nat; [|lia].
  apply submseteq_length, NoDup_submseteq; [done|].
  intros s Hs. by apply Hl, Hk.
Qed.

Lemma enumerates_at_least l P : enumerates l P → at_least (Z.of_nat (length l)) P.
Proof. intros [Hnd Hl]. exists l. split; [done|]. split; [|done]. intros s. apply Hl. Qed.

(** C10, as amended.  For every prefix [gen_code] has exactly
    36 ^ 6 = 2176782336 possible codes and [create_dm_verify_code] has
    exactly 16 ^ 8 = 2 ^ 32 possible codes: each generator draws from at
    least 2 ^ 31 values, and neither reaches 2 ^ 36. *)
Theorem code_spaces :
  (∀ prefix, ∃ l, enumerates l (gen_code_output prefix)
                  ∧ Z.of_nat (length l) = 36 ^ 6
                  ∧ at_least (2 ^ 31) (gen_code_output prefix))
  ∧ (∃ l, enumerates l dm_code_output
          ∧ Z.of_nat (length l) = 2 ^ 32
          ∧ at_least (2 ^ 31) dm_code_output)
  ∧ 2 ^ 31 ≤ 36 ^ 6 < 2 ^ 36 ∧ 2 ^ 32 < 2 ^ 36.
Proof.
  split; [|split; [|lia]].
  - intros prefix. destruct (gen_code_space prefix) as (l & Hl & Hsize).
    exists l. split; [done|]. split; [by rewrite Hsize|].
    destruct (enumerates_at_least l _ Hl) as (k & ? & ? & ?).
    exists k. split; [done|]. split; [done|]. lia.
  - destruct dm_code_space as (l & Hl & Hsize).
    exists l. split; [done|]. split; [by rewrite Hsize|].
    destruct (enumerates_at_least l _ Hl) as (k & ? & ? & ?).
    exists k. split; [done|]. split; [done|]. lia.
Qed.

(** C10, as stated, fails: neither generator has 2 ^ 36 possible codes. *)
Lemma code_spaces_below_36_bits :
  ¬ at_least (2 ^ 36) (gen_code_output "G")
  ∧ ¬ at_least (2 ^ 36) (gen_code_output "C")
  ∧ ¬ at_least (2 ^ 36) dm_code_output.
Proof.
  split; [|split].
  - destruct (gen_code_space "G") as (l & Hl & Hsize).
    intros Hge%(at_least_bounded _ l); [lia|done].
  - destruct (gen_code_space "C") as (l & Hl & Hsize).
    intros Hge%(at_least_bounded _ l); [lia|done].
  - destruct dm_code_space as (l & Hl & Hsize).
    intros Hge%(at_least_bounded _ l); [lia|done].
Qed.

(** * The schema's constraints hold in every reachable store *)

Section Schema.
Implicit Types (d : DB) (c : Call).

Lemma tables_kept_refl d : tables_kept d d.
Proof. by repeat split. Qed.

Lemma merge_user_accounts_tables now tg bale d :
  let d' := (merge_user_accounts now tg bale d).1 in
  tables_kept d d'
  ∨ ∃ new old,
      chats d' = reown_chat new old <$> chats d
      ∧ group_links d' = reown_link new old <$> group_links d
      ∧ channel_links d' = reown_link new old <$> channel_links d
      ∧ verify_tokens d' = reown_token new old <$> verify_tokens d
      ∧ dm_verify_tokens d' = reown_dm_token new old <$> dm_verify_tokens d.
Proof.
  unfold merge_user_accounts.
  destruct (_ && _ && _); [|destruct (_ && _); [|destruct (truthy _)]].
  - unfold transaction. cbv zeta. unfold update_user_tg.
    destruct (_ && _); simpl; [left; apply tables_kept_refl|].
    right. by eexists _, _.
  - unfold transaction, update_user_bale.
    destruct (_ && _); simpl; left; by repeat split.
  - unfold transaction, update_user_tg.
    destruct (_ && _); simpl; left; by repeat split.
  - left. apply get_or_create_user_by_tg_frame.
Qed.

(** On a store that satisfies the constraints of [users] the merge never
    re-assigns anything. *)
Lemma merge_user_accounts_keeps_tables now tg bale d :
  users_wf d → tables_kept d (merge_user_accounts now tg bale d).1.
Proof.
  intros Hwf. pose proof Hwf as (_ & Hpos & _). rewrite Forall_forall in Hpos.
  destruct (select_user_id_by_tg d tg) as [a|] eqn:Ht,
           (select_user_id_by_bale d bale) as [b|] eqn:Hb.
  - assert (a ≠ 0 ∧ b ≠ 0) as [Ha Hnz].
    { apply select_user_id_by_tg_Some in Ht as (u & Hu & <- & _).
      apply select_user_id_by_bale_Some in Hb as (v & Hv & <- & _).
      pose proof (Hpos u Hu). pose proof (Hpos v Hv). lia. }
    destruct (decide (a = b)) as [<-|Hab].
    + rewrite (merge_same_owner now tg bale d a) by done.
      apply tables_kept_refl.
    + rewrite (merge_two_owners now tg bale d a b) by done.
      apply tables_kept_refl.
  - apply select_user_id_by_tg_Some in Ht as Hu.
    destruct Hu as (u & Hu & <- & _).
    rewrite (merge_tg_only now tg bale d (user_id u));
      [|done|specialize (Hpos u Hu); lia|done].
    by repeat split.
  - apply select_user_id_by_bale_Some in Hb as Hu.
    destruct Hu as (u & Hu & <- & _).
    rewrite (merge_bale_only now tg bale d (user_id u));
      [|done|done|specialize (Hpos u Hu); lia].
    by repeat split.
  - rewrite merge_fresh by done. by repeat split.
Qed.

Lemma exec_chats c d :
  chats (exec c d) = chats d
  ∨ (∃ x, chats (exec c d) = chats d ++ [x]
          ∧ chat_registered d (chat_platform x) (chat_id x) = false
          ∧ check_platform (chat_platform x) = true
          ∧ check_chat_type (chat_type x) = true)
  ∨ ∃ new old, chats (exec c d) = reown_chat new old <$> chats d.
Proof.
  destruct c; cbn [exec]; try by left.
  - left. apply get_or_create_user_by_tg_frame.
  - left. apply get_or_create_user_by_bale_frame.
  - left. unfold create_verify_code, transaction, insert_verify_token.
    by destruct (_ || _).
  - left. by destruct (consume_verify_code_cases now code platform uid d)
            as [->|(t & _ & _ & _ & ->)].
  - left. unfold create_dm_verify_code, transaction, insert_dm_verify_token.
    by destruct (_ || _).
  - left. unfold consume_dm_verify_code.
    destruct (select_dm_verify_token d code); [|done].
    destruct (_ || _); [done|]. by destruct (_ <? _).
  - unfold register_chat, insert_or_ignore_chat; simpl.
    destruct (negb (check_platform platform)) eqn:Hp; simpl; [by left|].
    destruct (negb (check_chat_type type)) eqn:Ht; simpl; [by left|].
    destruct (chat_registered d platform cid) eqn:Hr; simpl; [by left|].
    right; left. eexists. split; [done|]. simpl.
    apply negb_false_iff in Hp, Ht. done.
  - left. unfold pair_groups, transaction, insert_link.
    by destruct (link_exists _ _ _).
  - left. unfold pair_channels, transaction, insert_link.
    by destruct (link_exists _ _ _).
  - destruct (merge_user_accounts_tables now tg bale d)
      as [(-> & _)|(new & old & -> & _)]; [by left|right; right; eauto].
Qed.

Lemma chat_registered_false d platform cid :
  chat_registered d platform cid = false →
  (platform, cid) ∉ (λ x, (chat_platform x, chat_id x)) <$> chats d.
Proof.
  unfold chat_registered. intros Hex (x & [= -> ->] & Hin)%list_elem_of_fmap.
  apply existsb_false_iff in Hex. rewrite Forall_forall in Hex.
  specialize (Hex x Hin). by rewrite String.eqb_refl, Z.eqb_refl in Hex.
Qed.

Lemma exec_chats_ok c d : chats_ok d → chats_ok (exec c d).
Proof.
  intros [Hnd Hchk]. unfold chats_ok.
  destruct (exec_chats c d)
    as [->|[(x & -> & Hreg & Hp & Ht)|(new & old & ->)]]; [done| |].
  - split.
    + rewrite fmap_app. apply NoDup_app. split; [done|].
      split; [|apply NoDup_singleton].
      intros k Hk ->%list_elem_of_singleton.
      by apply chat_registered_false in Hreg.
    + apply Forall_app. split; [done|]. by apply Forall_singleton.
  - split.
    + rewrite <-list_fmap_compose. erewrite list_fmap_ext; [exact Hnd|].
      intros i x _; simpl. unfold reown_chat. by destruct (_ =? _).
    + apply Forall_fmap. eapply Forall_impl; [exact Hchk|].
      intros x Hx; simpl. unfold reown_chat. by destruct (_ =? _).
Qed.

Lemma exec_links c d :
  links_step (group_links d) (group_links (exec c d))
  ∧ links_step (channel_links d) (channel_links (exec c d)).
Proof.
  unfold links_step.
  destruct c; cbn [exec]; try (split; by left).
  - split; left; apply get_or_create_user_by_tg_frame.
  - split; left; apply get_or_create_user_by_bale_frame.
  - unfold create_verify_code, transaction, insert_verify_token.
    destruct (_ || _); split; by left.
  - destruct (consume_verify_code_cases now code platform uid d)
      as [->|(t & _ & _ & _ & ->)]; split; by left.
  - unfold create_dm_verify_code, transaction, insert_dm_verify_token.
    destruct (_ || _); split; by left.
  - unfold consume_dm_verify_code.
    destruct (select_dm_verify_token d code); [|split; by left].
    destruct (_ || _); [split; by left|].
    destruct (_ <? _); split; by left.
  - unfold register_chat, insert_or_ignore_chat; simpl.
    destruct (_ || _); split; by left.
  - unfold pair_groups, transaction, insert_link; simpl.
    destruct (link_exists _ _ _) eqn:Hex; simpl; split; try by left.
    right; left. by eexists.
  - unfold pair_channels, transaction, insert_link; simpl.
    destruct (link_exists _ _ _) eqn:Hex; simpl; split; try by left.
    right; left. by eexists.
  - destruct (merge_user_accounts_tables now tg bale d)
      as [(_ & -> & -> & _)|(new & old & _ & -> & -> & _)];
      split; [by left|by left|right; right; eauto..].
Qed.

Lemma links_step_ok l l' : links_step l l' → links_ok l → links_ok l'.
Proof.
  unfold links_ok.
  intros [->|[(k & -> & Hex & _)|(new & old & ->)]] Hnd; [done| |].
  - rewrite fmap_app. apply NoDup_app. split; [done|].
    split; [|apply NoDup_singleton].
    intros p (k' & -> & Hin)%list_elem_of_fmap [= Ht Hb]%list_elem_of_singleton.
    apply existsb_false_iff in Hex. rewrite Forall_forall in Hex.
    specialize (Hex k' Hin). simpl in Hex.
    by rewrite Ht, Hb, !Z.eqb_refl in Hex.
  - rewrite <-list_fmap_compose. erewrite list_fmap_ext; [exact Hnd|].
    intros i x _; simpl. unfold reown_link. by destruct (_ =? _).
Qed.

Lemma exec_verify_tokens c d :
  verify_tokens (exec c d) = verify_tokens d
  ∨ (∃ t, verify_tokens (exec c d) = verify_tokens d ++ [t]
          ∧ check_platform (vt_platform t) = true
          ∧ check_chat_type (vt_chat_type t) = true)
  ∨ (∃ code, verify_tokens (exec c d) = consume_token code <$> verify_tokens d)
  ∨ ∃ new old, verify_tokens (exec c d) = reown_token new old <$> verify_tokens d.
Proof.
  destruct c; cbn [exec]; try by left.
  - left. apply get_or_create_user_by_tg_frame.
  - left. apply get_or_create_user_by_bale_frame.
  - unfold create_verify_code, transaction, insert_verify_token.
    destruct (code_exists d _); simpl; [by left|].
    destruct (negb (check_platform platform)) eqn:Hp; simpl; [by left|].
    destruct (negb (check_chat_type type)) eqn:Ht; simpl; [by left|].
    right; left. eexists. split; [done|]. simpl.
    apply negb_false_iff in Hp, Ht. done.
  - destruct (consume_verify_code_cases now code platform uid d)
      as [->|(t & _ & _ & _ & ->)]; [by left|]. right; right; left. by eexists.
  - left. unfold create_dm_verify_code, transaction, insert_dm_verify_token.
    by destruct (_ || _).
  - left. unfold consume_dm_verify_code.
    destruct (select_dm_verify_token d code); [|done].
    destruct (_ || _); [done|]. by destruct (_ <? _).
  - left. unfold register_chat, insert_or_ignore_chat; simpl.
    by destruct (_ || _).
  - left. unfold pair_groups, transaction, insert_link.
    by destruct (link_exists _ _ _).
  - left. unfold pair_channels, transaction, insert_link.
    by destruct (link_exists _ _ _).
  - destruct (merge_user_accounts_tables now tg bale d)
      as [(_ & _ & _ & -> & _)|(new & old & _ & _ & _ & -> & _)];
      [by left|right; right; right; eauto].
Qed.

Lemma dm_code_exists_false d code :
  dm_code_exists d code = false →
  Forall (λ t, dm_code t ≠ code) (dm_verify_tokens d).
Proof.
  unfold dm_code_exists. intros Hex%existsb_false_iff.
  eapply Forall_impl; [exact Hex|]. intros t Ht; simpl in *.
  by apply String.eqb_neq.
Qed.

Lemma consume_dm_verify_code_cases now code platform chat d :
  (consume_dm_verify_code now code platform chat d = (d, None))
  ∨ ∃ t, select_dm_verify_token d code = Some t
         ∧ dm_consumed t = 0 ∧ dm_target_platform t = platform
         ∧ dm_target_chat_id t = chat ∧ now ≤ dm_expires_at t
         ∧ consume_dm_verify_code now code platform chat d
           = (update_dm_verify_token_consumed code d,
              Some (dm_owner_user_id t)).
Proof.
  unfold consume_dm_verify_code.
  destruct (select_dm_verify_token d code) as [t|]; [|by left].
  unfold int_true. destruct (Z.eqb_spec (dm_consumed t) 0); [|by left].
  destruct (String.eqb_spec (dm_target_platform t) platform); [|by left].
  destruct (Z.eqb_spec (dm_target_chat_id t) chat); [|by left]. simpl.
  destruct (Z.ltb_spec (dm_expires_at t) now); [by left|].
  right. by exists t.
Qed.

Lemma exec_dm_verify_tokens c d :
  dm_verify_tokens (exec c d) = dm_verify_tokens d
  ∨ (∃ t, dm_verify_tokens (exec c d) = dm_verify_tokens d ++ [t]
          ∧ Forall (λ t', dm_code t' ≠ dm_code t) (dm_verify_tokens d)
          ∧ check_platform (dm_target_platform t) = true)
  ∨ (∃ code, dm_verify_tokens (exec c d)
             = consume_dm_token code <$> dm_verify_tokens d)
  ∨ ∃ new old, dm_verify_tokens (exec c d)
               = reown_dm_token new old <$> dm_verify_tokens d.
Proof.
  destruct c; cbn [exec]; try by left.
  - left. apply get_or_create_user_by_tg_frame.
  - left. apply get_or_create_user_by_bale_frame.
  - left. unfold create_verify_code, transaction, insert_verify_token.
    by destruct (_ || _).
  - left. by destruct (consume_verify_code_cases now code platform uid d)
            as [->|(t & _ & _ & _ & ->)].
  - unfold create_dm_verify_code, transaction, insert_dm_verify_token.
    destruct (dm_code_exists d _) eqn:Hex; simpl; [by left|].
    destruct (negb (check_platform platform)) eqn:Hp; simpl; [by left|].
    right; left. eexists. split; [done|]. simpl.
    split; [by apply dm_code_exists_false|]. by apply negb_false_iff in Hp.
  - destruct (consume_dm_verify_code_cases now code platform chat d)
      as [->|(t & _ & _ & _ & _ & _ & ->)]; [by left|].
    right; right; left. by eexists.
  - left. unfold register_chat, insert_or_ignore_chat; simpl.
    by destruct (_ || _).
  - left. unfold pair_groups, transaction, insert_link.
    by destruct (link_exists _ _ _).
  - left. unfold pair_channels, transaction, insert_link.
    by destruct (link_exists _ _ _).
  - destruct (merge_user_accounts_tables now tg bale d)
      as [(_ & _ & _ & _ & ->)|(new & old & _ & _ & _ & _ & ->)];
      [by left|right; right; right; eauto].
Qed.

Lemma exec_tokens_ok c d : tokens_ok d → tokens_ok (exec c d).
Proof.
  intros [Hv Hdm]. split.
  - destruct (exec_verify_tokens c d)
      as [->|[(t & -> & Hp & Ht)|[(code & ->)|(new & old & ->)]]]; [done|..].
    + apply Forall_app. split; [done|]. by apply Forall_singleton.
    + apply Forall_fmap. eapply Forall_impl; [exact Hv|].
      intros t Ht; simpl. unfold consume_token. by destruct (String.eqb _ _).
    + apply Forall_fmap. eapply Forall_impl; [exact Hv|].
      intros t Ht; simpl. unfold reown_token. by destruct (_ =? _).
  - destruct (exec_dm_verify_tokens c d)
      as [->|[(t & -> & _ & Hp)|[(code & ->)|(new & old & ->)]]]; [done|..].
    + apply Forall_app. split; [done|]. by apply Forall_singleton.
    + apply Forall_fmap. eapply Forall_impl; [exact Hdm|].
      intros t Ht; simpl. unfold consume_dm_token.
      by destruct (String.eqb _ _).
    + apply Forall_fmap. eapply Forall_impl; [exact Hdm|].
      intros t Ht; simpl. unfold reown_dm_token. by destruct (_ =? _).
Qed.

Lemma exec_dm_codes_unique c d : dm_codes_unique d → dm_codes_unique (exec c d).
Proof.
  unfold dm_codes_unique. intros Hnd.
  destruct (exec_dm_verify_tokens c d)
    as [->|[(t & -> & Hfresh & _)|[(code & ->)|(new & old & ->)]]]; [done|..].
  - rewrite fmap_app. apply NoDup_app. split; [done|].
    split; [|apply NoDup_singleton].
    intros x (t' & -> & Hin)%list_elem_of_fmap Hx%list_elem_of_singleton.
    rewrite Forall_forall in Hfresh. by destruct (Hfresh t' Hin).
  - rewrite <-list_fmap_compose. erewrite list_fmap_ext; [exact Hnd|].
    intros i t _; simpl. unfold consume_dm_token.
    by destruct (String.eqb _ _).
  - rewrite <-list_fmap_compose. erewrite list_fmap_ext; [exact Hnd|].
    intros i t _; simpl. unfold reown_dm_token. by destruct (_ =? _).
Qed.

Lemma exec_schema_ok c d : schema_ok d → schema_ok (exec c d).
Proof.
  intros (Hu & Hc & Hdm & Hch & Hg & Hcl & Ht).
  destruct (exec_links c d) as [Hgs Hcs].
  split; [by apply exec_users_wf|]. split; [by apply exec_codes_unique|].
  split; [by apply exec_dm_codes_unique|]. split; [by apply exec_chats_ok|].
  split; [by eapply links_step_ok|]. split; [by eapply links_step_ok|].
  by apply exec_tokens_ok.
Qed.

Lemma init_db_schema_ok : schema_ok init_db.
Proof.
  split; [apply init_db_users_wf|]. unfold codes_unique, dm_codes_unique,
    chats_ok, links_ok, tokens_ok; simpl.
  repeat split; constructor.
Qed.

End Schema.

(** X1.  Every store the program can reach from the empty database, by any
    sequence of its database calls, satisfies every constraint the schema
    declares: the primary keys, the unique indexes and pairs, and the CHECK
    constraints. *)
Theorem reachable_store_satisfies_schema (cs : list Call) :
  schema_ok (exec_all cs init_db).
Proof.
  cut (∀ d, schema_ok d → schema_ok (exec_all cs d));
    [intros Hall; apply Hall, init_db_schema_ok|].
  induction cs as [|c cs IH]; intros d Hd; [done|].
  simpl. by apply IH, exec_schema_ok.
Qed.

(** * DM verification codes *)

Section DmTokens.
Implicit Types (d : DB) (t : DmVerifyToken) (code platform : string).

Lemma select_dm_verify_token_Some d code t :
  select_dm_verify_token d code = Some t →
  t ∈ dm_verify_tokens d ∧ dm_code t = code.
Proof.
  unfold select_dm_verify_token. intros [Hin Hc]%find_Some_elem.
  by apply String.eqb_eq in Hc.
Qed.

Lemma consume_dm_verify_code_spent now code platform chat d :
  dm_spent code d → consume_dm_verify_code now code platform chat d = (d, None).
Proof.
  intros [_ Hall].
  destruct (consume_dm_verify_code_cases now code platform chat d)
    as [|(t & Hsel & Hc & _)]; [done|].
  apply select_dm_verify_token_Some in Hsel as [Hin Hcode].
  rewrite Forall_forall in Hall. by destruct (Hall t Hin Hcode).
Qed.

Lemma consume_dm_verify_code_Some_spent now code platform chat d d' r :
  consume_dm_verify_code now code platform chat d = (d', Some r) →
  dm_spent code d'.
Proof.
  intros Hc.
  destruct (consume_dm_verify_code_cases now code platform chat d)
    as [Hn|(t & Hsel & _ & _ & _ & _ & Heq)]; [congruence|].
  rewrite Heq in Hc. injection Hc as <- _.
  apply select_dm_verify_token_Some in Hsel as [Hin Hcode].
  unfold dm_spent, update_dm_verify_token_consumed; simpl. split.
  - apply Exists_exists. exists (consume_dm_token code t). split.
    + by apply list_elem_of_fmap_2.
    + unfold consume_dm_token. by destruct (String.eqb (dm_code t) code).
  - apply Forall_fmap, Forall_forall. intros t' _; simpl.
    unfold consume_dm_token.
    destruct (String.eqb_spec (dm_code t') code); simpl; [done|]. by intros.
Qed.

Lemma exec_dm_spent code c d : dm_spent code d → dm_spent code (exec c d).
Proof.
  intros [Hex Hall]. unfold dm_spent.
  destruct (exec_dm_verify_tokens c d)
    as [->|[(t & -> & Hfresh & _)|[(code' & ->)|(new & old & ->)]]]; [done|..].
  - split; [apply Exists_app; by left|].
    apply Forall_app. split; [done|]. apply Forall_singleton. intros Hc.
    apply Exists_exists in Hex as (t' & Hin & Hc').
    rewrite Forall_forall in Hfresh. destruct (Hfresh t' Hin). congruence.
  - split.
    + apply Exists_fmap. eapply Exists_impl; [done|]. intros t Ht; simpl.
      unfold consume_dm_token. by destruct (String.eqb _ _).
    + apply Forall_fmap. eapply Forall_impl; [done|]. intros t Ht; simpl.
      unfold consume_dm_token. destruct (String.eqb _ _); simpl; done.
  - split.
    + apply Exists_fmap. eapply Exists_impl; [done|]. intros t Ht; simpl.
      unfold reown_dm_token. by destruct (_ =? _).
    + apply Forall_fmap. eapply Forall_impl; [done|]. intros t Ht; simpl.
      unfold reown_dm_token. by destruct (_ =? _).
Qed.

Lemma exec_all_dm_spent code cs d :
  dm_spent code d → dm_spent code (exec_all cs d).
Proof.
  revert d. induction cs as [|c cs IH]; intros d Hs; [done|].
  simpl. by apply IH, exec_dm_spent.
Qed.

Lemma create_dm_verify_code_Ok h issued owner platform target d d1 code :
  create_dm_verify_code h issued owner platform target d = (d1, Ok code) →
  code = dm_code_of h
  ∧ Forall (λ t, dm_code t ≠ code) (dm_verify_tokens d)
  ∧ dm_verify_tokens d1
    = dm_verify_tokens d
      ++ [mkDmVerifyToken code owner platform target (issued + ten_minutes) 0].
Proof.
  unfold create_dm_verify_code, transaction, insert_dm_verify_token.
  destruct (dm_code_exists d _) eqn:Hex; simpl; [done|].
  destruct (negb _); simpl; [done|].
  intros [= <- <-]. split; [done|]. split; [|done].
  by apply dm_code_exists_false.
Qed.

End DmTokens.

(** X2.  A DM verification code is redeemed at most once: once
    [consume_dm_verify_code] has returned an owner for a code, every later
    call with that code, from any platform and chat, at any time and after
    any further database calls, returns [None] and changes nothing. *)
Theorem consume_dm_verify_code_at_most_once now code platform chat d d' r :
  consume_dm_verify_code now code platform chat d = (d', Some r) →
  ∀ (later : list Call) now' platform' chat',
    consume_dm_verify_code now' code platform' chat' (exec_all later d')
    = (exec_all later d', None).
Proof.
  intros Hc later now' platform' chat'.
  apply consume_dm_verify_code_spent, exec_all_dm_spent.
  by eapply consume_dm_verify_code_Some_spent.
Qed.

Lemma consume_dm_verify_code_at_most_once_witness :
  let h := String.list_ascii_of_string "0a1b2c3d4e5f40008000000000000000" in
  let d := (create_dm_verify_code h 0 1 "bale" 777 init_db).1 in
  let d' := update_dm_verify_token_consumed "DM-0A1B2C3D" d in
  let later := [CreateDmVerifyCode h 7 1 "bale" 777;
                ConsumeDmVerifyCode 8 "DM-0A1B2C3D" "bale" 777] in
  consume_dm_verify_code 5 "DM-0A1B2C3D" "bale" 777 d = (d', Some 1)
  ∧ consume_dm_verify_code 9 "DM-0A1B2C3D" "bale" 777 (exec_all later d')
    = (exec_all later d', None).
Proof.
  split; [reflexivity|].
  apply (consume_dm_verify_code_at_most_once 5 "DM-0A1B2C3D" "bale" 777
           (create_dm_verify_code
              (String.list_ascii_of_string "0a1b2c3d4e5f40008000000000000000")
              0 1 "bale" 777 init_db).1 _ 1).
  reflexivity.
Defined.

(** On a store that satisfies the constraints of [users], a call appends
    a DM token, marks one consumed, or leaves the table alone: the merge of
    two owners, which would move tokens, raises and is rolled back. *)
Lemma exec_dm_verify_tokens_wf c d :
  users_wf d →
  dm_verify_tokens (exec c d) = dm_verify_tokens d
  ∨ (∃ t, dm_verify_tokens (exec c d) = dm_verify_tokens d ++ [t])
  ∨ (∃ code, dm_verify_tokens (exec c d)
             = consume_dm_token code <$> dm_verify_tokens d).
Proof.
  intros Hwf. destruct c; cbn [exec]; try by left.
  - left. apply get_or_create_user_by_tg_frame.
  - left. apply get_or_create_user_by_bale_frame.
  - left. unfold create_verify_code, transaction, insert_verify_token.
    by destruct (_ || _).
  - left. by destruct (consume_verify_code_cases now code platform uid d)
            as [->|(t & _ & _ & _ & ->)].
  - unfold create_dm_verify_code, transaction, insert_dm_verify_token.
    destruct (dm_code_exists d _); simpl; [by left|].
    destruct (negb _); simpl; [by left|]. right; left. by eexists.
  - destruct (consume_dm_verify_code_cases now code platform chat d)
      as [->|(t & _ & _ & _ & _ & _ & ->)]; [by left|].
    right; right. by eexists.
  - left. unfold register_chat, insert_or_ignore_chat; simpl.
    by destruct (_ || _).
  - left. unfold pair_groups, transaction, insert_link.
    by destruct (link_exists _ _ _).
  - left. unfold pair_channels, transaction, insert_link.
    by destruct (link_exists _ _ _).
  - left. by destruct (merge_user_accounts_keeps_tables now tg bale d Hwf)
            as (_ & _ & _ & _ & ?).
Qed.

Lemma exec_all_dm_minted_as code owner platform target expires cs d :
  users_wf d →
  Exists (dm_minted_as code owner platform target expires)
         (dm_verify_tokens d) →
  Exists (dm_minted_as code owner platform target expires)
         (dm_verify_tokens (exec_all cs d)).
Proof.
  revert d. induction cs as [|c cs IH]; intros d Hwf Hex; [done|].
  simpl. apply IH; [by apply exec_users_wf|].
  destruct (exec_dm_verify_tokens_wf c d Hwf) as [->|[[t ->]|[c' ->]]].
  - done.
  - apply Exists_app. by left.
  - apply Exists_fmap. eapply Exists_impl; [done|]. intros t Ht; simpl.
    unfold consume_dm_token. by destruct (String.eqb _ _).
Qed.

Lemma exec_all_dm_codes_unique cs d :
  dm_codes_unique d → dm_codes_unique (exec_all cs d).
Proof.
  revert d. induction cs as [|c cs IH]; intros d Hs; [done|].
  simpl. by apply IH, exec_dm_codes_unique.
Qed.

(** Under the primary key, the row selected for a code is any row of that
    code. *)
Lemma select_dm_verify_token_unique d code t :
  dm_codes_unique d → t ∈ dm_verify_tokens d → dm_code t = code →
  select_dm_verify_token d code = Some t.
Proof.
  intros Huniq Hin Hcode.
  destruct (select_dm_verify_token d code) as [t'|] eqn:Hsel.
  - apply select_dm_verify_token_Some in Hsel as (Hin' & Hcode').
    f_equal.
    apply list_elem_of_lookup in Hin as [i Hi], Hin' as [j Hj].
    assert (j = i) as ->; [|congruence].
    eapply NoDup_lookup; [exact Huniq| |].
    + by rewrite list_lookup_fmap, Hj.
    + rewrite list_lookup_fmap, Hi. simpl. congruence.
  - unfold select_dm_verify_token in Hsel.
    apply find_none with (x := t) in Hsel; [|by apply list_elem_of_In].
    simpl in Hsel. by rewrite Hcode, String.eqb_refl in Hsel.
Qed.

(** X3.  A DM code minted for a target chat is redeemed only there.  After
    [create_dm_verify_code] has returned a code, and whatever the program
    has written to the database since, [consume_dm_verify_code] returns
    [None] and changes nothing for any other platform, any other chat, or
    any time later than ten minutes after the minting; called for the
    target platform and chat within the ten minutes it returns the minting
    owner, unless the code has been redeemed before. *)
Theorem dm_code_redeemed_only_in_target_chat
    h issued owner platform target d d1 code calls now platform' chat' :
  users_wf d → dm_codes_unique d →
  create_dm_verify_code h issued owner platform target d = (d1, Ok code) →
  let d2 := exec_all calls d1 in
  (platform' ≠ platform ∨ chat' ≠ target ∨ issued + ten_minutes < now →
   consume_dm_verify_code now code platform' chat' d2 = (d2, None))
  ∧ (platform' = platform → chat' = target → now ≤ issued + ten_minutes →
     ¬ dm_spent code d2 →
     consume_dm_verify_code now code platform' chat' d2
     = (update_dm_verify_token_consumed code d2, Some owner)).
Proof.
  intros Hwf Huniq Hc d2.
  pose proof (exec_users_wf (CreateDmVerifyCode h issued owner platform target)
                d Hwf) as Hwf1.
  pose proof (exec_dm_codes_unique
                (CreateDmVerifyCode h issued owner platform target)
                d Huniq) as Huniq1.
  cbn [exec] in Hwf1, Huniq1. rewrite Hc in Hwf1, Huniq1. cbn [fst] in *.
  apply create_dm_verify_code_Ok in Hc as (_ & _ & Htok).
  assert (Exists (dm_minted_as code owner platform target
                               (issued + ten_minutes))
                 (dm_verify_tokens d2)) as Hex.
  { apply exec_all_dm_minted_as; [done|]. rewrite Htok. apply Exists_app.
    right. by apply Exists_cons_hd. }
  apply Exists_exists in Hex as (t & Hin & Hcode & Ho & Hp & Hch & Hexp).
  assert (dm_codes_unique d2) as Huniq2
    by by apply exec_all_dm_codes_unique.
  clearbody d2. unfold consume_dm_verify_code.
  rewrite (select_dm_verify_token_unique d2 code t) by done.
  rewrite Hp, Hch, Hexp, Ho. split.
  - intros [Hne|[Hne|Hlate]].
    + apply String.eqb_neq in Hne. rewrite String.eqb_sym, Hne.
      by rewrite orb_true_r.
    + apply Z.eqb_neq in Hne. rewrite Z.eqb_sym, Hne.
      by rewrite orb_true_r.
    + apply Z.ltb_lt in Hlate as ->. by destruct (_ || _).
  - intros -> -> Hearly Hfresh.
    rewrite String.eqb_refl, Z.eqb_refl. cbn [negb]. rewrite !orb_false_r.
    unfold int_true. destruct (Z.eqb_spec (dm_consumed t) 0) as [_|Hused].
    + cbn [negb]. by apply Z.ltb_ge in Hearly as ->.
    + destruct Hfresh. split.
      * apply Exists_exists. by exists t.
      * apply Forall_forall. intros t' Hin' Hcode'.
        assert (t' = t) as ->; [|done].
        apply list_elem_of_lookup in Hin as [i Hi], Hin' as [j Hj].
        assert (j = i) as ->; [|congruence].
        eapply NoDup_lookup; [exact Huniq2| |].
        -- by rewrite list_lookup_fmap, Hj.
        -- rewrite list_lookup_fmap, Hi. simpl. congruence.
Qed.

Lemma dm_code_redeemed_only_in_target_chat_witness :
  let h := String.list_ascii_of_string "0a1b2c3d4e5f40008000000000000000" in
  let d1 := (create_dm_verify_code h 0 1 "bale" 777 init_db).1 in
  let d2 := exec_all [GetOrCreateUserByTg 2 10;
                      ConsumeDmVerifyCode 3 "DM-0A1B2C3D" "tg" 777] d1 in
  create_dm_verify_code h 0 1 "bale" 777 init_db = (d1, Ok "DM-0A1B2C3D")
  ∧ consume_dm_verify_code 5 "DM-0A1B2C3D" "bale" 778 d2 = (d2, None)
  ∧ consume_dm_verify_code ten_minutes "DM-0A1B2C3D" "bale" 777 d2
    = (update_dm_verify_token_consumed "DM-0A1B2C3D" d2, Some 1).
Proof.
  split; [reflexivity|].
  pose proof (dm_code_redeemed_only_in_target_chat
                (String.list_ascii_of_string "0a1b2c3d4e5f40008000000000000000")
                0 1 "bale" 777 init_db
                (create_dm_verify_code
                   (String.list_ascii_of_string
                      "0a1b2c3d4e5f40008000000000000000")
                   0 1 "bale" 777 init_db).1 "DM-0A1B2C3D"
                [GetOrCreateUserByTg 2 10;
                 ConsumeDmVerifyCode 3 "DM-0A1B2C3D" "tg" 777]) as Hw.
  assert (dm_codes_unique init_db) as Hu by apply init_db_schema_ok.
  split.
  - destruct (Hw 5 "bale" 778 init_db_users_wf Hu eq_refl) as [Hno _].
    apply Hno. right; left. lia.
  - destruct (Hw ten_minutes "bale" 777 init_db_users_wf Hu eq_refl)
      as [_ Hok].
    apply Hok; [reflexivity|reflexivity|reflexivity|].
    intros [_ Hall]. vm_compute in Hall.
    apply Forall_cons in Hall as [Hall _]. by apply Hall.
Defined.

(** * Finding or creating an owner *)

Section FindOrCreate.
Implicit Types (d : DB) (u v : User) (a b tg bale : Z).

Lemma next_rowid_above d :
  users_seq d < next_rowid d
  ∧ Forall (λ u, user_id u < next_rowid d) (users d).
Proof.
  unfold next_rowid.
  assert (users_seq d ≤ foldr Z.max (users_seq d) (user_id <$> users d)
          ∧ Forall (λ u, user_id u
                         ≤ foldr Z.max (users_seq d) (user_id <$> users d))
                   (users d)) as [Hs Hall].
  { induction (users d) as [|u us [IH1 IH2]]; csimpl; [done|].
    split; [lia|]. constructor; [lia|].
    eapply Forall_impl; [exact IH2|]. simpl. lia. }
  split; [lia|]. eapply Forall_impl; [exact Hall|]. simpl. lia.
Qed.

Lemma select_bale_append_user_found d u bale :
  select_user_id_by_bale d bale = None → bale_user_id u = Some bale →
  select_user_id_by_bale (append_user u d) bale = Some (user_id u).
Proof.
  intros Hn Hu. unfold select_user_id_by_bale; simpl.
  rewrite find_app_fresh; [done| |by rewrite Hu, sql_eq_Some].
  by apply select_user_id_by_bale_None.
Qed.

Lemma get_or_create_user_by_bale_new depth now bale d :
  select_user_id_by_bale d bale = None →
  get_or_create_user_by_bale (S depth) now bale d
  = (append_user (mkUser (next_rowid d) None (Some bale) None None now) d,
     Ok (next_rowid d)).
Proof.
  intros Hn. simpl. rewrite Hn, (insert_user_bale_Ok _ _ _ Hn).
  destruct depth; simpl;
    by rewrite (select_bale_append_user_found _ (mkUser _ _ _ _ _ _) _ Hn).
Qed.

Lemma get_or_create_user_by_bale_found depth now bale d a :
  select_user_id_by_bale d bale = Some a →
  get_or_create_user_by_bale depth now bale d = (d, Ok a).
Proof. intros Hs. destruct depth; simpl; by rewrite Hs. Qed.

End FindOrCreate.

(** X4.  [get_or_create_user_by_tg] and [get_or_create_user_by_bale] find
    or create.  For an id that SQLite can bind (one in the signed 64-bit
    range, as the ids of both platforms are) and with room for one
    recursive call, they never raise; they return the id of the existing owner and change nothing, or append one
    owner that carries the identity alone, under an id larger than every id
    in the table and than any id handed out before; afterwards the identity
    resolves to the returned id, and every further call returns it without
    changing the store. *)
Theorem get_or_create_user_finds_or_creates depth now pid d :
  sqlite_int pid = true →
  let by_tg := get_or_create_user_by_tg (S depth) now pid d in
  let by_bale := get_or_create_user_by_bale (S depth) now pid d in
  (∃ o, by_tg.2 = Ok o
        ∧ select_user_id_by_tg by_tg.1 pid = Some o
        ∧ (select_user_id_by_tg d pid = Some o ∧ by_tg.1 = d
           ∨ select_user_id_by_tg d pid = None
             ∧ by_tg.1 = append_user (mkUser o (Some pid) None None None now) d
             ∧ users_seq d < o ∧ Forall (λ u, user_id u < o) (users d))
        ∧ ∀ depth' now',
            get_or_create_user_by_tg depth' now' pid by_tg.1 = (by_tg.1, Ok o))
  ∧ (∃ o, by_bale.2 = Ok o
          ∧ select_user_id_by_bale by_bale.1 pid = Some o
          ∧ (select_user_id_by_bale d pid = Some o ∧ by_bale.1 = d
             ∨ select_user_id_by_bale d pid = None
               ∧ by_bale.1
                 = append_user (mkUser o None (Some pid) None None now) d
               ∧ users_seq d < o ∧ Forall (λ u, user_id u < o) (users d))
          ∧ ∀ depth' now',
              get_or_create_user_by_bale depth' now' pid by_bale.1
              = (by_bale.1, Ok o)).
Proof.
  intros _. cbv zeta. split.
  - destruct (select_user_id_by_tg d pid) as [a|] eqn:Hs.
    + rewrite (get_or_create_user_by_tg_found _ _ _ _ a Hs); cbn [fst snd].
      exists a. split; [done|]. split; [done|]. split; [by left|].
      intros. by apply get_or_create_user_by_tg_found.
    + rewrite (get_or_create_user_by_tg_new _ _ _ _ Hs); cbn [fst snd].
      destruct (next_rowid_above d) as [Hseq Hids].
      pose proof (select_tg_append_user d
                    (mkUser (next_rowid d) (Some pid) None None None now)
                    pid Hs eq_refl) as Hfound.
      exists (next_rowid d). split; [done|]. split; [done|].
      split; [by right|]. intros. by apply get_or_create_user_by_tg_found.
  - destruct (select_user_id_by_bale d pid) as [a|] eqn:Hs.
    + rewrite (get_or_create_user_by_bale_found _ _ _ _ a Hs); cbn [fst snd].
      exists a. split; [done|]. split; [done|]. split; [by left|].
      intros. by apply get_or_create_user_by_bale_found.
    + rewrite (get_or_create_user_by_bale_new _ _ _ _ Hs); cbn [fst snd].
      destruct (next_rowid_above d) as [Hseq Hids].
      pose proof (select_bale_append_user_found d
                    (mkUser (next_rowid d) None (Some pid) None None now)
                    pid Hs eq_refl) as Hfound.
      exists (next_rowid d). split; [done|]. split; [done|].
      split; [by right|]. intros. by apply get_or_create_user_by_bale_found.
Qed.

Lemma get_or_create_user_finds_or_creates_witness :
  let d := (get_or_create_user_by_bale 1 100 20 init_db).1 in
  sqlite_int 10 = true
  ∧ (get_or_create_user_by_tg 1 200 10 d).2 = Ok 2
  ∧ (get_or_create_user_by_tg 1 200 10 d).1
    = append_user (mkUser 2 (Some 10) None None None 200) d
  ∧ get_or_create_user_by_tg 0 300 10 (get_or_create_user_by_tg 1 200 10 d).1
    = ((get_or_create_user_by_tg 1 200 10 d).1, Ok 2).
Proof.
  split; [reflexivity|].
  destruct (get_or_create_user_finds_or_creates 0 200 10
              (get_or_create_user_by_bale 1 100 20 init_db).1 eq_refl)
    as [(o & Hres & _ & Hcases & Hagain) _].
  assert (o = 2) as -> by (vm_compute in Hres; congruence).
  split; [exact Hres|]. split; [|apply Hagain].
  destruct Hcases as [[Hfound _]|(_ & Happ & _)]; [discriminate Hfound|].
  exact Happ.
Defined.

(** * What the account merge touches *)

Section MergeFrame.
Implicit Types (d : DB) (u v : User) (a b tg bale : Z).

Lemma merge_user_accounts_ids now tg bale d :
  users_wf d →
  (user_id <$> users d)
    `prefix_of` (user_id <$> users (merge_user_accounts now tg bale d).1).
Proof.
  intros Hwf. pose proof Hwf as (_ & Hpos & _). rewrite Forall_forall in Hpos.
  destruct (select_user_id_by_tg d tg) as [a|] eqn:Ht,
           (select_user_id_by_bale d bale) as [b|] eqn:Hb.
  - assert (a ≠ 0 ∧ b ≠ 0) as [Ha Hnz].
    { apply select_user_id_by_tg_Some in Ht as (u & Hu & <- & _).
      apply select_user_id_by_bale_Some in Hb as (v & Hv & <- & _).
      pose proof (Hpos u Hu). pose proof (Hpos v Hv). lia. }
    destruct (decide (a = b)) as [<-|Hab].
    + by rewrite (merge_same_owner now tg bale d a).
    + by rewrite (merge_two_owners now tg bale d a b).
  - apply select_user_id_by_tg_Some in Ht as Hu.
    destruct Hu as (u & Hu & <- & _).
    rewrite (merge_tg_only now tg bale d (user_id u));
      [|done|specialize (Hpos u Hu); lia|done].
    cbn [fst]. by rewrite update_where_id_ids.
  - apply select_user_id_by_bale_Some in Hb as Hu.
    destruct Hu as (u & Hu & <- & _).
    rewrite (merge_bale_only now tg bale d (user_id u));
      [|done|done|specialize (Hpos u Hu); lia].
    cbn [fst]. by rewrite update_where_id_ids.
  - rewrite merge_fresh by done. cbn [fst append_user users].
    rewrite fmap_app. by apply prefix_app_r.
Qed.

End MergeFrame.

(** X5.  On a store that satisfies the constraints of [users],
    [merge_user_accounts] touches the [users] table only and deletes no
    owner: chats, group links, channel links and both token tables are
    exactly as before, whether the call returns or raises, and the owner ids
    of before are still there, in the same order. *)
Theorem merge_user_accounts_touches_users_only now tg bale d :
  users_wf d →
  tables_kept d (merge_user_accounts now tg bale d).1
  ∧ (user_id <$> users d)
      `prefix_of` (user_id <$> users (merge_user_accounts now tg bale d).1).
Proof.
  intros Hwf. split.
  - by apply merge_user_accounts_keeps_tables.
  - by apply merge_user_accounts_ids.
Qed.

Lemma merge_user_accounts_touches_users_only_witness :
  let d := exec_all [GetOrCreateUserByTg 100 10;
                     GetOrCreateUserByBale 101 20;
                     RegisterChat 102 1 "tg" "group" (-100) "g";
                     PairGroups 103 1 (-100) (-200)] init_db in
  users_wf d
  ∧ tables_kept d (merge_user_accounts 200 10 20 d).1
  ∧ tables_kept d (merge_user_accounts 200 10 21 d).1.
Proof.
  assert (users_wf
            (exec_all [GetOrCreateUserByTg 100 10;
                       GetOrCreateUserByBale 101 20;
                       RegisterChat 102 1 "tg" "group" (-100) "g";
                       PairGroups 103 1 (-100) (-200)] init_db)) as Hwf.
  { apply exec_all_users_wf, init_db_users_wf. }
  split; [exact Hwf|]. split.
  - apply (merge_user_accounts_touches_users_only 200 10 20 _ Hwf).
  - apply (merge_user_accounts_touches_users_only 200 10 21 _ Hwf).
Defined.

(** * Whom the merge hands an owner to *)

Section MergeRebinds.
Implicit Types (d : DB) (u v : User) (a b tg bale : Z).

Lemma select_tg_gone_after_tg_update d b tg y u :
  users_wf d → u ∈ users d → user_id u = b → tg_user_id u = Some y → y ≠ tg →
  select_user_id_by_tg (update_where_id b (with_tg (Some tg)) d) y = None.
Proof.
  intros (_ & _ & _ & Hut & _) Hu Hid Hy Hne.
  unfold select_user_id_by_tg.
  cut (List.find (λ v, sql_eq (tg_user_id v) y)
         (users (update_where_id b (with_tg (Some tg)) d)) = None);
    [by intros ->|].
  apply find_None_iff, Forall_forall.
  intros v (w & Hw & ->)%elem_of_update_where_id.
  destruct (Z.eqb_spec (user_id w) b) as [Hwb|Hwb]; simpl.
  - by apply Z.eqb_neq, not_eq_sym.
  - destruct (sql_eq (tg_user_id w) y) eqn:Hwy; [|done].
    apply sql_eq_true in Hwy.
    destruct Hwb. by rewrite (unique_column tg_user_id (users d) w u y).
Qed.

Lemma select_bale_gone_after_bale_update d a bale y u :
  users_wf d → u ∈ users d → user_id u = a → bale_user_id u = Some y →
  y ≠ bale →
  select_user_id_by_bale (update_where_id a (with_bale (Some bale)) d) y = None.
Proof.
  intros (_ & _ & _ & _ & Hub) Hu Hid Hy Hne.
  unfold select_user_id_by_bale.
  cut (List.find (λ v, sql_eq (bale_user_id v) y)
         (users (update_where_id a (with_bale (Some bale)) d)) = None);
    [by intros ->|].
  apply find_None_iff, Forall_forall.
  intros v (w & Hw & ->)%elem_of_update_where_id.
  destruct (Z.eqb_spec (user_id w) a) as [Hwa|Hwa]; simpl.
  - by apply Z.eqb_neq, not_eq_sym.
  - destruct (sql_eq (bale_user_id w) y) eqn:Hwy; [|done].
    apply sql_eq_true in Hwy.
    destruct Hwa. by rewrite (unique_column bale_user_id (users d) w u y).
Qed.

End MergeRebinds.

(** X6.  [merge_user_accounts] binds an unknown identity to the owner that
    holds the other one, and replaces whatever identity that owner had on
    the unknown side.  Stated for ids that SQLite can bind (the signed
    64-bit range).  With an unknown Telegram id and the Bale id of an
    owner, the call returns that owner, both ids resolve to it afterwards,
    the Telegram id the owner had before (if any) resolves to no owner any
    more, and the owner's chats are as before; and the same with the two
    platforms exchanged. *)
Theorem merge_user_accounts_rebinds_owner now tg bale d o :
  users_wf d → sqlite_int tg = true → sqlite_int bale = true →
  (select_user_id_by_tg d tg = None →
   select_user_id_by_bale d bale = Some o →
   let d1 := (merge_user_accounts now tg bale d).1 in
   (merge_user_accounts now tg bale d).2 = Ok o
   ∧ select_user_id_by_tg d1 tg = Some o
   ∧ select_user_id_by_bale d1 bale = Some o
   ∧ (∀ y, select_user_id_by_tg d y = Some o →
           select_user_id_by_tg d1 y = None)
   ∧ list_owner_chats d1 o None None = list_owner_chats d o None None)
  ∧ (select_user_id_by_tg d tg = Some o →
     select_user_id_by_bale d bale = None →
     let d1 := (merge_user_accounts now tg bale d).1 in
     (merge_user_accounts now tg bale d).2 = Ok o
     ∧ select_user_id_by_tg d1 tg = Some o
     ∧ select_user_id_by_bale d1 bale = Some o
     ∧ (∀ y, select_user_id_by_bale d y = Some o →
             select_user_id_by_bale d1 y = None)
     ∧ list_owner_chats d1 o None None = list_owner_chats d o None None).
Proof.
  intros Hwf _ _. pose proof Hwf as (_ & Hpos & _).
  rewrite Forall_forall in Hpos. split.
  - intros Ht Hb. cbv zeta.
    destruct (select_user_id_by_bale_Some _ _ _ Hb) as (u & Hu & Huo & Hux).
    rewrite (merge_bale_only now tg bale d o);
      [|done|done|specialize (Hpos u Hu); lia].
    cbn [fst snd]. split; [done|].
    split; [by apply (select_tg_after_tg_update d o tg u)|].
    split; [by rewrite select_bale_after_tg_update|]. split; [|done].
    intros y (v & Hv & Hvo & Hvy)%select_user_id_by_tg_Some.
    apply (select_tg_gone_after_tg_update d o tg y v); [done..|].
    intros ->. apply select_user_id_by_tg_None in Ht.
    rewrite Forall_forall in Ht. specialize (Ht v Hv).
    by rewrite Hvy, sql_eq_Some in Ht.
  - intros Ht Hb. cbv zeta.
    destruct (select_user_id_by_tg_Some _ _ _ Ht) as (u & Hu & Huo & Hux).
    rewrite (merge_tg_only now tg bale d o);
      [|done|specialize (Hpos u Hu); lia|done].
    cbn [fst snd]. split; [done|].
    split; [by rewrite select_tg_after_bale_update|].
    split; [by apply (select_bale_after_bale_update d o bale u)|].
    split; [|done].
    intros y (v & Hv & Hvo & Hvy)%select_user_id_by_bale_Some.
    apply (select_bale_gone_after_bale_update d o bale y v); [done..|].
    intros ->. apply select_user_id_by_bale_None in Hb.
    rewrite Forall_forall in Hb. specialize (Hb v Hv).
    by rewrite Hvy, sql_eq_Some in Hb.
Qed.

Lemma merge_user_accounts_rebinds_owner_witness :
  let d := exec_all [GetOrCreateUserByBale 100 20;
                     MergeUserAccounts 101 10 20;
                     RegisterChat 102 1 "bale" "group" 500 "g"] init_db in
  let d1 := (merge_user_accounts 200 11 20 d).1 in
  users_wf d
  ∧ select_user_id_by_tg d 10 = Some 1
  ∧ select_user_id_by_tg d 11 = None
  ∧ select_user_id_by_bale d 20 = Some 1
  ∧ (merge_user_accounts 200 11 20 d).2 = Ok 1
  ∧ select_user_id_by_tg d1 11 = Some 1
  ∧ select_user_id_by_tg d1 10 = None.
Proof.
  assert (users_wf
            (exec_all [GetOrCreateUserByBale 100 20;
                       MergeUserAccounts 101 10 20;
                       RegisterChat 102 1 "bale" "group" 500 "g"] init_db))
    as Hwf.
  { apply exec_all_users_wf, init_db_users_wf. }
  split; [exact Hwf|]. split; [reflexivity|]. split; [reflexivity|].
  split; [reflexivity|].
  destruct (merge_user_accounts_rebinds_owner 200 11 20 _ 1 Hwf eq_refl
              eq_refl) as [Hw _].
  destruct (Hw eq_refl eq_refl) as (Hr & Ht & _ & Hold & _).
  split; [exact Hr|]. split; [exact Ht|]. apply Hold. reflexivity.
Defined.

(** * The [/verify] command *)

Section Verify.
Context `{PyStr}.
Variables (bots : Bots) (config : Config).

Lemma tg_verify_dispatch t m text :
  tg_chat_type m ≠ "private" → tg_text m = Some text →
  startswith text "/verify" = true → startswith text "/verify_dm" = false →
  tg_dispatch_message bots t m = on_tg_verify_in_group bots t m.
Proof.
  intros Hpriv Htext Hv Hdm. unfold tg_dispatch_message.
  apply String.eqb_neq in Hpriv as ->. rewrite Htext; simpl.
  by rewrite Hdm, Hv.
Qed.

(** What [on_tg_verify_in_group] does with the answer of
    [consume_verify_code]. *)
Lemma on_tg_verify_in_group_run t m w cmd arg :
  is_self_tg bots m = false →
  py_split1 (or_empty (tg_text m)) = [cmd; arg] →
  on_tg_verify_in_group bots t m w
  = let '(d', r) := consume_verify_code (tick_now t) (py_strip arg) "tg"
                      (from_option tgu_id 0 (tg_from_user m)) (store w) in
    match r with
    | None => mkOutcome (with_store d' w)
                [ViaTelegram (tg_chat_id m) (Note InvalidCode)] (Ok ())
    | Some (o, ctype) =>
        if String.eqb ctype (tg_verify_kind m)
        then mkOutcome
               (with_store
                  (register_chat (tick_now t) o "tg" ctype (tg_chat_id m)
                     (or_empty (tg_chat_title m)) d').1 w)
               [ViaTelegram (tg_chat_id m)
                  (Note (Linked ctype (tg_chat_id m)))] (Ok ())
        else mkOutcome (with_store d' w)
               [ViaTelegram (tg_chat_id m) (Note WrongChatType)] (Ok ())
    end.
Proof.
  intros Hself Hparts. unfold on_tg_verify_in_group, tg_verify_kind.
  rewrite Hself, Hparts. unfold run. run_handler.
  destruct (consume_verify_code _ _ _ _ _) as [d' [[o ctype]|]]; simpl;
    [|done].
  by destruct (String.eqb ctype _).
Qed.

Lemma bale_verify_dispatch t m text w :
  bale_chat_type m ≠ "private" →
  text_or (bale_text m) (bale_caption m) = Some text → text ≠ "" →
  startswith text "/verify" = true → startswith text "/verify_dm" = false →
  (negb (from_option ba_id 0 (bale_author m) =? 0)
   && (from_option ba_id 0 (bale_author m) =? bale_self_id bots)) = false →
  bale_on_message bots config t m w
  = bale_verify t m text (from_option ba_id 0 (bale_author m)) w.
Proof.
  intros Hpriv Htext Hne Hv Hdm Hself. unfold bale_on_message.
  rewrite Hself, Htext; simpl. rewrite Hdm, Hv.
  apply String.eqb_neq in Hpriv as ->.
  by destruct text.
Qed.

Lemma bale_verify_run t m text uid w :
  bale_chat_type m = "group" ∨ bale_chat_type m = "channel" →
  bale_verify t m text uid w
  = let '(d', r) := consume_verify_code (tick_now t)
                      (code_of_parts (py_split1 text)) "bale" uid (store w) in
    match r with
    | None => mkOutcome (with_store d' w)
                [ViaBale (bale_chat_id m) (Note InvalidCode)] (Ok ())
    | Some (o, ctype) =>
        if String.eqb ctype (bale_chat_type m)
        then mkOutcome
               (with_store
                  (register_chat (tick_now t) o "bale" (bale_chat_type m)
                     (bale_chat_id m) (or_empty (bale_chat_title m)) d').1 w)
               [ViaBale (bale_chat_id m)
                  (Note (Linked (bale_chat_type m) (bale_chat_id m)))] (Ok ())
        else mkOutcome (with_store d' w)
               [ViaBale (bale_chat_id m) (Note WrongChatType)] (Ok ())
    end.
Proof.
  intros Hty. unfold bale_verify.
  assert (negb (String.eqb (bale_chat_type m) "group"
                || String.eqb (bale_chat_type m) "channel") = false) as ->.
  { by destruct Hty as [-> | ->]. }
  unfold run. run_handler.
  destruct (consume_verify_code _ _ _ _ _) as [d' [[o ctype]|]]; simpl;
    [|done].
  by destruct (String.eqb ctype _).
Qed.

End Verify.

Section LinkFlow.
Context `{PyStr}.
Variables (bots : Bots) (config : Config).
Implicit Types (d : DB) (w : World).

Lemma create_verify_code_checks picks issued o platform kind uid d d1 code :
  create_verify_code picks issued o platform kind uid d = (d1, Ok code) →
  check_platform platform = true ∧ check_chat_type kind = true
  ∧ users d1 = users d ∧ users_seq d1 = users_seq d ∧ chats d1 = chats d
  ∧ group_links d1 = group_links d ∧ channel_links d1 = channel_links d
  ∧ dm_verify_tokens d1 = dm_verify_tokens d.
Proof.
  unfold create_verify_code, transaction, insert_verify_token.
  destruct (code_exists d _); simpl; [done|].
  destruct (negb (check_platform platform)) eqn:Hp; simpl; [done|].
  destruct (negb (check_chat_type kind)) eqn:Hk; simpl; [done|].
  intros [= <- _]. apply negb_false_iff in Hp, Hk. by repeat split.
Qed.

(** The requester redeems a fresh code in time. *)
Lemma consume_minted picks issued o platform kind uid d d1 code now :
  create_verify_code picks issued o platform kind uid d = (d1, Ok code) →
  now ≤ issued + ten_minutes →
  consume_verify_code now code platform uid d1
  = (update_verify_token_consumed code d1, Some (o, kind)).
Proof.
  intros Hc Hle. apply create_verify_code_Ok in Hc as (_ & Hfresh & Htok).
  unfold consume_verify_code, select_verify_token. rewrite Htok.
  rewrite (select_minted_token _
             (mkVerifyToken code o platform kind uid _ 0) Hfresh).
  simpl. by apply Z.ltb_ge in Hle as ->.
Qed.

Lemma spent_after_minted_consumed picks issued o platform kind uid d d1 code :
  create_verify_code picks issued o platform kind uid d = (d1, Ok code) →
  spent code (update_verify_token_consumed code d1).
Proof.
  intros Hc. apply create_verify_code_Ok in Hc as (_ & _ & Htok).
  apply update_consumed_spent. rewrite Htok. apply Exists_app. right.
  by apply Exists_cons_hd.
Qed.

Lemma register_fresh_chat now o platform kind cid title d :
  check_platform platform = true → check_chat_type kind = true →
  chat_registered d platform cid = false →
  (register_chat now o platform kind cid title d).1
  = set_chats (λ l, l ++ [mkChat o platform kind cid title now]) d.
Proof.
  intros Hp Hk Hr. unfold register_chat, insert_or_ignore_chat; simpl.
  by rewrite Hp, Hk, Hr.
Qed.

Lemma register_known_chat now o platform kind cid title d :
  chat_registered d platform cid = true →
  (register_chat now o platform kind cid title d).1 = d.
Proof.
  intros Hr. unfold register_chat, insert_or_ignore_chat; simpl.
  by rewrite Hr, orb_true_r.
Qed.

Lemma elem_of_list_owner_chats d o c :
  c ∈ list_owner_chats d o None None ↔ c ∈ chats d ∧ chat_owner_user_id c = o.
Proof.
  unfold list_owner_chats. rewrite list_elem_of_In, filter_In.
  rewrite <-list_elem_of_In, !andb_true_r, Z.eqb_eq. done.
Qed.

End LinkFlow.

Section LinkFlowTheorems.
Context `{PyStr}.
Variables (bots : Bots) (config : Config).
Implicit Types (d : DB) (w : World).

Lemma chat_registered_consumed code d platform cid :
  chat_registered (update_verify_token_consumed code d) platform cid
  = chat_registered d platform cid.
Proof. done. Qed.

(** X7.  Linking a Telegram group end to end.  After [create_verify_code]
    has minted a group code for a Telegram user, a [/verify] message with
    that code, sent by that user within ten minutes in a group or a
    supergroup that is not yet registered, registers the chat for the
    owner of the code: one row is appended to [chats], it is listed for
    that owner and for no other, the code is spent, and the chat gets the
    answer [Linked].  (What is posted in a channel reaches the bot as a
    channel post, which [on_tg_channel_post] handles: no code is redeemed
    there.) *)
Theorem tg_verify_registers_chat
    picks issued o kind uid d0 d1 code t m u text cmd arg w :
  create_verify_code picks issued o "tg" kind uid d0 = (d1, Ok code) →
  store w = d1 →
  tg_from_user m = Some u → tgu_id u = uid → uid ≠ tg_bot_id bots →
  tg_chat_type m = "group" ∨ tg_chat_type m = "supergroup" →
  kind = "group" →
  tg_text m = Some text →
  startswith text "/verify" = true → startswith text "/verify_dm" = false →
  py_split1 text = [cmd; arg] → py_strip arg = code →
  tick_now t ≤ issued + ten_minutes →
  chat_registered d1 "tg" (tg_chat_id m) = false →
  let out := on_event bots config t (TgMessageEvent m) w in
  let row := mkChat o "tg" kind (tg_chat_id m) (or_empty (tg_chat_title m))
                    (tick_now t) in
  returned out = Ok ()
  ∧ sent out = [ViaTelegram (tg_chat_id m) (Note (Linked kind (tg_chat_id m)))]
  ∧ chats (store (after out)) = chats d1 ++ [row]
  ∧ (∀ o', row ∈ list_owner_chats (store (after out)) o' None None ↔ o' = o)
  ∧ spent code (store (after out)).
Proof.
  intros Hmint Hw Hu Huid Hbot Hgroup -> Htext Hv Hdm Hparts Hcode Hnow Hreg.
  assert (tg_chat_type m ≠ "private") as Hpriv
    by (by destruct Hgroup as [->| ->]).
  assert (tg_verify_kind m = "group") as Hkind.
  { unfold tg_verify_kind. by destruct Hgroup as [->| ->]. }
  cbv zeta. cbn [on_event].
  rewrite (tg_verify_dispatch bots t m text) by done.
  rewrite (on_tg_verify_in_group_run bots t m w cmd arg);
    [|unfold is_self_tg; rewrite Hu, Huid; by apply Z.eqb_neq
     |by rewrite Htext].
  rewrite Hu, Hw, Hcode; cbn [from_option]. rewrite Huid.
  rewrite (consume_minted _ _ _ _ _ _ _ _ _ _ Hmint Hnow).
  rewrite Hkind, String.eqb_refl.
  destruct (create_verify_code_checks _ _ _ _ _ _ _ _ _ Hmint)
    as (Hp & Hk & _).
  rewrite register_fresh_chat by done. cbn [after sent returned store].
  split; [done|]. split; [done|]. split; [done|]. split.
  - intros o'. rewrite elem_of_list_owner_chats; simpl.
    rewrite elem_of_app, list_elem_of_singleton.
    split; [by intros [_ ?]|]. intros ->. split; [by right|done].
  - destruct (spent_after_minted_consumed _ _ _ _ _ _ _ _ _ Hmint)
      as [Hex Hall].
    by split.
Qed.

End LinkFlowTheorems.

Lemma tg_verify_registers_chat_witness :
  let bots := mkBots 999 888 in
  let picks := String.list_ascii_of_string "ABC123" in
  let d0 := exec_all [GetOrCreateUserByTg 0 10] init_db in
  let d1 := (create_verify_code picks 0 1 "tg" "group" 10 d0).1 in
  let m := mkTgMessage (-100) "supergroup" (Some "My group")
             (Some (mkTgUser 10 None (Some "Ann") None))
             (Some "/verify G-ABC123") None [] in
  let out := on_event bots (mkConfig false None) (mkTick 5 [])
                      (TgMessageEvent m) (mkWorld d1 ∅ ∅) in
  create_verify_code picks 0 1 "tg" "group" 10 d0 = (d1, Ok "G-ABC123")
  ∧ sent out = [ViaTelegram (-100) (Note (Linked "group" (-100)))]
  ∧ chats (store (after out)) = [mkChat 1 "tg" "group" (-100) "My group" 5].
Proof.
  split; [reflexivity|].
  destruct (tg_verify_registers_chat (mkBots 999 888) (mkConfig false None)
              (String.list_ascii_of_string "ABC123") 0 1 "group" 10
              (exec_all [GetOrCreateUserByTg 0 10] init_db)
              (create_verify_code (String.list_ascii_of_string "ABC123")
                 0 1 "tg" "group" 10
                 (exec_all [GetOrCreateUserByTg 0 10] init_db)).1
              "G-ABC123" (mkTick 5 [])
              (mkTgMessage (-100) "supergroup" (Some "My group")
                 (Some (mkTgUser 10 None (Some "Ann") None))
                 (Some "/verify G-ABC123") None [])
              (mkTgUser 10 None (Some "Ann") None)
              "/verify G-ABC123" "/verify" "G-ABC123"
              (mkWorld
                 (create_verify_code (String.list_ascii_of_string "ABC123")
                    0 1 "tg" "group" 10
                    (exec_all [GetOrCreateUserByTg 0 10] init_db)).1 ∅ ∅))
    as (_ & Hsent & Hchats & _); try reflexivity; try done.
  by right.
Defined.

Section VerifyEdges.
Context `{PyStr}.
Variables (bots : Bots) (config : Config).
Implicit Types (d : DB) (w : World).

(** X8.  A channel code used in a group is lost.  When the requester
    sends [/verify] in a Telegram group or supergroup with a fresh code
    that was minted for a channel, the chat gets the answer
    [WrongChatType], no chat is registered, and the code has been consumed
    all the same: every later attempt to redeem it returns [None]. *)
Theorem tg_verify_wrong_kind_consumes_code
    picks issued o kind uid d0 d1 code t m u text cmd arg w :
  create_verify_code picks issued o "tg" kind uid d0 = (d1, Ok code) →
  store w = d1 →
  tg_from_user m = Some u → tgu_id u = uid → uid ≠ tg_bot_id bots →
  tg_chat_type m = "group" ∨ tg_chat_type m = "supergroup" →
  kind ≠ "group" →
  tg_text m = Some text →
  startswith text "/verify" = true → startswith text "/verify_dm" = false →
  py_split1 text = [cmd; arg] → py_strip arg = code →
  tick_now t ≤ issued + ten_minutes →
  let out := on_event bots config t (TgMessageEvent m) w in
  returned out = Ok ()
  ∧ sent out = [ViaTelegram (tg_chat_id m) (Note WrongChatType)]
  ∧ chats (store (after out)) = chats d1
  ∧ ∀ (later : list Call) now' platform' uid',
      consume_verify_code now' code platform' uid'
        (exec_all later (store (after out)))
      = (exec_all later (store (after out)), None).
Proof.
  intros Hmint Hw Hu Huid Hbot Hgroup Hkind Htext Hv Hdm Hparts Hcode Hnow.
  assert (tg_chat_type m ≠ "private") as Hpriv
    by (by destruct Hgroup as [->| ->]).
  assert (tg_verify_kind m = "group") as Hgk.
  { unfold tg_verify_kind. by destruct Hgroup as [->| ->]. }
  rewrite <-Hgk in Hkind. apply not_eq_sym in Hkind.
  cbv zeta. cbn [on_event].
  rewrite (tg_verify_dispatch bots t m text) by done.
  rewrite (on_tg_verify_in_group_run bots t m w cmd arg);
    [|unfold is_self_tg; rewrite Hu, Huid; by apply Z.eqb_neq
     |by rewrite Htext].
  rewrite Hu, Hw, Hcode; cbn [from_option]. rewrite Huid.
  rewrite (consume_minted _ _ _ _ _ _ _ _ _ _ Hmint Hnow).
  apply not_eq_sym, String.eqb_neq in Hkind as ->.
  cbn [after sent returned store with_store].
  split; [done|]. split; [done|]. split; [done|].
  intros later now' platform' uid'.
  apply consume_verify_code_spent, exec_all_spent.
  by eapply spent_after_minted_consumed.
Qed.

(** X9.  A chat that is already registered is reported as linked although
    nothing changes.  When the requester sends [/verify] with a fresh code
    of the right kind in a Telegram chat that some owner has registered
    before, the chat gets the answer [Linked], but the [chats] table is
    exactly as before (the row keeps its owner), and the code is spent. *)
Theorem tg_verify_registered_chat_reports_linked
    picks issued o kind uid d0 d1 code t m u text cmd arg w :
  create_verify_code picks issued o "tg" kind uid d0 = (d1, Ok code) →
  store w = d1 →
  tg_from_user m = Some u → tgu_id u = uid → uid ≠ tg_bot_id bots →
  tg_chat_type m ≠ "private" → tg_verify_kind m = kind →
  tg_text m = Some text →
  startswith text "/verify" = true → startswith text "/verify_dm" = false →
  py_split1 text = [cmd; arg] → py_strip arg = code →
  tick_now t ≤ issued + ten_minutes →
  chat_registered d1 "tg" (tg_chat_id m) = true →
  let out := on_event bots config t (TgMessageEvent m) w in
  returned out = Ok ()
  ∧ sent out = [ViaTelegram (tg_chat_id m) (Note (Linked kind (tg_chat_id m)))]
  ∧ chats (store (after out)) = chats d1
  ∧ spent code (store (after out)).
Proof.
  intros Hmint Hw Hu Huid Hbot Hpriv Hkind Htext Hv Hdm Hparts Hcode Hnow Hreg.
  cbv zeta. cbn [on_event].
  rewrite (tg_verify_dispatch bots t m text) by done.
  rewrite (on_tg_verify_in_group_run bots t m w cmd arg);
    [|unfold is_self_tg; rewrite Hu, Huid; by apply Z.eqb_neq
     |by rewrite Htext].
  rewrite Hu, Hw, Hcode; cbn [from_option]. rewrite Huid.
  rewrite (consume_minted _ _ _ _ _ _ _ _ _ _ Hmint Hnow).
  rewrite Hkind, String.eqb_refl.
  rewrite register_known_chat by done.
  cbn [after sent returned store with_store].
  split; [done|]. split; [done|]. split; [done|].
  by eapply spent_after_minted_consumed.
Qed.

(** X10.  Linking a Bale group or channel end to end.  After
    [create_verify_code] has minted a code for a Bale user, a [/verify]
    message with that code, sent by that user within ten minutes in a chat
    of the kind the code was minted for and not yet registered, appends the
    chat to [chats] for the owner of the code, spends the code and answers
    [Linked]; in a chat of the other kind it answers [WrongChatType],
    registers nothing and spends the code all the same. *)
Theorem bale_verify_registers_chat
    picks issued o kind uid d0 d1 code t m a text cmd arg w :
  create_verify_code picks issued o "bale" kind uid d0 = (d1, Ok code) →
  store w = d1 →
  bale_author m = Some a → ba_id a = uid → uid ≠ bale_self_id bots →
  bale_chat_type m = "group" ∨ bale_chat_type m = "channel" →
  text_or (bale_text m) (bale_caption m) = Some text →
  startswith text "/verify" = true → startswith text "/verify_dm" = false →
  py_split1 text = [cmd; arg] → py_strip arg = code →
  tick_now t ≤ issued + ten_minutes →
  let out := on_event bots config t (BaleMessageEvent m) w in
  let row := mkChat o "bale" kind (bale_chat_id m)
                    (or_empty (bale_chat_title m)) (tick_now t) in
  returned out = Ok ()
  ∧ spent code (store (after out))
  ∧ (bale_chat_type m = kind →
     chat_registered d1 "bale" (bale_chat_id m) = false →
     sent out = [ViaBale (bale_chat_id m)
                   (Note (Linked kind (bale_chat_id m)))]
     ∧ chats (store (after out)) = chats d1 ++ [row])
  ∧ (bale_chat_type m ≠ kind →
     sent out = [ViaBale (bale_chat_id m) (Note WrongChatType)]
     ∧ chats (store (after out)) = chats d1).
Proof.
  intros Hmint Hw Ha Huid Hbot Hty Htext Hv Hdm Hparts Hcode Hnow.
  cbv zeta. cbn [on_event].
  assert (text ≠ "") as Hne by (intros ->; done).
  rewrite (bale_verify_dispatch bots config t m text w); [|by destruct Hty as [-> | ->]|done..|].
  2:{ rewrite Ha; cbn [from_option]. rewrite Huid.
      apply Z.eqb_neq in Hbot as ->. apply andb_false_r. }
  rewrite (bale_verify_run t m text _ w Hty).
  rewrite Ha, Hw, Hparts; cbn [from_option code_of_parts].
  rewrite Hcode, Huid.
  rewrite (consume_minted _ _ _ _ _ _ _ _ _ _ Hmint Hnow).
  destruct (create_verify_code_checks _ _ _ _ _ _ _ _ _ Hmint)
    as (Hp & Hk & _).
  pose proof (spent_after_minted_consumed _ _ _ _ _ _ _ _ _ Hmint) as Hspent.
  destruct (String.eqb_spec kind (bale_chat_type m)) as [Heq|Hneq];
    cbn [after sent returned store with_store].
  - split; [done|]. split.
    { unfold register_chat, insert_or_ignore_chat; simpl.
      by destruct (_ || _). }
    split; [|by intros ?].
    intros _ Hreg. rewrite <-Heq. by rewrite register_fresh_chat.
  - split; [done|]. split; [done|]. split; [by intros ?|]. by intros _.
Qed.

End VerifyEdges.

(** * Where routing sends *)

Section RoutingTargets.
Context `{PyStr}.
Variables (bots : Bots) (config : Config).
Implicit Types (w : World).

Lemma bale_relay_run target m text wrap w :
  after (bale_relay target m text wrap w) = w
  ∧ returned (bale_relay target m text wrap w) = Ok ()
  ∧ Forall (λ o, ∃ c, o = ViaTelegram target c)
           (sent (bale_relay target m text wrap w)).
Proof.
  unfold bale_relay. run_handler.
  destruct (text_true text), (bale_photo m), (bale_document m) as [[]|],
    (bale_video m); simpl; repeat split; repeat constructor; by eexists.
Qed.

Lemma on_tg_group_forward_run m w :
  after (on_tg_group_forward bots m w) = w
  ∧ returned (on_tg_group_forward bots m w) = Ok ()
  ∧ Forall (λ o, ∃ k c, find_group_link_by_tg (store w) (tg_chat_id m) = Some k
                        ∧ enabled k = true ∧ o = ViaBale (counterpart k) c)
           (sent (on_tg_group_forward bots m w)).
Proof.
  unfold on_tg_group_forward.
  destruct (tg_from_user m) as [u|]; [|by repeat split].
  destruct (tgu_id u =? tg_bot_id bots); [by repeat split|]. run_handler.
  destruct (find_group_link_by_tg _ _) as [k|]; [|by repeat split].
  destruct (enabled k) eqn:Hen; simpl; [|by repeat split].
  destruct (text_true _); simpl; repeat split; repeat constructor.
  by eexists _, _.
Qed.

Lemma on_tg_channel_post_run m w :
  after (on_tg_channel_post bots m w) = w
  ∧ returned (on_tg_channel_post bots m w) = Ok ()
  ∧ Forall (λ o, ∃ k c,
                find_channel_link_by_tg (store w) (tg_chat_id m) = Some k
                ∧ enabled k = true ∧ o = ViaBale (counterpart k) c)
           (sent (on_tg_channel_post bots m w)).
Proof.
  unfold on_tg_channel_post.
  destruct (is_self_tg bots m); [by repeat split|]. run_handler.
  destruct (find_channel_link_by_tg _ _) as [k|]; [|by repeat split].
  destruct (enabled k) eqn:Hen; simpl; [|by repeat split].
  destruct (text_true _); simpl; repeat split; repeat constructor.
  by eexists _, _.
Qed.

(** X11.  Routing a group or channel message writes nothing and sends only
    to the paired chat: for every group or channel message that reaches the
    routing step, on either platform (on Bale: a message without a photo),
    the handler returns without raising, leaves the database and the
    wizard dicts as they were, and every call it queues goes through the
    client of the other platform to the counterpart of the enabled pairing
    row of the chat the message came from. *)
Theorem routing_sends_to_the_paired_chat_only t e w :
  routed e → without_bale_photo e →
  let out := on_event bots config t e w in
  after out = w ∧ returned out = Ok ()
  ∧ Forall (λ o, ∃ k c, pairing_of (store w) e = Some k ∧ enabled k = true
                        ∧ o = to_other_platform e (counterpart k) c)
           (sent out).
Proof.
  destruct e as [m|m|m]; cbv zeta; cbn [on_event routed pairing_of
                                         to_other_platform without_bale_photo].
  - intros [Hty Hcmd] _. unfold tg_dispatch_message.
    rewrite (not_verify_not_verify_dm _ Hcmd).
    unfold is_verify_command in Hcmd. rewrite Hcmd.
    destruct Hty as [-> | ->]; simpl; apply on_tg_group_forward_run.
  - intros _ _. apply on_tg_channel_post_run.
  - intros [Hty Hcmd] _. unfold bale_on_message.
    destruct (negb _ && _); [by repeat split|].
    pose proof (not_verify_not_verify_dm _ Hcmd) as Hdm.
    set (text := text_or (bale_text m) (bale_caption m)) in *.
    assert (startswith (or_empty text) "/verify_dm" && text_true text
            = false) as Hdm'.
    { destruct text as [s|]; simpl in *; [by rewrite Hdm|by rewrite ?andb_false_r]. }
    assert (startswith (or_empty text) "/verify" && text_true text
            = false) as Hcmd'.
    { unfold is_verify_command in Hcmd.
      destruct text as [s|]; simpl in *; [by rewrite Hcmd|by rewrite ?andb_false_r]. }
    rewrite (andb_comm (text_true text)), Hdm'.
    rewrite (andb_comm (text_true text)), Hcmd'.
    destruct Hty as [Hty | Hty]; rewrite Hty; simpl; run_handler.
    + destruct (find_group_link_by_bale _ _) as [k|]; [|by repeat split].
      destruct (enabled k) eqn:Hen; simpl; [|by repeat split].
      destruct (bale_relay_run (counterpart k) m text
                  (prefix_with_username
                     (from_option bale_name "unknown" (bale_author m))) w)
        as (-> & -> & Hsent).
      cbn [app]. split; [done|]. split; [done|].
      eapply Forall_impl; [exact Hsent|]. intros o [c ->]. by eexists _, _.
    + destruct (find_channel_link_by_bale _ _) as [k|]; [|by repeat split].
      destruct (enabled k) eqn:Hen; simpl; [|by repeat split].
      destruct (bale_relay_run (counterpart k) m text (λ s, s) w)
        as (-> & -> & Hsent).
      cbn [app]. split; [done|]. split; [done|].
      eapply Forall_impl; [exact Hsent|]. intros o [c ->]. by eexists _, _.
Qed.

End RoutingTargets.

Lemma routing_sends_to_the_paired_chat_only_witness :
  let bots := mkBots 999 888 in
  let e := TgMessageEvent
             (mkTgMessage (-100) "group" (Some "g")
                (Some (mkTgUser 5 None (Some "Ann") None))
                (Some "hi") None []) in
  let w := mkWorld (exec_all [PairGroups 0 1 (-100) 200] init_db) ∅ ∅ in
  let out := on_event bots (mkConfig false None) (mkTick 0 []) e w in
  routed e ∧ after out = w
  ∧ sent out = [ViaBale 200 (Text "Ann sent this message: hi")].
Proof.
  split; [split; [by left|reflexivity]|].
  destruct (routing_sends_to_the_paired_chat_only (mkBots 999 888)
              (mkConfig false None) (mkTick 0 [])
              (TgMessageEvent
                 (mkTgMessage (-100) "group" (Some "g")
                    (Some (mkTgUser 5 None (Some "Ann") None))
                    (Some "hi") None []))
              (mkWorld (exec_all [PairGroups 0 1 (-100) 200] init_db) ∅ ∅))
    as (Hafter & _ & _); [split; [by left|reflexivity]|exact I|].
  split; [exact Hafter|reflexivity].
Defined.

(** * Pairing, then routing *)

Section PairThenRoute.
Context `{PyStr}.
Variables (bots : Bots) (config : Config).
Implicit Types (d : DB) (w : World).

Lemma find_link_None (P : Link → bool) (f : Link → LinkInfo) l :
  f <$> List.find P l = None → Forall (λ k, P k = false) l.
Proof. intros Hn. apply find_None_iff. by destruct (List.find P l). Qed.

Lemma pair_groups_fresh now o tg bale d :
  find_group_link_by_tg d tg = None →
  pair_groups now o tg bale d
  = (set_group_links (λ l, l ++ [mkLink o tg bale 1 now]) d, Ok ())
  ∧ find_group_link_by_tg
      (set_group_links (λ l, l ++ [mkLink o tg bale 1 now]) d) tg
    = Some (mkLinkInfo bale true)
  ∧ (find_group_link_by_bale d bale = None →
     find_group_link_by_bale
       (set_group_links (λ l, l ++ [mkLink o tg bale 1 now]) d) bale
     = Some (mkLinkInfo tg true)).
Proof.
  intros Htg. apply find_link_None in Htg.
  split; [|split].
  - unfold pair_groups, transaction, insert_link; simpl.
    assert (link_exists (group_links d) tg bale = false) as ->; [|done].
    apply existsb_false_iff. eapply Forall_impl; [exact Htg|].
    intros k Hk; simpl in *. by rewrite Hk.
  - unfold find_group_link_by_tg; simpl.
    rewrite find_app_fresh; [done|done|apply Z.eqb_refl].
  - intros Hb%find_link_None. unfold find_group_link_by_bale; simpl.
    rewrite find_app_fresh; [done|done|apply Z.eqb_refl].
Qed.

(** X12.  Pairing, then routing.  When the Telegram group and the Bale
    group are in no pairing yet, [pair_groups] returns and from then on a
    text message of a user in the Telegram group is relayed to the Bale
    group, and a text message of a user in the Bale group to the Telegram
    group, each once, prefixed with the name of its sender. *)
Theorem pair_groups_then_messages_flow_both_ways now o tg bale d t wt wb :
  find_group_link_by_tg d tg = None →
  find_group_link_by_bale d bale = None →
  let d1 := (pair_groups now o tg bale d).1 in
  (pair_groups now o tg bale d).2 = Ok ()
  ∧ (∀ m u s,
       tg_chat_id m = tg →
       tg_chat_type m = "group" ∨ tg_chat_type m = "supergroup" →
       tg_from_user m = Some u → tgu_id u ≠ tg_bot_id bots →
       tg_text m = Some s → s ≠ "" → startswith s "/verify" = false →
       sent (on_event bots config t (TgMessageEvent m) (mkWorld d1 wt wb))
       = [ViaBale bale (Text (prefix_with_username (tg_name u) s))])
  ∧ (∀ m a s,
       bale_chat_id m = bale → bale_chat_type m = "group" →
       bale_author m = Some a → ba_id a ≠ bale_self_id bots →
       bale_text m = Some s → s ≠ "" → startswith s "/verify" = false →
       bale_photo m = None → bale_document m = None → bale_video m = None →
       sent (on_event bots config t (BaleMessageEvent m) (mkWorld d1 wt wb))
       = [ViaTelegram tg (Text (prefix_with_username (bale_name a) s))]).
Proof.
  intros Htg Hbale. cbv zeta.
  destruct (pair_groups_fresh now o tg bale d Htg) as (-> & Hft & Hfb).
  specialize (Hfb Hbale). cbn [fst snd]. split; [done|]. split.
  - intros m u s Hchat Hty Hu Hbot Hs Hne Hcmd. cbn [on_event].
    unfold tg_dispatch_message. rewrite Hs; simpl.
    assert (startswith s "/verify_dm" = false) as ->.
    { by apply (not_verify_not_verify_dm (Some s)). }
    rewrite Hcmd.
    assert (on_tg_group_forward bots m
              (mkWorld (set_group_links
                          (λ l, l ++ [mkLink o tg bale 1 now]) d) wt wb)
            = mkOutcome (mkWorld (set_group_links
                          (λ l, l ++ [mkLink o tg bale 1 now]) d) wt wb)
                [ViaBale bale (Text (prefix_with_username (tg_name u) s))]
                (Ok ())) as Hrun.
    { unfold on_tg_group_forward. rewrite Hu.
      apply Z.eqb_neq in Hbot as ->. run_handler.
      rewrite Hchat, Hft, Hs; simpl. by destruct s. }
    destruct Hty as [-> | ->]; simpl; by rewrite Hrun.
  - intros m a s Hchat Hty Ha Hself Hs Hne Hcmd Hp Hdoc Hvid. cbn [on_event].
    assert (str_true s = true) as Htrue by (by destruct s).
    assert (text_or (bale_text m) (bale_caption m) = Some s) as Htext.
    { by rewrite Hs; simpl; rewrite Htrue. }
    unfold bale_on_message. cbv zeta. rewrite Ha, Htext, Hty.
    cbn [from_option text_true or_empty default id].
    apply Z.eqb_neq in Hself as ->. rewrite andb_false_r, Htrue.
    assert (startswith s "/verify_dm" = false) as ->.
    { by apply (not_verify_not_verify_dm (Some s)). }
    rewrite Hcmd. cbn [andb String.eqb Ascii.eqb Bool.eqb].
    unfold mbind at 1, handler_bind at 1, hbind at 1, query at 1.
    cbn [returned after sent store]. rewrite Hchat, Hfb.
    cbn [enabled counterpart negb]. unfold bale_relay. run_handler.
    by rewrite Htrue, Hp, Hdoc, Hvid.
Qed.

End PairThenRoute.

Lemma pair_groups_then_messages_flow_both_ways_witness :
  let bots := mkBots 999 888 in
  let d1 := (pair_groups 0 1 (-100) 200 init_db).1 in
  let m := mkBaleMessage 200 "group" (Some "g")
             (Some (mkBaleAuthor 6 (Some "bob") None None))
             (Some "salam") None None None None in
  find_group_link_by_tg init_db (-100) = None
  ∧ find_group_link_by_bale init_db 200 = None
  ∧ sent (on_event bots (mkConfig false None) (mkTick 0 [])
            (BaleMessageEvent m) (mkWorld d1 ∅ ∅))
    = [ViaTelegram (-100) (Text "@bob sent this message: salam")].
Proof.
  split; [reflexivity|]. split; [reflexivity|].
  destruct (pair_groups_then_messages_flow_both_ways (mkBots 999 888)
              (mkConfig false None) 0 1 (-100) 200 init_db (mkTick 0 []) ∅ ∅
              eq_refl eq_refl) as (_ & _ & Hb).
  apply (Hb (mkBaleMessage 200 "group" (Some "g")
               (Some (mkBaleAuthor 6 (Some "bob") None None))
               (Some "salam") None None None None)
            (mkBaleAuthor 6 (Some "bob") None None) "salam");
    try reflexivity; done.
Defined.

Lemma tg_verify_wrong_kind_consumes_code_witness :
  let bots := mkBots 999 888 in
  let picks := String.list_ascii_of_string "ABC123" in
  let d0 := exec_all [GetOrCreateUserByTg 0 10] init_db in
  let d1 := (create_verify_code picks 0 1 "tg" "channel" 10 d0).1 in
  let m := mkTgMessage (-100) "supergroup" (Some "My group")
             (Some (mkTgUser 10 None (Some "Ann") None))
             (Some "/verify C-ABC123") None [] in
  let out := on_event bots (mkConfig false None) (mkTick 5 [])
                      (TgMessageEvent m) (mkWorld d1 ∅ ∅) in
  create_verify_code picks 0 1 "tg" "channel" 10 d0 = (d1, Ok "C-ABC123")
  ∧ sent out = [ViaTelegram (-100) (Note WrongChatType)]
  ∧ (consume_verify_code 6 "C-ABC123" "tg" 10 (store (after out))).2 = None.
Proof.
  split; [reflexivity|].
  destruct (tg_verify_wrong_kind_consumes_code (mkBots 999 888)
              (mkConfig false None)
              (String.list_ascii_of_string "ABC123") 0 1 "channel" 10
              (exec_all [GetOrCreateUserByTg 0 10] init_db)
              (create_verify_code (String.list_ascii_of_string "ABC123")
                 0 1 "tg" "channel" 10
                 (exec_all [GetOrCreateUserByTg 0 10] init_db)).1
              "C-ABC123" (mkTick 5 [])
              (mkTgMessage (-100) "supergroup" (Some "My group")
                 (Some (mkTgUser 10 None (Some "Ann") None))
                 (Some "/verify C-ABC123") None [])
              (mkTgUser 10 None (Some "Ann") None)
              "/verify C-ABC123" "/verify" "C-ABC123"
              (mkWorld
                 (create_verify_code (String.list_ascii_of_string "ABC123")
                    0 1 "tg" "channel" 10
                    (exec_all [GetOrCreateUserByTg 0 10] init_db)).1 ∅ ∅))
    as (_ & Hsent & _ & Hlater); [reflexivity || done || by right ..|].
  split; [exact Hsent|]. exact (f_equal snd (Hlater [] 6 "tg" 10)).
Defined.

Lemma tg_verify_registered_chat_reports_linked_witness :
  let bots := mkBots 999 888 in
  let picks := String.list_ascii_of_string "ABC123" in
  let d0 := exec_all [GetOrCreateUserByTg 0 10; GetOrCreateUserByTg 0 11;
                      RegisterChat 1 2 "tg" "group" (-100) "Old title"]
                     init_db in
  let d1 := (create_verify_code picks 2 1 "tg" "group" 10 d0).1 in
  let m := mkTgMessage (-100) "group" (Some "New title")
             (Some (mkTgUser 10 None (Some "Ann") None))
             (Some "/verify G-ABC123") None [] in
  let out := on_event bots (mkConfig false None) (mkTick 5 [])
                      (TgMessageEvent m) (mkWorld d1 ∅ ∅) in
  create_verify_code picks 2 1 "tg" "group" 10 d0 = (d1, Ok "G-ABC123")
  ∧ sent out = [ViaTelegram (-100) (Note (Linked "group" (-100)))]
  ∧ chats (store (after out)) = [mkChat 2 "tg" "group" (-100) "Old title" 1].
Proof.
  split; [reflexivity|].
  destruct (tg_verify_registered_chat_reports_linked (mkBots 999 888)
              (mkConfig false None)
              (String.list_ascii_of_string "ABC123") 2 1 "group" 10
              (exec_all [GetOrCreateUserByTg 0 10; GetOrCreateUserByTg 0 11;
                         RegisterChat 1 2 "tg" "group" (-100) "Old title"]
                        init_db)
              (create_verify_code (String.list_ascii_of_string "ABC123")
                 2 1 "tg" "group" 10
                 (exec_all [GetOrCreateUserByTg 0 10; GetOrCreateUserByTg 0 11;
                            RegisterChat 1 2 "tg" "group" (-100) "Old title"]
                           init_db)).1
              "G-ABC123" (mkTick 5 [])
              (mkTgMessage (-100) "group" (Some "New title")
                 (Some (mkTgUser 10 None (Some "Ann") None))
                 (Some "/verify G-ABC123") None [])
              (mkTgUser 10 None (Some "Ann") None)
              "/verify G-ABC123" "/verify" "G-ABC123"
              (mkWorld
                 (create_verify_code (String.list_ascii_of_string "ABC123")
                    2 1 "tg" "group" 10
                    (exec_all [GetOrCreateUserByTg 0 10;
                               GetOrCreateUserByTg 0 11;
                               RegisterChat 1 2 "tg" "group" (-100)
                                 "Old title"]
                              init_db)).1 ∅ ∅))
    as (_ & Hsent & Hchats & _); [reflexivity || done ..|].
  split; [exact Hsent|exact Hchats].
Defined.

Lemma bale_verify_registers_chat_witness :
  let bots := mkBots 999 888 in
  let picks := String.list_ascii_of_string "XYZ789" in
  let d0 := exec_all [GetOrCreateUserByBale 0 20] init_db in
  let d1 := (create_verify_code picks 0 1 "bale" "channel" 20 d0).1 in
  let m := mkBaleMessage 300 "channel" (Some "News")
             (Some (mkBaleAuthor 20 (Some "bob") None None))
             (Some "/verify C-XYZ789") None None None None in
  let out := on_event bots (mkConfig false None) (mkTick 5 [])
                      (BaleMessageEvent m) (mkWorld d1 ∅ ∅) in
  create_verify_code picks 0 1 "bale" "channel" 20 d0 = (d1, Ok "C-XYZ789")
  ∧ sent out = [ViaBale 300 (Note (Linked "channel" 300))]
  ∧ chats (store (after out)) = [mkChat 1 "bale" "channel" 300 "News" 5].
Proof.
  split; [reflexivity|].
  destruct (bale_verify_registers_chat (mkBots 999 888)
              (mkConfig false None)
              (String.list_ascii_of_string "XYZ789") 0 1 "channel" 20
              (exec_all [GetOrCreateUserByBale 0 20] init_db)
              (create_verify_code (String.list_ascii_of_string "XYZ789")
                 0 1 "bale" "channel" 20
                 (exec_all [GetOrCreateUserByBale 0 20] init_db)).1
              "C-XYZ789" (mkTick 5 [])
              (mkBaleMessage 300 "channel" (Some "News")
                 (Some (mkBaleAuthor 20 (Some "bob") None None))
                 (Some "/verify C-XYZ789") None None None None)
              (mkBaleAuthor 20 (Some "bob") None None)
              "/verify C-XYZ789" "/verify" "C-XYZ789"
              (mkWorld
                 (create_verify_code (String.list_ascii_of_string "XYZ789")
                    0 1 "bale" "channel" 20
                    (exec_all [GetOrCreateUserByBale 0 20] init_db)).1 ∅ ∅))
    as (_ & _ & Hgood & _); [reflexivity || done || by right ..|].
  apply Hgood; reflexivity.
Defined.

(** * Direct messages *)

Section OwnerRow.
Implicit Types (d : DB) (u v : User).

Lemma get_user_row_by_id_elem d u :
  NoDup (user_id <$> users d) → u ∈ users d →
  get_user_row_by_id d (user_id u) = Some u.
Proof.
  intros Hnd Hu. unfold get_user_row_by_id.
  destruct (find_is_Some (λ v, user_id v =? user_id u) (users d) u Hu
              (Z.eqb_refl _)) as [v Hv].
  rewrite Hv. apply find_Some_elem in Hv as [Hin Hid].
  apply Z.eqb_eq in Hid. f_equal. by apply (unique_id (users d)).
Qed.

Lemma get_user_row_by_id_appended d u :
  Forall (λ v, user_id v < user_id u) (users d) →
  get_user_row_by_id (append_user u d) (user_id u) = Some u.
Proof.
  intros Hlt. unfold get_user_row_by_id; simpl.
  apply find_app_fresh; [|apply Z.eqb_refl].
  eapply Forall_impl; [exact Hlt|]. simpl. intros v Hv.
  apply Z.eqb_neq. lia.
Qed.

(** The row [get_or_create_user_by_tg] resolves a Telegram identity to. *)
Lemma owner_row_by_tg depth now uid d :
  users_wf d →
  ∃ d' o r,
    get_or_create_user_by_tg (S depth) now uid d = (d', Ok o)
    ∧ get_user_row_by_id d' o = Some r
    ∧ match tg_owner_row d uid with
      | Some r' => r = r' ∧ d' = d
      | None => r = mkUser o (Some uid) None None None now
                ∧ d' = append_user r d
      end.
Proof.
  intros (Hnd & _). unfold tg_owner_row.
  destruct (List.find _ (users d)) as [r|] eqn:Hf.
  - exists d, (user_id r), r.
    rewrite (get_or_create_user_by_tg_found _ _ _ _ (user_id r));
      [|unfold select_user_id_by_tg; by rewrite Hf].
    apply find_Some_elem in Hf as [Hin _].
    split; [done|]. split; [by apply get_user_row_by_id_elem|done].
  - assert (select_user_id_by_tg d uid = None) as Hs.
    { unfold select_user_id_by_tg. by rewrite Hf. }
    rewrite (get_or_create_user_by_tg_new _ _ _ _ Hs).
    eexists _, _, _. split; [done|].
    split; [|done].
    apply (get_user_row_by_id_appended d (mkUser _ _ _ _ _ _)).
    apply next_rowid_above.
Qed.

Lemma owner_row_by_bale depth now uid d :
  users_wf d →
  ∃ d' o r,
    get_or_create_user_by_bale (S depth) now uid d = (d', Ok o)
    ∧ get_user_row_by_id d' o = Some r
    ∧ match bale_owner_row d uid with
      | Some r' => r = r' ∧ d' = d
      | None => r = mkUser o None (Some uid) None None now
                ∧ d' = append_user r d
      end.
Proof.
  intros (Hnd & _). unfold bale_owner_row.
  destruct (List.find _ (users d)) as [r|] eqn:Hf.
  - exists d, (user_id r), r.
    rewrite (get_or_create_user_by_bale_found _ _ _ _ (user_id r));
      [|unfold select_user_id_by_bale; by rewrite Hf].
    apply find_Some_elem in Hf as [Hin _].
    split; [done|]. split; [by apply get_user_row_by_id_elem|done].
  - assert (select_user_id_by_bale d uid = None) as Hs.
    { unfold select_user_id_by_bale. by rewrite Hf. }
    rewrite (get_or_create_user_by_bale_new _ _ _ _ Hs).
    eexists _, _, _. split; [done|].
    split; [|done].
    apply (get_user_row_by_id_appended d (mkUser _ _ _ _ _ _)).
    apply next_rowid_above.
Qed.

End OwnerRow.

Section DirectMessages.
Context `{PyStr}.
Variables (bots : Bots) (config : Config).
Implicit Types (d : DB) (w : World).

Lemma run_eq {A} (op : Op A) w d' r :
  op (store w) = (d', r) → run op w = mkOutcome (with_store d' w) [] r.
Proof. intros Hop. unfold run. by rewrite Hop. Qed.

Lemma outcome_eta {A} (o : Outcome A) :
  mkOutcome (after o) (sent o) (returned o) = o.
Proof. by destruct o. Qed.

Lemma bind_ret {A B} (a : A) (k : A → Handler B) w :
  (hret a ≫= k) w = k a w.
Proof. unfold mbind, handler_bind, hbind; simpl. apply outcome_eta. Qed.

Lemma bind_run {A B} (op : Op A) (k : A → Handler B) w d' a :
  op (store w) = (d', Ok a) → (run op ≫= k) w = k a (with_store d' w).
Proof.
  intros Hop. unfold mbind, handler_bind, hbind.
  rewrite (run_eq op w d' (Ok a) Hop); simpl. apply outcome_eta.
Qed.

Lemma bind_query {A B} (f : DB → A) (k : A → Handler B) w :
  (query f ≫= k) w = k (f (store w)) w.
Proof. unfold mbind, handler_bind, hbind; simpl. apply outcome_eta. Qed.

Lemma bind_commit {B} (f : DB → DB) (k : unit → Handler B) w :
  (commit f ≫= k) w = k () (with_store (f (store w)) w).
Proof. unfold mbind, handler_bind, hbind; simpl. apply outcome_eta. Qed.

Lemma bind_bale_wiz {B} (k : gmap Z Wizard → Handler B) w :
  (bale_wiz ≫= k) w = k (BALE_WIZ w) w.
Proof. unfold mbind, handler_bind, hbind; simpl. apply outcome_eta. Qed.

Lemma bind_tg_wiz {B} (k : gmap Z Wizard → Handler B) w :
  (tg_wiz ≫= k) w = k (TG_WIZ w) w.
Proof. unfold mbind, handler_bind, hbind; simpl. apply outcome_eta. Qed.

Lemma bind_send {B} (o : Outbound) (k : unit → Handler B) w :
  (send o ≫= k) w
  = mkOutcome (after (k () w)) (o :: sent (k () w)) (returned (k () w)).
Proof. done. Qed.

Lemma not_slash_not_command s p :
  startswith p "/" = true → startswith s "/" = false →
  startswith s p = false.
Proof.
  intros Hp Hs. destruct (startswith s p) eqn:Hsp; [|done].
  rewrite <-Hs. symmetry. by apply (startswith_trans s p).
Qed.

Lemma startswith_refl s : startswith s s = true.
Proof.
  unfold startswith. induction s as [|c s IH]; simpl; [done|].
  by destruct (Ascii.ascii_dec c c).
Qed.

Lemma tg_dm_dispatch t m u s w :
  tg_chat_type m = "private" → tg_from_user m = Some u →
  TG_WIZ w !! tgu_id u = None →
  tg_text m = Some s → startswith s "/" = false →
  tg_dispatch_message bots t m w = on_tg_dm t m w.
Proof.
  intros Hty Hu Hwiz Hs Hcmd. unfold tg_dispatch_message. cbv zeta.
  rewrite Hty, Hs, Hu. cbn [String.eqb Ascii.eqb Bool.eqb andb from_option].
  assert (∀ p, startswith p "/" = true → bool_decide (Some s = Some p) = false)
    as Hne.
  { intros p Hp. apply bool_decide_eq_false. intros [= ->]. congruence. }
  rewrite !Hne by done.
  rewrite (not_slash_not_command s "/verify_dm") by done.
  cbn [orb]. run_handler. rewrite Hwiz.
  rewrite bool_decide_eq_false_2; [|by intros [? ?]].
  by destruct (on_tg_dm t m w) as [? ? [|]]; simpl; rewrite ?app_nil_r.
Qed.


(** What a private message that is no command does on Telegram. *)
Lemma tg_dm_outcome t m u s w :
  users_wf (store w) →
  tg_chat_type m = "private" → tg_from_user m = Some u →
  TG_WIZ w !! tgu_id u = None →
  tg_text m = Some s → s ≠ "" → startswith s "/" = false →
  tg_dispatch_message bots t m w
  = mkOutcome
      (with_store (exec (GetOrCreateUserByTg (tick_now t) (tgu_id u)) (store w))
                  w)
      match tg_owner_row (store w) (tgu_id u) ≫= dm_target_bale_chat_id with
      | Some c =>
          if c =? 0 then [ViaTelegram (tg_chat_id m) (Note NotForwarded)]
          else [ViaBale c (Text (("[From Telegram DM] " +:+ tg_name u
                                  +:+ ": ") +:+ s))]
      | None => [ViaTelegram (tg_chat_id m) (Note NotForwarded)]
      end (Ok ()).
Proof.
  intros Hwf Hty Hu Hwiz Hs Hne Hcmd.
  rewrite (tg_dm_dispatch t m u s w) by done.
  destruct (owner_row_by_tg 899 (tick_now t) (tgu_id u) (store w) Hwf)
    as (d' & o & r & Hget & Hrow & Hcase).
  assert (Some r ≫= dm_target_bale_chat_id
          = tg_owner_row (store w) (tgu_id u) ≫= dm_target_bale_chat_id)
    as <-.
  { destruct (tg_owner_row _ _) as [r'|]; destruct Hcase as [-> _]; done. }
  cbn [exec]. unfold recursion_limit. rewrite Hget. cbn [fst].
  unfold on_tg_dm. rewrite Hs, Hu.
  cbn [or_empty default from_option id text_true attr].
  rewrite Hcmd, andb_false_r, bind_ret.
  unfold recursion_limit. rewrite (bind_run _ _ w d' o) by done.
  rewrite bind_query. cbn [store with_store]. rewrite Hrow.
  destruct (_ ≫= dm_target_bale_chat_id) as [c|]; cbn [truthy]; [|done].
  destruct (c =? 0); cbn [negb]; [done|].
  rewrite bind_ret. by destruct s.
Qed.

(** X13.  A Telegram direct message goes to the sender's own Bale target
    and nowhere else.  On a store that satisfies the constraints of
    [users], a private text message that is no command, from a user with
    no wizard running, never raises and queues exactly one call: when the
    row that carries the sender's Telegram id has a Bale target other than
    [0], the text is sent there under the sender's name; when the row has
    no target, target [0], or does not exist yet, the sender is told that
    nothing was forwarded.  The handler leaves the wizard dicts and every
    table but [users] as they were, and [users] too when the sender is
    known. *)
Theorem tg_dm_goes_to_the_senders_own_target t m u s w :
  users_wf (store w) →
  tg_chat_type m = "private" → tg_from_user m = Some u →
  TG_WIZ w !! tgu_id u = None →
  tg_text m = Some s → s ≠ "" → startswith s "/" = false →
  let out := on_event bots config t (TgMessageEvent m) w in
  let target := tg_owner_row (store w) (tgu_id u) ≫= dm_target_bale_chat_id in
  returned out = Ok ()
  ∧ sent out
    = match target with
      | Some c =>
          if c =? 0 then [ViaTelegram (tg_chat_id m) (Note NotForwarded)]
          else [ViaBale c (Text (("[From Telegram DM] " +:+ tg_name u
                                  +:+ ": ") +:+ s))]
      | None => [ViaTelegram (tg_chat_id m) (Note NotForwarded)]
      end
  ∧ TG_WIZ (after out) = TG_WIZ w ∧ BALE_WIZ (after out) = BALE_WIZ w
  ∧ tables_kept (store w) (store (after out))
  ∧ (is_Some (tg_owner_row (store w) (tgu_id u)) → after out = w).
Proof.
  intros Hwf Hty Hu Hwiz Hs Hne Hcmd. cbv zeta. cbn [on_event].
  rewrite (tg_dm_outcome t m u s w) by done.
  cbn [after sent returned with_store TG_WIZ BALE_WIZ store exec].
  split; [done|]. split; [done|]. split; [done|]. split; [done|].
  destruct (get_or_create_user_by_tg_cases recursion_limit (tick_now t)
              (tgu_id u) (store w)) as [->|[Hn ->]].
  - split; [apply tables_kept_refl|]. intros _. by destruct w.
  - split; [by repeat split|]. intros [r Hr].
    unfold select_user_id_by_tg in Hn. unfold tg_owner_row in Hr.
    by rewrite Hr in Hn.
Qed.

Lemma bale_private_dispatch t m a s w :
  bale_chat_type m = "private" → bale_author m = Some a →
  ba_id a ≠ bale_self_id bots →
  text_or (bale_text m) (bale_caption m) = Some s →
  startswith s "/verify_dm" = false →
  bale_on_message bots config t m w
  = bale_private config t m (Some s) (ba_id a) (bale_name a) w.
Proof.
  intros Hty Ha Hself Hs Hdm. unfold bale_on_message. cbv zeta.
  rewrite Hty, Ha, Hs. cbn [from_option or_empty default id].
  apply Z.eqb_neq in Hself as ->. by rewrite andb_false_r, Hdm, andb_false_r.
Qed.

(** What a private message that is no command does on Bale when no
    wizard waits for it. *)
Lemma bale_dm_outcome t m a s w :
  users_wf (store w) →
  bale_chat_type m = "private" → bale_author m = Some a →
  ba_id a ≠ bale_self_id bots →
  wiz_mode <$> BALE_WIZ w !! ba_id a ≠ Some "SET_DM_BALE2TG" →
  text_or (bale_text m) (bale_caption m) = Some s → s ≠ "" →
  startswith s "/verify_dm" = false →
  py_lower (py_strip s) ≠ "/myid" → py_lower (py_strip s) ≠ "/start" →
  py_lower (py_strip s) ≠ "/help" →
  bale_on_message bots config t m w
  = mkOutcome
      (with_store (exec (GetOrCreateUserByBale (tick_now t) (ba_id a))
                        (store w)) w)
      ((if MIRROR_DMS_TO_OWNER config && truthy (OWNER_BALE_CHAT_ID config)
        then [ViaBale (the (OWNER_BALE_CHAT_ID config))
                (Text ("[Bale DM] " +:+ bale_name a +:+ ": " +:+ s))]
        else [])
       ++ match bale_owner_row (store w) (ba_id a)
                ≫= dm_target_telegram_chat_id with
          | Some c =>
              if c =? 0 then []
              else [ViaTelegram c (Text (("[From Bale DM] " +:+ bale_name a
                                          +:+ ": ") +:+ s))]
          | None => []
          end) (Ok ()).
Proof.
  intros Hwf Hty Ha Hself Hwiz Hs Hne Hdm Hmyid Hstart Hhelp.
  rewrite (bale_private_dispatch t m a s w) by done.
  destruct (owner_row_by_bale 899 (tick_now t) (ba_id a) (store w) Hwf)
    as (d' & o & r & Hget & Hrow & Hcase).
  assert (Some r ≫= dm_target_telegram_chat_id
          = bale_owner_row (store w) (ba_id a) ≫= dm_target_telegram_chat_id)
    as <-.
  { destruct (bale_owner_row _ _) as [r'|]; destruct Hcase as [-> _]; done. }
  cbn [exec]. unfold recursion_limit. rewrite Hget. cbn [fst].
  assert (str_true s = true) as Htrue by (by destruct s).
  unfold bale_private. cbv zeta. unfold recursion_limit.
  rewrite (bind_run _ _ w d' o) by done.
  cbn [text_true or_empty default from_option id]. rewrite Htrue.
  apply String.eqb_neq in Hmyid as ->, Hstart as ->, Hhelp as ->.
  cbn [andb orb]. rewrite bind_bale_wiz. cbn [BALE_WIZ with_store].
  rewrite bool_decide_eq_false_2 by done.
  destruct (MIRROR_DMS_TO_OWNER config && truthy (OWNER_BALE_CHAT_ID config)).
  - rewrite bind_send, bind_query.
    cbn [store with_store]. rewrite Hrow.
    cbn [after sent returned].
    destruct (_ ≫= dm_target_telegram_chat_id) as [c|]; cbn [truthy];
      [|done].
    by destruct (c =? 0).
  - unfold mret, handler_ret. rewrite bind_ret, bind_query.
    cbn [store with_store]. rewrite Hrow.
    destruct (_ ≫= dm_target_telegram_chat_id) as [c|]; cbn [truthy];
      [|done].
    by destruct (c =? 0).
Qed.

(** X14.  A Bale direct message goes to the sender's own Telegram target,
    and to the operator when mirroring is on.  On a store that satisfies
    the constraints of [users], a private text message that is no command,
    from a user who is not in the [SET_DM_BALE2TG] wizard, never raises; it
    is copied to the operator's Bale chat when [MIRROR_DMS_TO_OWNER] is set
    and [OWNER_BALE_CHAT_ID] is not [0]; and it is sent under the sender's
    name to the Telegram target of the row that carries the sender's Bale
    id.  When that row has no target, target [0], or does not exist yet,
    nothing is forwarded and the sender is not told.  The handler leaves
    the wizard dicts and every table but [users] as they were, and [users]
    too when the sender is known. *)
Theorem bale_dm_goes_to_the_senders_own_target t m a s w :
  users_wf (store w) →
  bale_chat_type m = "private" → bale_author m = Some a →
  ba_id a ≠ bale_self_id bots →
  wiz_mode <$> BALE_WIZ w !! ba_id a ≠ Some "SET_DM_BALE2TG" →
  text_or (bale_text m) (bale_caption m) = Some s → s ≠ "" →
  startswith s "/verify_dm" = false →
  py_lower (py_strip s) ≠ "/myid" → py_lower (py_strip s) ≠ "/start" →
  py_lower (py_strip s) ≠ "/help" →
  let out := on_event bots config t (BaleMessageEvent m) w in
  let target :=
    bale_owner_row (store w) (ba_id a) ≫= dm_target_telegram_chat_id in
  returned out = Ok ()
  ∧ sent out
    = (if MIRROR_DMS_TO_OWNER config && truthy (OWNER_BALE_CHAT_ID config)
       then [ViaBale (the (OWNER_BALE_CHAT_ID config))
               (Text ("[Bale DM] " +:+ bale_name a +:+ ": " +:+ s))]
       else [])
      ++ match target with
         | Some c =>
             if c =? 0 then []
             else [ViaTelegram c (Text (("[From Bale DM] " +:+ bale_name a
                                         +:+ ": ") +:+ s))]
         | None => []
         end
  ∧ TG_WIZ (after out) = TG_WIZ w ∧ BALE_WIZ (after out) = BALE_WIZ w
  ∧ tables_kept (store w) (store (after out))
  ∧ (is_Some (bale_owner_row (store w) (ba_id a)) → after out = w).
Proof.
  intros Hwf Hty Ha Hself Hwiz Hs Hne Hdm Hmyid Hstart Hhelp.
  cbv zeta. cbn [on_event].
  rewrite (bale_dm_outcome t m a s w) by done.
  cbn [after sent returned with_store TG_WIZ BALE_WIZ store exec].
  split; [done|]. split; [done|]. split; [done|]. split; [done|].
  destruct (get_or_create_user_by_bale_cases recursion_limit (tick_now t)
              (ba_id a) (store w)) as [->|[Hn ->]].
  - split; [apply tables_kept_refl|]. intros _. by destruct w.
  - split; [by repeat split|]. intros [r Hr].
    unfold select_user_id_by_bale in Hn. unfold bale_owner_row in Hr.
    by rewrite Hr in Hn.
Qed.

End DirectMessages.

Lemma tg_dm_goes_to_the_senders_own_target_witness :
  let d := exec_all [GetOrCreateUserByTg 0 10; SetDmTargetBale (Some 555) 1]
                    init_db in
  let m := mkTgMessage 10 "private" None
             (Some (mkTgUser 10 (Some "ann") None None))
             (Some "hello") None [] in
  users_wf d
  ∧ sent (on_event (mkBots 999 888) (mkConfig false None) (mkTick 5 [])
            (TgMessageEvent m) (mkWorld d ∅ ∅))
    = [ViaBale 555 (Text "[From Telegram DM] @ann: hello")].
Proof.
  assert (users_wf
            (exec_all [GetOrCreateUserByTg 0 10; SetDmTargetBale (Some 555) 1]
                      init_db)) as Hwf.
  { apply exec_all_users_wf, init_db_users_wf. }
  split; [exact Hwf|].
  apply (tg_dm_goes_to_the_senders_own_target (mkBots 999 888)
           (mkConfig false None) (mkTick 5 [])
           (mkTgMessage 10 "private" None
              (Some (mkTgUser 10 (Some "ann") None None))
              (Some "hello") None [])
           (mkTgUser 10 (Some "ann") None None) "hello"
           (mkWorld
              (exec_all [GetOrCreateUserByTg 0 10;
                         SetDmTargetBale (Some 555) 1] init_db) ∅ ∅));
    [exact Hwf|reflexivity || done ..].
Defined.

Lemma bale_dm_goes_to_the_senders_own_target_witness :
  let d := exec_all [GetOrCreateUserByBale 0 20;
                     SetDmTargetTelegram (Some 777) 1] init_db in
  let m := mkBaleMessage 20 "private" None
             (Some (mkBaleAuthor 20 None (Some "Bob") None))
             (Some "salam") None None None None in
  users_wf d
  ∧ sent (on_event (mkBots 999 888) (mkConfig true (Some 42)) (mkTick 5 [])
            (BaleMessageEvent m) (mkWorld d ∅ ∅))
    = [ViaBale 42 (Text "[Bale DM] Bob: salam");
       ViaTelegram 777 (Text "[From Bale DM] Bob: salam")].
Proof.
  assert (users_wf
            (exec_all [GetOrCreateUserByBale 0 20;
                       SetDmTargetTelegram (Some 777) 1] init_db)) as Hwf.
  { apply exec_all_users_wf, init_db_users_wf. }
  split; [exact Hwf|].
  apply (bale_dm_goes_to_the_senders_own_target (mkBots 999 888)
           (mkConfig true (Some 42)) (mkTick 5 [])
           (mkBaleMessage 20 "private" None
              (Some (mkBaleAuthor 20 None (Some "Bob") None))
              (Some "salam") None None None None)
           (mkBaleAuthor 20 None (Some "Bob") None) "salam"
           (mkWorld
              (exec_all [GetOrCreateUserByBale 0 20;
                         SetDmTargetTelegram (Some 777) 1] init_db) ∅ ∅));
    [exact Hwf|reflexivity || done ..].
Defined.

(** * Setting the direct-message target with a code *)

Section DmTarget.
Context `{PyStr}.
Variables (bots : Bots) (config : Config).
Implicit Types (d : DB) (w : World).

Lemma consume_dm_minted h issued o platform c d d1 code now :
  create_dm_verify_code h issued o platform c d = (d1, Ok code) →
  now ≤ issued + ten_minutes →
  consume_dm_verify_code now code platform c d1
  = (update_dm_verify_token_consumed code d1, Some o).
Proof.
  intros Hc Hnow. apply create_dm_verify_code_Ok in Hc as (_ & Hfresh & Htok).
  unfold consume_dm_verify_code, select_dm_verify_token. rewrite Htok.
  rewrite (find_app_fresh _ _
             (mkDmVerifyToken code o platform c (issued + ten_minutes) 0));
    [|eapply Forall_impl; [exact Hfresh|]; intros y Hy; simpl;
      by apply String.eqb_neq
     |apply String.eqb_refl].
  cbn [dm_consumed dm_target_platform dm_target_chat_id dm_expires_at
       dm_owner_user_id int_true].
  rewrite String.eqb_refl, Z.eqb_refl. cbn [Z.eqb negb orb].
  by apply Z.ltb_ge in Hnow as ->.
Qed.

Lemma create_dm_verify_code_users h issued o platform c d d1 code :
  create_dm_verify_code h issued o platform c d = (d1, Ok code) →
  users d1 = users d ∧ users_seq d1 = users_seq d.
Proof.
  unfold create_dm_verify_code, transaction, insert_dm_verify_token.
  destruct (_ || _); simpl; [done|]. by intros [= <- _].
Qed.

Lemma bale_verify_dm_run t m text w :
  from_option ba_id 0 (bale_author m) ≠ bale_self_id bots →
  text_or (bale_text m) (bale_caption m) = Some text →
  startswith text "/verify_dm" = true →
  bale_on_message bots config t m w
  = let '(d', r) := consume_dm_verify_code (tick_now t)
                      (code_of_parts (py_split1 text)) "bale"
                      (bale_chat_id m) (store w) in
    if truthy r
    then mkOutcome
           (with_store (update_dm_target_bale (Some (bale_chat_id m))
                          (the r) d') w)
           [ViaBale (bale_chat_id m) (Note (DmTargetSet (bale_chat_id m)))]
           (Ok ())
    else mkOutcome (with_store d' w)
           [ViaBale (bale_chat_id m) (Note InvalidDmCode)] (Ok ()).
Proof.
  intros Hself Htext Hdm. unfold bale_on_message. cbv zeta.
  apply Z.eqb_neq in Hself as ->. rewrite andb_false_r, Htext.
  cbn [or_empty default from_option id text_true]. rewrite Hdm.
  assert (str_true text = true) as -> by (by destruct text).
  cbn [andb]. unfold try_except, run. run_handler.
  destruct (consume_dm_verify_code _ _ _ _ _) as [d' r]; simpl.
  by destruct (truthy r).
Qed.

Lemma tg_owner_row_update_dm_bale d o v uid :
  tg_owner_row (update_dm_target_bale v o d) uid
  = (λ u, if user_id u =? o then with_dm_bale v u else u)
      <$> tg_owner_row d uid.
Proof.
  unfold tg_owner_row, update_dm_target_bale, update_where_id; simpl.
  apply find_map_same. intros u. by destruct (user_id u =? o).
Qed.

Lemma tg_owner_row_id d uid o :
  select_user_id_by_tg d uid = Some o →
  ∃ r, tg_owner_row d uid = Some r ∧ user_id r = o.
Proof.
  unfold select_user_id_by_tg, tg_owner_row.
  destruct (List.find _ _) as [r|]; [|done]. intros [= <-]. by exists r.
Qed.

(** What a [/verify_dm] message with a minted code does in the chat the
    code was minted for. *)
Lemma verify_dm_sets_target
    h issued o c d0 d1 code t m text cmd arg wt wb uid :
  users_wf d0 →
  select_user_id_by_tg d0 uid = Some o →
  create_dm_verify_code h issued o "bale" c d0 = (d1, Ok code) →
  bale_chat_id m = c →
  from_option ba_id 0 (bale_author m) ≠ bale_self_id bots →
  text_or (bale_text m) (bale_caption m) = Some text →
  startswith text "/verify_dm" = true →
  py_split1 text = [cmd; arg] → py_strip arg = code →
  tick_now t ≤ issued + ten_minutes →
  let d2 := update_dm_target_bale (Some c) o
              (update_dm_verify_token_consumed code d1) in
  bale_on_message bots config t m (mkWorld d1 wt wb)
  = mkOutcome (mkWorld d2 wt wb) [ViaBale c (Note (DmTargetSet c))] (Ok ())
  ∧ users_wf d2 ∧ dm_spent code d2
  ∧ tg_owner_row d2 uid ≫= dm_target_bale_chat_id = Some c.
Proof.
  intros Hwf Ho Hmint Hchat Hself Htext Hdm Hparts Hcode Hnow. cbv zeta.
  destruct (select_user_id_by_tg_Some _ _ _ Ho) as (r0 & Hr0 & Hid0 & _).
  assert (0 < o) as Hpos.
  { destruct Hwf as (_ & Hall & _). rewrite Forall_forall in Hall.
    rewrite <-Hid0. by apply Hall. }
  destruct (create_dm_verify_code_users _ _ _ _ _ _ _ _ Hmint)
    as [Husers Hseq].
  split; [|split; [|split]].
  - rewrite (bale_verify_dm_run t m text) by done.
    cbn [store]. rewrite Hparts. cbn [code_of_parts]. rewrite Hcode, Hchat.
    rewrite (consume_dm_minted _ _ _ _ _ _ _ _ _ Hmint Hnow).
    assert (truthy (Some o) = true) as ->; [|done].
    simpl. apply negb_true_iff, Z.eqb_neq. lia.
  - apply (exec_users_wf (SetDmTargetBale (Some c) o)).
    unfold users_wf. cbn [users users_seq update_dm_verify_token_consumed
                          set_dm_verify_tokens].
    by rewrite Husers, Hseq.
  - change (dm_spent code (update_dm_verify_token_consumed code d1)).
    eapply (consume_dm_verify_code_Some_spent (tick_now t) code "bale" c d1).
    by apply (consume_dm_minted _ _ _ _ _ _ _ _ _ Hmint Hnow).
  - destruct (tg_owner_row_id _ _ _ Ho) as (r & Hr & Hid).
    rewrite tg_owner_row_update_dm_bale.
    unfold tg_owner_row in *. cbn [users update_dm_verify_token_consumed
                                   set_dm_verify_tokens].
    rewrite Husers, Hr. simpl. by rewrite Hid, Z.eqb_refl.
Qed.

(** X15.  Setting the Telegram-to-Bale target with a code, end to end.
    After [create_dm_verify_code] has minted a code for the owner of a
    Telegram user and the Bale chat [c], a [/verify_dm] message with that
    code in chat [c] within ten minutes, whoever sends it, is answered
    with [DmTargetSet] and spends the code; from then on a private text
    message of that Telegram user is sent to chat [c]. *)
Theorem verify_dm_on_bale_then_tg_dms_reach_the_chat
    h issued o c d0 d1 code t m text cmd arg wt wb t2 m2 u s :
  users_wf d0 →
  select_user_id_by_tg d0 (tgu_id u) = Some o →
  create_dm_verify_code h issued o "bale" c d0 = (d1, Ok code) →
  c ≠ 0 →
  bale_chat_id m = c →
  from_option ba_id 0 (bale_author m) ≠ bale_self_id bots →
  text_or (bale_text m) (bale_caption m) = Some text →
  startswith text "/verify_dm" = true →
  py_split1 text = [cmd; arg] → py_strip arg = code →
  tick_now t ≤ issued + ten_minutes →
  tg_chat_type m2 = "private" → tg_from_user m2 = Some u →
  wt !! tgu_id u = None →
  tg_text m2 = Some s → s ≠ "" → startswith s "/" = false →
  let out1 := on_event bots config t (BaleMessageEvent m) (mkWorld d1 wt wb) in
  let out2 := on_event bots config t2 (TgMessageEvent m2) (after out1) in
  returned out1 = Ok ()
  ∧ sent out1 = [ViaBale c (Note (DmTargetSet c))]
  ∧ dm_spent code (store (after out1))
  ∧ returned out2 = Ok ()
  ∧ sent out2
    = [ViaBale c (Text (("[From Telegram DM] " +:+ tg_name u +:+ ": ")
                        +:+ s))].
Proof.
  intros Hwf Ho Hmint Hc Hchat Hself Htext Hdm Hparts Hcode Hnow
         Hty Hu Hwiz Hs Hne Hcmd.
  cbv zeta. cbn [on_event].
  destruct (verify_dm_sets_target h issued o c d0 d1 code t m text cmd arg
              wt wb (tgu_id u)) as (-> & Hwf2 & Hspent & Htarget); [done..|].
  cbn [after sent returned store].
  split; [done|]. split; [done|]. split; [done|].
  rewrite (tg_dm_outcome bots t2 m2 u s) by done.
  cbn [sent returned store]. rewrite Htarget.
  apply Z.eqb_neq in Hc as ->. done.
Qed.

End DmTarget.

Lemma verify_dm_on_bale_then_tg_dms_reach_the_chat_witness :
  let bots := mkBots 999 888 in
  let config := mkConfig false None in
  let h := String.list_ascii_of_string "0a1b2c3d4e5f40008000000000000000" in
  let d0 := exec_all [GetOrCreateUserByTg 0 10] init_db in
  let d1 := (create_dm_verify_code h 0 1 "bale" 777 d0).1 in
  let m := mkBaleMessage 777 "private" None
             (Some (mkBaleAuthor 20 None (Some "Ann") None))
             (Some "/verify_dm DM-0A1B2C3D") None None None None in
  let m2 := mkTgMessage 10 "private" None
              (Some (mkTgUser 10 (Some "ann") None None))
              (Some "hello") None [] in
  let out1 := on_event bots config (mkTick 5 []) (BaleMessageEvent m)
                (mkWorld d1 ∅ ∅) in
  users_wf d0
  ∧ create_dm_verify_code h 0 1 "bale" 777 d0 = (d1, Ok "DM-0A1B2C3D")
  ∧ sent out1 = [ViaBale 777 (Note (DmTargetSet 777))]
  ∧ sent (on_event bots config (mkTick 9 []) (TgMessageEvent m2) (after out1))
    = [ViaBale 777 (Text "[From Telegram DM] @ann: hello")].
Proof.
  assert (users_wf (exec_all [GetOrCreateUserByTg 0 10] init_db)) as Hwf.
  { apply exec_all_users_wf, init_db_users_wf. }
  split; [exact Hwf|]. split; [reflexivity|].
  destruct (verify_dm_on_bale_then_tg_dms_reach_the_chat (mkBots 999 888)
              (mkConfig false None)
              (String.list_ascii_of_string "0a1b2c3d4e5f40008000000000000000")
              0 1 777 (exec_all [GetOrCreateUserByTg 0 10] init_db)
              (create_dm_verify_code
                 (String.list_ascii_of_string
                    "0a1b2c3d4e5f40008000000000000000")
                 0 1 "bale" 777
                 (exec_all [GetOrCreateUserByTg 0 10] init_db)).1
              "DM-0A1B2C3D" (mkTick 5 [])
              (mkBaleMessage 777 "private" None
                 (Some (mkBaleAuthor 20 None (Some "Ann") None))
                 (Some "/verify_dm DM-0A1B2C3D") None None None None)
              "/verify_dm DM-0A1B2C3D" "/verify_dm" "DM-0A1B2C3D" ∅ ∅
              (mkTick 9 [])
              (mkTgMessage 10 "private" None
                 (Some (mkTgUser 10 (Some "ann") None None))
                 (Some "hello") None [])
              (mkTgUser 10 (Some "ann") None None) "hello")
    as (_ & Hsent1 & _ & _ & Hsent2);
    [exact Hwf|reflexivity || done ..|].
  split; [exact Hsent1|exact Hsent2].
Defined.

(** * The Telegram wizard that asks for a Bale id *)

Section AwaitBaleId.
Context `{PyStr}.
Variables (bots : Bots) (config : Config).
Implicit Types (d : DB) (w : World).

Lemma tg_await_dispatch t m u s wz w :
  tg_chat_type m = "private" → tg_from_user m = Some u →
  TG_WIZ w !! tgu_id u = Some wz →
  tg_text m = Some s → startswith s "/" = false →
  tg_dispatch_message bots t m w = on_tg_await_bale_id t m w.
Proof.
  intros Hty Hu Hwiz Hs Hcmd. unfold tg_dispatch_message. cbv zeta.
  rewrite Hty, Hs. cbn [String.eqb Ascii.eqb Bool.eqb andb from_option].
  assert (∀ p, startswith p "/" = true → bool_decide (Some s = Some p) = false)
    as Hne.
  { intros p Hp. apply bool_decide_eq_false. intros [= ->]. congruence. }
  rewrite !Hne by done.
  rewrite (not_slash_not_command s "/verify_dm") by done.
  cbn [orb]. rewrite Hu. cbn [attr]. rewrite bind_ret, bind_tg_wiz, Hwiz.
  by rewrite bool_decide_eq_true_2.
Qed.

(** What [on_tg_await_bale_id] does with a string of digits. *)
Lemma on_tg_await_bale_id_run t m u s wz n w :
  tg_from_user m = Some u → TG_WIZ w !! tgu_id u = Some wz →
  wiz_mode wz = "AWAIT_BALE_ID" →
  tg_text m = Some s →
  py_isdigit (py_strip s) = true → py_int (py_strip s) = Some n →
  on_tg_await_bale_id t m w
  = let '(d1, r) := merge_user_accounts (tick_now t) (tgu_id u) n (store w) in
    let reply d c := mkOutcome
                       (mkWorld d (delete (tgu_id u) (TG_WIZ w)) (BALE_WIZ w))
                       [ViaTelegram (tg_chat_id m) (Note c)] (Ok ()) in
    match r with
    | Ok o =>
        let '(d2, r2) := create_dm_verify_code (tick_uuid_hex t) (tick_now t)
                           o "bale" n d1 in
        match r2 with
        | Ok code => reply d2 (DmCodeIssued n code)
        | Raise _ => reply d2 UnexpectedError
        end
    | Raise _ => reply d1 UnexpectedError
    end.
Proof.
  intros Hu Hwiz Hmode Hs Hdig Hint. unfold on_tg_await_bale_id.
  rewrite Hu, Hs. cbn [attr or_empty default from_option id].
  rewrite bind_ret, bind_tg_wiz, Hwiz. cbn [fmap option_fmap option_map].
  rewrite Hmode, bool_decide_eq_true_2 by done. cbn [negb].
  rewrite Hdig, Hint. cbn [from_option]. rewrite bind_ret.
  unfold try_except, set_tg_wiz, run. run_handler.
  destruct (merge_user_accounts _ _ _ _) as [d1 [o|e]]; simpl; [|done].
  by destruct (create_dm_verify_code _ _ _ _ _ _) as [d2 [code|e]].
Qed.

(** Whenever [merge_user_accounts] returns an owner, the Telegram id
    resolves to it. *)
Lemma merge_returns_tg_owner now tg bale d d1 o :
  users_wf d → merge_user_accounts now tg bale d = (d1, Ok o) →
  select_user_id_by_tg d1 tg = Some o.
Proof.
  intros Hwf. pose proof Hwf as (_ & Hpos & _). rewrite Forall_forall in Hpos.
  destruct (select_user_id_by_tg d tg) as [a|] eqn:Ht,
           (select_user_id_by_bale d bale) as [b|] eqn:Hb.
  - assert (a ≠ 0 ∧ b ≠ 0) as [Ha Hnz].
    { apply select_user_id_by_tg_Some in Ht as (u & Hu & <- & _).
      apply select_user_id_by_bale_Some in Hb as (v & Hv & <- & _).
      pose proof (Hpos u Hu). pose proof (Hpos v Hv). lia. }
    destruct (decide (a = b)) as [<-|Hab].
    + rewrite (merge_same_owner now tg bale d a) by done. by intros [= <- <-].
    + by rewrite (merge_two_owners now tg bale d a b).
  - apply select_user_id_by_tg_Some in Ht as Hu.
    destruct Hu as (u & Hu & <- & _).
    rewrite (merge_tg_only now tg bale d (user_id u));
      [|done|specialize (Hpos u Hu); lia|done].
    intros [= <- <-]. by rewrite select_tg_after_bale_update.
  - apply select_user_id_by_bale_Some in Hb as Hu.
    destruct Hu as (u & Hu & <- & _).
    rewrite (merge_bale_only now tg bale d (user_id u));
      [|done|done|specialize (Hpos u Hu); lia].
    intros [= <- <-]. by apply (select_tg_after_tg_update d _ tg u).
  - rewrite merge_fresh by done. intros [= <- <-].
    by apply select_tg_append_user.
Qed.

Lemma create_dm_verify_code_fresh h now o c d :
  dm_code_exists d (dm_code_of h) = false →
  create_dm_verify_code h now o "bale" c d
  = (set_dm_verify_tokens
       (λ l, l ++ [mkDmVerifyToken (dm_code_of h) o "bale" c
                                   (now + ten_minutes) 0]) d,
     Ok (dm_code_of h)).
Proof.
  intros Hf. unfold create_dm_verify_code, transaction, insert_dm_verify_token.
  by rewrite Hf.
Qed.

Lemma create_dm_verify_code_frame h now o platform c d :
  let d2 := (create_dm_verify_code h now o platform c d).1 in
  users d2 = users d ∧ chats d2 = chats d.
Proof.
  unfold create_dm_verify_code, transaction, insert_dm_verify_token.
  by destruct (_ || _).
Qed.

(** X16.  The Bale-id wizard, end to end.  A Telegram user whose wizard
    waits for a Bale id sends a string of digits [n], not [0] and within
    the signed 64-bit range that SQLite can bind.  When the
    merge of the two identities returns an owner and the code drawn is
    fresh, the user is sent a code for Bale chat [n] and the wizard entry
    is deleted; a [/verify_dm] message with that code in Bale chat [n]
    within ten minutes is answered with [DmTargetSet]; and from then on a
    private text message of the Telegram user is sent to Bale chat [n]. *)
Theorem bale_id_wizard_end_to_end
    t m u s wz n w o t1 m1 text cmd arg t2 m2 s2 :
  users_wf (store w) →
  tg_chat_type m = "private" → tg_from_user m = Some u →
  TG_WIZ w !! tgu_id u = Some wz → wiz_mode wz = "AWAIT_BALE_ID" →
  tg_text m = Some s → startswith s "/" = false →
  py_isdigit (py_strip s) = true → py_int (py_strip s) = Some n → n ≠ 0 →
  sqlite_int n = true →
  (merge_user_accounts (tick_now t) (tgu_id u) n (store w)).2 = Ok o →
  dm_code_exists (store w) (dm_code_of (tick_uuid_hex t)) = false →
  bale_chat_id m1 = n →
  from_option ba_id 0 (bale_author m1) ≠ bale_self_id bots →
  text_or (bale_text m1) (bale_caption m1) = Some text →
  startswith text "/verify_dm" = true →
  py_split1 text = [cmd; arg] → py_strip arg = dm_code_of (tick_uuid_hex t) →
  tick_now t1 ≤ tick_now t + ten_minutes →
  tg_chat_type m2 = "private" → tg_from_user m2 = Some u →
  tg_text m2 = Some s2 → s2 ≠ "" → startswith s2 "/" = false →
  let out := on_event bots config t (TgMessageEvent m) w in
  let out1 := on_event bots config t1 (BaleMessageEvent m1) (after out) in
  let out2 := on_event bots config t2 (TgMessageEvent m2) (after out1) in
  sent out = [ViaTelegram (tg_chat_id m)
                (Note (DmCodeIssued n (dm_code_of (tick_uuid_hex t))))]
  ∧ TG_WIZ (after out) !! tgu_id u = None
  ∧ sent out1 = [ViaBale n (Note (DmTargetSet n))]
  ∧ sent out2
    = [ViaBale n (Text (("[From Telegram DM] " +:+ tg_name u +:+ ": ")
                        +:+ s2))].
Proof.
  intros Hwf Hty Hu Hwiz Hmode Hs Hcmd Hdig Hint Hn _ Hmerge Hfresh
         Hchat Hself Htext Hdm Hparts Hcode Hnow Hty2 Hu2 Hs2 Hne2 Hcmd2.
  cbv zeta. cbn [on_event].
  rewrite (tg_await_dispatch t m u s wz w) by done.
  rewrite (on_tg_await_bale_id_run t m u s wz n w) by done.
  destruct (merge_user_accounts _ _ _ _) as [d1 r] eqn:Hm.
  cbn [snd] in Hmerge. subst r. cbv zeta.
  assert (dm_verify_tokens d1 = dm_verify_tokens (store w)) as Htok.
  { pose proof (merge_user_accounts_keeps_tables (tick_now t) (tgu_id u) n
                  (store w) Hwf) as Hk.
    rewrite Hm in Hk. cbn [fst snd] in Hk. by apply Hk. }
  assert (dm_code_exists d1 (dm_code_of (tick_uuid_hex t)) = false) as Hfresh1.
  { unfold dm_code_exists in *. by rewrite Htok. }
  pose proof (create_dm_verify_code_fresh (tick_uuid_hex t) (tick_now t) o n
                d1 Hfresh1) as Hmint.
  rewrite Hmint. cbn [after sent returned TG_WIZ].
  split; [done|]. split; [apply lookup_delete_eq|].
  assert (users_wf d1) as Hwf1.
  { pose proof (merge_user_accounts_users_wf (tick_now t) (tgu_id u) n
                  (store w) Hwf) as Hk.
    by rewrite Hm in Hk. }
  pose proof (merge_returns_tg_owner _ _ _ _ _ _ Hwf Hm) as Ho.
  destruct (verify_dm_sets_target bots config (tick_uuid_hex t) (tick_now t)
              o n d1 _ _ t1 m1 text cmd arg
              (delete (tgu_id u) (TG_WIZ w)) (BALE_WIZ w) (tgu_id u)
              Hwf1 Ho Hmint Hchat Hself Htext Hdm Hparts Hcode Hnow)
    as (-> & Hwf2 & _ & Htarget).
  cbn [after sent]. split; [done|].
  rewrite (tg_dm_outcome bots t2 m2 u s2);
    [|done|done|done|apply lookup_delete_eq|done..].
  cbn [sent store]. rewrite Htarget.
  apply Z.eqb_neq in Hn as ->. done.
Qed.

(** X17.  Typing a Bale id binds the sender to the owner of that id.  A
    Telegram user unknown to the store, whose wizard waits for a Bale id,
    sends the Bale id of an existing owner.  The handler returns, ends the
    wizard, and from then on the sender's Telegram id resolves to that
    owner, whose chats are as before; the Telegram id the owner had before,
    if any, resolves to no owner any more.  No code has been redeemed at
    that point. *)
Theorem typed_bale_id_binds_the_sender_to_its_owner t m u s wz n w o :
  users_wf (store w) →
  tg_chat_type m = "private" → tg_from_user m = Some u →
  TG_WIZ w !! tgu_id u = Some wz → wiz_mode wz = "AWAIT_BALE_ID" →
  tg_text m = Some s → startswith s "/" = false →
  py_isdigit (py_strip s) = true → py_int (py_strip s) = Some n →
  select_user_id_by_tg (store w) (tgu_id u) = None →
  select_user_id_by_bale (store w) n = Some o →
  let out := on_event bots config t (TgMessageEvent m) w in
  let d' := store (after out) in
  returned out = Ok ()
  ∧ TG_WIZ (after out) = delete (tgu_id u) (TG_WIZ w)
  ∧ select_user_id_by_tg d' (tgu_id u) = Some o
  ∧ (∀ y, select_user_id_by_tg (store w) y = Some o →
          select_user_id_by_tg d' y = None)
  ∧ list_owner_chats d' o None None = list_owner_chats (store w) o None None
  ∧ Forall (λ k, dm_consumed k = 0 ∨ k ∈ dm_verify_tokens (store w))
           (dm_verify_tokens d').
Proof.
  intros Hwf Hty Hu Hwiz Hmode Hs Hcmd Hdig Hint Ht Hb.
  cbv zeta. cbn [on_event].
  rewrite (tg_await_dispatch t m u s wz w) by done.
  rewrite (on_tg_await_bale_id_run t m u s wz n w) by done.
  pose proof Hwf as (_ & Hpos & _). rewrite Forall_forall in Hpos.
  destruct (select_user_id_by_bale_Some _ _ _ Hb) as (r & Hr & Hro & Hrx).
  rewrite (merge_bale_only (tick_now t) (tgu_id u) n (store w) o);
    [|done|done|specialize (Hpos r Hr); lia].
  cbv zeta.
  set (d1 := update_where_id o (with_tg (Some (tgu_id u))) (store w)).
  pose proof (create_dm_verify_code_frame (tick_uuid_hex t) (tick_now t) o
                "bale" n d1) as Hframe.
  assert (Forall (λ k, dm_consumed k = 0 ∨ k ∈ dm_verify_tokens (store w))
            (dm_verify_tokens
               (create_dm_verify_code (tick_uuid_hex t) (tick_now t) o
                  "bale" n d1).1)) as Htok.
  { unfold create_dm_verify_code, transaction, insert_dm_verify_token.
    destruct (_ || _); simpl.
    - apply Forall_forall. intros k Hk. by right.
    - apply Forall_app. split; [|apply Forall_singleton; by left].
      apply Forall_forall. intros k Hk. by right. }
  destruct (create_dm_verify_code _ _ _ _ _ _) as [d2 r2].
  cbv zeta in Hframe. cbn [fst] in Hframe, Htok. destruct Hframe as [Hus Hch].
  assert (select_user_id_by_tg d2 = select_user_id_by_tg d1) as Hsel.
  { unfold select_user_id_by_tg. by rewrite Hus. }
  assert (list_owner_chats d2 o None None
          = list_owner_chats (store w) o None None) as Hlist.
  { unfold list_owner_chats. by rewrite Hch. }
  assert (select_user_id_by_tg d1 (tgu_id u) = Some o) as Hnew.
  { by apply (select_tg_after_tg_update (store w) o (tgu_id u) r). }
  assert (∀ y, select_user_id_by_tg (store w) y = Some o →
               select_user_id_by_tg d1 y = None) as Hold.
  { intros y (v & Hv & Hvo & Hvy)%select_user_id_by_tg_Some.
    apply (select_tg_gone_after_tg_update (store w) o (tgu_id u) y v);
      [done..|].
    intros ->. apply select_user_id_by_tg_None in Ht.
    rewrite Forall_forall in Ht. specialize (Ht v Hv).
    by rewrite Hvy, sql_eq_Some in Ht. }
  destruct r2 as [code|e]; cbn [after sent returned store TG_WIZ];
    rewrite Hsel; repeat split; done.
Qed.

(** X18.  How the Bale-id wizard fails.  While the wizard waits for a Bale
    id, a private message that is not a string of digits is answered with
    [NotAnId] and changes nothing, so that the wizard goes on waiting; and
    digits that name the Bale id of another owner than the sender's are
    answered with [UnexpectedError]: the two owners are not merged, the
    store is as before, and the wizard is ended. *)
Theorem bale_id_wizard_failures t m u s wz w :
  tg_chat_type m = "private" → tg_from_user m = Some u →
  TG_WIZ w !! tgu_id u = Some wz → wiz_mode wz = "AWAIT_BALE_ID" →
  tg_text m = Some s → startswith s "/" = false →
  let out := on_event bots config t (TgMessageEvent m) w in
  (py_isdigit (py_strip s) = false →
   out = mkOutcome w [ViaTelegram (tg_chat_id m) (Note NotAnId)] (Ok ()))
  ∧ (∀ n a b,
       py_isdigit (py_strip s) = true → py_int (py_strip s) = Some n →
       users_wf (store w) →
       select_user_id_by_tg (store w) (tgu_id u) = Some a →
       select_user_id_by_bale (store w) n = Some b → a ≠ b →
       out = mkOutcome
               (mkWorld (store w) (delete (tgu_id u) (TG_WIZ w)) (BALE_WIZ w))
               [ViaTelegram (tg_chat_id m) (Note UnexpectedError)] (Ok ())).
Proof.
  intros Hty Hu Hwiz Hmode Hs Hcmd. cbv zeta. cbn [on_event].
  rewrite (tg_await_dispatch t m u s wz w) by done. split.
  - intros Hdig. unfold on_tg_await_bale_id.
    rewrite Hu, Hs. cbn [attr or_empty default from_option id].
    rewrite bind_ret, bind_tg_wiz, Hwiz. cbn [fmap option_fmap option_map].
    rewrite Hmode, bool_decide_eq_true_2 by done. cbn [negb].
    by rewrite Hdig.
  - intros n a b Hdig Hint Hwf Ht Hb Hab.
    rewrite (on_tg_await_bale_id_run t m u s wz n w) by done.
    pose proof Hwf as (_ & Hpos & _). rewrite Forall_forall in Hpos.
    destruct (select_user_id_by_tg_Some _ _ _ Ht) as (ra & Hra & Hida & _).
    destruct (select_user_id_by_bale_Some _ _ _ Hb) as (rb & Hrb & Hidb & _).
    rewrite (merge_two_owners (tick_now t) (tgu_id u) n (store w) a b);
      [done|done|done|done| |].
    + specialize (Hpos ra Hra). lia.
    + specialize (Hpos rb Hrb). lia.
Qed.

End AwaitBaleId.

Lemma bale_id_wizard_end_to_end_witness :
  let bots := mkBots 999 888 in
  let config := mkConfig false None in
  let t := mkTick 0 (String.list_ascii_of_string
                       "0a1b2c3d4e5f40008000000000000000") in
  let w := mkWorld init_db {[10 := mkWizard "AWAIT_BALE_ID" None]} ∅ in
  let u := mkTgUser 10 (Some "ann") None None in
  let m := mkTgMessage 10 "private" None (Some u) (Some "777") None [] in
  let m1 := mkBaleMessage 777 "private" None
              (Some (mkBaleAuthor 20 None (Some "Ann") None))
              (Some "/verify_dm DM-0A1B2C3D") None None None None in
  let m2 := mkTgMessage 10 "private" None (Some u) (Some "hello") None [] in
  let out := on_event bots config t (TgMessageEvent m) w in
  let out1 := on_event bots config (mkTick 5 []) (BaleMessageEvent m1)
                (after out) in
  sent out = [ViaTelegram 10 (Note (DmCodeIssued 777 "DM-0A1B2C3D"))]
  ∧ sent (on_event bots config (mkTick 9 []) (TgMessageEvent m2) (after out1))
    = [ViaBale 777 (Text "[From Telegram DM] @ann: hello")].
Proof.
  destruct (bale_id_wizard_end_to_end (mkBots 999 888) (mkConfig false None)
              (mkTick 0 (String.list_ascii_of_string
                           "0a1b2c3d4e5f40008000000000000000"))
              (mkTgMessage 10 "private" None
                 (Some (mkTgUser 10 (Some "ann") None None))
                 (Some "777") None [])
              (mkTgUser 10 (Some "ann") None None) "777"
              (mkWizard "AWAIT_BALE_ID" None) 777
              (mkWorld init_db {[10 := mkWizard "AWAIT_BALE_ID" None]} ∅)
              1 (mkTick 5 [])
              (mkBaleMessage 777 "private" None
                 (Some (mkBaleAuthor 20 None (Some "Ann") None))
                 (Some "/verify_dm DM-0A1B2C3D") None None None None)
              "/verify_dm DM-0A1B2C3D" "/verify_dm" "DM-0A1B2C3D"
              (mkTick 9 [])
              (mkTgMessage 10 "private" None
                 (Some (mkTgUser 10 (Some "ann") None None))
                 (Some "hello") None [])
              "hello")
    as (Hsent & _ & _ & Hsent2);
    [apply init_db_users_wf|reflexivity || done ..|].
  split; [exact Hsent|exact Hsent2].
Defined.

Lemma typed_bale_id_binds_the_sender_to_its_owner_witness :
  let d := exec_all [GetOrCreateUserByBale 0 20;
                     MergeUserAccounts 1 10 20;
                     RegisterChat 2 1 "bale" "group" 500 "g"] init_db in
  let w := mkWorld d {[11 := mkWizard "AWAIT_BALE_ID" None]} ∅ in
  let m := mkTgMessage 11 "private" None
             (Some (mkTgUser 11 (Some "eve") None None))
             (Some "20") None [] in
  let out := on_event (mkBots 999 888) (mkConfig false None) (mkTick 5 [])
               (TgMessageEvent m) w in
  users_wf d
  ∧ select_user_id_by_tg d 10 = Some 1
  ∧ select_user_id_by_tg (store (after out)) 11 = Some 1
  ∧ select_user_id_by_tg (store (after out)) 10 = None.
Proof.
  assert (users_wf
            (exec_all [GetOrCreateUserByBale 0 20;
                       MergeUserAccounts 1 10 20;
                       RegisterChat 2 1 "bale" "group" 500 "g"] init_db))
    as Hwf.
  { apply exec_all_users_wf, init_db_users_wf. }
  split; [exact Hwf|]. split; [reflexivity|].
  destruct (typed_bale_id_binds_the_sender_to_its_owner (mkBots 999 888)
              (mkConfig false None) (mkTick 5 [])
              (mkTgMessage 11 "private" None
                 (Some (mkTgUser 11 (Some "eve") None None))
                 (Some "20") None [])
              (mkTgUser 11 (Some "eve") None None) "20"
              (mkWizard "AWAIT_BALE_ID" None) 20
              (mkWorld
                 (exec_all [GetOrCreateUserByBale 0 20;
                            MergeUserAccounts 1 10 20;
                            RegisterChat 2 1 "bale" "group" 500 "g"] init_db)
                 {[11 := mkWizard "AWAIT_BALE_ID" None]} ∅)
              1)
    as (_ & _ & Hnew & Hold & _);
    [exact Hwf|reflexivity || done ..|].
  split; [exact Hnew|]. apply Hold. reflexivity.
Defined.

Lemma bale_id_wizard_failures_witness :
  let d := exec_all [GetOrCreateUserByTg 0 10; GetOrCreateUserByBale 0 20]
                    init_db in
  let w := mkWorld d {[10 := mkWizard "AWAIT_BALE_ID" None]} ∅ in
  let m := mkTgMessage 10 "private" None
             (Some (mkTgUser 10 (Some "ann") None None))
             (Some "20") None [] in
  on_event (mkBots 999 888) (mkConfig false None) (mkTick 5 [])
    (TgMessageEvent m) w
  = mkOutcome (mkWorld d (delete 10 {[10 := mkWizard "AWAIT_BALE_ID" None]}) ∅)
      [ViaTelegram 10 (Note UnexpectedError)] (Ok ()).
Proof.
  destruct (bale_id_wizard_failures (mkBots 999 888) (mkConfig false None)
              (mkTick 5 [])
              (mkTgMessage 10 "private" None
                 (Some (mkTgUser 10 (Some "ann") None None))
                 (Some "20") None [])
              (mkTgUser 10 (Some "ann") None None) "20"
              (mkWizard "AWAIT_BALE_ID" None)
              (mkWorld
                 (exec_all [GetOrCreateUserByTg 0 10;
                            GetOrCreateUserByBale 0 20] init_db)
                 {[10 := mkWizard "AWAIT_BALE_ID" None]} ∅))
    as [_ Hfail]; [reflexivity || done ..|].
  apply (Hfail 20 1 2); [reflexivity..| |reflexivity|reflexivity|done].
  apply exec_all_users_wf, init_db_users_wf.
Defined.

(** * The Bale wizard that asks for a Telegram chat id *)

Section BaleWizard.
Context `{PyStr}.
Variables (bots : Bots) (config : Config).
Implicit Types (d : DB) (w : World).

Lemma bale_owner_row_update_dm_tg d o v uid :
  bale_owner_row (update_dm_target_telegram v o d) uid
  = (λ u, if user_id u =? o then with_dm_tg v u else u)
      <$> bale_owner_row d uid.
Proof.
  unfold bale_owner_row, update_dm_target_telegram, update_where_id; simpl.
  apply find_map_same. intros u. by destruct (user_id u =? o).
Qed.

Lemma bale_owner_row_id d uid o :
  select_user_id_by_bale d uid = Some o →
  ∃ r, bale_owner_row d uid = Some r ∧ user_id r = o.
Proof.
  unfold select_user_id_by_bale, bale_owner_row.
  destruct (List.find _ _) as [r|]; [|done]. intros [= <-]. by exists r.
Qed.

(** After [get_or_create_user_by_bale] the Bale id resolves to the owner
    returned. *)
Lemma get_or_create_user_by_bale_resolves depth now uid d :
  ∃ d' o, get_or_create_user_by_bale (S depth) now uid d = (d', Ok o)
          ∧ select_user_id_by_bale d' uid = Some o
          ∧ d' = exec (GetOrCreateUserByBale now uid) d.
Proof.
  assert (∀ k, (get_or_create_user_by_bale (S k) now uid d).1
               = exec (GetOrCreateUserByBale now uid) d) as Hexec.
  { intros k. cbn [exec]. unfold recursion_limit.
    destruct (select_user_id_by_bale d uid) as [a|] eqn:Hs.
    - by rewrite !(get_or_create_user_by_bale_found _ _ _ _ a Hs).
    - by rewrite !(get_or_create_user_by_bale_new _ _ _ _ Hs). }
  specialize (Hexec depth).
  destruct (select_user_id_by_bale d uid) as [a|] eqn:Hs.
  - rewrite (get_or_create_user_by_bale_found _ _ _ _ a Hs) in *.
    exists d, a. by repeat split.
  - rewrite (get_or_create_user_by_bale_new _ _ _ _ Hs) in *.
    eexists _, _. split; [done|]. split; [|done].
    by apply (select_bale_append_user_found d (mkUser _ _ _ _ _ _)).
Qed.

(** What [bale_private] does while the wizard waits for a Telegram id. *)
Lemma bale_private_wizard_run t m a s wz w d' o :
  BALE_WIZ w !! ba_id a = Some wz → wiz_mode wz = "SET_DM_BALE2TG" →
  s ≠ "" →
  py_lower (py_strip s) ≠ "/myid" → py_lower (py_strip s) ≠ "/start" →
  py_lower (py_strip s) ≠ "/help" →
  get_or_create_user_by_bale recursion_limit (tick_now t) (ba_id a) (store w)
  = (d', Ok o) →
  bale_private config t m (Some s) (ba_id a) (bale_name a) w
  = if str_true (py_strip s) && py_isdigit (lstrip_minus (py_strip s))
    then match py_int (py_strip s) with
         | Some target =>
             mkOutcome
               (mkWorld (update_dm_target_telegram (Some target) o d')
                        (TG_WIZ w) (delete (ba_id a) (BALE_WIZ w)))
               [ViaBale (bale_chat_id m) (Note (DmTargetSet target))] (Ok ())
         | None => mkOutcome (with_store d' w) [] (Raise ValueError)
         end
    else mkOutcome (with_store d' w)
           [ViaBale (bale_chat_id m) (Note NotAnId)] (Ok ()).
Proof.
  intros Hwiz Hmode Hne Hmyid Hstart Hhelp Hget.
  assert (str_true s = true) as Htrue by (by destruct s).
  unfold bale_private. cbv zeta.
  rewrite (bind_run _ _ w d' o) by done.
  cbn [text_true or_empty default from_option id]. rewrite Htrue.
  apply String.eqb_neq in Hmyid as ->, Hstart as ->, Hhelp as ->.
  cbn [andb orb]. rewrite bind_bale_wiz. cbn [BALE_WIZ with_store].
  rewrite Hwiz. cbn [fmap option_fmap option_map].
  rewrite Hmode, bool_decide_eq_true_2 by done.
  destruct (str_true (py_strip s) && py_isdigit _); [|done].
  destruct (py_int (py_strip s)) as [target|]; cbn [from_option]; [|done].
  rewrite bind_ret, bind_commit. done.
Qed.

(** X19.  The Bale-to-Telegram target is set without a code.  While the
    Bale wizard waits for a Telegram chat id, an integer sent in a private
    Bale chat becomes the Telegram target of the sender's owner at once:
    the handler answers [DmTargetSet], ends the wizard, and from then on a
    private text message of that Bale user is sent to that Telegram chat,
    whatever chat it is (stated for an integer other than [0] and within
    the signed 64-bit range that SQLite can bind, with the operator mirror
    off). *)
Theorem bale_wizard_sets_the_target_without_a_code
    t m a s wz target w t2 m2 s2 :
  users_wf (store w) →
  bale_chat_type m = "private" → bale_author m = Some a →
  ba_id a ≠ bale_self_id bots →
  BALE_WIZ w !! ba_id a = Some wz → wiz_mode wz = "SET_DM_BALE2TG" →
  text_or (bale_text m) (bale_caption m) = Some s → s ≠ "" →
  startswith s "/verify_dm" = false →
  py_lower (py_strip s) ≠ "/myid" → py_lower (py_strip s) ≠ "/start" →
  py_lower (py_strip s) ≠ "/help" →
  py_strip s ≠ "" → py_isdigit (lstrip_minus (py_strip s)) = true →
  py_int (py_strip s) = Some target → target ≠ 0 →
  sqlite_int target = true →
  bale_chat_type m2 = "private" → bale_author m2 = Some a →
  text_or (bale_text m2) (bale_caption m2) = Some s2 → s2 ≠ "" →
  startswith s2 "/verify_dm" = false →
  py_lower (py_strip s2) ≠ "/myid" → py_lower (py_strip s2) ≠ "/start" →
  py_lower (py_strip s2) ≠ "/help" →
  MIRROR_DMS_TO_OWNER config = false →
  let out := on_event bots config t (BaleMessageEvent m) w in
  let out2 := on_event bots config t2 (BaleMessageEvent m2) (after out) in
  returned out = Ok ()
  ∧ sent out = [ViaBale (bale_chat_id m) (Note (DmTargetSet target))]
  ∧ BALE_WIZ (after out) = delete (ba_id a) (BALE_WIZ w)
  ∧ sent out2
    = [ViaTelegram target (Text (("[From Bale DM] " +:+ bale_name a +:+ ": ")
                                 +:+ s2))].
Proof.
  intros Hwf Hty Ha Hself Hwiz Hmode Hs Hne Hdm Hmyid Hstart Hhelp
         Hval Hdig Hint Htarget _ Hty2 Ha2 Hs2 Hne2 Hdm2 Hmyid2 Hstart2 Hhelp2
         Hmirror.
  cbv zeta. cbn [on_event].
  rewrite (bale_private_dispatch bots config t m a s w) by done.
  destruct (get_or_create_user_by_bale_resolves 899 (tick_now t) (ba_id a)
              (store w)) as (d' & o & Hget & Hsel & Hd').
  rewrite (bale_private_wizard_run t m a s wz w d' o) by done.
  assert (str_true (py_strip s) = true) as -> by (by destruct (py_strip s)).
  rewrite Hdig, Hint. cbn [andb after sent returned BALE_WIZ].
  split; [done|]. split; [done|]. split; [done|].
  set (d2 := update_dm_target_telegram (Some target) o d').
  assert (users_wf d2) as Hwf2.
  { apply (exec_users_wf (SetDmTargetTelegram (Some target) o)).
    rewrite Hd'. by apply exec_users_wf. }
  destruct (bale_owner_row_id _ _ _ Hsel) as (r & Hr & Hid).
  assert (bale_owner_row d2 (ba_id a) ≫= dm_target_telegram_chat_id
          = Some target) as Hrow.
  { unfold d2. rewrite bale_owner_row_update_dm_tg, Hr. simpl.
    by rewrite Hid, Z.eqb_refl. }
  rewrite (bale_dm_outcome bots config t2 m2 a s2);
    [|done..| |done|done|done|done|done|done].
  - cbn [sent store]. rewrite Hrow, Hmirror.
    apply Z.eqb_neq in Htarget as ->. done.
  - cbn [BALE_WIZ]. by rewrite lookup_delete_eq.
Qed.

End BaleWizard.

Lemma bale_wizard_sets_the_target_without_a_code_witness :
  let bots := mkBots 999 888 in
  let config := mkConfig false None in
  let a := mkBaleAuthor 20 None (Some "Bob") None in
  let w := mkWorld init_db ∅ {[20 := mkWizard "SET_DM_BALE2TG" None]} in
  let m := mkBaleMessage 20 "private" None (Some a) (Some "-1001")
             None None None None in
  let m2 := mkBaleMessage 20 "private" None (Some a) (Some "salam")
              None None None None in
  let out := on_event bots config (mkTick 5 []) (BaleMessageEvent m) w in
  sent out = [ViaBale 20 (Note (DmTargetSet (-1001)))]
  ∧ sent (on_event bots config (mkTick 9 []) (BaleMessageEvent m2) (after out))
    = [ViaTelegram (-1001) (Text "[From Bale DM] Bob: salam")].
Proof.
  destruct (bale_wizard_sets_the_target_without_a_code (mkBots 999 888)
              (mkConfig false None) (mkTick 5 [])
              (mkBaleMessage 20 "private" None
                 (Some (mkBaleAuthor 20 None (Some "Bob") None))
                 (Some "-1001") None None None None)
              (mkBaleAuthor 20 None (Some "Bob") None) "-1001"
              (mkWizard "SET_DM_BALE2TG" None) (-1001)
              (mkWorld init_db ∅ {[20 := mkWizard "SET_DM_BALE2TG" None]})
              (mkTick 9 [])
              (mkBaleMessage 20 "private" None
                 (Some (mkBaleAuthor 20 None (Some "Bob") None))
                 (Some "salam") None None None None)
              "salam")
    as (_ & Hsent & _ & Hsent2);
    [apply init_db_users_wf|reflexivity || done ..|].
  split; [exact Hsent|exact Hsent2].
Defined.

(** * Invariants of the calls the handlers make *)

Section SafeCalls.
Implicit Types (d : DB) (c : Call) (l : list Link).

Lemma owns_chat_frame d d' o platform type cid :
  chats d' = chats d →
  owns_chat d' o platform type cid = owns_chat d o platform type cid.
Proof. unfold owns_chat. by intros ->. Qed.

Lemma pairs_owned_mono type d d' l :
  (∀ o platform cid, owns_chat d o platform type cid = true →
                     owns_chat d' o platform type cid = true) →
  pairs_owned type d l → pairs_owned type d' l.
Proof.
  intros Hmono Hl. eapply Forall_impl; [exact Hl|].
  intros k [? ?]; simpl. split; by apply Hmono.
Qed.

Lemma links_owned_frame d d' :
  chats d' = chats d → group_links d' = group_links d →
  channel_links d' = channel_links d →
  links_owned d → links_owned d'.
Proof.
  intros Hc Hg Hl [? ?]. unfold links_owned. rewrite Hg, Hl.
  split; (eapply pairs_owned_mono; [|done]); intros ???;
    by rewrite (owns_chat_frame d d').
Qed.

Lemma links_owned_kept d d' :
  tables_kept d d' → links_owned d → links_owned d'.
Proof. intros (? & ? & ? & _). by apply links_owned_frame. Qed.

Lemma owns_chat_insert x d o platform type cid :
  owns_chat d o platform type cid = true →
  owns_chat (insert_or_ignore_chat x d) o platform type cid = true.
Proof.
  unfold insert_or_ignore_chat. destruct (_ || _); [done|].
  unfold owns_chat; simpl. rewrite existsb_app. by intros ->.
Qed.

Lemma pairs_owned_snoc type d l k :
  pairs_owned type d l →
  owns_chat d (link_owner_user_id k) "tg" type (link_tg_id k) = true →
  owns_chat d (link_owner_user_id k) "bale" type (link_bale_id k) = true →
  pairs_owned type d (l ++ [k]).
Proof.
  intros Hl ? ?. apply Forall_app. split; [done|]. by apply Forall_singleton.
Qed.

Lemma exec_links_owned c d :
  users_wf d → safe_call d c → links_owned d → links_owned (exec c d).
Proof.
  intros Hwf Hsafe Hl. destruct c; cbn [exec safe_call] in *.
  - apply (links_owned_kept d); [|done].
    apply get_or_create_user_by_tg_frame.
  - apply (links_owned_kept d); [|done].
    apply get_or_create_user_by_bale_frame.
  - apply (links_owned_frame d); [..|done];
      unfold create_verify_code, transaction, insert_verify_token;
      by destruct (_ || _).
  - destruct (consume_verify_code_cases now code platform uid d)
      as [->|(t & _ & _ & _ & ->)]; [done|].
    by apply (links_owned_frame d).
  - apply (links_owned_frame d); [..|done];
      unfold create_dm_verify_code, transaction, insert_dm_verify_token;
      by destruct (_ || _).
  - destruct (consume_dm_verify_code_cases now code platform chat d)
      as [->|(t & _ & _ & _ & _ & _ & ->)]; [done|].
    by apply (links_owned_frame d).
  - destruct Hl as [Hg Hc]. unfold register_chat; cbn [fst].
    assert (∀ x, group_links (insert_or_ignore_chat x d) = group_links d
                 ∧ channel_links (insert_or_ignore_chat x d)
                   = channel_links d) as Hsame.
    { intros x. unfold insert_or_ignore_chat. by destruct (_ || _). }
    unfold links_owned.
    destruct (Hsame (mkChat owner platform type cid title now)) as [-> ->].
    split; (eapply pairs_owned_mono; [|done]); intros ???;
      apply owns_chat_insert.
  - destruct Hl as [Hg Hc], Hsafe as [Htg Hbale].
    unfold pair_groups, transaction, insert_link.
    destruct (link_exists _ _ _); cbn [fst]; [done|].
    split; [|done]. cbn [group_links set_group_links].
    by apply (pairs_owned_snoc "group" d).
  - destruct Hl as [Hg Hc], Hsafe as [Htg Hbale].
    unfold pair_channels, transaction, insert_link.
    destruct (link_exists _ _ _); cbn [fst]; [done|].
    split; [done|]. cbn [channel_links set_channel_links].
    by apply (pairs_owned_snoc "channel" d).
  - apply (links_owned_kept d); [|done].
    by apply merge_user_accounts_keeps_tables.
  - done.
  - done.
Qed.

Lemma exec_dm_tokens_for_bale c d :
  users_wf d → safe_call d c → dm_tokens_for_bale d →
  dm_tokens_for_bale (exec c d).
Proof.
  intros Hwf Hsafe Hl. unfold dm_tokens_for_bale in *.
  destruct c; cbn [exec safe_call] in *; try done.
  - by destruct (get_or_create_user_by_tg_frame recursion_limit now tg d)
      as (_ & _ & _ & _ & ->).
  - by destruct (get_or_create_user_by_bale_frame recursion_limit now bale d)
      as (_ & _ & _ & _ & ->).
  - unfold create_verify_code, transaction, insert_verify_token.
    by destruct (_ || _).
  - by destruct (consume_verify_code_cases now code platform uid d)
      as [->|(t & _ & _ & _ & ->)].
  - unfold create_dm_verify_code, transaction, insert_dm_verify_token.
    destruct (_ || _); cbn [fst]; [done|]. simpl.
    apply Forall_app. split; [done|]. by apply Forall_singleton.
  - destruct (consume_dm_verify_code_cases now code platform chat d)
      as [->|(t & _ & _ & _ & _ & _ & ->)]; [done|]. simpl.
    apply Forall_fmap. eapply Forall_impl; [exact Hl|].
    intros k Hk; simpl. unfold consume_dm_token. by destruct (String.eqb _ _).
  - unfold register_chat, insert_or_ignore_chat; simpl.
    by destruct (_ || _).
  - unfold pair_groups, transaction, insert_link.
    by destruct (link_exists _ _ _).
  - unfold pair_channels, transaction, insert_link.
    by destruct (link_exists _ _ _).
  - by destruct (merge_user_accounts_keeps_tables now tg bale d Hwf)
      as (_ & _ & _ & _ & ->).
Qed.

(** A safe call keeps the world sound. *)
Lemma sound_exec c w :
  sound w → safe_call (store w) c → sound (with_store (exec c (store w)) w).
Proof.
  intros (Hs & Hl & Hdm & Hwz) Hsafe. pose proof Hs as (Hwf & _).
  split; [by apply exec_schema_ok|]. split; [by apply exec_links_owned|].
  split; [by apply exec_dm_tokens_for_bale|done].
Qed.

Lemma sound_tg_wiz (f : gmap Z Wizard → gmap Z Wizard) w :
  sound w → sound (mkWorld (store w) (f (TG_WIZ w)) (BALE_WIZ w)).
Proof. done. Qed.

Lemma sound_bale_wiz_delete a w :
  sound w → sound (mkWorld (store w) (TG_WIZ w) (delete a (BALE_WIZ w))).
Proof.
  intros (Hs & Hl & Hdm & Hwz).
  split; [done|]. split; [done|]. split; [done|]. cbn [BALE_WIZ].
  intros b st Hb. rewrite lookup_delete_Some in Hb. destruct Hb as [_ Hb].
  exact (Hwz b st Hb).
Qed.

Lemma sound_bale_wiz_insert a st w :
  (wiz_mode st = "PAIR_G_WAIT_BALE" ∨ wiz_mode st = "PAIR_C_WAIT_BALE" →
   is_Some (wiz_tg_id st)) →
  sound w → sound (mkWorld (store w) (TG_WIZ w) (<[a := st]> (BALE_WIZ w))).
Proof.
  intros Hst (Hs & Hl & Hdm & Hwz).
  split; [done|]. split; [done|]. split; [done|]. cbn [BALE_WIZ].
  intros b st' Hb. rewrite lookup_insert_Some in Hb.
  destruct Hb as [[_ <-]|[_ Hb]]; [done|]. exact (Hwz b st' Hb).
Qed.

Lemma fresh_world_sound : sound fresh_world.
Proof.
  split; [apply init_db_schema_ok|]. split; [by split; constructor|].
  split; [constructor|]. intros a st Ha. cbn [fresh_world BALE_WIZ] in Ha.
  by rewrite lookup_empty in Ha.
Qed.

End SafeCalls.

(** * Handlers keep the world sound *)

Section Keeps.
Variable I : World → Prop.

Lemma keeps_ret {A} (a : A) : keeps I (hret a).
Proof. by intros w Hw. Qed.

Lemma keeps_mret {A} (a : A) : keeps I (mret a : Handler A).
Proof. by intros w Hw. Qed.

Lemma keeps_raise {A} e : keeps I (raise e : Handler A).
Proof. by intros w Hw. Qed.

Lemma keeps_send o : keeps I (send o).
Proof. by intros w Hw. Qed.

Lemma keeps_query {A} (f : DB → A) : keeps I (query f).
Proof. by intros w Hw. Qed.

Lemma keeps_tg_wiz : keeps I tg_wiz.
Proof. by intros w Hw. Qed.

Lemma keeps_bale_wiz : keeps I bale_wiz.
Proof. by intros w Hw. Qed.

Lemma keeps_attr {A B} (x : option A) (f : A → B) : keeps I (attr x f).
Proof. destruct x; by intros w Hw. Qed.

Lemma keeps_bind {A B} (m : Handler A) (k : A → Handler B) :
  keeps I m → (∀ a, keeps I (k a)) → keeps I (m ≫= k).
Proof.
  intros Hm Hk w Hw. unfold mbind, handler_bind, hbind. cbv zeta.
  specialize (Hm w Hw). destruct (returned (m w)); [|done].
  by apply Hk.
Qed.

(** A query followed by what depends on its answer in the same world. *)
Lemma keeps_bind_query {A B} (f : DB → A) (k : A → Handler B) :
  (∀ w, I w → I (after (k (f (store w)) w))) → keeps I (query f ≫= k).
Proof. intros Hk w Hw. by apply Hk. Qed.

Lemma keeps_try_except {A} (body : Handler A) (handler : exn → Handler A) :
  keeps I body → (∀ e, keeps I (handler e)) → keeps I (try_except body handler).
Proof.
  intros Hb Hh w Hw. unfold try_except. cbv zeta.
  specialize (Hb w Hw). destruct (returned (body w)); [done|].
  by apply Hh.
Qed.

Lemma keeps_run {A} (op : Op A) :
  (∀ w, I w → I (with_store (op (store w)).1 w)) → keeps I (run op).
Proof.
  intros Hop w Hw. unfold run. specialize (Hop w Hw).
  by destruct (op (store w)).
Qed.

Lemma keeps_commit (f : DB → DB) :
  (∀ w, I w → I (with_store (f (store w)) w)) → keeps I (commit f).
Proof. intros Hf w Hw. by apply Hf. Qed.

Lemma cb_keeps_ret {A} (a : A) : cb_keeps I (cb_ret a).
Proof. by intros w Hw. Qed.

Lemma cb_keeps_mret {A} (a : A) : cb_keeps I (mret a : Cb A).
Proof. by intros w Hw. Qed.

Lemma cb_keeps_raise {A} e : cb_keeps I (cb_raise e : Cb A).
Proof. by intros w Hw. Qed.

Lemma cb_keeps_show u : cb_keeps I (cb_show u).
Proof. by intros w Hw. Qed.

Lemma cb_keeps_query {A} (f : DB → A) : cb_keeps I (cb_query f).
Proof. by intros w Hw. Qed.

Lemma cb_keeps_bale_wiz : cb_keeps I cb_bale_wiz.
Proof. by intros w Hw. Qed.

Lemma cb_keeps_bind {A B} (m : Cb A) (k : A → Cb B) :
  cb_keeps I m → (∀ a, cb_keeps I (k a)) → cb_keeps I (m ≫= k).
Proof.
  intros Hm Hk w Hw. unfold mbind, cb_mbind, cb_bind. cbv zeta.
  specialize (Hm w Hw). destruct (outcome (m w)); [done|].
  by apply Hk.
Qed.

Lemma cb_keeps_bind_query {A B} (f : DB → A) (k : A → Cb B) :
  (∀ w, I w → I (world_after (k (f (store w)) w))) →
  cb_keeps I (cb_query f ≫= k).
Proof. intros Hk w Hw. by apply Hk. Qed.

Lemma cb_keeps_run {A} (op : Op A) :
  (∀ w, I w → I (with_store (op (store w)).1 w)) → cb_keeps I (cb_run op).
Proof.
  intros Hop w Hw. unfold cb_run. specialize (Hop w Hw).
  by destruct (op (store w)).
Qed.

Lemma cb_keeps_commit (f : DB → DB) :
  (∀ w, I w → I (with_store (f (store w)) w)) → cb_keeps I (cb_commit f).
Proof. intros Hf w Hw. by apply Hf. Qed.

End Keeps.

Section Sound.
Context `{PyStr}.
Variables (bots : Bots) (config : Config).

(** A database operation that is one safe call. *)
Lemma sound_op {A} (op : Op A) (c : Call) w :
  (op (store w)).1 = exec c (store w) → safe_call (store w) c →
  sound w → sound (with_store (op (store w)).1 w).
Proof. intros -> Hsafe Hw. by apply sound_exec. Qed.

Lemma keeps_sound_call {A} (op : Op A) (c : Call) :
  (∀ d, (op d).1 = exec c d) → (∀ d, safe_call d c) →
  keeps sound (run op).
Proof. intros Hop Hsafe. apply keeps_run. intros w Hw. by apply (sound_op op c). Qed.

Lemma cb_keeps_sound_call {A} (op : Op A) (c : Call) :
  (∀ d, (op d).1 = exec c d) → (∀ d, safe_call d c) →
  cb_keeps sound (cb_run op).
Proof.
  intros Hop Hsafe. apply cb_keeps_run. intros w Hw. by apply (sound_op op c).
Qed.

Lemma keeps_sound_update_bale v o :
  keeps sound (commit (update_dm_target_bale v o)).
Proof.
  apply keeps_commit. intros w Hw. by apply (sound_exec (SetDmTargetBale v o)).
Qed.

Lemma keeps_sound_update_tg v o :
  keeps sound (commit (update_dm_target_telegram v o)).
Proof.
  apply keeps_commit. intros w Hw.
  by apply (sound_exec (SetDmTargetTelegram v o)).
Qed.

Lemma cb_keeps_sound_update_bale v o :
  cb_keeps sound (cb_commit (update_dm_target_bale v o)).
Proof.
  apply cb_keeps_commit. intros w Hw.
  by apply (sound_exec (SetDmTargetBale v o)).
Qed.

Lemma cb_keeps_sound_update_tg v o :
  cb_keeps sound (cb_commit (update_dm_target_telegram v o)).
Proof.
  apply cb_keeps_commit. intros w Hw.
  by apply (sound_exec (SetDmTargetTelegram v o)).
Qed.

End Sound.

Section HandlersSound.
Context `{PyStr}.
Variables (bots : Bots) (config : Config).

Lemma keeps_sound_set_tg_wiz f : keeps sound (set_tg_wiz f).
Proof. intros w Hw. by apply sound_tg_wiz. Qed.

Lemma keeps_sound_bale_wiz_delete a : keeps sound (set_bale_wiz (delete a)).
Proof. intros w Hw. by apply sound_bale_wiz_delete. Qed.

Lemma keeps_run_get_tg now uid :
  keeps sound (run (get_or_create_user_by_tg recursion_limit now uid)).
Proof. by apply (keeps_sound_call _ (GetOrCreateUserByTg now uid)). Qed.

Lemma keeps_run_get_bale now uid :
  keeps sound (run (get_or_create_user_by_bale recursion_limit now uid)).
Proof. by apply (keeps_sound_call _ (GetOrCreateUserByBale now uid)). Qed.

Lemma keeps_run_merge now tg bale :
  keeps sound (run (merge_user_accounts now tg bale)).
Proof. by apply (keeps_sound_call _ (MergeUserAccounts now tg bale)). Qed.

Lemma keeps_run_create_dm h now o c :
  keeps sound (run (create_dm_verify_code h now o "bale" c)).
Proof. by apply (keeps_sound_call _ (CreateDmVerifyCode h now o "bale" c)). Qed.

Lemma keeps_run_register now o platform type cid title :
  keeps sound (run (register_chat now o platform type cid title)).
Proof.
  by apply (keeps_sound_call _ (RegisterChat now o platform type cid title)).
Qed.

Lemma keeps_run_consume now code platform uid :
  keeps sound (run (λ d, let '(d', r) := consume_verify_code now code platform
                                            uid d in (d', Ok r))).
Proof.
  apply (keeps_sound_call _ (ConsumeVerifyCode now code platform uid));
    [|done].
  intros d. cbn [exec]. by destruct (consume_verify_code _ _ _ _ _).
Qed.

Lemma keeps_run_consume_dm now code platform chat :
  keeps sound (run (λ d, let '(d', r) := consume_dm_verify_code now code
                                            platform chat d in (d', Ok r))).
Proof.
  apply (keeps_sound_call _ (ConsumeDmVerifyCode now code platform chat));
    [|done].
  intros d. cbn [exec]. by destruct (consume_dm_verify_code _ _ _ _ _).
Qed.

Ltac keeps_auto :=
  repeat first
    [ apply keeps_mret | apply keeps_ret | apply keeps_send
    | apply keeps_raise | apply keeps_query | apply keeps_tg_wiz
    | apply keeps_bale_wiz | apply keeps_attr
    | apply keeps_sound_update_bale | apply keeps_sound_update_tg
    | apply keeps_sound_set_tg_wiz | apply keeps_sound_bale_wiz_delete
    | apply keeps_run_get_tg | apply keeps_run_get_bale
    | apply keeps_run_merge | apply keeps_run_create_dm
    | apply keeps_run_register | apply keeps_run_consume
    | apply keeps_run_consume_dm
    | apply keeps_bind; [|intros ?]
    | apply keeps_try_except; [|intros ?]
    | match goal with
      | |- keeps _ (if ?c then _ else _) => destruct c
      | |- keeps _ (from_option _ _ ?x) => destruct x; cbn [from_option]
      | |- keeps _ (match ?x with _ => _ end) => destruct x
      end ].

Lemma on_start_help_sound m : keeps sound (on_start_help m).
Proof. unfold on_start_help. keeps_auto. Qed.

Lemma on_tg_verify_dm_sound t m : keeps sound (on_tg_verify_dm t m).
Proof. unfold on_tg_verify_dm. keeps_auto. Qed.

Lemma on_tg_await_bale_id_sound t m : keeps sound (on_tg_await_bale_id t m).
Proof. unfold on_tg_await_bale_id. keeps_auto. Qed.

Lemma on_tg_dm_sound t m : keeps sound (on_tg_dm t m).
Proof. unfold on_tg_dm. keeps_auto. Qed.

Lemma on_tg_verify_in_group_sound t m :
  keeps sound (on_tg_verify_in_group bots t m).
Proof. unfold on_tg_verify_in_group. keeps_auto. Qed.

Lemma on_tg_group_forward_sound m : keeps sound (on_tg_group_forward bots m).
Proof. unfold on_tg_group_forward. keeps_auto. Qed.

Lemma on_tg_channel_post_sound m : keeps sound (on_tg_channel_post bots m).
Proof. unfold on_tg_channel_post. keeps_auto. Qed.

Lemma bale_relay_sound target m text wrap :
  keeps sound (bale_relay target m text wrap).
Proof. unfold bale_relay. keeps_auto. Qed.

Lemma bale_private_sound t m text author_id sender :
  keeps sound (bale_private config t m text author_id sender).
Proof. unfold bale_private. keeps_auto. Qed.

Lemma bale_verify_sound t m text author_id :
  keeps sound (bale_verify t m text author_id).
Proof. unfold bale_verify. keeps_auto. Qed.

Lemma on_event_sound t e : keeps sound (on_event bots config t e).
Proof.
  destruct e as [m|m|m]; cbn [on_event].
  - unfold tg_dispatch_message. cbv zeta.
    destruct (_ && _); [apply on_start_help_sound|].
    destruct (from_option _ _ _); [apply on_tg_verify_dm_sound|].
    destruct (String.eqb _ _).
    + apply keeps_bind; [apply keeps_attr|intros uid].
      apply keeps_bind; [apply keeps_tg_wiz|intros wiz].
      destruct (bool_decide _);
        [apply on_tg_await_bale_id_sound|apply on_tg_dm_sound].
    + destruct (from_option _ _ _); [apply on_tg_verify_in_group_sound|].
      destruct (_ || _); [apply on_tg_group_forward_sound|apply keeps_mret].
  - apply on_tg_channel_post_sound.
  - unfold bale_on_message. cbv zeta.
    destruct (_ && _); [apply keeps_mret|].
    destruct (_ && _); [keeps_auto|].
    destruct (String.eqb _ _); [apply bale_private_sound|].
    destruct (_ && _); [apply bale_verify_sound|].
    destruct (String.eqb _ _).
    { apply keeps_bind; [apply keeps_query|intros [k|]]; [|apply keeps_mret].
      destruct (negb _); [apply keeps_mret|apply bale_relay_sound]. }
    destruct (String.eqb _ _); [|apply keeps_mret].
    apply keeps_bind; [apply keeps_query|intros [k|]]; [|apply keeps_mret].
    destruct (negb _); [apply keeps_mret|apply bale_relay_sound].
Qed.

End HandlersSound.

Section CallbacksSound.
Context `{PyStr}.
Variables (bots : Bots) (config : Config).

Lemma cb_keeps_sound_set_tg_wiz f : cb_keeps sound (cb_set_tg_wiz f).
Proof. intros w Hw. by apply sound_tg_wiz. Qed.

Lemma cb_keeps_sound_bale_wiz_delete a :
  cb_keeps sound (cb_set_bale_wiz (delete a)).
Proof. intros w Hw. by apply sound_bale_wiz_delete. Qed.

Lemma cb_keeps_sound_bale_wiz_pair a mode tg :
  cb_keeps sound (cb_set_bale_wiz (<[a := mkWizard mode (Some tg)]>)).
Proof. intros w Hw. by apply sound_bale_wiz_insert. Qed.

Lemma cb_keeps_sound_bale_wiz_dm a :
  cb_keeps sound (cb_set_bale_wiz (<[a := mkWizard "SET_DM_BALE2TG" None]>)).
Proof.
  intros w Hw. apply sound_bale_wiz_insert; [|done]. by intros [|].
Qed.

Lemma cb_keeps_run_get_tg now uid :
  cb_keeps sound (cb_run (get_or_create_user_by_tg recursion_limit now uid)).
Proof. by apply (cb_keeps_sound_call _ (GetOrCreateUserByTg now uid)). Qed.

Lemma cb_keeps_run_get_bale now uid :
  cb_keeps sound (cb_run (get_or_create_user_by_bale recursion_limit now uid)).
Proof. by apply (cb_keeps_sound_call _ (GetOrCreateUserByBale now uid)). Qed.

Lemma cb_keeps_run_create picks now o platform type uid :
  cb_keeps sound (cb_run (create_verify_code picks now o platform type uid)).
Proof.
  by apply (cb_keeps_sound_call _
              (CreateVerifyCode picks now o platform type uid)).
Qed.

Lemma cb_keeps_run_create_dm h now o c :
  cb_keeps sound (cb_run (create_dm_verify_code h now o "bale" c)).
Proof.
  by apply (cb_keeps_sound_call _ (CreateDmVerifyCode h now o "bale" c)).
Qed.

Lemma data_int_sound data : cb_keeps sound (data_int data).
Proof.
  unfold data_int.
  destruct (split_on ":" data) as [|x [|p ps]];
    [by intros w Hw|by intros w Hw|].
  destruct (py_int p); by intros w Hw.
Qed.

Ltac cb_keeps_auto :=
  repeat first
    [ apply cb_keeps_mret | apply cb_keeps_ret | apply cb_keeps_show
    | apply cb_keeps_raise | apply cb_keeps_query | apply cb_keeps_bale_wiz
    | apply data_int_sound
    | apply cb_keeps_sound_update_bale | apply cb_keeps_sound_update_tg
    | apply cb_keeps_sound_set_tg_wiz | apply cb_keeps_sound_bale_wiz_delete
    | apply cb_keeps_sound_bale_wiz_pair | apply cb_keeps_sound_bale_wiz_dm
    | apply cb_keeps_run_get_tg | apply cb_keeps_run_get_bale
    | apply cb_keeps_run_create | apply cb_keeps_run_create_dm
    | apply cb_keeps_bind; [|intros ?]
    | match goal with
      | |- cb_keeps _ (if ?c then _ else _) => destruct c
      | |- cb_keeps _ (from_option _ _ ?x) => destruct x; cbn [from_option]
      | |- cb_keeps _ (match ?x with _ => _ end) => destruct x
      end ].

Lemma tg_on_callback_sound t picks cq :
  cb_keeps sound (tg_on_callback t picks cq).
Proof.
  unfold tg_on_callback, cb_menu, cb_link_tg_group, cb_link_tg_channel,
    cb_link_tg, cb_my_groups, cb_dm_settings, cb_set_dm_bale2tg,
    cb_set_dm_tg2bale_pick, cb_set_dm_tg2bale_manual, cb_set_dm_tg2bale_select.
  cbv zeta. cb_keeps_auto.
Qed.

(** The pairing step: the pairing is made only after both chats were found
    registered to the owner, in the same world. *)
Lemma bale_cb_pick_bale_sound type mode first pair mk t data chat o a :
  (∀ now tg bale d, (pair now o tg bale d).1 = exec (mk now tg bale) d) →
  (∀ now tg bale d,
     owns_chat d o "tg" type tg = true →
     owns_chat d o "bale" type bale = true →
     safe_call d (mk now tg bale)) →
  cb_keeps sound (bale_cb_pick_bale type mode first pair t data chat o a).
Proof.
  intros Hpair Hsafe. unfold bale_cb_pick_bale.
  apply cb_keeps_bind; [apply data_int_sound|intros bale_id].
  apply cb_keeps_bind; [apply cb_keeps_bale_wiz|intros wiz].
  destruct (wiz !! a) as [st|]; [|apply cb_keeps_show].
  destruct (negb _); [apply cb_keeps_show|].
  apply cb_keeps_bind; [destruct (wiz_tg_id st); by intros w Hw|intros tg_id].
  intros w Hw. unfold mbind, cb_mbind, cb_bind, cb_query. cbv zeta.
  cbn [outcome world_after shown].
  destruct (owns_chat (store w) o "tg" type tg_id) eqn:Htg;
    destruct (owns_chat (store w) o "bale" type bale_id) eqn:Hbale;
    cbn [andb negb cb_show outcome world_after];
    try by apply sound_bale_wiz_delete.
  unfold cb_run.
  pose proof (sound_op (pair (tick_now t) o tg_id bale_id)
                       (mk (tick_now t) tg_id bale_id) w
                       (Hpair _ _ _ _) (Hsafe _ _ _ _ Htg Hbale) Hw) as Hs.
  destruct (pair (tick_now t) o tg_id bale_id (store w)) as [d' [[]|e]];
    cbn [outcome world_after fst] in *; [|done].
  by apply (sound_bale_wiz_delete a) in Hs.
Qed.

Lemma bale_on_callback_sound t picks cbq :
  cb_keeps sound (bale_on_callback t picks cbq).
Proof.
  unfold bale_on_callback. cbv zeta.
  apply cb_keeps_bind; [apply cb_keeps_run_get_bale|intros o].
  repeat match goal with
         | |- cb_keeps _ (if ?c then _ else _) => destruct c
         end;
    try (unfold bale_cb_link, bale_cb_my, bale_cb_pair, bale_cb_pick_tg;
         by cb_keeps_auto).
  - apply (bale_cb_pick_bale_sound "group" _ _ pair_groups
             (λ now tg bale, PairGroups now o tg bale)); done.
  - apply (bale_cb_pick_bale_sound "channel" _ _ pair_channels
             (λ now tg bale, PairChannels now o tg bale)); done.
Qed.

Lemma handle_sound i w : sound w → sound (handle bots config i w).
Proof.
  intros Hw. destruct i as [t m|t m|t picks cq|t picks upd]; cbn [handle].
  - by apply on_event_sound.
  - by apply on_event_sound.
  - by apply tg_on_callback_sound.
  - unfold bale_on_update, bale_message_part. cbv zeta.
    destruct (upd_callback_query upd) as [cbq|].
    + pose proof (bale_on_callback_sound t picks cbq w Hw) as Hcb.
      destruct (outcome (bale_on_callback t picks cbq w)); [|done].
      destruct (upd_message upd) as [msg|]; [|done].
      by apply (on_event_sound bots config t (BaleMessageEvent msg)).
    + destruct (upd_message upd) as [msg|]; [|done].
      by apply (on_event_sound bots config t (BaleMessageEvent msg)).
Qed.

Lemma handle_all_sound inputs w :
  sound w → sound (handle_all bots config inputs w).
Proof.
  revert w. induction inputs as [|i inputs IH]; intros w Hw; [done|].
  simpl. by apply IH, handle_sound.
Qed.

End CallbacksSound.

(** * What holds in every world the bridge can reach *)

Section Reachable.
Context `{PyStr}.
Variables (bots : Bots) (config : Config).

(** X20.  Pairings join chats of one owner.  Whatever messages, channel
    posts, callback queries and Bale updates the bridge has handled since
    start-up, one after another, every row of [group_links] joins a
    Telegram group and a Bale group that are both registered in [chats] to
    the owner of the row, and every row of [channel_links] joins two
    channels registered to its owner; and the store satisfies every
    constraint of the schema. *)
Theorem pairings_join_chats_of_one_owner (inputs : list Input) :
  let d := store (handle_all bots config inputs fresh_world) in
  schema_ok d
  ∧ (∀ k, k ∈ group_links d →
          owns_chat d (link_owner_user_id k) "tg" "group" (link_tg_id k) = true
          ∧ owns_chat d (link_owner_user_id k) "bale" "group" (link_bale_id k)
            = true)
  ∧ (∀ k, k ∈ channel_links d →
          owns_chat d (link_owner_user_id k) "tg" "channel" (link_tg_id k)
          = true
          ∧ owns_chat d (link_owner_user_id k) "bale" "channel"
                      (link_bale_id k) = true).
Proof.
  cbv zeta.
  destruct (handle_all_sound bots config inputs fresh_world fresh_world_sound)
    as (Hs & [Hg Hc] & _).
  split; [done|]. unfold pairs_owned in *. rewrite Forall_forall in Hg, Hc.
  by split.
Qed.

Lemma consume_dm_verify_code_other_platform now code platform chat d :
  dm_tokens_for_bale d → platform ≠ "bale" →
  consume_dm_verify_code now code platform chat d = (d, None).
Proof.
  intros Hall Hp. unfold consume_dm_verify_code.
  destruct (select_dm_verify_token d code) as [row|] eqn:Hsel; [|done].
  apply select_dm_verify_token_Some in Hsel as [Hin _].
  unfold dm_tokens_for_bale in Hall. rewrite Forall_forall in Hall.
  rewrite (Hall row Hin).
  apply not_eq_sym, String.eqb_neq in Hp as ->.
  by rewrite orb_true_r.
Qed.

(** X21.  [/verify_dm] never succeeds on Telegram.  Every DM code the
    bridge mints is bound to a chat on Bale, so in every world the bridge
    can reach, a Telegram message that starts with [/verify_dm] is
    answered with [InvalidDmCode], whatever code it carries, and changes
    nothing: no handler input sets a Telegram DM target through a code. *)
Theorem telegram_verify_dm_never_succeeds (inputs : list Input) t m s :
  tg_text m = Some s → startswith s "/verify_dm" = true →
  let w := handle_all bots config inputs fresh_world in
  on_event bots config t (TgMessageEvent m) w
  = mkOutcome w [ViaTelegram (tg_chat_id m) (Note InvalidDmCode)] (Ok ()).
Proof.
  intros Hs Hdm. cbv zeta.
  destruct (handle_all_sound bots config inputs fresh_world fresh_world_sound)
    as (_ & _ & Hbale & _).
  set (w := handle_all bots config inputs fresh_world) in *.
  cbn [on_event]. unfold tg_dispatch_message. cbv zeta.
  rewrite Hs. cbn [from_option]. rewrite Hdm.
  assert (∀ p, startswith p "/verify_dm" = false →
               bool_decide (Some s = Some p) = false) as Hne.
  { intros p Hp. apply bool_decide_eq_false. intros [= ->]. congruence. }
  rewrite !Hne by done. cbn [orb]. rewrite andb_false_r.
  unfold on_tg_verify_dm. cbv zeta.
  unfold mbind, handler_bind, hbind, run. cbv zeta.
  rewrite consume_dm_verify_code_other_platform by done.
  cbn [returned after sent truthy negb send store app]. by destruct w.
Qed.

End Reachable.

Lemma telegram_verify_dm_never_succeeds_witness :
  let bots := mkBots 999 888 in
  let config := mkConfig false None in
  let u := mkTgUser 10 (Some "ann") None None in
  let inputs :=
    [TgCallbackIn
       (mkTick 0 (String.list_ascii_of_string
                    "0a1b2c3d4e5f40008000000000000000"))
       [] (mkTgCallback "SET_DM_TG2BALE_SELECT:777" u)] in
  let w := handle_all bots config inputs fresh_world in
  let m := mkTgMessage 777 "group" None (Some u)
             (Some "/verify_dm DM-0A1B2C3D") None [] in
  dm_code <$> dm_verify_tokens (store w) = ["DM-0A1B2C3D"]
  ∧ on_event bots config (mkTick 5 []) (TgMessageEvent m) w
    = mkOutcome w [ViaTelegram 777 (Note InvalidDmCode)] (Ok ()).
Proof.
  split; [reflexivity|].
  apply (telegram_verify_dm_never_succeeds (mkBots 999 888)
           (mkConfig false None)
           [TgCallbackIn
              (mkTick 0 (String.list_ascii_of_string
                           "0a1b2c3d4e5f40008000000000000000"))
              [] (mkTgCallback "SET_DM_TG2BALE_SELECT:777"
                    (mkTgUser 10 (Some "ann") None None))]
           (mkTick 5 [])
           (mkTgMessage 777 "group" None
              (Some (mkTgUser 10 (Some "ann") None None))
              (Some "/verify_dm DM-0A1B2C3D") None [])
           "/verify_dm DM-0A1B2C3D"); reflexivity.
Defined.

(** * The offset of the Bale polling loop *)

Section Offset.
Context `{PyStr}.
Variables (bots : Bots) (config : Config).

Lemma bale_on_update_offset t picks upd w offset :
  polled_offset (bale_on_update bots config t picks upd w offset)
  = advance_offset offset upd.
Proof.
  unfold bale_on_update. cbv zeta.
  destruct (upd_callback_query upd) as [cbq|].
  - destruct (outcome _); [|done]. by destruct (bale_message_part _ _ _ _ _).
  - by destruct (bale_message_part _ _ _ _ _).
Qed.

Lemma offset_le_refl o : offset_le o o.
Proof. destruct o; simpl; [lia|done]. Qed.

Lemma offset_le_trans o1 o2 o3 :
  offset_le o1 o2 → offset_le o2 o3 → offset_le o1 o3.
Proof. destruct o1, o2, o3; simpl; try done. lia. Qed.

Lemma advance_offset_le offset upd :
  offset_le offset (advance_offset offset upd).
Proof.
  unfold advance_offset. destruct (or_int _ _) as [i|]; [|apply offset_le_refl].
  destruct offset as [o|]; [|done]. simpl.
  destruct (Z.ltb_spec o (i + 1)); simpl; lia.
Qed.

Lemma advance_offset_past offset upd i :
  or_int (upd_update_id upd) (upd_id upd) = Some i →
  offset_le (Some (i + 1)) (advance_offset offset upd).
Proof.
  unfold advance_offset. intros ->. destruct offset as [o|]; simpl; [|lia].
  destruct (Z.ltb_spec o (i + 1)); simpl; lia.
Qed.

Lemma bale_poll_offset_le updates w offset :
  offset_le offset (bale_poll bots config updates w offset).2.
Proof.
  revert w offset. induction updates as [|u us IH]; intros w offset;
    [apply offset_le_refl|].
  unfold bale_poll in *. cbn [foldl fst snd].
  eapply offset_le_trans; [|apply IH].
  rewrite bale_on_update_offset. apply advance_offset_le.
Qed.

(** X22.  The polling offset passes every update it has seen.  After the
    updates of a [get_updates] call have gone through the loop body, the
    offset is not behind the offset of before and is past the id of every
    update of the batch that has one ([update_id], or [id] when
    [update_id] is missing or [0]), whether the handling of that update
    returned or raised; and it is either the offset of before or one more
    than the id of an update of the batch. *)
Theorem bale_offset_passes_every_update
    (updates : list (Tick * list ascii * BaleUpdate)) w offset :
  let final := (bale_poll bots config updates w offset).2 in
  offset_le offset final
  ∧ (∀ u i, u ∈ updates →
            or_int (upd_update_id u.2) (upd_id u.2) = Some i →
            offset_le (Some (i + 1)) final)
  ∧ (final = offset
     ∨ ∃ u i, u ∈ updates ∧ or_int (upd_update_id u.2) (upd_id u.2) = Some i
              ∧ final = Some (i + 1)).
Proof.
  cbv zeta. split; [apply bale_poll_offset_le|]. split.
  - revert w offset. induction updates as [|v us IH]; intros w offset u i Hin Hi;
      [by apply elem_of_nil in Hin|].
    unfold bale_poll in *. cbn [foldl fst snd].
    rewrite bale_on_update_offset.
    apply elem_of_cons in Hin as [->|Hin]; [|by eapply IH].
    eapply offset_le_trans; [by apply advance_offset_past|].
    apply (bale_poll_offset_le us).
  - revert w offset. induction updates as [|v us IH]; intros w offset;
      [by left|].
    unfold bale_poll in *. cbn [foldl fst snd].
    rewrite bale_on_update_offset.
    destruct (IH (polled_world
                    (bale_on_update bots config v.1.1 v.1.2 v.2 w offset))
                 (advance_offset offset v.2))
      as [->|(u & i & Hin & Hi & ->)].
    + unfold advance_offset.
      destruct (or_int _ _) as [i|] eqn:Hi; [|by left].
      destruct offset as [o|].
      * destruct (o <? i + 1); [|by left].
        right. exists v, i. split; [apply elem_of_cons; by left|done].
      * right. exists v, i. split; [apply elem_of_cons; by left|done].
    + right. exists u, i. split; [apply elem_of_cons; by right|done].
Qed.

End Offset.

(** * Callback data *)

Section CallbackData.

Lemma split_on_no_sep_cons sep c s :
  Ascii.eqb c sep = false → split_on sep s = [s] →
  split_on sep (String c s) = [String c s].
Proof. intros Hc Hs. simpl. by rewrite Hc, Hs. Qed.

Lemma split_on_not_nil sep s : split_on sep s ≠ [].
Proof.
  induction s as [|c s IH]; simpl; [done|].
  destruct (Ascii.eqb c sep); [done|]. by destruct (split_on sep s).
Qed.

Lemma split_on_prefix sep p s :
  split_on sep p = [p] →
  split_on sep (p +:+ String sep s) = p :: split_on sep s.
Proof.
  revert s. induction p as [|c p IH]; intros s; simpl.
  - by rewrite Ascii.eqb_refl.
  - destruct (Ascii.eqb c sep); [done|].
    destruct (split_on sep p) as [|q [|??]] eqn:Hp;
      [by destruct (split_on_not_nil sep p)| |done].
    intros [= ->]. by rewrite IH by done.
Qed.

Lemma pretty_N_char_no_colon x : Ascii.eqb (pretty_N_char x) ":" = false.
Proof. unfold pretty_N_char. by repeat case_match. Qed.

Lemma pretty_N_go_no_colon x s :
  split_on ":" s = [s] → split_on ":" (pretty_N_go x s) = [pretty_N_go x s].
Proof.
  revert s. induction (N.lt_wf_0 x) as [x _ IH]; intros s Hs.
  assert (x = 0 ∨ 0 < x)%N as [->|?] by lia.
  - by rewrite pretty_N_go_0.
  - rewrite pretty_N_go_step by done. apply IH; [by apply N.div_lt|].
    apply split_on_no_sep_cons; [apply pretty_N_char_no_colon|done].
Qed.

(** The decimal form of an integer holds no colon. *)
Lemma str_of_int_no_colon (i : Z) :
  split_on ":" (str_of_int i) = [str_of_int i].
Proof.
  unfold str_of_int, pretty, pretty_Z.
  destruct i as [|p|p]; [done| |].
  - unfold pretty, pretty_positive, pretty, pretty_N.
    destruct (decide _); [done|]. by apply pretty_N_go_no_colon.
  - apply (split_on_no_sep_cons ":" "-"); [done|].
    unfold pretty, pretty_positive, pretty, pretty_N.
    destruct (decide _); [done|]. by apply pretty_N_go_no_colon.
Qed.

Context `{PyStr}.

(** Callback data made of a name, a colon and an integer is read back as
    that integer, as far as [int] reads its own decimal form back. *)
Lemma data_int_of_button prefix (i : Z) w :
  split_on ":" prefix = [prefix] → py_int (str_of_int i) = Some i →
  data_int (prefix +:+ ":" +:+ str_of_int i) w = cb_ret i w.
Proof.
  intros Hp Hint. unfold data_int.
  change (prefix +:+ ":" +:+ str_of_int i)
    with (prefix +:+ String ":" (str_of_int i)).
  rewrite split_on_prefix, str_of_int_no_colon by done.
  by rewrite Hint.
Qed.

End CallbackData.

(** * The pairing wizard on Bale *)

Section CbLaws.
Implicit Types (w : World).

Lemma shown_eta {A} (o : Shown A) :
  mkShown (world_after o) (shown o) (outcome o) = o.
Proof. by destruct o. Qed.

Lemma cb_bind_ret {A B} (a : A) (k : A → Cb B) w :
  (cb_ret a ≫= k) w = k a w.
Proof. unfold mbind, cb_mbind, cb_bind; simpl. apply shown_eta. Qed.

Lemma cb_bind_run {A B} (op : Op A) (k : A → Cb B) w d' a :
  op (store w) = (d', Ok a) → (cb_run op ≫= k) w = k a (with_store d' w).
Proof.
  intros Hop. unfold mbind, cb_mbind, cb_bind, cb_run. rewrite Hop; simpl.
  apply shown_eta.
Qed.

Lemma cb_bind_query {A B} (f : DB → A) (k : A → Cb B) w :
  (cb_query f ≫= k) w = k (f (store w)) w.
Proof. unfold mbind, cb_mbind, cb_bind; simpl. apply shown_eta. Qed.

Lemma cb_bind_bale_wiz {B} (k : gmap Z Wizard → Cb B) w :
  (cb_bale_wiz ≫= k) w = k (BALE_WIZ w) w.
Proof. unfold mbind, cb_mbind, cb_bind; simpl. apply shown_eta. Qed.

Lemma cb_bind_set_bale_wiz {B} f (k : unit → Cb B) w :
  (cb_set_bale_wiz f ≫= k) w
  = k () (mkWorld (store w) (TG_WIZ w) (f (BALE_WIZ w))).
Proof. unfold mbind, cb_mbind, cb_bind; simpl. apply shown_eta. Qed.

Lemma cb_bind_show {B} u (k : unit → Cb B) w :
  (cb_show u ≫= k) w
  = mkShown (world_after (k () w)) (u :: shown (k () w)) (outcome (k () w)).
Proof. done. Qed.

End CbLaws.

Section PairingWizard.
Context `{PyStr}.
Variables (bots : Bots) (config : Config).
Implicit Types (d : DB) (w : World).

Lemma world_eta w : with_store (store w) w = w.
Proof. by destruct w. Qed.

(** A callback of a known Bale user starts by finding the owner. *)
Lemma cb_known_owner {B} now uid o w (k : Z → Cb B) :
  select_user_id_by_bale (store w) uid = Some o →
  (cb_run (get_or_create_user_by_bale recursion_limit now uid) ≫= k) w
  = k o w.
Proof.
  intros Ho.
  rewrite (cb_bind_run _ _ w (store w) o);
    [by rewrite world_eta|by apply get_or_create_user_by_bale_found].
Qed.

Lemma elem_of_list_owner_chats_type d o type c :
  c ∈ list_owner_chats d o None (Some type) ↔
  c ∈ chats d ∧ chat_owner_user_id c = o
  ∧ (str_true type = true → chat_type c = type).
Proof.
  unfold list_owner_chats. rewrite list_elem_of_In, filter_In, <-list_elem_of_In.
  rewrite andb_true_r, andb_true_iff, Z.eqb_eq.
  destruct (str_true type); [rewrite String.eqb_eq|].
  - split; [by intros (? & ? & ?)|]. intros (? & ? & Ht). by rewrite Ht.
  - split; [by intros (? & ? & ?)|]. by intros (? & ? & ?).
Qed.

(** The buttons of a selection keyboard: one for every chat of the
    platform and kind, and the way back. *)
Lemma elem_of_bale_kb_select platform type prefix rows row :
  row ∈ bale_kb_select platform type prefix rows ↔
  row = [mkButton "⬅️ Back to Menu" "B_MENU"]
  ∨ ∃ c, c ∈ rows ∧ chat_platform c = platform ∧ chat_type c = type
         ∧ row = [mkButton ("[" +:+ platform +:+ "] " +:+ title_or_id c)
                           (prefix +:+ str_of_int (chat_id c))].
Proof.
  unfold bale_kb_select. cbv zeta.
  set (l := (λ c, [mkButton _ _]) <$> List.filter _ rows).
  assert (match l ++ [[mkButton "⬅️ Back to Menu" "B_MENU"]] with
          | [] => bale_kb_back_menu
          | _ => l ++ [[mkButton "⬅️ Back to Menu" "B_MENU"]]
          end = l ++ [[mkButton "⬅️ Back to Menu" "B_MENU"]]) as ->.
  { by destruct l. }
  rewrite elem_of_app, list_elem_of_singleton. unfold l.
  rewrite list_elem_of_fmap. split.
  - intros [(c & -> & Hc) | ->]; [right|by left].
    apply list_elem_of_In, filter_In in Hc as [Hc Hf].
    apply andb_true_iff in Hf as [Hp Ht].
    apply String.eqb_eq in Hp, Ht. exists c.
    by rewrite <-list_elem_of_In in Hc.
  - intros [-> | (c & Hc & Hp & Ht & ->)]; [by right|left].
    exists c. split; [done|]. apply list_elem_of_In, filter_In.
    split; [by apply list_elem_of_In|].
    by rewrite Hp, Ht, !String.eqb_refl.
Qed.

(** The three callbacks of the group pairing wizard, for a known user. *)
Lemma bale_callback_pair_groups t picks cbq a o w :
  bcq_author cbq = Some a →
  select_user_id_by_bale (store w) (ba_id a) = Some o →
  bcq_data cbq = Some "B_PAIR_GROUPS" →
  bale_on_callback t picks cbq w
  = bale_cb_pair "group" bale_kb_select_tg_group (bcq_chat_id cbq) o w.
Proof.
  intros Ha Ho Hdata. unfold bale_on_callback. cbv zeta.
  rewrite Ha, Hdata. cbn [from_option or_empty default id].
  by rewrite (cb_known_owner _ _ o) by done.
Qed.

Lemma bale_callback_pick_tg_group t picks cbq a o w rest :
  bcq_author cbq = Some a →
  select_user_id_by_bale (store w) (ba_id a) = Some o →
  bcq_data cbq = Some ("B_PG_TG:" +:+ rest) →
  bale_on_callback t picks cbq w
  = bale_cb_pick_tg "group" "PAIR_G_WAIT_BALE" bale_kb_select_bale_group
                    ("B_PG_TG:" +:+ rest) (bcq_chat_id cbq) o (ba_id a) w.
Proof.
  intros Ha Ho Hdata. unfold bale_on_callback. cbv zeta.
  rewrite Ha, Hdata. cbn [from_option or_empty default id].
  rewrite (cb_known_owner _ _ o) by done. unfold startswith. simpl. by destruct rest.
Qed.

Lemma bale_callback_pick_bale_group t picks cbq a o w rest :
  bcq_author cbq = Some a →
  select_user_id_by_bale (store w) (ba_id a) = Some o →
  bcq_data cbq = Some ("B_G_ITEM:" +:+ rest) →
  bale_on_callback t picks cbq w
  = bale_cb_pick_bale "group" "PAIR_G_WAIT_BALE"
      "Please select a Telegram group first." pair_groups t
      ("B_G_ITEM:" +:+ rest) (bcq_chat_id cbq) o (ba_id a) w.
Proof.
  intros Ha Ho Hdata. unfold bale_on_callback. cbv zeta.
  rewrite Ha, Hdata. cbn [from_option or_empty default id].
  rewrite (cb_known_owner _ _ o) by done. unfold startswith. simpl. by destruct rest.
Qed.

Lemma owns_chat_elem d c :
  c ∈ chats d →
  owns_chat d (chat_owner_user_id c) (chat_platform c) (chat_type c)
            (chat_id c) = true.
Proof.
  intros Hc. unfold owns_chat. apply existsb_exists. exists c.
  split; [by apply list_elem_of_In|].
  by rewrite !Z.eqb_refl, !String.eqb_refl.
Qed.

(** What the last step of the wizard does when the wizard holds a
    Telegram chat. *)
Lemma bale_cb_pick_bale_run type mode first pair t data chat o a st tg bale w :
  data_int data w = cb_ret bale w →
  BALE_WIZ w !! a = Some st → wiz_mode st = mode → wiz_tg_id st = Some tg →
  bale_cb_pick_bale type mode first pair t data chat o a w
  = if owns_chat (store w) o "tg" type tg
       && owns_chat (store w) o "bale" type bale
    then
      let '(d', r) := pair (tick_now t) o tg bale (store w) in
      match r with
      | Ok _ => mkShown (mkWorld d' (TG_WIZ w) (delete a (BALE_WIZ w)))
                  [SendScreen chat (PairedChats type tg bale)
                              bale_kb_back_menu;
                   Answer "Paired!" false] (inr ())
      | Raise e => mkShown (with_store d' w) [] (inl (Known e))
      end
    else mkShown (mkWorld (store w) (TG_WIZ w) (delete a (BALE_WIZ w)))
           [Answer ("Those " +:+ type +:+ "s are not linked to you.") true]
           (inr ()).
Proof.
  intros Hint Hwiz Hmode Htg. unfold bale_cb_pick_bale.
  unfold mbind at 1, cb_mbind at 1, cb_bind at 1. cbv zeta. rewrite Hint.
  cbn [cb_ret outcome world_after shown app].
  rewrite shown_eta, cb_bind_bale_wiz, Hwiz, Hmode, String.eqb_refl.
  cbn [negb]. rewrite Htg. cbn [from_option].
  rewrite cb_bind_ret, !cb_bind_query.
  destruct (owns_chat (store w) o "tg" type tg),
    (owns_chat (store w) o "bale" type bale); cbn [andb negb]; try done.
  unfold mbind, cb_mbind, cb_bind, cb_run. cbv zeta.
  by destruct (pair (tick_now t) o tg bale (store w)) as [d' [[]|e]].
Qed.

(** X23.  The group pairing wizard on Bale, end to end.  A Bale user
    whose owner has registered a Telegram group and a Bale group, not yet
    paired with each other, presses [Pair Groups]: the bot shows a
    keyboard with a button for the Telegram group; pressing that button
    shows a keyboard with a button for the Bale group; pressing that one
    appends the pairing of the two groups for the owner to [group_links],
    answers [Paired!] and ends the wizard.  The first two presses get no
    answer: their [cbq.answer()] has no text.  The callback data of the
    buttons are read back as the chat ids they were made from. *)
Theorem bale_pairing_wizard_end_to_end
    t1 t2 t3 p1 p2 p3 chat a o cg cb w :
  select_user_id_by_bale (store w) (ba_id a) = Some o →
  cg ∈ chats (store w) → chat_owner_user_id cg = o →
  chat_platform cg = "tg" → chat_type cg = "group" →
  cb ∈ chats (store w) → chat_owner_user_id cb = o →
  chat_platform cb = "bale" → chat_type cb = "group" →
  link_exists (group_links (store w)) (chat_id cg) (chat_id cb) = false →
  py_int (str_of_int (chat_id cg)) = Some (chat_id cg) →
  py_int (str_of_int (chat_id cb)) = Some (chat_id cb) →
  let press data := mkBaleCallback (Some data) chat (Some a) in
  let tg_button := mkButton ("[tg] " +:+ title_or_id cg)
                            ("B_PG_TG:" +:+ str_of_int (chat_id cg)) in
  let bale_button := mkButton ("[bale] " +:+ title_or_id cb)
                              ("B_G_ITEM:" +:+ str_of_int (chat_id cb)) in
  let o1 := bale_on_callback t1 p1 (press "B_PAIR_GROUPS") w in
  let o2 := bale_on_callback t2 p2 (press (btn_data tg_button))
                             (world_after o1) in
  let o3 := bale_on_callback t3 p3 (press (btn_data bale_button))
                             (world_after o2) in
  (∃ kb, shown o1 = [SendScreen chat (SelectTelegramChat "group") kb]
         ∧ [tg_button] ∈ kb)
  ∧ (∃ kb, shown o2 = [SendScreen chat (SelectBaleChat "group" (chat_id cg)) kb]
           ∧ [bale_button] ∈ kb)
  ∧ shown o3 = [SendScreen chat
                  (PairedChats "group" (chat_id cg) (chat_id cb))
                  bale_kb_back_menu;
                Answer "Paired!" false]
  ∧ outcome o3 = inr ()
  ∧ group_links (store (world_after o3))
    = group_links (store w)
      ++ [mkLink o (chat_id cg) (chat_id cb) 1 (tick_now t3)]
  ∧ BALE_WIZ (world_after o3) = delete (ba_id a) (BALE_WIZ w).
Proof.
  intros Ho Hcg Hog Hpg Htg Hcb Hob Hpb Htb Hfree Hig Hib. cbv zeta.
  set (rows := list_owner_chats (store w) o None (Some "group")).
  assert (cg ∈ rows ∧ cb ∈ rows) as [Hrg Hrb].
  { split; by apply elem_of_list_owner_chats_type. }
  (* the first press *)
  rewrite (bale_callback_pair_groups t1 p1 _ a o w) by done.
  cbn [bcq_chat_id btn_data].
  assert (bale_cb_pair "group" bale_kb_select_tg_group chat o w
          = mkShown w [SendScreen chat (SelectTelegramChat "group")
                         (bale_kb_select_tg_group rows)] (inr ())) as ->.
  { unfold bale_cb_pair. rewrite cb_bind_query. fold rows. cbv zeta.
    destruct (List.filter _ rows) as [|x tgs] eqn:Hf; [|done].
    assert (cg ∈ List.filter
              (λ c, String.eqb (chat_platform c) "tg"
                    && String.eqb (chat_type c) "group") rows) as Hin.
    { apply list_elem_of_In, filter_In. split; [by apply list_elem_of_In|].
      by rewrite Hpg, Htg. }
    rewrite Hf in Hin. by apply elem_of_nil in Hin. }
  cbn [world_after shown outcome].
  split.
  { eexists. split; [done|]. apply elem_of_bale_kb_select. right.
    exists cg. by rewrite Hpg, Htg. }
  (* the second press *)
  rewrite (bale_callback_pick_tg_group t2 p2 _ a o w
             (str_of_int (chat_id cg))) by done.
  cbn [bcq_chat_id].
  set (w2 := mkWorld (store w) (TG_WIZ w)
               (<[ba_id a := mkWizard "PAIR_G_WAIT_BALE" (Some (chat_id cg))]>
                  (BALE_WIZ w))).
  assert (bale_cb_pick_tg "group" "PAIR_G_WAIT_BALE" bale_kb_select_bale_group
            ("B_PG_TG:" +:+ str_of_int (chat_id cg)) chat o (ba_id a) w
          = mkShown w2 [SendScreen chat (SelectBaleChat "group" (chat_id cg))
                          (bale_kb_select_bale_group rows)] (inr ())) as ->.
  { unfold bale_cb_pick_tg.
    unfold mbind at 1, cb_mbind at 1, cb_bind at 1. cbv zeta.
    rewrite (data_int_of_button "B_PG_TG" (chat_id cg) w) by done.
    cbn [cb_ret outcome world_after shown app].
    by rewrite shown_eta, cb_bind_set_bale_wiz, cb_bind_query. }
  cbn [world_after shown outcome].
  split.
  { eexists. split; [done|]. apply elem_of_bale_kb_select. right.
    exists cb. by rewrite Hpb, Htb. }
  (* the third press *)
  rewrite (bale_callback_pick_bale_group t3 p3 _ a o w2
             (str_of_int (chat_id cb))) by done.
  cbn [bcq_chat_id].
  rewrite (bale_cb_pick_bale_run "group" "PAIR_G_WAIT_BALE" _ pair_groups t3
             _ chat o (ba_id a)
             (mkWizard "PAIR_G_WAIT_BALE" (Some (chat_id cg)))
             (chat_id cg) (chat_id cb) w2);
    [|by apply (data_int_of_button "B_G_ITEM")
     |apply lookup_insert_eq|done|done].
  cbn [store w2].
  pose proof (owns_chat_elem _ _ Hcg) as Hg.
  pose proof (owns_chat_elem _ _ Hcb) as Hb.
  rewrite Hog, Hpg, Htg in Hg. rewrite Hob, Hpb, Htb in Hb.
  rewrite Hg, Hb. cbn [andb].
  unfold pair_groups, transaction, insert_link.
  cbn [link_tg_id link_bale_id]. rewrite Hfree.
  cbn [mbind result_bind mret result_ret shown outcome world_after store
       group_links set_group_links BALE_WIZ TG_WIZ].
  split; [done|]. split; [done|]. split; [done|].
  apply delete_insert_eq.
Qed.

(** X24.  How the last step of the group pairing wizard fails.  A press
    on a Bale-group button by a user whose wizard does not wait for it is
    answered with an alert and changes nothing.  When the wizard holds a
    Telegram group and one of the two groups is not registered to the
    user's owner, the answer is the alert that the groups are not linked
    to the user: nothing is paired and the wizard is ended.  When both are
    registered to the owner but are paired already, the insert raises
    [IntegrityError]: nothing is shown and the wizard is not ended. *)
Theorem bale_pairing_wizard_failures t picks cbq a o bale w :
  bcq_author cbq = Some a →
  select_user_id_by_bale (store w) (ba_id a) = Some o →
  bcq_data cbq = Some ("B_G_ITEM:" +:+ str_of_int bale) →
  py_int (str_of_int bale) = Some bale →
  let out := bale_on_callback t picks cbq w in
  (wiz_mode <$> BALE_WIZ w !! ba_id a ≠ Some "PAIR_G_WAIT_BALE" →
   out = mkShown w [Answer "Please select a Telegram group first." true]
                 (inr ()))
  ∧ (∀ tg,
       BALE_WIZ w !! ba_id a = Some (mkWizard "PAIR_G_WAIT_BALE" (Some tg)) →
       (owns_chat (store w) o "tg" "group" tg
        && owns_chat (store w) o "bale" "group" bale = false →
        out = mkShown (mkWorld (store w) (TG_WIZ w)
                               (delete (ba_id a) (BALE_WIZ w)))
                [Answer "Those groups are not linked to you." true] (inr ()))
       ∧ (owns_chat (store w) o "tg" "group" tg
          && owns_chat (store w) o "bale" "group" bale = true →
          link_exists (group_links (store w)) tg bale = true →
          out = mkShown w [] (inl (Known IntegrityError)))).
Proof.
  intros Ha Ho Hdata Hint. cbv zeta.
  rewrite (bale_callback_pick_bale_group t picks _ a o w (str_of_int bale))
    by done.
  pose proof (data_int_of_button "B_G_ITEM" bale w eq_refl Hint) as Hdi.
  split.
  - intros Hmode. unfold bale_cb_pick_bale.
    unfold mbind at 1, cb_mbind at 1, cb_bind at 1. cbv zeta.
    change ("B_G_ITEM:" +:+ str_of_int bale)
      with ("B_G_ITEM" +:+ ":" +:+ str_of_int bale).
    rewrite Hdi. cbn [cb_ret outcome world_after shown app].
    rewrite shown_eta, cb_bind_bale_wiz.
    destruct (BALE_WIZ w !! ba_id a) as [st|]; [|done].
    destruct (String.eqb_spec (wiz_mode st) "PAIR_G_WAIT_BALE") as [Heq|];
      [|done].
    destruct Hmode. simpl. by rewrite Heq.
  - intros tg Hwiz.
    rewrite (bale_cb_pick_bale_run "group" "PAIR_G_WAIT_BALE" _ pair_groups t
               _ (bcq_chat_id cbq) o (ba_id a)
               (mkWizard "PAIR_G_WAIT_BALE" (Some tg)) tg bale w);
      [|done..].
    split.
    + by intros ->.
    + intros -> Hex. unfold pair_groups, transaction, insert_link.
      cbn [link_tg_id link_bale_id]. rewrite Hex.
      cbn [mbind result_bind]. by rewrite world_eta.
Qed.

End PairingWizard.

Lemma bale_pairing_wizard_end_to_end_witness :
  let d := exec_all [GetOrCreateUserByBale 0 20;
                     MergeUserAccounts 1 10 20;
                     RegisterChat 2 1 "tg" "group" (-100) "Friends";
                     RegisterChat 3 1 "bale" "group" 200 ""] init_db in
  let w := mkWorld d ∅ ∅ in
  let press data :=
    mkBaleCallback (Some data) (Some 20)
                   (Some (mkBaleAuthor 20 None (Some "Bob") None)) in
  let o1 := bale_on_callback (mkTick 5 []) [] (press "B_PAIR_GROUPS") w in
  let o2 := bale_on_callback (mkTick 6 []) [] (press "B_PG_TG:-100")
                             (world_after o1) in
  let o3 := bale_on_callback (mkTick 7 []) [] (press "B_G_ITEM:200")
                             (world_after o2) in
  shown o3 = [SendScreen (Some 20) (PairedChats "group" (-100) 200)
                         bale_kb_back_menu;
              Answer "Paired!" false]
  ∧ group_links (store (world_after o3)) = [mkLink 1 (-100) 200 1 7].
Proof.
  destruct (bale_pairing_wizard_end_to_end
              (mkTick 5 []) (mkTick 6 []) (mkTick 7 []) [] [] [] (Some 20)
              (mkBaleAuthor 20 None (Some "Bob") None) 1
              (mkChat 1 "tg" "group" (-100) "Friends" 2)
              (mkChat 1 "bale" "group" 200 "" 3)
              (mkWorld
                 (exec_all [GetOrCreateUserByBale 0 20;
                            MergeUserAccounts 1 10 20;
                            RegisterChat 2 1 "tg" "group" (-100) "Friends";
                            RegisterChat 3 1 "bale" "group" 200 ""] init_db)
                 ∅ ∅))
    as (_ & _ & Hshown & _ & Hlinks & _);
    [reflexivity
    |apply list_elem_of_In; vm_compute; tauto
    |reflexivity|reflexivity|reflexivity
    |apply list_elem_of_In; vm_compute; tauto
    |reflexivity..|].
  split; [exact Hshown|exact Hlinks].
Defined.

Lemma bale_pairing_wizard_failures_witness :
  let d := exec_all [GetOrCreateUserByBale 0 20;
                     GetOrCreateUserByTg 0 10;
                     RegisterChat 2 2 "tg" "group" (-100) "Friends";
                     RegisterChat 3 1 "bale" "group" 200 ""] init_db in
  let wz : gmap Z Wizard :=
    {[20 := mkWizard "PAIR_G_WAIT_BALE" (Some (-100))]} in
  let w := mkWorld d ∅ wz in
  let cbq := mkBaleCallback (Some "B_G_ITEM:200") (Some 20)
               (Some (mkBaleAuthor 20 None (Some "Bob") None)) in
  bale_on_callback (mkTick 7 []) [] cbq w
  = mkShown (mkWorld d ∅ (delete 20 wz))
      [Answer "Those groups are not linked to you." true] (inr ()).
Proof.
  destruct (bale_pairing_wizard_failures (mkTick 7 []) []
              (mkBaleCallback (Some "B_G_ITEM:200") (Some 20)
                 (Some (mkBaleAuthor 20 None (Some "Bob") None)))
              (mkBaleAuthor 20 None (Some "Bob") None) 1 200
              (mkWorld
                 (exec_all [GetOrCreateUserByBale 0 20;
                            GetOrCreateUserByTg 0 10;
                            RegisterChat 2 2 "tg" "group" (-100) "Friends";
                            RegisterChat 3 1 "bale" "group" 200 ""] init_db)
                 ∅ {[20 := mkWizard "PAIR_G_WAIT_BALE" (Some (-100))]}))
    as [_ Hfail]; [reflexivity..|].
  destruct (Hfail (-100) eq_refl) as [Hnot _].
  apply Hnot. reflexivity.
Defined.

(** * Callbacks on Telegram *)

Section TelegramCallbacks.
Context `{PyStr}.
Variables (bots : Bots) (config : Config).
Implicit Types (d : DB) (w : World).

Lemma startswith_split s p :
  startswith s p = true → ∃ rest, s = p +:+ rest.
Proof.
  unfold startswith. revert s. induction p as [|c p IH]; intros s; simpl.
  - intros _. by exists s.
  - destruct s as [|c' s]; simpl; [done|].
    destruct (Ascii.ascii_dec c c') as [<-|]; [|done].
    intros [rest ->]%IH. by exists rest.
Qed.

Lemma startswith_app p rest : startswith (p +:+ rest) p = true.
Proof.
  unfold startswith. induction p as [|c p IH]; simpl; [by destruct rest|].
  by destruct (Ascii.ascii_dec c c).
Qed.

(** X25.  Buttons without a handler on Telegram.  The main menu of the
    Telegram bot offers [My Channels], [Pair Groups] and [Pair Channels],
    and the list of [My Groups] offers one button per group, but no
    callback handler is registered for their callback data: pressing any
    of them shows nothing, answers nothing and changes nothing.  On
    Telegram no callback pairs two chats. *)
Theorem telegram_buttons_without_handler t picks u w data :
  data ∈ ["MY_CHANNELS"; "PAIR_GROUPS"; "PAIR_CHANNELS"; "noop"]
  ∨ startswith data "GROUP_ITEM:" = true →
  tg_on_callback t picks (mkTgCallback data u) w = mkShown w [] (inr ())
  ∧ ["MY_CHANNELS"; "PAIR_GROUPS"; "PAIR_CHANNELS"]
      ⊆ btn_data <$> kb_main_menu
  ∧ ∀ rows platform_filter b,
      b ∈ kb_groups_select rows platform_filter →
      btn_data b = "MENU" ∨ startswith (btn_data b) "GROUP_ITEM:" = true.
Proof.
  intros Hdata. split; [|split].
  - destruct Hdata as [Hin|Hpre].
    + repeat (apply elem_of_cons in Hin as [->|Hin]; [done|]).
      by apply elem_of_nil in Hin.
    + apply startswith_split in Hpre as [rest ->].
      unfold tg_on_callback. cbv zeta. cbn [cq_data]. unfold startswith.
      simpl. done.
  - intros x Hx. apply list_elem_of_In. apply list_elem_of_In in Hx.
    vm_compute in *. tauto.
  - intros rows f b. unfold kb_groups_select.
    rewrite elem_of_app, list_elem_of_singleton, list_elem_of_fmap.
    intros [(c & -> & _) | ->]; [right|by left].
    apply (startswith_app "GROUP_ITEM:").
Qed.

Lemma cb_known_tg_owner {B} now uid o w (k : Z → Cb B) :
  select_user_id_by_tg (store w) uid = Some o →
  (cb_run (get_or_create_user_by_tg recursion_limit now uid) ≫= k) w = k o w.
Proof.
  intros Ho.
  rewrite (cb_bind_run _ _ w (store w) o);
    [by destruct w|by apply get_or_create_user_by_tg_found].
Qed.

Lemma tg_callback_pick t picks u :
  tg_on_callback t picks (mkTgCallback "SET_DM_TG2BALE_PICK" u)
  = cb_set_dm_tg2bale_pick t (mkTgCallback "SET_DM_TG2BALE_PICK" u).
Proof. done. Qed.

Lemma tg_callback_select t picks u rest :
  tg_on_callback t picks (mkTgCallback ("SET_DM_TG2BALE_SELECT:" +:+ rest) u)
  = cb_set_dm_tg2bale_select
      t (mkTgCallback ("SET_DM_TG2BALE_SELECT:" +:+ rest) u).
Proof.
  unfold tg_on_callback. cbv zeta. cbn [cq_data]. unfold startswith. simpl.
  by destruct rest.
Qed.

Lemma tg_callback_bale2tg t picks u rest :
  tg_on_callback t picks (mkTgCallback ("SET_DM_BALE2TG:" +:+ rest) u)
  = cb_set_dm_bale2tg t (mkTgCallback ("SET_DM_BALE2TG:" +:+ rest) u).
Proof.
  unfold tg_on_callback. cbv zeta. cbn [cq_data]. unfold startswith. simpl.
  by destruct rest.
Qed.

(** X26.  Choosing the Telegram-to-Bale target from the keyboard, end to
    end.  A Telegram user whose owner has registered a Bale chat presses
    the button that lists the Bale chats: the keyboard holds a button for
    that chat.  Pressing it mints a DM code for the chat and shows it.  A
    [/verify_dm] message with the code in that Bale chat within ten
    minutes is answered with [DmTargetSet], and from then on a private
    text message of the Telegram user is sent to that chat. *)
Theorem tg_dm_target_by_button_end_to_end
    t1 t2 t3 t4 p1 p2 u o c w m text cmd arg m2 s :
  users_wf (store w) →
  select_user_id_by_tg (store w) (tgu_id u) = Some o →
  c ∈ chats (store w) → chat_owner_user_id c = o →
  chat_platform c = "bale" → chat_id c ≠ 0 →
  py_int (str_of_int (chat_id c)) = Some (chat_id c) →
  dm_code_exists (store w) (dm_code_of (tick_uuid_hex t2)) = false →
  bale_chat_id m = chat_id c →
  from_option ba_id 0 (bale_author m) ≠ bale_self_id bots →
  text_or (bale_text m) (bale_caption m) = Some text →
  startswith text "/verify_dm" = true →
  py_split1 text = [cmd; arg] → py_strip arg = dm_code_of (tick_uuid_hex t2) →
  tick_now t3 ≤ tick_now t2 + ten_minutes →
  tg_chat_type m2 = "private" → tg_from_user m2 = Some u →
  TG_WIZ w !! tgu_id u = None →
  tg_text m2 = Some s → s ≠ "" → startswith s "/" = false →
  let button := mkButton ("[" +:+ chat_type c +:+ "] " +:+ title_or_id c)
                         ("SET_DM_TG2BALE_SELECT:" +:+ str_of_int (chat_id c))
  in
  let o1 := tg_on_callback t1 p1 (mkTgCallback "SET_DM_TG2BALE_PICK" u) w in
  let o2 := tg_on_callback t2 p2 (mkTgCallback (btn_data button) u)
                           (world_after o1) in
  let out3 := on_event bots config t3 (BaleMessageEvent m) (world_after o2) in
  let out4 := on_event bots config t4 (TgMessageEvent m2) (after out3) in
  (∃ kb, shown o1 = [EditText SelectTg2BaleTarget kb; Answer "" false]
         ∧ button ∈ kb)
  ∧ shown o2 = [EditText (ConfirmInBaleChat (chat_id c)
                            (dm_code_of (tick_uuid_hex t2)))
                         kb_back_to_menu;
                Answer "Verification code generated" false]
  ∧ sent out3 = [ViaBale (chat_id c) (Note (DmTargetSet (chat_id c)))]
  ∧ sent out4
    = [ViaBale (chat_id c)
         (Text (("[From Telegram DM] " +:+ tg_name u +:+ ": ") +:+ s))].
Proof.
  intros Hwf Ho Hc Hoc Hpc Hnz Hint Hfresh Hchat Hself Htext Hdm Hparts Hcode
         Hnow Hty Hu Hwiz Hs Hne Hcmd.
  cbv zeta. cbn [btn_data].
  (* the list of Bale chats *)
  set (rows := list_owner_chats (store w) o (Some "bale") None).
  assert (c ∈ rows) as Hrow.
  { unfold rows, list_owner_chats. apply list_elem_of_In, filter_In.
    split; [by apply list_elem_of_In|].
    by rewrite Hoc, Hpc, Z.eqb_refl. }
  assert (∃ kb, tg_on_callback t1 p1 (mkTgCallback "SET_DM_TG2BALE_PICK" u) w
                = mkShown w [EditText SelectTg2BaleTarget kb; Answer "" false]
                          (inr ())
                ∧ mkButton ("[" +:+ chat_type c +:+ "] " +:+ title_or_id c)
                           ("SET_DM_TG2BALE_SELECT:"
                            +:+ str_of_int (chat_id c)) ∈ kb)
    as (kb & -> & Hkb).
  { rewrite tg_callback_pick.
    unfold cb_set_dm_tg2bale_pick. cbv zeta. cbn [cq_from_user].
    rewrite (cb_known_tg_owner _ _ o) by done.
    rewrite cb_bind_query. fold rows. eexists. split; [done|].
    apply elem_of_cons. right. apply elem_of_app. left.
    destruct rows as [|x rows']; [by apply elem_of_nil in Hrow|].
    apply elem_of_cons. right.
    apply (list_elem_of_fmap_2
             (λ c, mkButton ("[" +:+ chat_type c +:+ "] " +:+ title_or_id c)
                            ("SET_DM_TG2BALE_SELECT:"
                             +:+ str_of_int (chat_id c)))). done. }
  cbn [world_after shown]. split; [by exists kb|].
  (* the code *)
  pose proof (create_dm_verify_code_fresh (tick_uuid_hex t2) (tick_now t2) o
                (chat_id c) (store w) Hfresh) as Hmint.
  set (d1 := set_dm_verify_tokens _ (store w)) in Hmint.
  assert (tg_on_callback t2 p2
            (mkTgCallback ("SET_DM_TG2BALE_SELECT:" +:+ str_of_int (chat_id c))
                          u) w
          = mkShown (with_store d1 w)
              [EditText (ConfirmInBaleChat (chat_id c)
                           (dm_code_of (tick_uuid_hex t2))) kb_back_to_menu;
               Answer "Verification code generated" false] (inr ())) as ->.
  { rewrite tg_callback_select.
    unfold cb_set_dm_tg2bale_select. cbv zeta. cbn [cq_data cq_from_user].
    unfold mbind at 1, cb_mbind at 1, cb_bind at 1. cbv zeta.
    rewrite (data_int_of_button "SET_DM_TG2BALE_SELECT" (chat_id c) w)
      by done.
    cbn [cb_ret outcome world_after shown app]. rewrite shown_eta.
    rewrite (cb_known_tg_owner _ _ o) by done.
    by rewrite (cb_bind_run _ _ w d1 (dm_code_of (tick_uuid_hex t2))). }
  cbn [world_after shown]. split; [done|].
  (* the code is redeemed on Bale, and the message goes through *)
  cbn [on_event].
  destruct (verify_dm_sets_target bots config (tick_uuid_hex t2) (tick_now t2)
              o (chat_id c) (store w) d1 _ t3 m text cmd arg
              (TG_WIZ w) (BALE_WIZ w) (tgu_id u)
              Hwf Ho Hmint Hchat Hself Htext Hdm Hparts Hcode Hnow)
    as (Hout & Hwf2 & _ & Htarget).
  unfold with_store. rewrite Hout. cbn [after sent]. split; [done|].
  rewrite (tg_dm_outcome bots t4 m2 u s) by done.
  cbn [sent store]. rewrite Htarget.
  apply Z.eqb_neq in Hnz as ->. done.
Qed.

Lemma cb_bind_commit {B} (f : DB → DB) (k : unit → Cb B) w :
  (cb_commit f ≫= k) w = k () (with_store (f (store w)) w).
Proof. unfold mbind, cb_mbind, cb_bind; simpl. apply shown_eta. Qed.

(** X27.  The Bale-to-Telegram target is set from the keyboard without a
    code.  The DM settings of a known Telegram user show a button whose
    callback data carries the user's own Telegram id; pressing it
    makes that id the Telegram target of the user's owner and answers
    [Saved!].  From then on (with the operator mirror off) a private text
    message of the owner's Bale account is sent to that Telegram chat. *)
Theorem tg_dm_settings_button_sets_own_id
    t1 t2 t3 p1 p2 u o a w m s :
  users_wf (store w) →
  select_user_id_by_tg (store w) (tgu_id u) = Some o →
  select_user_id_by_bale (store w) (ba_id a) = Some o →
  tgu_id u ≠ 0 →
  py_int (str_of_int (tgu_id u)) = Some (tgu_id u) →
  bale_chat_type m = "private" → bale_author m = Some a →
  ba_id a ≠ bale_self_id bots →
  wiz_mode <$> BALE_WIZ w !! ba_id a ≠ Some "SET_DM_BALE2TG" →
  text_or (bale_text m) (bale_caption m) = Some s → s ≠ "" →
  startswith s "/verify_dm" = false →
  py_lower (py_strip s) ≠ "/myid" → py_lower (py_strip s) ≠ "/start" →
  py_lower (py_strip s) ≠ "/help" →
  MIRROR_DMS_TO_OWNER config = false →
  let data := "SET_DM_BALE2TG:" +:+ str_of_int (tgu_id u) in
  let o1 := tg_on_callback t1 p1 (mkTgCallback "DM_SETTINGS" u) w in
  let o2 := tg_on_callback t2 p2 (mkTgCallback data u) (world_after o1) in
  let out3 := on_event bots config t3 (BaleMessageEvent m) (world_after o2) in
  (∃ b1 b2 b3, shown o1 = [EditText DmSettingsTitle [b1; b2; b3];
                           Answer "" false]
               ∧ btn_data b2 = data)
  ∧ shown o2 = [EditText Bale2TgUpdated kb_back_to_menu; Answer "Saved!" false]
  ∧ store (world_after o2)
    = update_dm_target_telegram (Some (tgu_id u)) o (store w)
  ∧ sent out3
    = [ViaTelegram (tgu_id u)
         (Text (("[From Bale DM] " +:+ bale_name a +:+ ": ") +:+ s))].
Proof.
  intros Hwf Ho Hob Hnz Hint Hty Ha Hself Hwiz Hs Hne Hdm Hmyid Hstart Hhelp
         Hmirror.
  cbv zeta.
  destruct (tg_owner_row_id _ _ _ Ho) as (row & Hrow & Hid).
  assert (row ∈ users (store w) ∧ tg_user_id row = Some (tgu_id u))
    as [Hin Htg].
  { apply find_Some_elem in Hrow as [? Heq]. split; [done|].
    by apply sql_eq_true. }
  (* the settings *)
  assert (tg_on_callback t1 p1 (mkTgCallback "DM_SETTINGS" u) w
          = mkShown w
              [EditText DmSettingsTitle
                 [ mkButton ("Set TG→Bale Target "
                             +:+ current_target (dm_target_bale_chat_id row))
                            "SET_DM_TG2BALE_PICK";
                   mkButton ("Set Bale→TG Target "
                             +:+ current_target
                                   (dm_target_telegram_chat_id row))
                            ("SET_DM_BALE2TG:" +:+ str_of_int (tgu_id u));
                   mkButton "⬅️ Back to Menu" "MENU" ];
               Answer "" false] (inr ())) as ->.
  { change (tg_on_callback t1 p1 (mkTgCallback "DM_SETTINGS" u) w)
      with (cb_dm_settings t1 (mkTgCallback "DM_SETTINGS" u) w).
    unfold cb_dm_settings. cbv zeta. cbn [cq_from_user].
    rewrite (cb_known_tg_owner _ _ o) by done. rewrite cb_bind_query.
    destruct Hwf as (Hnd & Hwf'). rewrite <-Hid.
    rewrite (get_user_row_by_id_elem _ _ Hnd Hin). by rewrite Htg. }
  cbn [shown world_after].
  split; [by eexists _, _, _|].
  (* the press *)
  assert (tg_on_callback t2 p2
            (mkTgCallback ("SET_DM_BALE2TG:" +:+ str_of_int (tgu_id u)) u) w
          = mkShown
              (with_store
                 (update_dm_target_telegram (Some (tgu_id u)) o (store w)) w)
              [EditText Bale2TgUpdated kb_back_to_menu; Answer "Saved!" false]
              (inr ())) as ->.
  { rewrite tg_callback_bale2tg.
    unfold cb_set_dm_bale2tg. cbv zeta. cbn [cq_data cq_from_user].
    unfold mbind at 1, cb_mbind at 1, cb_bind at 1. cbv zeta.
    rewrite (data_int_of_button "SET_DM_BALE2TG" (tgu_id u) w) by done.
    cbn [cb_ret outcome world_after shown app]. rewrite shown_eta.
    rewrite (cb_known_tg_owner _ _ o) by done. by rewrite cb_bind_commit. }
  cbn [shown world_after with_store store].
  split; [done|]. split; [done|].
  (* the direct message *)
  set (d2 := update_dm_target_telegram (Some (tgu_id u)) o (store w)).
  assert (users_wf d2) as Hwf2.
  { by apply (exec_users_wf (SetDmTargetTelegram (Some (tgu_id u)) o)). }
  destruct (bale_owner_row_id _ _ _ Hob) as (rb & Hrb & Hidb).
  assert (bale_owner_row d2 (ba_id a) ≫= dm_target_telegram_chat_id
          = Some (tgu_id u)) as Htarget.
  { unfold d2. rewrite bale_owner_row_update_dm_tg, Hrb. simpl.
    by rewrite Hidb, Z.eqb_refl. }
  cbn [on_event].
  rewrite (bale_dm_outcome bots config t3 m a s) by done.
  cbn [sent store with_store]. rewrite Htarget, Hmirror.
  apply Z.eqb_neq in Hnz as ->. done.
Qed.

End TelegramCallbacks.

Lemma telegram_buttons_without_handler_witness :
  tg_on_callback (mkTick 5 []) []
    (mkTgCallback "PAIR_GROUPS" (mkTgUser 10 None None None)) fresh_world
  = mkShown fresh_world [] (inr ()).
Proof.
  apply (telegram_buttons_without_handler (mkTick 5 []) []
           (mkTgUser 10 None None None) fresh_world "PAIR_GROUPS").
  left. apply list_elem_of_In. vm_compute. tauto.
Defined.

Lemma tg_dm_target_by_button_end_to_end_witness :
  let bots := mkBots 999 888 in
  let config := mkConfig false None in
  let d := exec_all [GetOrCreateUserByTg 0 10;
                     RegisterChat 1 1 "bale" "group" 200 "Club"] init_db in
  let w := mkWorld d ∅ ∅ in
  let u := mkTgUser 10 (Some "ann") None None in
  let t2 := mkTick 6 (String.list_ascii_of_string
                        "0a1b2c3d4e5f40008000000000000000") in
  let o1 := tg_on_callback (mkTick 5 []) []
              (mkTgCallback "SET_DM_TG2BALE_PICK" u) w in
  let o2 := tg_on_callback t2 []
              (mkTgCallback "SET_DM_TG2BALE_SELECT:200" u) (world_after o1) in
  let m := mkBaleMessage 200 "group" (Some "Club")
             (Some (mkBaleAuthor 20 None (Some "Bob") None))
             (Some "/verify_dm DM-0A1B2C3D") None None None None in
  let out3 := on_event bots config (mkTick 7 []) (BaleMessageEvent m)
                (world_after o2) in
  let m2 := mkTgMessage 10 "private" None (Some u) (Some "hello") None [] in
  shown o2 = [EditText (ConfirmInBaleChat 200 "DM-0A1B2C3D") kb_back_to_menu;
              Answer "Verification code generated" false]
  ∧ sent (on_event bots config (mkTick 8 []) (TgMessageEvent m2) (after out3))
    = [ViaBale 200 (Text "[From Telegram DM] @ann: hello")].
Proof.
  assert (users_wf
            (exec_all [GetOrCreateUserByTg 0 10;
                       RegisterChat 1 1 "bale" "group" 200 "Club"] init_db))
    as Hwf.
  { apply exec_all_users_wf, init_db_users_wf. }
  destruct (tg_dm_target_by_button_end_to_end (mkBots 999 888)
              (mkConfig false None)
              (mkTick 5 [])
              (mkTick 6 (String.list_ascii_of_string
                           "0a1b2c3d4e5f40008000000000000000"))
              (mkTick 7 []) (mkTick 8 []) [] []
              (mkTgUser 10 (Some "ann") None None) 1
              (mkChat 1 "bale" "group" 200 "Club" 1)
              (mkWorld
                 (exec_all [GetOrCreateUserByTg 0 10;
                            RegisterChat 1 1 "bale" "group" 200 "Club"]
                           init_db) ∅ ∅)
              (mkBaleMessage 200 "group" (Some "Club")
                 (Some (mkBaleAuthor 20 None (Some "Bob") None))
                 (Some "/verify_dm DM-0A1B2C3D") None None None None)
              "/verify_dm DM-0A1B2C3D" "/verify_dm" "DM-0A1B2C3D"
              (mkTgMessage 10 "private" None
                 (Some (mkTgUser 10 (Some "ann") None None))
                 (Some "hello") None [])
              "hello")
    as (_ & Hshown & _ & Hsent);
    [exact Hwf|reflexivity
    |apply list_elem_of_In; vm_compute; tauto
    |reflexivity || done ..|].
  split; [exact Hshown|exact Hsent].
Defined.

Lemma tg_dm_settings_button_sets_own_id_witness :
  let bots := mkBots 999 888 in
  let config := mkConfig false None in
  let d := exec_all [GetOrCreateUserByBale 0 20; MergeUserAccounts 1 10 20]
                    init_db in
  let w := mkWorld d ∅ ∅ in
  let u := mkTgUser 10 (Some "ann") None None in
  let a := mkBaleAuthor 20 None (Some "Bob") None in
  let o1 := tg_on_callback (mkTick 5 []) [] (mkTgCallback "DM_SETTINGS" u) w in
  let o2 := tg_on_callback (mkTick 6 []) []
              (mkTgCallback "SET_DM_BALE2TG:10" u) (world_after o1) in
  let m := mkBaleMessage 20 "private" None (Some a) (Some "salam")
             None None None None in
  btn_data <$> (match shown o1 with
                | EditText _ kb :: _ => kb
                | _ => []
                end)
  = ["SET_DM_TG2BALE_PICK"; "SET_DM_BALE2TG:10"; "MENU"]
  ∧ sent (on_event bots config (mkTick 7 []) (BaleMessageEvent m)
            (world_after o2))
    = [ViaTelegram 10 (Text "[From Bale DM] Bob: salam")].
Proof.
  split; [reflexivity|].
  assert (users_wf
            (exec_all [GetOrCreateUserByBale 0 20; MergeUserAccounts 1 10 20]
                      init_db)) as Hwf.
  { apply exec_all_users_wf, init_db_users_wf. }
  destruct (tg_dm_settings_button_sets_own_id (mkBots 999 888)
              (mkConfig false None) (mkTick 5 []) (mkTick 6 []) (mkTick 7 [])
              [] [] (mkTgUser 10 (Some "ann") None None) 1
              (mkBaleAuthor 20 None (Some "Bob") None)
              (mkWorld
                 (exec_all [GetOrCreateUserByBale 0 20;
                            MergeUserAccounts 1 10 20] init_db) ∅ ∅)
              (mkBaleMessage 20 "private" None
                 (Some (mkBaleAuthor 20 None (Some "Bob") None))
                 (Some "salam") None None None None)
              "salam")
    as (_ & _ & _ & Hsent); [exact Hwf|reflexivity || done ..|].
  exact Hsent.
Defined.

(** * The exceptions a callback can raise *)

Section Fine.
Context `{PyStr}.
Variables (bots : Bots) (config : Config).

Lemma cb_fine_ret {A} (a : A) : cb_fine (cb_ret a).
Proof. by intros w Hw. Qed.

Lemma cb_fine_mret {A} (a : A) : cb_fine (mret a : Cb A).
Proof. by intros w Hw. Qed.

Lemma cb_fine_known {A} e : cb_fine (cb_raise (Known e) : Cb A).
Proof. by intros w Hw. Qed.

Lemma cb_fine_show u : cb_fine (cb_show u).
Proof. by intros w Hw. Qed.

Lemma cb_fine_query {A} (f : DB → A) : cb_fine (cb_query f).
Proof. by intros w Hw. Qed.

Lemma cb_fine_commit f : cb_fine (cb_commit f).
Proof. by intros w Hw. Qed.

Lemma cb_fine_bale_wiz : cb_fine cb_bale_wiz.
Proof. by intros w Hw. Qed.

Lemma cb_fine_set_tg_wiz f : cb_fine (cb_set_tg_wiz f).
Proof. by intros w Hw. Qed.

Lemma cb_fine_set_bale_wiz f : cb_fine (cb_set_bale_wiz f).
Proof. by intros w Hw. Qed.

Lemma cb_fine_run {A} (op : Op A) : cb_fine (cb_run op).
Proof.
  intros w Hw. unfold cb_run. by destruct (op (store w)) as [d [a|e]].
Qed.

Lemma cb_fine_data_int data : cb_fine (data_int data).
Proof.
  unfold data_int.
  destruct (split_on ":" data) as [|x [|p ps]];
    [by intros w Hw|by intros w Hw|].
  destruct (py_int p); by intros w Hw.
Qed.

Lemma cb_fine_bind {A B} (m : Cb A) (k : A → Cb B) :
  cb_keeps sound m → cb_fine m → (∀ a, cb_fine (k a)) → cb_fine (m ≫= k).
Proof.
  intros Hk Hm Hf w Hw. unfold mbind, cb_mbind, cb_bind. cbv zeta.
  specialize (Hk w Hw). specialize (Hm w Hw).
  destruct (outcome (m w)) as [e|a]; [|by apply Hf].
  destruct Hm as [Hk' Ht]. cbn [outcome].
  split; intros [= ->]; [by apply Hk'|by apply Ht].
Qed.

End Fine.

Ltac cb_keeps_sound :=
  repeat first
    [ apply cb_keeps_mret | apply cb_keeps_ret | apply cb_keeps_show
    | apply cb_keeps_raise | apply cb_keeps_query | apply cb_keeps_bale_wiz
    | apply data_int_sound
    | apply cb_keeps_sound_update_bale | apply cb_keeps_sound_update_tg
    | apply cb_keeps_sound_set_tg_wiz | apply cb_keeps_sound_bale_wiz_delete
    | apply cb_keeps_sound_bale_wiz_pair | apply cb_keeps_sound_bale_wiz_dm
    | apply cb_keeps_run_get_tg | apply cb_keeps_run_get_bale
    | apply cb_keeps_run_create | apply cb_keeps_run_create_dm
    | apply cb_keeps_bind; [|intros ?]
    | match goal with
      | |- cb_keeps _ (if ?c then _ else _) => destruct c
      | |- cb_keeps _ (from_option _ _ ?x) => destruct x; cbn [from_option]
      | |- cb_keeps _ (match ?x with _ => _ end) => destruct x
      end ].

Ltac cb_fine_auto :=
  repeat first
    [ apply cb_fine_mret | apply cb_fine_ret | apply cb_fine_show
    | apply cb_fine_known | apply cb_fine_query | apply cb_fine_commit
    | apply cb_fine_bale_wiz | apply cb_fine_set_tg_wiz
    | apply cb_fine_set_bale_wiz | apply cb_fine_run | apply cb_fine_data_int
    | apply cb_fine_bind; [by cb_keeps_sound| |intros ?]
    | match goal with
      | |- cb_fine (if ?c then _ else _) => destruct c
      | |- cb_fine (match ?x with _ => _ end) => destruct x
      end ].

Section CallbacksFine.
Context `{PyStr}.
Variables (bots : Bots) (config : Config).

Lemma data_int_cases data w :
  (∃ e, data_int data w = mkShown w [] (inl (Known e)))
  ∨ ∃ n, data_int data w = cb_ret n w.
Proof.
  unfold data_int.
  destruct (split_on ":" data) as [|x [|p ps]]; [left; by eexists..|].
  destruct (py_int p); [right|left]; by eexists.
Qed.

(** The row of the owner is there when the settings are asked for. *)
Lemma cb_dm_settings_fine t cq : cb_fine (cb_dm_settings t cq).
Proof.
  intros w Hw. pose proof Hw as ((Hwf & _) & _).
  unfold cb_dm_settings. cbv zeta. unfold recursion_limit.
  destruct (owner_row_by_tg 899 (tick_now t) (tgu_id (cq_from_user cq))
              (store w) Hwf) as (d' & o & r & Hget & Hrow & _).
  rewrite (cb_bind_run _ _ w d' o Hget), cb_bind_query.
  cbn [store with_store]. by rewrite Hrow.
Qed.

Lemma tg_on_callback_fine t picks cq : cb_fine (tg_on_callback t picks cq).
Proof.
  unfold tg_on_callback. cbv zeta.
  repeat match goal with
         | |- cb_fine (if ?c then _ else _) => destruct c
         end;
    try apply cb_dm_settings_fine;
    unfold cb_menu, cb_link_tg_group, cb_link_tg_channel, cb_link_tg,
      cb_my_groups, cb_set_dm_bale2tg, cb_set_dm_tg2bale_pick,
      cb_set_dm_tg2bale_manual, cb_set_dm_tg2bale_select;
    cbv zeta; by cb_fine_auto.
Qed.

Lemma cb_bind_value {A B} (m : Cb A) (k : A → Cb B) w a :
  m w = cb_ret a w → (m ≫= k) w = k a w.
Proof.
  intros Hm. unfold mbind, cb_mbind, cb_bind. rewrite Hm.
  cbn [cb_ret outcome world_after shown app]. apply shown_eta.
Qed.

Lemma cb_bind_error {A B} (m : Cb A) (k : A → Cb B) w w' l e :
  m w = mkShown w' l (inl e) → outcome ((m ≫= k) w) = inl e.
Proof. intros Hm. unfold mbind, cb_mbind, cb_bind. by rewrite Hm. Qed.

(** The wizard that waits for the Bale side holds the Telegram side. *)
Lemma bale_cb_pick_bale_fine type mode first pair t data chat o a :
  mode = "PAIR_G_WAIT_BALE" ∨ mode = "PAIR_C_WAIT_BALE" →
  cb_fine (bale_cb_pick_bale type mode first pair t data chat o a).
Proof.
  intros Hmode w Hw. pose proof Hw as (_ & _ & _ & Hwz).
  unfold bale_cb_pick_bale.
  destruct (data_int_cases data w) as [[e He]|[n Hn]].
  { rewrite (cb_bind_error _ _ _ _ _ _ He). by split. }
  rewrite (cb_bind_value _ _ _ _ Hn), cb_bind_bale_wiz.
  destruct (BALE_WIZ w !! a) as [st|] eqn:Hst; [|by split].
  destruct (String.eqb_spec (wiz_mode st) mode) as [Heq|]; [|by split].
  cbn [negb].
  destruct (Hwz a st Hst) as [tg Htg]; [by rewrite Heq|].
  rewrite Htg. cbn [from_option].
  rewrite cb_bind_ret, !cb_bind_query.
  unfold mbind, cb_mbind, cb_bind, cb_run, cb_show, cb_set_bale_wiz.
  destruct (negb _); cbn [outcome world_after shown]; [by split|].
  destruct (pair (tick_now t) o tg n (store w)) as [d' [[]|e]];
    cbn [outcome world_after shown]; by split.
Qed.

Lemma bale_on_callback_fine t picks cbq :
  cb_fine (bale_on_callback t picks cbq).
Proof.
  unfold bale_on_callback. cbv zeta.
  apply cb_fine_bind; [apply cb_keeps_run_get_bale|apply cb_fine_run|].
  intros o.
  repeat match goal with
         | |- cb_fine (if ?c then _ else _) => destruct c
         end;
    try (apply bale_cb_pick_bale_fine; by auto);
    unfold bale_cb_link, bale_cb_my, bale_cb_pair, bale_cb_pick_tg;
    by cb_fine_auto.
Qed.

(** X28.  The callbacks never miss a key or a row.  In every world the
    bridge can reach, whatever callback query arrives on either platform,
    the wizard entry the pairing step reads holds the Telegram chat chosen
    before, and the row of the owner is there when the DM settings are
    shown: no callback handler raises [KeyError] or [TypeError]. *)
Theorem callbacks_raise_no_key_or_type_error
    (inputs : list Input) t picks cq cbq :
  let w := handle_all bots config inputs fresh_world in
  fine (outcome (tg_on_callback t picks cq w))
  ∧ fine (outcome (bale_on_callback t picks cbq w)).
Proof.
  cbv zeta.
  pose proof (handle_all_sound bots config inputs fresh_world
                fresh_world_sound) as Hw.
  split; [by apply tg_on_callback_fine|by apply bale_on_callback_fine].
Qed.

End CallbacksFine.

(** * The bot's own messages *)

Section Unbound.
Implicit Types (d : DB) (r u : User) (o a b bot : Z).

Lemma not_the_bot_frame bot d d' o :
  users d' = users d → not_the_bot bot d o → not_the_bot bot d' o.
Proof. unfold not_the_bot. by intros ->. Qed.

Lemma unbound_frame bot d d' :
  users d' = users d →
  dm_owner_user_id <$> dm_verify_tokens d'
  = dm_owner_user_id <$> dm_verify_tokens d →
  unbound bot d → unbound bot d'.
Proof.
  intros Hu Ht [Hrows Htok]. split; rewrite ?Hu, ?Ht; [done|].
  eapply Forall_impl; [exact Htok|]. intros o. by apply not_the_bot_frame.
Qed.

Lemma not_the_bot_append bot d r o :
  not_the_bot bot d o → not_the_bot bot (append_user r d) o.
Proof.
  intros (u & Hin & Hid & Htg). exists u. split; [|done].
  cbn [append_user users]. apply elem_of_app. by left.
Qed.

(** A new row that is not bound to Bale. *)
Lemma unbound_append bot d r :
  (tg_user_id r = Some bot →
   bale_user_id r = None ∧ dm_target_bale_chat_id r = None) →
  unbound bot d → unbound bot (append_user r d).
Proof.
  intros Hr [Hrows Htok]. split.
  - cbn [append_user users]. apply Forall_app. split; [done|].
    by apply Forall_singleton.
  - cbn [append_user dm_verify_tokens].
    eapply Forall_impl; [exact Htok|]. intros o. apply not_the_bot_append.
Qed.

Lemma not_the_bot_update bot d a (f : User → User) o :
  (∀ r, user_id (f r) = user_id r) →
  (∀ r, tg_user_id r ≠ Some bot → tg_user_id (f r) ≠ Some bot) →
  not_the_bot bot d o → not_the_bot bot (update_where_id a f d) o.
Proof.
  intros Hid Htg (u & Hin & Ho & Hu).
  exists (if user_id u =? a then f u else u).
  split; [by apply elem_of_update_where_id_2|].
  destruct (user_id u =? a); [|done]. split; [by rewrite Hid|by apply Htg].
Qed.

(** An UPDATE of the row of an owner that is not the bot's. *)
Lemma unbound_update bot d a (f : User → User) :
  users_wf d →
  (∀ r, user_id (f r) = user_id r) →
  (∀ r, tg_user_id r ≠ Some bot → tg_user_id (f r) ≠ Some bot) →
  not_the_bot bot d a → unbound bot d →
  unbound bot (update_where_id a f d).
Proof.
  intros (Hnd & _) Hid Htg (u & Hin & Hua & Hu) [Hrows Htok]. split.
  - apply Forall_forall. intros v (r & Hr & ->)%elem_of_update_where_id.
    destruct (Z.eqb_spec (user_id r) a) as [Hra|_].
    + assert (r = u) as -> by (apply (unique_id (users d)); congruence).
      intros Hbot. by destruct (Htg u Hu).
    + rewrite Forall_forall in Hrows. by apply Hrows.
  - assert (dm_verify_tokens (update_where_id a f d) = dm_verify_tokens d)
      as -> by done.
    eapply Forall_impl; [exact Htok|]. intros o.
    by apply not_the_bot_update.
Qed.

(** An UPDATE of a column other than the two identities and the Bale
    target, of any row. *)
Lemma unbound_update_other bot d a (f : User → User) :
  (∀ r, user_id (f r) = user_id r ∧ tg_user_id (f r) = tg_user_id r
        ∧ bale_user_id (f r) = bale_user_id r
        ∧ dm_target_bale_chat_id (f r) = dm_target_bale_chat_id r) →
  unbound bot d → unbound bot (update_where_id a f d).
Proof.
  intros Hf [Hrows Htok]. split.
  - apply Forall_forall. intros v (r & Hr & ->)%elem_of_update_where_id.
    rewrite Forall_forall in Hrows. specialize (Hrows r Hr).
    destruct (user_id r =? a); [|done].
    destruct (Hf r) as (_ & -> & -> & ->). done.
  - assert (dm_verify_tokens (update_where_id a f d) = dm_verify_tokens d)
      as -> by done.
    eapply Forall_impl; [exact Htok|]. intros o.
    apply not_the_bot_update; intros r; destruct (Hf r) as (? & Ht & _);
      [done|by rewrite Ht].
Qed.

(** A DM code minted for an owner that is not the bot's. *)
Lemma unbound_create_dm bot h now o platform c d :
  not_the_bot bot d o → unbound bot d →
  unbound bot (create_dm_verify_code h now o platform c d).1.
Proof.
  intros Ho Hun.
  unfold create_dm_verify_code, transaction, insert_dm_verify_token.
  destruct (_ || _); simpl; [done|].
  destruct Hun as [Hrows Htok]. split; [done|]. simpl.
  rewrite fmap_app. apply Forall_app. split.
  - eapply Forall_impl; [exact Htok|]. intros o'. by apply not_the_bot_frame.
  - apply Forall_singleton. by apply (not_the_bot_frame bot d).
Qed.

Lemma not_the_bot_create_dm bot h now o' platform c d o :
  not_the_bot bot d o →
  not_the_bot bot (create_dm_verify_code h now o' platform c d).1 o.
Proof.
  apply not_the_bot_frame.
  unfold create_dm_verify_code, transaction, insert_dm_verify_token.
  by destruct (_ || _).
Qed.

Lemma unbound_consume_dm bot now code platform chat d :
  unbound bot d → unbound bot (consume_dm_verify_code now code platform chat d).1.
Proof.
  destruct (consume_dm_verify_code_cases now code platform chat d)
    as [->|(t & _ & _ & _ & _ & _ & ->)]; [done|].
  apply unbound_frame; [done|]. cbn [fst].
  unfold update_dm_verify_token_consumed; simpl.
  change (map ?g ?l) with (g <$> l). rewrite <-list_fmap_compose.
  apply list_fmap_ext. intros i t' _; simpl.
  unfold consume_dm_token. by destruct (String.eqb _ _).
Qed.

(** The owner a redeemed DM code gives is not the bot's. *)
Lemma consume_dm_not_the_bot bot now code platform chat d o :
  unbound bot d →
  (consume_dm_verify_code now code platform chat d).2 = Some o →
  not_the_bot bot (consume_dm_verify_code now code platform chat d).1 o.
Proof.
  intros [_ Htok].
  destruct (consume_dm_verify_code_cases now code platform chat d)
    as [->|(t & Hsel & _ & _ & _ & _ & ->)]; [done|].
  cbn [fst snd]. intros [= <-].
  apply select_dm_verify_token_Some in Hsel as [Hin _].
  apply (not_the_bot_frame bot d); [done|].
  rewrite Forall_forall in Htok. apply Htok.
  by apply list_elem_of_fmap_2.
Qed.

Lemma unbound_get_tg bot depth now uid d :
  unbound bot d → unbound bot (get_or_create_user_by_tg depth now uid d).1.
Proof.
  intros Hun.
  destruct (get_or_create_user_by_tg_cases depth now uid d) as [->|[_ ->]];
    [done|].
  by apply unbound_append.
Qed.

Lemma unbound_get_bale bot depth now uid d :
  unbound bot d → unbound bot (get_or_create_user_by_bale depth now uid d).1.
Proof.
  intros Hun.
  destruct (get_or_create_user_by_bale_cases depth now uid d) as [->|[_ ->]];
    [done|].
  by apply unbound_append.
Qed.

(** The owner of a Telegram id other than the bot's, and the owner of any
    Bale id, are not the bot's row. *)
Lemma tg_owner_not_the_bot bot d uid o :
  uid ≠ bot → select_user_id_by_tg d uid = Some o → not_the_bot bot d o.
Proof.
  intros Hne (u & Hin & Hid & Htg)%select_user_id_by_tg_Some.
  exists u. split; [done|]. split; [done|]. rewrite Htg. congruence.
Qed.

Lemma bale_owner_not_the_bot bot d uid o :
  unbound bot d → select_user_id_by_bale d uid = Some o →
  not_the_bot bot d o.
Proof.
  intros [Hrows _] (u & Hin & Hid & Hb)%select_user_id_by_bale_Some.
  exists u. split; [done|]. split; [done|]. intros Hbot.
  rewrite Forall_forall in Hrows. destruct (Hrows u Hin Hbot) as [Hnone _].
  congruence.
Qed.

(** Clearing the Bale target, of any row. *)
Lemma unbound_clear_bale bot d a :
  unbound bot d → unbound bot (update_dm_target_bale None a d).
Proof.
  intros [Hrows Htok]. split.
  - apply Forall_forall. intros v (r & Hr & ->)%elem_of_update_where_id.
    rewrite Forall_forall in Hrows. specialize (Hrows r Hr).
    destruct (user_id r =? a); [|done]. cbn. intros Hbot.
    by destruct (Hrows Hbot).
  - assert (dm_verify_tokens (update_dm_target_bale None a d)
            = dm_verify_tokens d) as -> by done.
    eapply Forall_impl; [exact Htok|]. intros o.
    by apply not_the_bot_update.
Qed.

(** The merge of a Telegram id other than the bot's. *)
Lemma unbound_merge bot now tg bale d :
  users_wf d → tg ≠ bot → unbound bot d →
  unbound bot (merge_user_accounts now tg bale d).1.
Proof.
  intros Hwf Hne Hun. pose proof Hwf as (_ & Hpos & _).
  rewrite Forall_forall in Hpos.
  destruct (select_user_id_by_tg d tg) as [a|] eqn:Ht,
           (select_user_id_by_bale d bale) as [b|] eqn:Hb.
  - assert (a ≠ 0 ∧ b ≠ 0) as [Ha Hnz].
    { apply select_user_id_by_tg_Some in Ht as (u & Hu & <- & _).
      apply select_user_id_by_bale_Some in Hb as (v & Hv & <- & _).
      pose proof (Hpos u Hu). pose proof (Hpos v Hv). lia. }
    destruct (decide (a = b)) as [<-|Hab].
    + by rewrite (merge_same_owner now tg bale d a).
    + by rewrite (merge_two_owners now tg bale d a b).
  - pose proof (tg_owner_not_the_bot bot d tg a Hne Ht) as Ho.
    apply select_user_id_by_tg_Some in Ht as Hu.
    destruct Hu as (u & Hu & <- & _).
    rewrite (merge_tg_only now tg bale d (user_id u));
      [|done|specialize (Hpos u Hu); lia|done].
    by apply unbound_update.
  - pose proof (bale_owner_not_the_bot bot d bale b Hun Hb) as Ho.
    apply select_user_id_by_bale_Some in Hb as Hu.
    destruct Hu as (u & Hu & <- & _).
    rewrite (merge_bale_only now tg bale d (user_id u));
      [|done|done|specialize (Hpos u Hu); lia].
    apply unbound_update; [done|done| |done|done].
    intros r _. cbn. congruence.
  - rewrite merge_fresh by done. apply unbound_append; [|done].
    cbn. congruence.
Qed.

End Unbound.

Section Guarded.
Context `{PyStr}.
Variables (bots : Bots) (config : Config).
Implicit Types (w : World) (d : DB).

Lemma guarded_users_wf w : guarded bots w → users_wf (store w).
Proof. by intros [[[? _] _] _]. Qed.

(** A database operation that keeps the world sound and the bot
    unbound. *)
Lemma keeps_guarded_run {A} (op : Op A) :
  keeps sound (run op) →
  (∀ d, users_wf d → unbound (tg_bot_id bots) d →
        unbound (tg_bot_id bots) (op d).1) →
  keeps (guarded bots) (run op).
Proof.
  intros Hs Hu w [Hw [Hwz Hun]]. split; [by apply Hs|].
  pose proof (Hu (store w) (guarded_users_wf w (conj Hw (conj Hwz Hun))) Hun)
    as Hun'.
  unfold run. by destruct (op (store w)).
Qed.

Lemma cb_keeps_guarded_run {A} (op : Op A) :
  cb_keeps sound (cb_run op) →
  (∀ d, users_wf d → unbound (tg_bot_id bots) d →
        unbound (tg_bot_id bots) (op d).1) →
  cb_keeps (guarded bots) (cb_run op).
Proof.
  intros Hs Hu w [Hw [Hwz Hun]]. split; [by apply Hs|].
  pose proof (Hu (store w) (guarded_users_wf w (conj Hw (conj Hwz Hun))) Hun)
    as Hun'.
  unfold cb_run. by destruct (op (store w)) as [d' [a|e]].
Qed.

Lemma keeps_guarded_commit (f : DB → DB) :
  keeps sound (commit f) →
  (∀ d, unbound (tg_bot_id bots) d → unbound (tg_bot_id bots) (f d)) →
  keeps (guarded bots) (commit f).
Proof.
  intros Hs Hu w [Hw [Hwz Hun]]. split; [by apply Hs|]. split; [done|].
  by apply Hu.
Qed.

Lemma cb_keeps_guarded_commit (f : DB → DB) :
  cb_keeps sound (cb_commit f) →
  (∀ d, unbound (tg_bot_id bots) d → unbound (tg_bot_id bots) (f d)) →
  cb_keeps (guarded bots) (cb_commit f).
Proof.
  intros Hs Hu w [Hw [Hwz Hun]]. split; [by apply Hs|]. split; [done|].
  by apply Hu.
Qed.

Lemma g_get_tg now uid :
  keeps (guarded bots)
        (run (get_or_create_user_by_tg recursion_limit now uid)).
Proof.
  apply keeps_guarded_run; [apply keeps_run_get_tg|].
  intros d _. apply unbound_get_tg.
Qed.

Lemma g_get_bale now uid :
  keeps (guarded bots)
        (run (get_or_create_user_by_bale recursion_limit now uid)).
Proof.
  apply keeps_guarded_run; [apply keeps_run_get_bale|].
  intros d _. apply unbound_get_bale.
Qed.

Lemma g_register now o platform type cid title :
  keeps (guarded bots) (run (register_chat now o platform type cid title)).
Proof.
  apply keeps_guarded_run; [apply keeps_run_register|].
  intros d _. apply unbound_frame;
    unfold register_chat, insert_or_ignore_chat; simpl;
    by destruct (_ || _).
Qed.

Lemma g_consume now code platform uid :
  keeps (guarded bots)
        (run (λ d, let '(d', r) := consume_verify_code now code platform
                                     uid d in (d', Ok r))).
Proof.
  apply keeps_guarded_run; [apply keeps_run_consume|].
  intros d _.
  destruct (consume_verify_code_cases now code platform uid d)
    as [->|(t & _ & _ & _ & ->)]; [done|]. by apply unbound_frame.
Qed.

Lemma g_consume_dm now code platform chat :
  keeps (guarded bots)
        (run (λ d, let '(d', r) := consume_dm_verify_code now code platform
                                     chat d in (d', Ok r))).
Proof.
  apply keeps_guarded_run; [apply keeps_run_consume_dm|].
  intros d _ Hun.
  pose proof (unbound_consume_dm _ now code platform chat d Hun) as Hun'.
  by destruct (consume_dm_verify_code _ _ _ _ _).
Qed.

Lemma g_update_tg v o :
  keeps (guarded bots) (commit (update_dm_target_telegram v o)).
Proof.
  apply keeps_guarded_commit; [apply keeps_sound_update_tg|].
  intros d. by apply unbound_update_other.
Qed.

Lemma g_set_tg_wiz_delete a : keeps (guarded bots) (set_tg_wiz (delete a)).
Proof.
  intros w [Hw [Hwz Hun]]. split; [by apply keeps_sound_set_tg_wiz|].
  split; [|done]. cbn. by apply lookup_delete_None; right.
Qed.

Lemma g_set_bale_wiz_delete a : keeps (guarded bots) (set_bale_wiz (delete a)).
Proof.
  intros w [Hw Hb]. split; [by apply keeps_sound_bale_wiz_delete|done].
Qed.

End Guarded.

Ltac guarded_auto :=
  repeat first
    [ apply keeps_mret | apply keeps_ret | apply keeps_send
    | apply keeps_raise | apply keeps_query | apply keeps_tg_wiz
    | apply keeps_bale_wiz | apply keeps_attr
    | apply g_update_tg | apply g_set_tg_wiz_delete
    | apply g_set_bale_wiz_delete
    | apply g_get_tg | apply g_get_bale | apply g_register
    | apply g_consume | apply g_consume_dm
    | apply keeps_bind; [|intros ?]
    | apply keeps_try_except; [|intros ?]
    | match goal with
      | |- keeps _ (if ?c then _ else _) => destruct c
      | |- keeps _ (from_option _ _ ?x) => destruct x; cbn [from_option]
      | |- keeps _ (match ?x with _ => _ end) => destruct x
      end ].

Section GuardedHandlers.
Context `{PyStr}.
Variables (bots : Bots) (config : Config).
Implicit Types (w : World) (d : DB).

Lemma on_start_help_guarded m : keeps (guarded bots) (on_start_help m).
Proof. unfold on_start_help. guarded_auto. Qed.

Lemma on_tg_verify_dm_guarded t m :
  keeps (guarded bots) (on_tg_verify_dm t m).
Proof. unfold on_tg_verify_dm. guarded_auto. Qed.

Lemma on_tg_dm_guarded t m : keeps (guarded bots) (on_tg_dm t m).
Proof. unfold on_tg_dm. guarded_auto. Qed.

Lemma on_tg_verify_in_group_guarded t m :
  keeps (guarded bots) (on_tg_verify_in_group bots t m).
Proof. unfold on_tg_verify_in_group. guarded_auto. Qed.

Lemma on_tg_group_forward_guarded m :
  keeps (guarded bots) (on_tg_group_forward bots m).
Proof. unfold on_tg_group_forward. guarded_auto. Qed.

Lemma on_tg_channel_post_guarded m :
  keeps (guarded bots) (on_tg_channel_post bots m).
Proof. unfold on_tg_channel_post. guarded_auto. Qed.

Lemma bale_relay_guarded target m text wrap :
  keeps (guarded bots) (bale_relay target m text wrap).
Proof. unfold bale_relay. guarded_auto. Qed.

Lemma bale_private_guarded t m text author_id sender :
  keeps (guarded bots) (bale_private config t m text author_id sender).
Proof. unfold bale_private. guarded_auto. Qed.

Lemma bale_verify_guarded t m text author_id :
  keeps (guarded bots) (bale_verify t m text author_id).
Proof. unfold bale_verify. guarded_auto. Qed.

End GuardedHandlers.

Section GuardedWizard.
Context `{PyStr}.
Variables (bots : Bots) (config : Config).
Implicit Types (w : World) (d : DB).

Lemma after_run_send {A} (op : Op A) (f : A → Outbound) w :
  after ((run op ≫= λ a, send (f a)) w) = with_store (op (store w)).1 w.
Proof.
  unfold mbind, handler_bind, hbind, run.
  by destruct (op (store w)) as [d [a|e]].
Qed.

Lemma after_run {A} (op : Op A) w :
  after (run op w) = with_store (op (store w)).1 w.
Proof. unfold run. by destruct (op (store w)). Qed.

(** The merge and the DM code of the Bale-id wizard, for a user other than
    the bot: the code belongs to the owner of that user. *)
Lemma merge_then_mint_guarded t uid n (note : string → Outbound) :
  uid ≠ tg_bot_id bots →
  keeps (guarded bots)
        (owner_id ← run (merge_user_accounts (tick_now t) uid n);
         code ← run (create_dm_verify_code (tick_uuid_hex t) (tick_now t)
                                           owner_id "bale" n);
         send (note code)).
Proof.
  intros Hne w HJ. pose proof HJ as [Hs [Hwz Hun]].
  pose proof (guarded_users_wf bots w HJ) as Hwf.
  pose proof (keeps_run_merge (tick_now t) uid n w Hs) as Hs1.
  pose proof (unbound_merge _ (tick_now t) uid n (store w) Hwf Hne Hun)
    as Hun1.
  rewrite after_run in Hs1.
  destruct (merge_user_accounts (tick_now t) uid n (store w))
    as [d1 [o|e]] eqn:Hm; cbn [fst] in Hs1, Hun1.
  - rewrite (bind_run _ _ w d1 o Hm), after_run_send.
    cbn [store with_store TG_WIZ BALE_WIZ].
    pose proof (keeps_run_create_dm (tick_uuid_hex t) (tick_now t) o n
                  (with_store d1 w) Hs1) as Hs2.
    rewrite after_run in Hs2. split; [exact Hs2|]. split; [done|].
    apply unbound_create_dm; [|done].
    apply (tg_owner_not_the_bot _ d1 uid); [done|].
    by apply (merge_returns_tg_owner (tick_now t) uid n (store w)).
  - unfold mbind, handler_bind, hbind.
    rewrite (run_eq _ w d1 (Raise e) Hm). cbn [returned after].
    by split.
Qed.

Lemma on_tg_await_bale_id_guarded t m :
  keeps (guarded bots) (on_tg_await_bale_id t m).
Proof.
  intros w HJ. pose proof HJ as [Hs [Hwz Hun]].
  unfold on_tg_await_bale_id.
  destruct (tg_from_user m) as [u|]; cbn [attr]; [|done].
  rewrite bind_ret, bind_tg_wiz.
  destruct (bool_decide _) eqn:Hmode; cbn [negb]; [|done].
  apply bool_decide_eq_true in Hmode.
  assert (tgu_id u ≠ tg_bot_id bots) as Hne.
  { intros Heq. rewrite Heq, Hwz in Hmode. discriminate Hmode. }
  destruct (py_isdigit _); [|done].
  destruct (py_int _) as [n|]; cbn [from_option]; [|done].
  rewrite bind_ret.
  clear Hs Hwz Hun Hmode. revert w HJ.
  apply keeps_bind; [|intros ?; apply g_set_tg_wiz_delete].
  apply keeps_try_except; [|intros ?; apply keeps_send].
  by apply (merge_then_mint_guarded t (tgu_id u) n
              (λ code, ViaTelegram (tg_chat_id m)
                         (Note (DmCodeIssued n code)))).
Qed.

(** [/verify_dm] on Bale: the target goes to the owner of the code, which
    is not the bot's row. *)
Lemma bale_verify_dm_guarded now code chat :
  keeps (guarded bots)
    (try_except
       (owner_user_id ← run (λ d, let '(d', r) := consume_dm_verify_code
                                    now code "bale" chat d in
                                  (d', Ok r));
        if negb (truthy owner_user_id) then
          send (ViaBale chat (Note InvalidDmCode))
        else
          commit (update_dm_target_bale (Some chat) (the owner_user_id));;
          send (ViaBale chat (Note (DmTargetSet chat))))
       (λ _, mret ())).
Proof.
  apply keeps_try_except; [|intros ?; apply keeps_mret].
  intros w HJ. pose proof HJ as [Hs [Hwz Hun]].
  pose proof (g_consume_dm bots now code "bale" chat w HJ) as HJ1.
  pose proof (consume_dm_not_the_bot (tg_bot_id bots) now code "bale" chat
                (store w)) as Hnot.
  rewrite after_run in HJ1.
  destruct (consume_dm_verify_code now code "bale" chat (store w))
    as [d1 r] eqn:Hc.
  rewrite (bind_run _ _ w d1 r) by (by rewrite Hc).
  cbn [fst snd] in *.
  destruct (truthy r) eqn:Htr; cbn [negb]; [|done].
  destruct r as [o|]; [|discriminate Htr]. cbn [the from_option id].
  rewrite bind_commit. cbn [send after store with_store].
  destruct HJ1 as [Hs1 [Hwz1 Hun1]].
  split; [by apply (keeps_sound_update_bale (Some chat) o (with_store d1 w))|].
  split; [done|]. unfold update_dm_target_bale.
  apply unbound_update; [by destruct Hs1 as [[? _] _]|done|done| |done].
  by apply Hnot.
Qed.

Lemma on_event_guarded t e : keeps (guarded bots) (on_event bots config t e).
Proof.
  destruct e as [m|m|m]; cbn [on_event].
  - unfold tg_dispatch_message. cbv zeta.
    destruct (_ && _); [apply on_start_help_guarded|].
    destruct (from_option _ _ _); [apply on_tg_verify_dm_guarded|].
    destruct (String.eqb _ _).
    + apply keeps_bind; [apply keeps_attr|intros uid].
      apply keeps_bind; [apply keeps_tg_wiz|intros wiz].
      destruct (bool_decide _);
        [apply on_tg_await_bale_id_guarded|apply on_tg_dm_guarded].
    + destruct (from_option _ _ _); [apply on_tg_verify_in_group_guarded|].
      destruct (_ || _); [apply on_tg_group_forward_guarded|apply keeps_mret].
  - apply on_tg_channel_post_guarded.
  - unfold bale_on_message. cbv zeta.
    destruct (_ && _); [apply keeps_mret|].
    destruct (_ && _); [apply bale_verify_dm_guarded|].
    destruct (String.eqb _ _); [apply bale_private_guarded|].
    destruct (_ && _); [apply bale_verify_guarded|].
    destruct (String.eqb _ _).
    { apply keeps_bind; [apply keeps_query|intros [k|]]; [|apply keeps_mret].
      destruct (negb _); [apply keeps_mret|apply bale_relay_guarded]. }
    destruct (String.eqb _ _); [|apply keeps_mret].
    apply keeps_bind; [apply keeps_query|intros [k|]]; [|apply keeps_mret].
    destruct (negb _); [apply keeps_mret|apply bale_relay_guarded].
Qed.

End GuardedWizard.

Section GuardedCallbacks.
Context `{PyStr}.
Variables (bots : Bots) (config : Config).
Implicit Types (w : World) (d : DB).

Lemma cb_after_run {A} (op : Op A) w :
  world_after (cb_run op w) = with_store (op (store w)).1 w.
Proof. unfold cb_run. by destruct (op (store w)). Qed.

(** A database operation followed by what may depend on a property of its
    result. *)
Lemma cb_keeps_bind_run_post {A B} (op : Op A) (k : A → Cb B)
    (Q : A → DB → Prop) :
  cb_keeps (guarded bots) (cb_run op) →
  (∀ w a, guarded bots w → (op (store w)).2 = Ok a →
          Q a (op (store w)).1) →
  (∀ a w, guarded bots w → Q a (store w) →
          guarded bots (world_after (k a w))) →
  cb_keeps (guarded bots) (cb_run op ≫= k).
Proof.
  intros Hop HQ Hk w HJ. specialize (Hop w HJ). specialize (HQ w).
  rewrite cb_after_run in Hop.
  destruct (op (store w)) as [d1 [a|e]] eqn:Hr; cbn [fst snd] in *.
  - rewrite (cb_bind_run _ _ w d1 a Hr). apply Hk; [done|].
    by apply HQ.
  - unfold mbind, cb_mbind, cb_bind, cb_run. by rewrite Hr.
Qed.

Lemma cg_get_tg now uid :
  cb_keeps (guarded bots)
           (cb_run (get_or_create_user_by_tg recursion_limit now uid)).
Proof.
  apply cb_keeps_guarded_run; [apply cb_keeps_run_get_tg|].
  intros d _. apply unbound_get_tg.
Qed.

Lemma cg_get_bale now uid :
  cb_keeps (guarded bots)
           (cb_run (get_or_create_user_by_bale recursion_limit now uid)).
Proof.
  apply cb_keeps_guarded_run; [apply cb_keeps_run_get_bale|].
  intros d _. apply unbound_get_bale.
Qed.

Lemma cg_create picks now o platform type uid :
  cb_keeps (guarded bots)
           (cb_run (create_verify_code picks now o platform type uid)).
Proof.
  apply cb_keeps_guarded_run; [apply cb_keeps_run_create|].
  intros d _. apply unbound_frame;
    unfold create_verify_code, transaction, insert_verify_token;
    by destruct (_ || _).
Qed.

Lemma cg_update_tg v o :
  cb_keeps (guarded bots) (cb_commit (update_dm_target_telegram v o)).
Proof.
  apply cb_keeps_guarded_commit; [apply cb_keeps_sound_update_tg|].
  intros d. by apply unbound_update_other.
Qed.

Lemma cg_clear_bale o :
  cb_keeps (guarded bots) (cb_commit (update_dm_target_bale None o)).
Proof.
  apply cb_keeps_guarded_commit; [apply cb_keeps_sound_update_bale|].
  intros d. apply unbound_clear_bale.
Qed.

Lemma cg_data_int data : cb_keeps (guarded bots) (data_int data).
Proof.
  unfold data_int.
  destruct (split_on ":" data) as [|x [|p ps]];
    [by intros w Hw|by intros w Hw|].
  destruct (py_int p); by intros w Hw.
Qed.

Lemma cg_bale_wiz_delete a :
  cb_keeps (guarded bots) (cb_set_bale_wiz (delete a)).
Proof.
  intros w [Hw Hb]. split; [by apply cb_keeps_sound_bale_wiz_delete|done].
Qed.

Lemma cg_bale_wiz_pair a mode tg :
  cb_keeps (guarded bots)
           (cb_set_bale_wiz (<[a := mkWizard mode (Some tg)]>)).
Proof.
  intros w [Hw Hb]. split; [by apply cb_keeps_sound_bale_wiz_pair|done].
Qed.

Lemma cg_bale_wiz_dm a :
  cb_keeps (guarded bots)
           (cb_set_bale_wiz (<[a := mkWizard "SET_DM_BALE2TG" None]>)).
Proof.
  intros w [Hw Hb]. split; [by apply cb_keeps_sound_bale_wiz_dm|done].
Qed.

(** The owner of a Telegram user other than the bot. *)
Lemma get_tg_not_the_bot now uid w o :
  guarded bots w → uid ≠ tg_bot_id bots →
  (get_or_create_user_by_tg recursion_limit now uid (store w)).2 = Ok o →
  not_the_bot (tg_bot_id bots)
    (get_or_create_user_by_tg recursion_limit now uid (store w)).1 o.
Proof.
  intros HJ Hne. unfold recursion_limit.
  destruct (select_user_id_by_tg (store w) uid) as [a|] eqn:Hs.
  - rewrite (get_or_create_user_by_tg_found _ _ _ _ a Hs). cbn [fst snd].
    intros [= <-]. by apply (tg_owner_not_the_bot _ _ uid).
  - rewrite (get_or_create_user_by_tg_new _ _ _ _ Hs). cbn [fst snd].
    intros [= <-]. apply (tg_owner_not_the_bot _ _ uid); [done|].
    by apply select_tg_append_user.
Qed.

(** The owner of a Bale user. *)
Lemma get_bale_not_the_bot now uid w o :
  guarded bots w →
  (get_or_create_user_by_bale recursion_limit now uid (store w)).2 = Ok o →
  not_the_bot (tg_bot_id bots)
    (get_or_create_user_by_bale recursion_limit now uid (store w)).1 o.
Proof.
  intros HJ Hres.
  pose proof (cg_get_bale now uid w HJ) as [_ [_ Hun1]].
  rewrite cb_after_run in Hun1. cbn [store with_store] in Hun1.
  apply (bale_owner_not_the_bot _ _ uid); [done|].
  revert Hres. unfold recursion_limit.
  destruct (select_user_id_by_bale (store w) uid) as [a|] eqn:Hs.
  - rewrite (get_or_create_user_by_bale_found _ _ _ _ a Hs). cbn [fst snd].
    by intros [= <-].
  - rewrite (get_or_create_user_by_bale_new _ _ _ _ Hs). cbn [fst snd].
    intros [= <-]. by apply select_bale_append_user_found.
Qed.

End GuardedCallbacks.

Ltac cb_guarded_auto :=
  repeat first
    [ apply cb_keeps_mret | apply cb_keeps_ret | apply cb_keeps_show
    | apply cb_keeps_raise | apply cb_keeps_query | apply cb_keeps_bale_wiz
    | apply cg_data_int | apply cg_update_tg | apply cg_clear_bale
    | apply cg_bale_wiz_delete | apply cg_bale_wiz_pair | apply cg_bale_wiz_dm
    | apply cg_get_tg | apply cg_get_bale | apply cg_create
    | apply cb_keeps_bind; [|intros ?]
    | match goal with
      | |- cb_keeps _ (if ?c then _ else _) => destruct c
      | |- cb_keeps _ (from_option _ _ ?x) => destruct x; cbn [from_option]
      | |- cb_keeps _ (match ?x with _ => _ end) => destruct x
      end ].

Section GuardedWhole.
Context `{PyStr}.
Variables (bots : Bots) (config : Config).
Implicit Types (w : World) (d : DB).

(** A DM code for an owner that is not the bot's, and what is shown
    after. *)
Lemma mint_guarded h now o c (k : string → Cb unit) w :
  (∀ code w', world_after (k code w') = w') →
  guarded bots w → not_the_bot (tg_bot_id bots) (store w) o →
  guarded bots
    (world_after ((cb_run (create_dm_verify_code h now o "bale" c) ≫= k) w)).
Proof.
  intros Hk HJ Ho. pose proof HJ as [Hs [Hwz Hun]].
  pose proof (cb_keeps_run_create_dm h now o c w Hs) as Hs1.
  pose proof (unbound_create_dm _ h now o "bale" c (store w) Ho Hun) as Hun1.
  rewrite cb_after_run in Hs1.
  destruct (create_dm_verify_code h now o "bale" c (store w))
    as [d1 [code|e]] eqn:Hr; cbn [fst] in *.
  - rewrite (cb_bind_run _ _ w d1 code Hr), Hk. by split.
  - unfold mbind, cb_mbind, cb_bind, cb_run. rewrite Hr. by split.
Qed.

Lemma tg_on_callback_guarded t picks cq :
  tgu_id (cq_from_user cq) ≠ tg_bot_id bots →
  cb_keeps (guarded bots) (tg_on_callback t picks cq).
Proof.
  intros Hne. unfold tg_on_callback. cbv zeta.
  repeat match goal with
         | |- cb_keeps _ (if ?c then _ else _) => destruct c
         end;
    try (unfold cb_menu, cb_link_tg_group, cb_link_tg_channel, cb_link_tg,
           cb_my_groups, cb_dm_settings, cb_set_dm_bale2tg,
           cb_set_dm_tg2bale_pick;
         cbv zeta; by cb_guarded_auto).
  - (* the wizard is started for the user who pressed the button *)
    unfold cb_set_dm_tg2bale_manual. cbv zeta.
    apply cb_keeps_bind; [|intros ?; by cb_guarded_auto].
    intros w [Hw [Hwz Hun]]. split; [by apply cb_keeps_sound_set_tg_wiz|].
    split; [|done]. cbn. by rewrite lookup_insert_ne.
  - (* the code is minted for the owner of that user *)
    unfold cb_set_dm_tg2bale_select. cbv zeta.
    apply cb_keeps_bind; [apply cg_data_int|intros chat].
    apply (cb_keeps_bind_run_post bots _ _
             (λ o d, not_the_bot (tg_bot_id bots) d o));
      [apply cg_get_tg| |].
    + intros w o HJ. by apply get_tg_not_the_bot.
    + intros o w HJ Ho. by apply mint_guarded.
Qed.

Lemma data_int_keeps (I : World → Prop) data : cb_keeps I (data_int data).
Proof.
  unfold data_int.
  destruct (split_on ":" data) as [|x [|p ps]];
    [by intros w Hw|by intros w Hw|].
  destruct (py_int p); by intros w Hw.
Qed.

(** The pairing step writes neither [users] nor the DM codes, and leaves
    the Telegram wizards alone. *)
Lemma bale_cb_pick_bale_guarded type mode first pair mk t data chat o a :
  (∀ now tg bale d, (pair now o tg bale d).1 = exec (mk now tg bale) d) →
  (∀ now tg bale d,
     owns_chat d o "tg" type tg = true →
     owns_chat d o "bale" type bale = true →
     safe_call d (mk now tg bale)) →
  (∀ now tg bale d,
     users (pair now o tg bale d).1 = users d
     ∧ dm_verify_tokens (pair now o tg bale d).1 = dm_verify_tokens d) →
  cb_keeps (guarded bots)
           (bale_cb_pick_bale type mode first pair t data chat o a).
Proof.
  intros Hpair Hsafe Hframe w [Hs [Hwz [Hrows Htok]]].
  split; [by apply (bale_cb_pick_bale_sound type mode first pair mk)|].
  set (I := λ w', TG_WIZ w' = TG_WIZ w
                  ∧ users (store w') = users (store w)
                  ∧ dm_verify_tokens (store w')
                    = dm_verify_tokens (store w)).
  assert (cb_keeps I (bale_cb_pick_bale type mode first pair t data chat o a))
    as Hkeep.
  { unfold bale_cb_pick_bale.
    apply cb_keeps_bind; [apply data_int_keeps|intros bale_id].
    apply cb_keeps_bind; [apply cb_keeps_bale_wiz|intros wiz].
    destruct (wiz !! a) as [st|]; [|apply cb_keeps_show].
    destruct (negb _); [apply cb_keeps_show|].
    apply cb_keeps_bind;
      [destruct (wiz_tg_id st); by intros w' Hw'|intros tg_id].
    apply cb_keeps_bind; [apply cb_keeps_query|intros ok_tg].
    apply cb_keeps_bind; [apply cb_keeps_query|intros ok_bale].
    apply cb_keeps_bind; [|intros ?; by intros w' Hw'].
    destruct (negb _); [apply cb_keeps_show|].
    apply cb_keeps_bind; [|intros ?].
    - apply cb_keeps_run. intros w' (Hw1 & Hw2 & Hw3).
      destruct (Hframe (tick_now t) tg_id bale_id (store w')) as [Hu Ht].
      split; [done|]. cbn [store with_store]. by rewrite Hu, Ht.
    - apply cb_keeps_bind; [apply cb_keeps_show|intros ?; apply cb_keeps_show]. }
  destruct (Hkeep w) as (HW & HU & HT); [done|].
  split; [by rewrite HW|]. split; rewrite ?HU, ?HT; [done|].
  eapply Forall_impl; [exact Htok|]. intros o'. by apply not_the_bot_frame.
Qed.

Lemma bale_on_callback_guarded t picks cbq :
  cb_keeps (guarded bots) (bale_on_callback t picks cbq).
Proof.
  unfold bale_on_callback. cbv zeta.
  apply (cb_keeps_bind_run_post bots _ _
           (λ o d, not_the_bot (tg_bot_id bots) d o));
    [apply cg_get_bale|intros w o HJ; by apply get_bale_not_the_bot|].
  intros o w HJ Ho.
  repeat match goal with
         | |- guarded _ (world_after ((if ?c then _ else _) _)) => destruct c
         end;
    try (refine ((_ : cb_keeps (guarded bots) _) w HJ);
         unfold bale_cb_link, bale_cb_my, bale_cb_pair, bale_cb_pick_tg,
           bale_answer_bare;
         by cb_guarded_auto).
  - refine ((_ : cb_keeps (guarded bots) _) w HJ).
    apply (bale_cb_pick_bale_guarded "group" _ _ pair_groups
             (λ now tg bale, PairGroups now o tg bale)); [done|done|].
    intros now tg bale d. unfold pair_groups, transaction, insert_link.
    by destruct (link_exists _ _ _).
  - refine ((_ : cb_keeps (guarded bots) _) w HJ).
    apply (bale_cb_pick_bale_guarded "channel" _ _ pair_channels
             (λ now tg bale, PairChannels now o tg bale)); [done|done|].
    intros now tg bale d. unfold pair_channels, transaction, insert_link.
    by destruct (link_exists _ _ _).
  - (* the chat of the button becomes the target of the Bale user's owner *)
    rewrite cb_bind_commit.
    destruct HJ as [Hs [Hwz Hun]].
    change (guarded bots
              (with_store (update_dm_target_bale (bcq_chat_id cbq) o (store w))
                          w)).
    split; [by apply (cb_keeps_sound_update_bale (bcq_chat_id cbq) o w)|].
    split; [done|]. unfold update_dm_target_bale.
    apply unbound_update; [by destruct Hs as [[? _] _]|done|done|done|done].
Qed.

Lemma handle_guarded i w :
  pressed_by_a_user bots i → guarded bots w →
  guarded bots (handle bots config i w).
Proof.
  intros Hi Hw. destruct i as [t m|t m|t picks cq|t picks upd]; cbn [handle].
  - by apply on_event_guarded.
  - by apply on_event_guarded.
  - by apply tg_on_callback_guarded.
  - unfold bale_on_update, bale_message_part. cbv zeta.
    destruct (upd_callback_query upd) as [cbq|].
    + pose proof (bale_on_callback_guarded t picks cbq w Hw) as Hcb.
      destruct (outcome (bale_on_callback t picks cbq w)); [|done].
      destruct (upd_message upd) as [msg|]; [|done].
      by apply (on_event_guarded bots config t (BaleMessageEvent msg)).
    + destruct (upd_message upd) as [msg|]; [|done].
      by apply (on_event_guarded bots config t (BaleMessageEvent msg)).
Qed.

Lemma handle_all_guarded inputs w :
  Forall (pressed_by_a_user bots) inputs → guarded bots w →
  guarded bots (handle_all bots config inputs w).
Proof.
  intros Hin. revert w. induction Hin as [|i inputs Hi _ IH]; intros w Hw;
    [done|].
  simpl. by apply IH, handle_guarded.
Qed.

Lemma fresh_world_guarded : guarded bots fresh_world.
Proof.
  split; [apply fresh_world_sound|]. split; [done|].
  split; by apply Forall_nil.
Qed.

(** The private chat of the bot with itself: whatever the message is, the
    row that carries the bot's Telegram id has no Bale target, so nothing
    goes to Bale. *)
Lemma tg_self_private_message_stays_on_telegram t m w :
  guarded bots w →
  from_self bots (TgMessageEvent m) → tg_chat_type m = "private" →
  List.filter via_bale (sent (tg_dispatch_message bots t m w)) = [].
Proof.
  intros HJ Hself Hpriv. pose proof HJ as [Hs [Hwz [Hrows _]]].
  pose proof (guarded_users_wf bots w HJ) as Hwf.
  cbn [from_self] in Hself.
  destruct (tg_from_user m) as [u|] eqn:Hu; [|done].
  cbn in Hself. injection Hself as Hid.
  unfold tg_dispatch_message. cbv zeta. rewrite Hpriv, String.eqb_refl.
  cbn [andb].
  destruct (_ || _).
  { unfold on_start_help. cbv zeta. rewrite Hu.
    by destruct (String.eqb _ _). }
  destruct (from_option _ false (tg_text m));
    [apply on_tg_verify_dm_stays_on_telegram|].
  rewrite Hu. cbn [attr]. rewrite bind_ret, bind_tg_wiz, Hid, Hwz.
  rewrite bool_decide_eq_false_2 by (by intros [? ?]).
  unfold on_tg_dm.
  destruct (_ && _).
  { destruct (py_split1 _) as [|cmd ?]; [done|]. by destruct (negb _). }
  rewrite Hu. cbn [attr]. rewrite bind_ret, Hid.
  destruct (owner_row_by_tg 899 (tick_now t) (tg_bot_id bots) (store w) Hwf)
    as (d' & o & r & Hget & Hrow & Hcase).
  unfold recursion_limit. rewrite (bind_run _ _ w d' o) by done.
  rewrite bind_query. cbn [store with_store]. rewrite Hrow.
  assert (dm_target_bale_chat_id r = None) as Hnone.
  { unfold tg_owner_row in Hcase.
    destruct (List.find _ (users (store w))) as [r'|] eqn:Hf.
    - destruct Hcase as [-> _].
      apply find_Some_elem in Hf as [Hin Heq]. apply sql_eq_true in Heq.
      rewrite Forall_forall in Hrows. by destruct (Hrows r' Hin Heq).
    - by destruct Hcase as [-> _]. }
  cbn [mbind option_bind]. by rewrite Hnone.
Qed.

(** C2.  A message of the bot itself is never relayed to the other
    platform.  In every world the bridge reaches from start-up, whatever
    messages, channel posts, callback queries and Bale updates it has
    handled, the bot's own among them, as long as no button was pressed by
    the bot itself (a callback query comes from the user who presses) and
    the Bale client knows its own id: a message whose author is the bot of
    its platform, in a private chat, a group, a supergroup or a channel,
    queues no call to the other platform.  On Bale and in Telegram groups
    and channels the message is dropped by a guard; in a private Telegram
    chat [on_tg_dm] has no guard, and nothing is relayed because the row
    that carries the bot's Telegram id never gets a Bale target. *)
Theorem self_messages_are_never_forwarded (inputs : list Input) t e :
  Forall (pressed_by_a_user bots) inputs →
  bale_self_id bots ≠ 0 →
  from_self bots e →
  forwarded e
    (sent (on_event bots config t e
             (handle_all bots config inputs fresh_world))) = [].
Proof.
  intros Hin Hbale Hself.
  pose proof (handle_all_guarded inputs fresh_world Hin fresh_world_guarded)
    as HJ.
  destruct e as [m|m|m].
  - destruct (decide (tg_chat_type m = "private")) as [Hpriv|Hpriv].
    + by apply tg_self_private_message_stays_on_telegram.
    + by apply tg_self_message_not_forwarded_outside_private.
  - by rewrite tg_self_channel_post_dropped.
  - by rewrite bale_self_message_dropped.
Qed.

End GuardedWhole.

Lemma self_messages_are_never_forwarded_witness :
  let bots := mkBots 999 888 in
  let config := mkConfig false None in
  let self_message text :=
    mkTgMessage 999 "private" None
      (Some (mkTgUser 999 None (Some "Bridge") None)) (Some text) None [] in
  let inputs := [TgMessageIn (mkTick 1 []) (self_message "hello")] in
  let e := TgMessageEvent (self_message "hello again") in
  let out := on_event bots config (mkTick 2 []) e
               (handle_all bots config inputs fresh_world) in
  from_self bots e
  ∧ sent out = [ViaTelegram 999 (Note NotForwarded)]
  ∧ forwarded e (sent out) = [].
Proof.
  split; [reflexivity|]. split; [reflexivity|].
  apply (self_messages_are_never_forwarded (mkBots 999 888)
           (mkConfig false None)
           [TgMessageIn (mkTick 1 [])
              (mkTgMessage 999 "private" None
                 (Some (mkTgUser 999 None (Some "Bridge") None))
                 (Some "hello") None [])]
           (mkTick 2 [])
           (TgMessageEvent
              (mkTgMessage 999 "private" None
                 (Some (mkTgUser 999 None (Some "Bridge") None))
                 (Some "hello again") None []))).
  - repeat constructor.
  - cbn. lia.
  - reflexivity.
Defined.
